(** * DeepLearning_Tutorial.ipynb: the notebook's cells over exact rationals

    The notebook builds one small multilayer perceptron three ways (NumPy,
    a TensorFlow graph, a Keras layer stack), loads and normalises MNIST,
    trains the TensorFlow network for ten gradient-descent steps and
    reshapes the images for a recurrent network.

    Arrays are the row-major arrays of NumPy: a shape and a flat list of
    entries.  Entries are rationals ([Q], compared with [==]): the
    floating-point rounding of the libraries is not modelled. *)

From Stdlib Require Import QArith Qminmax Lia List ZArith.
From stdpp Require Import base option list strings gmap.

Local Open Scope Q_scope.

(** ** Exceptions and results *)

Inductive exn : Type :=
  | NameError (name : string)
  | TypeError
  | ValueError
  | ZeroDivisionError
  | AttributeError
  | IndexError
  | ImportError
  | InvalidArgumentError      (* TensorFlow: an operation fails while the graph runs *)
  | FailedPreconditionError   (* TensorFlow: a variable is read before it is initialised *)
  | RuntimeError              (* TensorFlow: a closed session is used *)
  | IOError                   (* the dataset loader cannot obtain its file *)
  | NotModelled.              (* a library behaviour outside what the notebook uses *)

Inductive result (A : Type) : Type :=
  | Ok (a : A)
  | Raise (e : exn).
Arguments Ok {A} a.
Arguments Raise {A} e.

Definition rbind {A B} (r : result A) (k : A -> result B) : result B :=
  match r with
  | Ok a => k a
  | Raise e => Raise e
  end.

#[global] Instance result_ret : MRet result := fun _ a => Ok a.
#[global] Instance result_bind : MBind result := fun _ _ k r => rbind r k.

(** ** Arrays *)

Record ndarray : Type := mk_array { shape : list nat; data : list Q }.

Definition size_of (s : list nat) : nat := foldr Nat.mul 1%nat s.

(** An array is well formed when it holds as many entries as its shape says. *)
Definition wf (a : ndarray) : Prop := length (data a) = size_of (shape a).

Definition entry (a : ndarray) (i : nat) : Q := nth i (data a) 0.

Definition Qsum (l : list Q) : Q := foldr Qplus 0 l.

(** Entrywise equality of two arrays of one shape. *)
Definition array_eq (a b : ndarray) : Prop :=
  shape a = shape b /\ Forall2 Qeq (data a) (data b).

(** *** NumPy *)

(** [x > 0.] yields a boolean array; in a product a boolean counts as 1 or 0. *)
Definition gt0 (v : Q) : bool := negb (Qle_bool v 0).
Definition bool_to_Q (b : bool) : Q := if b then 1 else 0.

(** [def relu(x): return x * (x>0.)] *)
Definition relu (x : ndarray) : ndarray :=
  mk_array (shape x) (map (fun v => v * bool_to_Q (gt0 v)) (data x)).

(** Entry (i, j) of the product of an m-by-n and an n-by-p matrix. *)
Definition dot_entry (da db : list Q) (n p i j : nat) : Q :=
  Qsum (map (fun k => nth (i * n + k) da 0 * nth (k * p + j) db 0) (seq 0 n)).

Definition matmul_data (da db : list Q) (m n p : nat) : list Q :=
  flat_map (fun i => map (fun j => dot_entry da db n p i j) (seq 0 p)) (seq 0 m).

(** The matrix product of two matrices; [err] is what the caller raises
    when the inner dimensions disagree.  The notebook multiplies matrices
    only; the other ranks the libraries accept are not modelled. *)
Definition matmul_with (err : exn) (a b : ndarray) : result ndarray :=
  match shape a, shape b with
  | [m; n], [n'; p] =>
      if (n =? n')%nat then Ok (mk_array [m; p] (matmul_data (data a) (data b) m n p))
      else Raise err
  | _, _ => Raise NotModelled
  end.

(** [np.dot(a, b)] *)
Definition np_dot (a b : ndarray) : result ndarray := matmul_with ValueError a b.

(** [a - b] on arrays of one shape; NumPy broadcasts compatible shapes,
    which the notebook never relies on, and refuses the others. *)
Definition shape_eqb (s t : list nat) : bool := bool_decide (s = t).

Definition broadcastable (s t : list nat) : bool :=
  forallb (fun p => (fst p =? snd p)%nat || (fst p =? 1)%nat || (snd p =? 1)%nat)
          (combine (rev s) (rev t)).

Definition np_sub (a b : ndarray) : result ndarray :=
  if shape_eqb (shape a) (shape b)
  then Ok (mk_array (shape a) (zip_with Qminus (data a) (data b)))
  else if broadcastable (shape a) (shape b) then Raise NotModelled
  else Raise ValueError.

(** [a ** 2] *)
Definition np_square (a : ndarray) : ndarray :=
  mk_array (shape a) (map (fun v => v * v) (data a)).

(** A NumPy scalar: a number, or nan (the mean of no entries is 0/0). *)
Inductive scalar : Type :=
  | Num (q : Q)
  | NaN.

(** [np.mean(a)] over all entries. *)
Definition np_mean (a : ndarray) : scalar :=
  match data a with
  | [] => NaN
  | _ => Num (Qsum (data a) / inject_Z (Z.of_nat (length (data a))))
  end.

(** [a / c] for a Python float [c]; NumPy divides floats by zero without
    raising (inf or nan), which is not a rational. *)
Definition np_div_scalar (a : ndarray) (c : Q) : result ndarray :=
  if Qeq_bool c 0 then Raise NotModelled
  else Ok (mk_array (shape a) (map (fun v => v / c) (data a))).

(** [a.reshape((d0, -1, 1))]: the middle dimension is inferred from the
    number of entries, which [d0] must divide. *)
Definition reshape_infer (a : ndarray) (d0 : nat) : result ndarray :=
  let total := size_of (shape a) in
  if (d0 =? 0)%nat then Raise ValueError
  else if (total mod d0 =? 0)%nat
       then Ok (mk_array [d0; (total / d0)%nat; 1%nat] (data a))
       else Raise ValueError.

(** *** TensorFlow: the graph *)

(** The nodes the notebook puts in the default graph.  A placeholder has a
    static shape whose dimensions may be unknown ([None]). *)
Inductive tensor : Type :=
  | Placeholder (id : nat) (shp : list (option nat))
  | Var (name : string) (shp : list nat)
  | MatMul (a b : tensor)
  | Relu (a : tensor)
  | Sub (a b : tensor)
  | Square (a : tensor)
  | ReduceMean (a : tensor).

(** The default graph: the initial value of each variable created in it and
    the number of placeholders created so far. *)
Record graph : Type := mk_graph { g_vars : gmap string ndarray; g_next : nat }.

Definition empty_graph : graph := mk_graph ∅ 0.

Definition dim_compatible (d e : option nat) : bool :=
  match d, e with
  | Some m, Some n => (m =? n)%nat
  | _, _ => true
  end.

Definition dim_broadcastable (d e : option nat) : bool :=
  match d, e with
  | Some m, Some n => (m =? n)%nat || (m =? 1)%nat || (n =? 1)%nat
  | _, _ => true
  end.

Fixpoint static_shape (t : tensor) : list (option nat) :=
  match t with
  | Placeholder _ shp => shp
  | Var _ shp => map Some shp
  | MatMul a b =>
      match static_shape a, static_shape b with
      | [m; _], [_; p] => [m; p]
      | _, _ => []
      end
  | Relu a => static_shape a
  | Sub a b => static_shape b
  | Square a => static_shape a
  | ReduceMean _ => []
  end.

(** [tf.matmul(a, b)]: the static shapes are checked when the node is built. *)
Definition tf_matmul (a b : tensor) : result tensor :=
  match static_shape a, static_shape b with
  | [_; n], [n'; _] => if dim_compatible n n' then Ok (MatMul a b) else Raise ValueError
  | _, _ => Raise NotModelled
  end.

(** [a - b] on tensors. *)
Definition tf_sub (a b : tensor) : result tensor :=
  if forallb (fun p => dim_broadcastable (fst p) (snd p))
             (combine (rev (static_shape a)) (rev (static_shape b)))
  then Ok (Sub a b) else Raise ValueError.

(** [tf.constant_initializer(value)] for a variable of shape [shp]: the
    entries of [value] in row-major order, the last one repeated when there
    are too few (zeros when there is none), an error when there are too
    many. *)
Definition constant_initializer (value : ndarray) (shp : list nat) : result ndarray :=
  let need := size_of shp in
  let have := length (data value) in
  if (need <? have)%nat then Raise ValueError
  else match last (data value) with
       | None => Ok (mk_array shp (replicate need 0))
       | Some v => Ok (mk_array shp (data value ++ replicate (need - have) v))
       end.

(** [tf.get_variable(name, shape=shp, initializer=tf.constant_initializer(value))]:
    a name already used in the graph is refused. *)
Definition tf_get_variable (g : graph) (name : string) (shp : list nat) (value : ndarray)
  : result (graph * tensor) :=
  match g_vars g !! name with
  | Some _ => Raise ValueError
  | None =>
      init ← constant_initializer value shp;
      Ok (mk_graph (<[name := init]> (g_vars g)) (g_next g), Var name shp)
  end.

(** [tf.placeholder(tf.float32, shp)] *)
Definition tf_placeholder (g : graph) (shp : list (option nat)) : graph * tensor :=
  (mk_graph (g_vars g) (S (g_next g)), Placeholder (g_next g) shp).

(** [tf.nn.relu]: max(features, 0), entry by entry. *)
Definition tf_nn_relu (a : ndarray) : ndarray :=
  mk_array (shape a) (map (fun v => Qmax v 0) (data a)).

(** A fed array fits a placeholder when the ranks agree and every known
    dimension is matched. *)
Definition feed_fits (shp : list (option nat)) (a : ndarray) : bool :=
  (length shp =? length (shape a))%nat
  && forallb (fun p => dim_compatible (fst p) (Some (snd p))) (combine shp (shape a)).

(** The value of a node for given variable values and fed placeholders. *)
Fixpoint eval (vals : gmap string ndarray) (feed : gmap nat ndarray) (t : tensor)
  : result ndarray :=
  match t with
  | Placeholder id shp =>
      match feed !! id with
      | None => Raise InvalidArgumentError
      | Some a => if feed_fits shp a then Ok a else Raise ValueError
      end
  | Var name _ =>
      match vals !! name with
      | None => Raise FailedPreconditionError
      | Some a => Ok a
      end
  | MatMul a b =>
      va ← eval vals feed a; vb ← eval vals feed b;
      matmul_with InvalidArgumentError va vb
  | Relu a => va ← eval vals feed a; Ok (tf_nn_relu va)
  | Sub a b =>
      va ← eval vals feed a; vb ← eval vals feed b;
      if shape_eqb (shape va) (shape vb)
      then Ok (mk_array (shape va) (zip_with Qminus (data va) (data vb)))
      else if broadcastable (shape va) (shape vb) then Raise NotModelled
      else Raise InvalidArgumentError
  | Square a => va ← eval vals feed a; Ok (np_square va)
  | ReduceMean a =>
      va ← eval vals feed a;
      match np_mean va with
      | Num q => Ok (mk_array [] [q])
      | NaN => Raise NotModelled
      end
  end.

(** *** TensorFlow: gradients *)

(** The transpose of a matrix. *)
Definition transpose (a : ndarray) : ndarray :=
  match shape a with
  | [m; n] =>
      mk_array [n; m]
        (flat_map (fun j => map (fun i => nth (i * n + j) (data a) 0) (seq 0 m)) (seq 0 n))
  | _ => a
  end.

Definition scale (c : Q) (a : ndarray) : ndarray :=
  mk_array (shape a) (map (fun v => c * v) (data a)).

Definition hadamard (a b : ndarray) : ndarray :=
  mk_array (shape a) (zip_with Qmult (data a) (data b)).

Definition add_arrays (a b : ndarray) : ndarray :=
  mk_array (shape a) (zip_with Qplus (data a) (data b)).

(** The gradient reaching each variable: contributions along different
    paths of the graph are summed. *)
Definition merge_grads (g h : gmap string ndarray) : gmap string ndarray :=
  union_with (fun a b => Some (add_arrays a b)) g h.

(** Reverse-mode differentiation, as [tf.gradients] does it: [up] is the
    gradient of the loss with respect to the node [t], and the result gives
    the gradient with respect to every variable [t] depends on.
      matmul:  d/da = up . b^T,  d/db = a^T . up
      relu:    up where the input is positive, 0 elsewhere
      a - b:   up to a, -up to b
      a ** 2:  2 a up
      mean:    up / (number of entries), to every entry *)
Fixpoint backprop (vals : gmap string ndarray) (feed : gmap nat ndarray)
    (t : tensor) (up : ndarray) : result (gmap string ndarray) :=
  match t with
  | Placeholder _ _ => Ok ∅
  | Var name _ => Ok {[ name := up ]}
  | MatMul a b =>
      va ← eval vals feed a; vb ← eval vals feed b;
      ga ← matmul_with InvalidArgumentError up (transpose vb);
      gb ← matmul_with InvalidArgumentError (transpose va) up;
      da ← backprop vals feed a ga;
      db ← backprop vals feed b gb;
      Ok (merge_grads da db)
  | Relu a =>
      va ← eval vals feed a;
      backprop vals feed a
        (mk_array (shape up) (zip_with (fun u v => u * bool_to_Q (gt0 v)) (data up) (data va)))
  | Sub a b =>
      da ← backprop vals feed a up;
      db ← backprop vals feed b (scale (-1) up);
      Ok (merge_grads da db)
  | Square a =>
      va ← eval vals feed a;
      backprop vals feed a (hadamard (scale 2 va) up)
  | ReduceMean a =>
      va ← eval vals feed a;
      let n := inject_Z (Z.of_nat (length (data va))) in
      backprop vals feed a
        (mk_array (shape va) (map (fun _ => nth 0 (data up) 0 / n) (data va)))
  end.

(** One step of [tf.train.GradientDescentOptimizer(learning_rate).minimize(loss)]:
    every variable that receives a gradient moves against it. *)
Definition apply_gradients (learning_rate : Q) (grads vals : gmap string ndarray)
  : gmap string ndarray :=
  map_imap (fun name v =>
              match grads !! name with
              | Some g => Some (add_arrays v (scale (- learning_rate) g))
              | None => Some v
              end) vals.

(** *** TensorFlow: sessions *)

(** A session holds the current value of the variables it has initialised. *)
Record session : Type := mk_session { closed : bool; vals : gmap string ndarray }.

(** [sess.run(t, feed_dict=feed)] *)
Definition run_fetch (s : session) (t : tensor) (feed : gmap nat ndarray)
  : result ndarray :=
  if closed s then Raise RuntimeError else eval (vals s) feed t.

(** [sess.run([train_op, loss], feed_dict=feed)] where [train_op] minimises
    [objective]: the fetched [loss] is the one of the forward pass the
    gradients are computed from, that is, before the update. *)
Definition run_train (s : session) (learning_rate : Q) (objective loss : tensor)
    (feed : gmap nat ndarray) : result (session * ndarray) :=
  if closed s then Raise RuntimeError
  else
    l ← eval (vals s) feed loss;
    grads ← backprop (vals s) feed objective (mk_array [] [1]);
    Ok (mk_session false (apply_gradients learning_rate grads (vals s)), l).

(** *** Keras *)

(** A [Dense] layer without bias: its kernel and whether its activation is
    ['relu'] or [None]. *)
Record dense : Type := mk_dense { kernel : ndarray; act_relu : bool }.

(** A [Sequential] model: the input width and the layers in order. *)
Record sequential : Type := mk_sequential { input_dim : nat; layers : list dense }.

Definition output_dim (m : sequential) : nat :=
  match last (layers m) with
  | Some l => match shape (kernel l) with [_; u] => u | _ => 0%nat end
  | None => input_dim m
  end.

(** [model.add(Dense(units, activation=..., use_bias=False))]: the kernel is
    created with the shape (width of what precedes, units) and the initial
    entries [init] the library draws for it. *)
Definition model_add (m : sequential) (units : nat) (relu_act : bool) (init : nat -> Q)
  : sequential :=
  let rows := output_dim m in
  mk_sequential (input_dim m)
    (layers m ++ [mk_dense (mk_array [rows; units] (map init (seq 0 (rows * units)))) relu_act]).

(** [model.layers[i].set_weights([w])]: the shape of [w] must be the
    kernel's. *)
Definition set_weights (m : sequential) (i : nat) (w : ndarray) : result sequential :=
  match layers m !! i with
  | None => Raise IndexError
  | Some l =>
      if shape_eqb (shape w) (shape (kernel l))
      then Ok (mk_sequential (input_dim m) (<[i := mk_dense w (act_relu l)]> (layers m)))
      else Raise ValueError
  end.

Definition dense_call (l : dense) (x : ndarray) : result ndarray :=
  z ← matmul_with InvalidArgumentError x (kernel l);
  Ok (if act_relu l then tf_nn_relu z else z).

(** [model.predict(x)] *)
Definition model_predict (m : sequential) (x : ndarray) : result ndarray :=
  match shape x with
  | [_; n] =>
      if (n =? input_dim m)%nat
      then foldl (fun r l => x' ← r; dense_call l x') (Ok x) (layers m)
      else Raise ValueError
  | _ => Raise ValueError
  end.

(** *** The forward pass and the loss, as the NumPy cell computes them *)

(** [h_np = relu(np.dot(x_np, W_h_np))] *)
Definition numpy_hidden (x W_h : ndarray) : result ndarray :=
  z ← np_dot x W_h; Ok (relu z).

(** [y_np = np.dot(h_np, W_y_np)] *)
Definition numpy_forward (x W_h W_y : ndarray) : result ndarray :=
  h ← numpy_hidden x W_h; np_dot h W_y.

(** [loss_np = np.mean((y_target_np - y_np)**2)] *)
Definition numpy_loss (y_target y : ndarray) : result scalar :=
  d ← np_sub y_target y; Ok (np_mean (np_square d)).

(** *** The MNIST normalisation *)

(** A raw pixel as the dataset loader returns it (an unsigned byte). *)
Definition raw_pixel (v : Q) : Prop := 0 <= v /\ v <= 255.

Definition unit_interval (v : Q) : Prop := 0 <= v /\ v <= 1.

(** [x_train, x_test = x_train / 255.0, x_test / 255.0]: both quotients are
    computed before either name is rebound. *)
Definition normalize (x_train x_test : ndarray) : result (ndarray * ndarray) :=
  a ← np_div_scalar x_train 255; b ← np_div_scalar x_test 255; Ok (a, b).

(** ** The interactive session *)

(** What a global name of the notebook can be bound to.  A session object
    is referred to by one name at a time in the notebook, so it is kept in
    the binding of that name.  The lists of the notebook hold step numbers
    and loss values. *)
Inductive item : Type :=
  | IInt (n : Z)
  | IArr (a : ndarray).

Inductive value : Type :=
  | VNone
  | VInt (n : Z)
  | VArr (a : ndarray)
  | VScalar (s : scalar)
  | VModule (name : string)                 (* an imported module, class or function *)
  | VRelu                                   (* the function of [def relu(x)] *)
  | VTensor (t : tensor)
  | VSession (s : session)
  | VOptimizer (learning_rate : Q)
  | VTrainOp (learning_rate : Q) (loss : tensor)
  | VModel (m : sequential)
  | VList (l : list item)
  | VFloats (l : list Q)                    (* the scores [model.evaluate] returns *)
  | VObject (description : string)          (* a library object not looked into *)
  | VRnn (fitted : option (ndarray * ndarray))   (* the recurrent model and the data it was fitted on *)
  | VStr (s : string)                       (* a string literal *)
  | VMask (mask : list bool).               (* a NumPy vector of booleans *)

(** What a cell leaves in its output area: what it prints and what it
    draws, here in the order of the calls. *)
Inductive output : Type :=
  | Printed (vs : list value)
  | Scatter (xs ys : ndarray)
  | Plotted (xs ys : list item)
  | Figure
  | Image (a : ndarray)
  | Colorbar
  | Summary (model : value)
  | Points (xs ys : ndarray).          (* [plt.plot(xs, ys, '.')] *)

(** What happens while a cell runs, in order: a library call with the
    error it raised if any, the binding of a name by an assignment, and the
    change of the object a name is bound to (a session that is closed or
    trained, a list that is appended to). *)
Inductive event : Type :=
  | Call (name : string) (err : option exn)
  | Assign (name : string) (v : value)
  | Mutate (name : string) (v : value).

Record state : Type := mk_state {
  globals : gmap string value;       (* the notebook's global variables *)
  default_graph : graph;             (* TensorFlow's default graph *)
  open_sessions : nat;               (* sessions opened and not yet closed *)
  out : list output;                 (* what the running cell has printed and drawn *)
  trace : list event
}.

(** A piece of a cell: it changes the state and returns or raises.  What
    was done before an exception stays done. *)
Definition prog (A : Type) : Type := state -> state * result A.

Definition pret {A} (a : A) : prog A := fun s => (s, Ok a).

Definition pbind {A B} (m : prog A) (k : A -> prog B) : prog B :=
  fun s => match m s with
           | (s', Ok a) => k a s'
           | (s', Raise e) => (s', Raise e)
           end.

#[global] Instance prog_ret : MRet prog := @pret.
#[global] Instance prog_bind : MBind prog := fun _ _ k m => pbind m k.

Definition error_of {A} (r : result A) : option exn :=
  match r with Ok _ => None | Raise e => Some e end.

Definition log (ev : event) (s : state) : state :=
  mk_state (globals s) (default_graph s) (open_sessions s) (out s) (trace s ++ [ev]).

(** Reading a global name. *)
Definition lookup_name (name : string) : prog value :=
  fun s => match globals s !! name with
           | Some v => (s, Ok v)
           | None => (s, Raise (NameError name))
           end.

(** [name = v] *)
Definition assign (name : string) (v : value) : prog unit :=
  fun s => (mk_state (<[name := v]> (globals s)) (default_graph s) (open_sessions s)
              (out s) (trace s ++ [Assign name v]), Ok tt).

(** The object bound to [name] changes to [v]. *)
Definition mutate (name : string) (v : value) : prog unit :=
  fun s => (mk_state (<[name := v]> (globals s)) (default_graph s) (open_sessions s)
              (out s) (trace s ++ [Mutate name v]), Ok tt).

(** A library call that depends on its arguments only. *)
Definition call {A} (name : string) (r : result A) : prog A :=
  fun s => (log (Call name (error_of r)) s, r).

(** A library call that reads or extends the default graph. *)
Definition call_graph {A} (name : string) (f : graph -> result (graph * A)) : prog A :=
  fun s => match f (default_graph s) with
           | Ok (g, a) =>
               (mk_state (globals s) g (open_sessions s) (out s)
                  (trace s ++ [Call name None]), Ok a)
           | Raise e => (log (Call name (Some e)) s, Raise e)
           end.

(** Something is shown in the output area. *)
Definition emit (o : output) : prog unit :=
  fun s => (mk_state (globals s) (default_graph s) (open_sessions s) (out s ++ [o])
              (trace s), Ok tt).

(** [tf.Session()] *)
Definition session_open : prog session :=
  fun s => (mk_state (globals s) (default_graph s) (S (open_sessions s)) (out s)
              (trace s ++ [Call "tf.Session" None]), Ok (mk_session false ∅)).

(** Closing a session; closing a closed session does nothing. *)
Definition session_close (name : string) (σ : session) : prog session :=
  fun s => (mk_state (globals s) (default_graph s)
              (if closed σ then open_sessions s else pred (open_sessions s))
              (out s) (trace s ++ [Call name None]),
            Ok (mk_session true (vals σ))).

(** Leaving [with ... as name: body]: the session bound to [name] (no body
    of the notebook rebinds it) is closed, also when the body raised, and
    the exception then goes on unchanged. *)
Definition with_exit {A} (name : string) (body : prog A) : prog A :=
  fun s => match body s with
           | (s1, r) =>
               match globals s1 !! name with
               | Some (VSession σ) =>
                   match session_close "Session.__exit__" σ s1 with
                   | (s2, Ok σ') => (fst (mutate name (VSession σ') s2), r)
                   | (s2, Raise _) => (s2, r)
                   end
               | _ => (s1, r)
               end
           end.

(** [with tf.Session() as name: body] *)
Definition with_session {A} (name : string) (body : prog A) : prog A :=
  σ ← session_open;
  assign name (VSession σ);;
  with_exit name body.

(** [for var in range(n): body] *)
Fixpoint for_range_from {A} (var : string) (i n : nat) (body : prog A) : prog unit :=
  match n with
  | O => mret tt
  | S n' => assign var (VInt (Z.of_nat i));; body;; for_range_from var (S i) n' body
  end.

Definition for_range {A} (var : string) (n : nat) (body : prog A) : prog unit :=
  for_range_from var 0 n body.

(** [import name as alias] *)
Definition import_as (ok : string -> bool) (name alias : string) : prog unit :=
  m ← call ("import " +:+ name)
        (if ok name then Ok (VModule name) else Raise ImportError);
  assign alias m.

(** Reaching into the module (or class or function) [name] through the
    global name [alias], as in [np.dot] or [Sequential]. *)
Definition from_module (alias name : string) : prog unit :=
  v ← lookup_name alias;
  call alias (match v with
              | VModule m => if bool_decide (m = name) then Ok tt else Raise AttributeError
              | _ => Raise AttributeError
              end).

(** Running a cell: its output area starts empty. *)
Definition run_cell {A} (cell : prog A) (s : state) : state * result A :=
  cell (mk_state (globals s) (default_graph s) (open_sessions s) [] []).

(** ** What the notebook takes from outside

    Which libraries can be imported, the random draws, the library's square root (a float, hence a
    rational), the initial kernels Keras draws, the dataset the loader
    returns and the training and scoring of the recurrent network are not
    computed here: a run of the notebook gets them from its world.

    The world stands for the libraries as a run finds them, their hidden
    state included: the state of NumPy's global random generator (no cell
    seeds it), which fixes the arrays [random] yields, and the global graph
    and name counters of Keras, which what [library] answers may depend on.
    None of this is a variable of the notebook.  A cell run again later
    finds the generator in another state: that is a run in another world. *)
Record world : Type := mk_world {
  importable : string -> bool;       (* which libraries are installed *)
  random : nat -> nat -> Q;          (* entry i of the k-th array drawn *)
  np_sqrt : Q -> Q;
  keras_init : nat -> nat -> Q;      (* entry i of the kernel of layer k *)
  mnist_load_data : result ((ndarray * ndarray) * (ndarray * ndarray));
  opaque : string -> result unit;    (* a library call not looked into: does it raise? *)
  rnn_fit : ndarray -> ndarray -> result unit;
  (* the scores of a model fitted on (x, y) for the inputs x' and labels y' *)
  rnn_evaluate : ndarray -> ndarray -> ndarray -> ndarray -> result (list Q);
  (* an operation of Keras, scikit-learn or numpy.linalg that is not looked
     into: what it yields for the values of its operands *)
  library : string -> list value -> result value
}.

(** ** Library calls on the values of the session *)

Definition as_dim (v : value) : result nat :=
  match v with
  | VInt n => if (n <? 0)%Z then Raise ValueError else Ok (Z.to_nat n)
  | _ => Raise TypeError
  end.

Definition as_array (v : value) : result ndarray :=
  match v with VArr a => Ok a | _ => Raise TypeError end.

Definition as_tensor (v : value) : result tensor :=
  match v with VTensor t => Ok t | _ => Raise TypeError end.

Definition as_session (v : value) : result session :=
  match v with VSession σ => Ok σ | _ => Raise AttributeError end.

Definition as_model (v : value) : result sequential :=
  match v with VModel m => Ok m | _ => Raise AttributeError end.

(** [np.random.rand(d0, d1)] and [np.random.randn(d0, d1)]: the [k]-th draw
    of the run. *)
Definition np_random (w : world) (k : nat) (d0 d1 : value) : result value :=
  m ← as_dim d0; n ← as_dim d1;
  Ok (VArr (mk_array [m; n] (map (random w k) (seq 0 (m * n))))).

(** [2./(a + b)] *)
Definition two_over_sum (a b : value) : result Q :=
  match a, b with
  | VInt m, VInt n =>
      if (m + n =? 0)%Z then Raise ZeroDivisionError else Ok (2 / inject_Z (m + n))
  | _, _ => Raise TypeError
  end.

(** [a * c] for an array [a] and a NumPy float [c]. *)
Definition np_mul_scalar (a : value) (c : Q) : result value :=
  x ← as_array a; Ok (VArr (scale c x)).

Definition np_dot_v (a b : value) : result value :=
  x ← as_array a; y ← as_array b; z ← np_dot x y; Ok (VArr z).

(** Calling what the name [relu] is bound to. *)
Definition call_relu (f x : value) : result value :=
  match f with
  | VRelu => a ← as_array x; Ok (VArr (relu a))
  | _ => Raise TypeError
  end.

Definition np_sub_v (a b : value) : result value :=
  x ← as_array a; y ← as_array b; z ← np_sub x y; Ok (VArr z).

Definition np_square_v (a : value) : result value :=
  x ← as_array a; Ok (VArr (np_square x)).

Definition np_mean_v (a : value) : result value :=
  x ← as_array a; Ok (VScalar (np_mean x)).

(** [tf.placeholder(tf.float32, (d0, d1))] *)
Definition placeholder_v (d0 d1 : value) (g : graph) : result (graph * value) :=
  m ← as_dim d0; n ← as_dim d1;
  let (g', t) := tf_placeholder g [Some m; Some n] in Ok (g', VTensor t).

(** [tf.get_variable(name, shape=(d0, d1), initializer=tf.constant_initializer(init))];
    initial values that are not arrays are not modelled. *)
Definition get_variable_v (name : string) (d0 d1 init : value) (g : graph)
  : result (graph * value) :=
  m ← as_dim d0; n ← as_dim d1;
  a ← match init with VArr a => Ok a | _ => Raise NotModelled end;
  '(g', t) ← tf_get_variable g name [m; n] a;
  Ok (g', VTensor t).

Definition tf_matmul_v (a b : value) : result value :=
  x ← as_tensor a; y ← as_tensor b; t ← tf_matmul x y; Ok (VTensor t).

(** [tf.nn.relu(a)] on a tensor adds a node to the graph. *)
Definition tf_nn_relu_v (a : value) : result value :=
  x ← as_tensor a; Ok (VTensor (Relu x)).

(** [tf.global_variables_initializer()]: the operation that gives every
    variable now in the graph its initial value. *)
Definition global_variables_initializer (g : graph) : result (graph * gmap string ndarray) :=
  Ok (g, g_vars g).

(** [sess.run(init)] *)
Definition run_init (init : gmap string ndarray) (s : session) : result session :=
  if closed s then Raise RuntimeError else Ok (mk_session false init).

(** One entry [{x: a}] of a feed dictionary; only placeholders are fed in
    the notebook. *)
Definition feed_entry (x a : value) : result (gmap nat ndarray) :=
  t ← as_tensor x; v ← as_array a;
  match t with
  | Placeholder id _ => Ok {[ id := v ]}
  | _ => Raise NotModelled
  end.

Definition run_fetch_v (σ : session) (t : value) (feed : gmap nat ndarray) : result value :=
  t' ← as_tensor t; a ← run_fetch σ t' feed; Ok (VArr a).

(** [plt.scatter(xs, ys)]: both must have the same number of entries. *)
Definition scatter_v (xs ys : value) : result output :=
  a ← as_array xs; b ← as_array ys;
  if (length (data a) =? length (data b))%nat then Ok (Scatter a b) else Raise ValueError.

(** ** The cells *)

(** The cell "import modules". *)
Definition cell_imports (w : world) : prog unit :=
  import_as (importable w) "numpy" "np";;
  import_as (importable w) "tensorflow" "tf";;
  import_as (importable w) "matplotlib.pyplot" "plt".

(** The cell "Numpy way". *)
Definition cell_numpy (w : world) : prog unit :=
  assign "batch_size" (VInt 5);;
  assign "n_x" (VInt 10);;
  assign "n_h" (VInt 100);;
  assign "n_y" (VInt 3);;
  (* x_np = np.random.rand(batch_size, n_x) *)
  from_module "np" "numpy";;
  batch_size ← lookup_name "batch_size"; n_x ← lookup_name "n_x";
  x_np ← call "np.random.rand" (np_random w 0 batch_size n_x);
  assign "x_np" x_np;;
  (* def relu(x): return x * (x>0.) *)
  assign "relu" VRelu;;
  (* W_h_np = np.random.randn(n_x, n_h) * np.sqrt(2./(n_x + n_h)) *)
  from_module "np" "numpy";;
  n_x ← lookup_name "n_x"; n_h ← lookup_name "n_h";
  r ← call "np.random.randn" (np_random w 1 n_x n_h);
  from_module "np" "numpy";;
  n_x ← lookup_name "n_x"; n_h ← lookup_name "n_h";
  q ← call "2./(n_x + n_h)" (two_over_sum n_x n_h);
  c ← call "np.sqrt" (Ok (np_sqrt w q));
  W_h_np ← call "ndarray * float" (np_mul_scalar r c);
  assign "W_h_np" W_h_np;;
  (* W_y_np = np.random.randn(n_h, n_y) * np.sqrt(2./(n_h + n_y)) *)
  from_module "np" "numpy";;
  n_h ← lookup_name "n_h"; n_y ← lookup_name "n_y";
  r ← call "np.random.randn" (np_random w 2 n_h n_y);
  from_module "np" "numpy";;
  n_h ← lookup_name "n_h"; n_y ← lookup_name "n_y";
  q ← call "2./(n_h + n_y)" (two_over_sum n_h n_y);
  c ← call "np.sqrt" (Ok (np_sqrt w q));
  W_y_np ← call "ndarray * float" (np_mul_scalar r c);
  assign "W_y_np" W_y_np;;
  (* h_np = relu(np.dot(x_np, W_h_np)) *)
  f ← lookup_name "relu";
  from_module "np" "numpy";;
  x_np ← lookup_name "x_np"; W_h_np ← lookup_name "W_h_np";
  z ← call "np.dot" (np_dot_v x_np W_h_np);
  h_np ← call "relu" (call_relu f z);
  assign "h_np" h_np;;
  (* y_np = np.dot(h_np, W_y_np) *)
  from_module "np" "numpy";;
  h_np ← lookup_name "h_np"; W_y_np ← lookup_name "W_y_np";
  y_np ← call "np.dot" (np_dot_v h_np W_y_np);
  assign "y_np" y_np;;
  (* y_target_np = np.random.rand(batch_size, n_y) *)
  from_module "np" "numpy";;
  batch_size ← lookup_name "batch_size"; n_y ← lookup_name "n_y";
  y_target_np ← call "np.random.rand" (np_random w 3 batch_size n_y);
  assign "y_target_np" y_target_np;;
  (* loss_np = np.mean((y_target_np - y_np)**2) *)
  from_module "np" "numpy";;
  y_target_np ← lookup_name "y_target_np"; y_np ← lookup_name "y_np";
  d ← call "ndarray - ndarray" (np_sub_v y_target_np y_np);
  sq ← call "ndarray ** 2" (np_square_v d);
  loss_np ← call "np.mean" (np_mean_v sq);
  assign "loss_np" loss_np.

(** [sess.run(tf.global_variables_initializer())] *)
Definition initialize_variables : prog unit :=
  sess ← lookup_name "sess"; σ ← call "sess.run" (as_session sess);
  from_module "tf" "tensorflow";;
  init ← call_graph "tf.global_variables_initializer" global_variables_initializer;
  σ ← call "Session.run" (run_init init σ);
  mutate "sess" (VSession σ).

(** What the cells "Tensorflow way" share after resetting the graph:
    building [x], [W_h], [W_y], [h], [y], printing [y], running it in a
    session on [x_np] and comparing with [y_np]. *)
Definition tensorflow_forward : prog unit :=
  (* x = tf.placeholder(tf.float32, (batch_size, n_x)) *)
  from_module "tf" "tensorflow";; from_module "tf" "tensorflow";;
  batch_size ← lookup_name "batch_size"; n_x ← lookup_name "n_x";
  x ← call_graph "tf.placeholder" (placeholder_v batch_size n_x);
  assign "x" x;;
  (* W_h = tf.get_variable('W_h', shape=(n_x, n_h), initializer=...(W_h_np)) *)
  from_module "tf" "tensorflow";;
  n_x ← lookup_name "n_x"; n_h ← lookup_name "n_h";
  from_module "tf" "tensorflow";; W_h_np ← lookup_name "W_h_np";
  W_h ← call_graph "tf.get_variable" (get_variable_v "W_h" n_x n_h W_h_np);
  assign "W_h" W_h;;
  (* W_y = tf.get_variable('W_y', shape=(n_h, n_y), initializer=...(W_y_np)) *)
  from_module "tf" "tensorflow";;
  n_h ← lookup_name "n_h"; n_y ← lookup_name "n_y";
  from_module "tf" "tensorflow";; W_y_np ← lookup_name "W_y_np";
  W_y ← call_graph "tf.get_variable" (get_variable_v "W_y" n_h n_y W_y_np);
  assign "W_y" W_y;;
  (* h = tf.nn.relu(tf.matmul(x, W_h)) *)
  from_module "tf" "tensorflow";; from_module "tf" "tensorflow";;
  x ← lookup_name "x"; W_h ← lookup_name "W_h";
  z ← call "tf.matmul" (tf_matmul_v x W_h);
  h ← call "tf.nn.relu" (tf_nn_relu_v z);
  assign "h" h;;
  (* y = tf.matmul(h, W_y) *)
  from_module "tf" "tensorflow";;
  h ← lookup_name "h"; W_y ← lookup_name "W_y";
  y ← call "tf.matmul" (tf_matmul_v h W_y);
  assign "y" y;;
  (* print(y) *)
  y ← lookup_name "y"; emit (Printed [y]);;
  (* sess = tf.Session() *)
  from_module "tf" "tensorflow";;
  σ ← session_open; assign "sess" (VSession σ);;
  (* sess.run(tf.global_variables_initializer()) *)
  initialize_variables;;
  (* y_val = sess.run(y, feed_dict={x: x_np}) *)
  sess ← lookup_name "sess"; σ ← call "sess.run" (as_session sess);
  y ← lookup_name "y"; x ← lookup_name "x"; x_np ← lookup_name "x_np";
  y_val ← call "Session.run" (feed ← feed_entry x x_np; run_fetch_v σ y feed);
  assign "y_val" y_val;;
  (* sess.close() *)
  sess ← lookup_name "sess"; σ ← call "sess.close" (as_session sess);
  σ ← session_close "Session.close" σ;
  mutate "sess" (VSession σ);;
  (* print(y_val) *)
  y_val ← lookup_name "y_val"; emit (Printed [y_val]);;
  (* plt.scatter(y_val, y_np) *)
  from_module "plt" "matplotlib.pyplot";;
  y_val ← lookup_name "y_val"; y_np ← lookup_name "y_np";
  o ← call "plt.scatter" (scatter_v y_val y_np);
  emit o.

(** The cell "Tensorflow way" under "Multilayer perceptron in Tensorflow". *)
Definition cell_tensorflow : prog unit :=
  (* tf.reset_default_graph() *)
  from_module "tf" "tensorflow";;
  call_graph "tf.reset_default_graph" (fun _ => Ok (empty_graph, tt));;
  tensorflow_forward.

(** *** The cell "Keras way" *)

(** [model.add(Dense(units, input_dim=..., activation=..., use_bias=False))]:
    the first layer needs its input width. *)
Definition model_add_v (w : world) (model units : value) (input : option value)
    (relu_act : bool) : result value :=
  m ← as_model model; u ← as_dim units;
  match layers m, input with
  | [], Some d =>
      n ← as_dim d;
      Ok (VModel (model_add (mk_sequential n []) u relu_act (keras_init w 0)))
  | [], None => Raise NotModelled
  | _ :: _, _ => Ok (VModel (model_add m u relu_act (keras_init w (length (layers m)))))
  end.

(** [model.layers[i].set_weights([weights])] *)
Definition set_weights_v (model : value) (i : nat) (weights : value) : result value :=
  m ← as_model model;
  a ← match weights with VArr a => Ok a | _ => Raise ValueError end;
  m' ← set_weights m i a; Ok (VModel m').

Definition cell_keras (w : world) : prog unit :=
  import_as (importable w) "keras" "keras";;
  import_as (importable w) "keras.layers.Dense" "Dense";;
  import_as (importable w) "keras.models.Sequential" "Sequential";;
  (* keras.backend.clear_session() *)
  from_module "keras" "keras";;
  call_graph "keras.backend.clear_session" (fun _ => Ok (empty_graph, tt));;
  (* model = Sequential() *)
  from_module "Sequential" "keras.models.Sequential";;
  m ← call "Sequential" (Ok (VModel (mk_sequential 0 [])));
  assign "model" m;;
  (* model.add(Dense(n_h, input_dim=n_x, activation='relu', use_bias=False)) *)
  model ← lookup_name "model"; call "model.add" (as_model model);;
  from_module "Dense" "keras.layers.Dense";;
  n_h ← lookup_name "n_h"; n_x ← lookup_name "n_x";
  m ← call "Sequential.add" (model_add_v w model n_h (Some n_x) true);
  mutate "model" m;;
  (* model.add(Dense(n_y, activation=None, use_bias=False)) *)
  model ← lookup_name "model"; call "model.add" (as_model model);;
  from_module "Dense" "keras.layers.Dense";;
  n_y ← lookup_name "n_y";
  m ← call "Sequential.add" (model_add_v w model n_y None false);
  mutate "model" m;;
  (* model.layers[0].set_weights([W_h_np]) *)
  model ← lookup_name "model"; W_h_np ← lookup_name "W_h_np";
  m ← call "Layer.set_weights" (set_weights_v model 0 W_h_np);
  mutate "model" m;;
  (* model.layers[1].set_weights([W_y_np]) *)
  model ← lookup_name "model"; W_y_np ← lookup_name "W_y_np";
  m ← call "Layer.set_weights" (set_weights_v model 1 W_y_np);
  mutate "model" m;;
  (* model.summary() *)
  model ← lookup_name "model"; call "model.summary" (as_model model);;
  emit (Summary model).

(** *** The cell "Load MNIST dataset" *)

Definition np_div_v (a : value) (c : Q) : result value :=
  x ← as_array a; y ← np_div_scalar x c; Ok (VArr y).

(** [a.shape] *)
Definition shape_v (a : value) : result (list nat) :=
  match a with VArr x => Ok (shape x) | _ => Raise AttributeError end.

(** [a[i]] along the first axis. *)
Definition np_index (a : ndarray) (i : nat) : result ndarray :=
  match shape a with
  | [] => Raise IndexError
  | d :: rest =>
      if (i <? d)%nat
      then Ok (mk_array rest (take (size_of rest) (drop (i * size_of rest) (data a))))
      else Raise IndexError
  end.

Definition np_index_v (a : value) (i : nat) : result value :=
  x ← match a with VArr x => Ok x | _ => Raise TypeError end;
  y ← np_index x i; Ok (VArr y).

(** [plt.imshow(a)] shows matrices; the colour images it also accepts do
    not occur. *)
Definition imshow_v (a : value) : result output :=
  x ← as_array a;
  match shape x with
  | [_; _] => Ok (Image x)
  | [_; _; _] => Raise NotModelled
  | _ => Raise TypeError
  end.

Definition cell_mnist (w : world) : prog unit :=
  import_as (importable w) "keras.datasets.mnist" "mnist";;
  (* (x_train, y_train),(x_test, y_test) = mnist.load_data() *)
  from_module "mnist" "keras.datasets.mnist";;
  d ← call "mnist.load_data" (mnist_load_data w);
  assign "x_train" (VArr (fst (fst d)));;
  assign "y_train" (VArr (snd (fst d)));;
  assign "x_test" (VArr (fst (snd d)));;
  assign "y_test" (VArr (snd (snd d)));;
  (* x_train, x_test = x_train / 255.0, x_test / 255.0 *)
  x_train ← lookup_name "x_train";
  a ← call "ndarray / 255.0" (np_div_v x_train 255);
  x_test ← lookup_name "x_test";
  b ← call "ndarray / 255.0" (np_div_v x_test 255);
  assign "x_train" a;;
  assign "x_test" b;;
  (* print(x_train.shape) *)
  x_train ← lookup_name "x_train";
  shp ← call "x_train.shape" (shape_v x_train);
  emit (Printed [VList (map (fun d => IInt (Z.of_nat d)) shp)]);;
  (* for i in range(3): plt.figure(...); plt.imshow(x_train[i]); plt.colorbar() *)
  for_range "i" 3 (
    from_module "plt" "matplotlib.pyplot";;
    call "plt.figure" (opaque w "plt.figure");;
    emit Figure;;
    from_module "plt" "matplotlib.pyplot";;
    x_train ← lookup_name "x_train"; i ← lookup_name "i";
    img ← call "x_train[i]" (n ← as_dim i; np_index_v x_train n);
    o ← call "plt.imshow" (imshow_v img);
    emit o;;
    from_module "plt" "matplotlib.pyplot";;
    call "plt.colorbar" (opaque w "plt.colorbar");;
    emit Colorbar).

(** *** The cell "Training the network with Tensorflow" *)

(** [tf.placeholder(tf.float32, (None, d1))] *)
Definition placeholder_none_v (d1 : value) (g : graph) : result (graph * value) :=
  n ← as_dim d1;
  let (g', t) := tf_placeholder g [None; Some n] in Ok (g', VTensor t).

Definition tf_sub_v (a b : value) : result value :=
  x ← as_tensor a; y ← as_tensor b; t ← tf_sub x y; Ok (VTensor t).

Definition tf_square_v (a : value) : result value :=
  x ← as_tensor a; Ok (VTensor (Square x)).

Definition tf_reduce_mean_v (a : value) : result value :=
  x ← as_tensor a; Ok (VTensor (ReduceMean x)).

Fixpoint depends_on_variable (t : tensor) : bool :=
  match t with
  | Placeholder _ _ => false
  | Var _ _ => true
  | MatMul a b | Sub a b => depends_on_variable a || depends_on_variable b
  | Relu a | Square a | ReduceMean a => depends_on_variable a
  end.

(** [opt.minimize(loss)]: refused when no variable receives a gradient. *)
Definition minimize_v (opt loss : value) : result value :=
  lr ← match opt with VOptimizer lr => Ok lr | _ => Raise AttributeError end;
  t ← as_tensor loss;
  if depends_on_variable t then Ok (VTrainOp lr t) else Raise ValueError.

(** [sess.run([train_op, loss], feed_dict=feed)] *)
Definition run_train_v (σ : session) (train_op loss : value) (feed : gmap nat ndarray)
  : result (session * value) :=
  '(lr, objective) ← match train_op with
                     | VTrainOp lr t => Ok (lr, t)
                     | _ => Raise TypeError
                     end;
  t ← as_tensor loss;
  '(σ', l) ← run_train σ lr objective t feed;
  Ok (σ', VArr l).

(** [{x: a, y: b}] *)
Definition feed_two (x a y b : value) : result (gmap nat ndarray) :=
  f ← feed_entry x a; g ← feed_entry y b; Ok (g ∪ f).

(** [lst.append(v)] *)
Definition append_v (lst v : value) : result value :=
  match lst with
  | VList l =>
      match v with
      | VInt n => Ok (VList (l ++ [IInt n]))
      | VArr a => Ok (VList (l ++ [IArr a]))
      | _ => Raise NotModelled
      end
  | _ => Raise AttributeError
  end.

(** [step % 1 == 0] *)
Definition mod_one_is_zero (step : value) : result bool :=
  match step with
  | VInt n => Ok (n mod 1 =? 0)%Z
  | _ => Raise NotModelled
  end.

(** [plt.plot(xs, ys)]: both must have the same length. *)
Definition plot_v (xs ys : value) : result output :=
  match xs, ys with
  | VList a, VList b =>
      if (length a =? length b)%nat then Ok (Plotted a b) else Raise ValueError
  | _, _ => Raise NotModelled
  end.

(** The body of [for step in range(10)]. *)
Definition training_step : prog unit :=
  (* _, loss_val = sess.run([train_op, loss], feed_dict={x: x_np, y_target: y_target_np}) *)
  sess ← lookup_name "sess"; σ ← call "sess.run" (as_session sess);
  train_op ← lookup_name "train_op"; loss ← lookup_name "loss";
  x ← lookup_name "x"; x_np ← lookup_name "x_np";
  y_target ← lookup_name "y_target"; y_target_np ← lookup_name "y_target_np";
  r ← call "Session.run"
        (feed ← feed_two x x_np y_target y_target_np; run_train_v σ train_op loss feed);
  mutate "sess" (VSession (fst r));;
  assign "_" VNone;;
  assign "loss_val" (snd r);;
  (* if step % 1 == 0: *)
  step ← lookup_name "step";
  b ← call "step % 1 == 0" (mod_one_is_zero step);
  if b : bool then
    (* print(step, loss_val) *)
    step ← lookup_name "step"; loss_val ← lookup_name "loss_val";
    emit (Printed [step; loss_val]);;
    (* steps.append(step) *)
    steps ← lookup_name "steps"; step ← lookup_name "step";
    l ← call "list.append" (append_v steps step);
    mutate "steps" l;;
    (* losses.append(loss_val) *)
    losses ← lookup_name "losses"; loss_val ← lookup_name "loss_val";
    l ← call "list.append" (append_v losses loss_val);
    mutate "losses" l
  else mret tt.

Definition cell_training : prog unit :=
  (* tf.reset_default_graph(); keras.backend.clear_session() *)
  from_module "tf" "tensorflow";;
  call_graph "tf.reset_default_graph" (fun _ => Ok (empty_graph, tt));;
  from_module "keras" "keras";;
  call_graph "keras.backend.clear_session" (fun _ => Ok (empty_graph, tt));;
  tensorflow_forward;;
  (* y_target = tf.placeholder(tf.float32, (None, n_y)) *)
  from_module "tf" "tensorflow";; from_module "tf" "tensorflow";;
  n_y ← lookup_name "n_y";
  y_target ← call_graph "tf.placeholder" (placeholder_none_v n_y);
  assign "y_target" y_target;;
  (* loss = tf.reduce_mean((y_target - y)**2) *)
  from_module "tf" "tensorflow";;
  y_target ← lookup_name "y_target"; y ← lookup_name "y";
  d ← call "tensor - tensor" (tf_sub_v y_target y);
  sq ← call "tensor ** 2" (tf_square_v d);
  loss ← call "tf.reduce_mean" (tf_reduce_mean_v sq);
  assign "loss" loss;;
  (* with tf.Session() as sess: *)
  from_module "tf" "tensorflow";;
  with_session "sess" (
    initialize_variables;;
    (* loss_val = sess.run(loss, feed_dict={x: x_np, y_target: y_target_np}) *)
    sess ← lookup_name "sess"; σ ← call "sess.run" (as_session sess);
    loss ← lookup_name "loss";
    x ← lookup_name "x"; x_np ← lookup_name "x_np";
    y_target ← lookup_name "y_target"; y_target_np ← lookup_name "y_target_np";
    loss_val ← call "Session.run"
                 (feed ← feed_two x x_np y_target y_target_np; run_fetch_v σ loss feed);
    assign "loss_val" loss_val);;
  (* print(loss_np); print(loss_val) *)
  loss_np ← lookup_name "loss_np"; emit (Printed [loss_np]);;
  loss_val ← lookup_name "loss_val"; emit (Printed [loss_val]);;
  (* opt = tf.train.GradientDescentOptimizer(learning_rate=0.01) *)
  from_module "tf" "tensorflow";;
  opt ← call "tf.train.GradientDescentOptimizer" (Ok (VOptimizer (1 # 100)));
  assign "opt" opt;;
  (* train_op = opt.minimize(loss) *)
  opt ← lookup_name "opt"; loss ← lookup_name "loss";
  train_op ← call "Optimizer.minimize" (minimize_v opt loss);
  assign "train_op" train_op;;
  (* steps = list(); losses = list() *)
  assign "steps" (VList []);;
  assign "losses" (VList []);;
  (* with tf.Session() as sess: *)
  from_module "tf" "tensorflow";;
  with_session "sess" (
    initialize_variables;;
    for_range "step" 10 training_step);;
  (* plt.figure(); plt.plot(steps, losses) *)
  from_module "plt" "matplotlib.pyplot";;
  emit Figure;;
  from_module "plt" "matplotlib.pyplot";;
  steps ← lookup_name "steps"; losses ← lookup_name "losses";
  o ← call "plt.plot" (plot_v steps losses);
  emit o.

(** *** The cell "Recurrent network" *)

(** [a.reshape((n.shape[0], -1, 1))]: the array [a] is reshaped, the first
    dimension is taken from [n]. *)
Definition reshape_like_v (a n : value) : result value :=
  x ← as_array a;
  shp ← shape_v n;
  match shp with
  | [] => Raise IndexError
  | d0 :: _ => y ← reshape_infer x d0; Ok (VArr y)
  end.

(** What [x_test_rnn] is bound to: the entries of [x_train] under the
    shape ([d0], inferred, 1). *)
Definition reshaped (a : ndarray) (d0 : nat) : ndarray :=
  mk_array [d0; (size_of (shape a) / d0)%nat; 1%nat] (data a).

(** [model.fit(x, y, epochs=5)] *)
Definition rnn_fit_v (w : world) (model x y : value) : result value :=
  match model with
  | VRnn _ => a ← as_array x; b ← as_array y; rnn_fit w a b;; Ok (VRnn (Some (a, b)))
  | _ => Raise AttributeError
  end.

(** [model.evaluate(x, y)]: a model that was never fitted is not scored in
    the notebook. *)
Definition rnn_evaluate_v (w : world) (model x y : value) : result value :=
  match model with
  | VRnn (Some (xf, yf)) =>
      a ← as_array x; b ← as_array y; l ← rnn_evaluate w xf yf a b; Ok (VFloats l)
  | VRnn None => Raise NotModelled
  | _ => Raise AttributeError
  end.

(** A library call that is not looked into and yields the object
    [description]. *)
Definition opaque_call (w : world) (name description : string) : prog value :=
  call name (opaque w name;; Ok (VObject description)).

Definition cell_rnn (w : world) : prog unit :=
  (* from keras.layers import Dense, Flatten, Conv2D, Dropout, MaxPooling2D, GRU *)
  import_as (importable w) "keras.layers.Dense" "Dense";;
  import_as (importable w) "keras.layers.Flatten" "Flatten";;
  import_as (importable w) "keras.layers.Conv2D" "Conv2D";;
  import_as (importable w) "keras.layers.Dropout" "Dropout";;
  import_as (importable w) "keras.layers.MaxPooling2D" "MaxPooling2D";;
  import_as (importable w) "keras.layers.GRU" "GRU";;
  (* from keras import Input *)
  import_as (importable w) "keras.Input" "Input";;
  (* x_train_rnn = x_train.reshape((x_train.shape[0], -1, 1)) *)
  x_train ← lookup_name "x_train"; call "x_train.reshape" (as_array x_train);;
  x_train' ← lookup_name "x_train";
  a ← call "ndarray.reshape" (reshape_like_v x_train x_train');
  assign "x_train_rnn" a;;
  (* x_test_rnn = x_train.reshape((x_test.shape[0], -1, 1)) *)
  x_train ← lookup_name "x_train"; call "x_train.reshape" (as_array x_train);;
  x_test ← lookup_name "x_test";
  a ← call "ndarray.reshape" (reshape_like_v x_train x_test);
  assign "x_test_rnn" a;;
  (* x = Input((None, x_train_rnn.shape[-1])) *)
  from_module "Input" "keras.Input";;
  x_train_rnn ← lookup_name "x_train_rnn";
  call "x_train_rnn.shape[-1]" (shp ← shape_v x_train_rnn;
                                if shp is [] then Raise IndexError else Ok tt);;
  x ← opaque_call w "Input" "Input";
  assign "x" x;;
  (* layer = GRU(20) *)
  from_module "GRU" "keras.layers.GRU";;
  layer ← opaque_call w "GRU" "GRU(20)";
  assign "layer" layer;;
  (* y = layer(x) *)
  layer ← lookup_name "layer"; x ← lookup_name "x";
  y ← opaque_call w "layer(x)" "GRU(20)(Input)";
  assign "y" y;;
  (* print(x) *)
  x ← lookup_name "x"; emit (Printed [x]);;
  (* model = keras.models.Model(inputs=x, outputs=y) *)
  from_module "keras" "keras";;
  x ← lookup_name "x"; y ← lookup_name "y";
  call "keras.models.Model" (opaque w "keras.models.Model");;
  assign "model" (VRnn None);;
  (* model.compile(...) *)
  model ← lookup_name "model";
  call "model.compile" (opaque w "model.compile");;
  (* model.summary() *)
  model ← lookup_name "model";
  call "model.summary" (opaque w "model.summary");;
  emit (Summary model);;
  (* model.fit(x_train_rnn, y_train, epochs=5) *)
  model ← lookup_name "model";
  x_train_rnn ← lookup_name "x_train_rnn"; y_train ← lookup_name "y_train";
  m ← call "model.fit" (rnn_fit_v w model x_train_rnn y_train);
  mutate "model" m;;
  (* model.evaluate(x_test_rnn, y_test) *)
  model ← lookup_name "model";
  x_test_rnn ← lookup_name "x_test_rnn"; y_test ← lookup_name "y_test";
  scores ← call "model.evaluate" (rnn_evaluate_v w model x_test_rnn y_test);
  emit (Printed [scores]).

(** ** The cells that build, run and train the small network, load MNIST
    and score the recurrent network, in document order *)

Definition notebook (w : world) : list (prog unit) :=
  [ cell_imports w; cell_numpy w; cell_tensorflow; cell_keras w; cell_mnist w;
    cell_training; cell_rnn w ].

(** Running cells one after the other; a cell that raises stops the run. *)
Fixpoint run_cells (cells : list (prog unit)) (s : state) : state * result unit :=
  match cells with
  | [] => (s, Ok tt)
  | c :: rest =>
      match run_cell c s with
      | (s', Ok _) => run_cells rest s'
      | (s', Raise e) => (s', Raise e)
      end
  end.

Definition fresh_kernel : state := mk_state ∅ empty_graph 0 [] [].

(** ** The three ways to the same network, as functions of the inputs

    What the cells "Tensorflow way" and "Keras way" compute from the
    hyperparameters, the input batch and the weights, call by call. *)

(** The graph of the cell "Tensorflow way" and the value [sess.run(y,
    feed_dict={x: x_np})] fetches from it. *)
Definition tensorflow_forward_value (batch_size n_x n_h n_y : nat)
    (x_np W_h_np W_y_np : ndarray) : result ndarray :=
  let (g1, x) := tf_placeholder empty_graph [Some batch_size; Some n_x] in
  '(g2, W_h) ← tf_get_variable g1 "W_h" [n_x; n_h] W_h_np;
  '(g3, W_y) ← tf_get_variable g2 "W_y" [n_h; n_y] W_y_np;
  z ← tf_matmul x W_h;
  y ← tf_matmul (Relu z) W_y;
  σ ← run_init (g_vars g3) (mk_session false ∅);
  feed ← feed_entry (VTensor x) (VArr x_np);
  run_fetch σ y feed.

(** The model of the cell "Keras way" once both kernels are set. *)
Definition keras_model (init : nat -> nat -> Q) (n_x n_h n_y : nat)
    (W_h_np W_y_np : ndarray) : result sequential :=
  let m0 := mk_sequential 0 [] in
  let m1 := model_add (mk_sequential n_x []) n_h true (init 0%nat) in
  let m2 := model_add m1 n_y false (init (length (layers m1))) in
  m3 ← set_weights m2 0 W_h_np;
  set_weights m3 1 W_y_np.

(** [model.predict(x)] on that model. *)
Definition keras_forward_value (init : nat -> nat -> Q) (n_x n_h n_y : nat)
    (x W_h_np W_y_np : ndarray) : result ndarray :=
  m ← keras_model init n_x n_h n_y W_h_np W_y_np;
  model_predict m x.

(** ** The network and its training, as values *)

(** The squared differences the loss averages. *)
Definition squared_errors (y_target y : ndarray) : list Q :=
  map (fun v => v * v) (zip_with Qminus (data y_target) (data y)).

(** The network as a graph: what [y] is bound to in the TensorFlow cells. *)
Definition mlp_graph (id b n_x n_h n_y : nat) : tensor :=
  MatMul (Relu (MatMul (Placeholder id [Some b; Some n_x]) (Var "W_h" [n_x; n_h])))
         (Var "W_y" [n_h; n_y]).

Definition mlp_value (activation : ndarray -> ndarray) (b n_x n_h n_y : nat)
    (x W_h W_y : ndarray) : ndarray :=
  mk_array [b; n_y]
    (matmul_data
       (data (activation (mk_array [b; n_h] (matmul_data (data x) (data W_h) b n_x n_h))))
       (data W_y) b n_h n_y).

(** The loss of the training cell as a graph: [tf.reduce_mean((y_target -
    y)**2)], with [x] the first and [y_target] the second placeholder. *)
Definition loss_graph (b n_x n_h n_y : nat) : tensor :=
  ReduceMean (Square (Sub (Placeholder 1 [None; Some n_y]) (mlp_graph 0 b n_x n_h n_y))).

(** [{x: x_np, y_target: y_target_np}] *)
Definition training_feed (x y_target : ndarray) : gmap nat ndarray :=
  {[ 1%nat := y_target ]} ∪ {[ 0%nat := x ]}.

(** [steps] gradient-descent steps from the parameters [θ]: the losses
    fetched, in order, and the parameters reached. *)
Fixpoint training_run (learning_rate : Q) (loss : tensor) (feed : gmap nat ndarray)
    (steps : nat) (θ : gmap string ndarray)
  : result (list ndarray * gmap string ndarray) :=
  match steps with
  | O => Ok ([], θ)
  | S steps' =>
      l ← eval θ feed loss;
      grads ← backprop θ feed loss (mk_array [] [1]);
      '(ls, θ') ← training_run learning_rate loss feed steps'
                    (apply_gradients learning_rate grads θ);
      Ok (l :: ls, θ')
  end.

(** The gradient of the loss with respect to the output [y], entry by
    entry 2 (y - y_target) / N. *)
Definition output_gradient (y_target y : ndarray) : ndarray :=
  let d := mk_array (shape y_target) (zip_with Qminus (data y_target) (data y)) in
  let n := inject_Z (Z.of_nat (length (data (np_square d)))) in
  scale (-1)
    (hadamard (scale 2 d)
       (mk_array (shape (np_square d)) (map (fun _ => nth 0 [1] 0 / n) (data (np_square d))))).

(** The gradients with respect to [W_y] and [W_h]: h^T . δ and x^T . ((δ .
    W_y^T) where x . W_h is positive). *)
Definition gradient_W_y (b n_h n_y : nat) (h δ : ndarray) : ndarray :=
  mk_array [n_h; n_y] (matmul_data (data (transpose h)) (data δ) n_h b n_y).

Definition gradient_W_h (b n_x n_h n_y : nat) (x z W_y δ : ndarray) : ndarray :=
  let back := mk_array [b; n_h] (matmul_data (data δ) (data (transpose W_y)) b n_y n_h) in
  let masked := mk_array (shape back)
                  (zip_with (fun u v => u * bool_to_Q (gt0 v)) (data back) (data z)) in
  mk_array [n_x; n_h] (matmul_data (data (transpose x)) (data masked) n_x b n_h).

(** The variables of the network, with the shapes the hyperparameters
    dictate. *)
Definition network_parameters (n_x n_h n_y : nat) (θ : gmap string ndarray) : Prop :=
  exists W_h W_y,
    θ !! "W_h" = Some W_h /\ θ !! "W_y" = Some W_y
    /\ shape W_h = [n_x; n_h] /\ wf W_h /\ shape W_y = [n_h; n_y] /\ wf W_y.

(** ** What a run of a cell leaves in its trace *)

(** A call that did not raise; assignments and object changes count too. *)
Definition call_ok (ev : event) : Prop :=
  match ev with Call _ (Some _) => False | _ => True end.

(** What still happens once a piece of a cell has failed: every enclosing
    [with] block calls [__exit__] and leaves its name bound to the session,
    now closed.  Nothing else happens. *)
Inductive exits : list event -> Prop :=
  | exits_nil : exits []
  | exits_with (post : list event) (name : string) (σ : session) :
      exits post -> closed σ = true ->
      exits (post ++ [Call "Session.__exit__" None; Mutate name (VSession σ)]).

(** The bindings a list of events produces. *)
Definition replay (evs : list event) (G : gmap string value) : gmap string value :=
  foldl (fun G ev => match ev with
                     | Assign name v | Mutate name v => <[name := v]> G
                     | Call _ _ => G
                     end) G evs.

Definition names_bound (X : list string) (s : state) : Prop :=
  forall name, In name X -> is_Some (globals s !! name).

(** An exception [e] after the events [pre], followed by [post]: no call of
    [pre] raised and [post] only leaves [with] blocks; either a call raised
    [e], or [e] is the NameError of a name that was not bound at that
    moment. *)
Definition failed (G : gmap string value) (e : exn) (evs : list event) : Prop :=
  exists pre post,
    Forall call_ok pre /\ exits post
    /\ ((exists name, evs = pre ++ Call name (Some e) :: post)
        \/ (exists name, e = NameError name /\ evs = pre ++ post
                         /\ replay pre G !! name = None)).

(** An exception [e] that a call raised. *)
Definition failed_call (e : exn) (evs : list event) : Prop :=
  exists pre name post,
    evs = pre ++ Call name (Some e) :: post /\ Forall call_ok pre /\ exits post.

(** How a run that started in [s] and logged [evs] ended: every change of
    the globals is an event of the trace; a normal end means that no call
    raised; an exception is that of the first call that raised or of a name
    that was not bound, and only the exits of [with] blocks follow it. *)
Definition faithful_run {A} (s s' : state) (r : result A) (evs : list event) : Prop :=
  trace s' = trace s ++ evs
  /\ globals s' = replay evs (globals s)
  /\ match r with
     | Ok _ => Forall call_ok evs
     | Raise e => failed (globals s) e evs
     end.

(** [propagates X m Y]: every run of [m] is faithful; when the names [X] are
    bound, [m] never fails on a name, and the names [Y] are bound when it
    ends normally. *)
Definition propagates {A} (X : list string) (m : prog A) (Y : list string) : Prop :=
  forall s,
    exists evs, faithful_run s (fst (m s)) (snd (m s)) evs
                /\ (names_bound X s ->
                    (forall a, snd (m s) = Ok a -> names_bound Y (fst (m s)))
                    /\ (forall e, snd (m s) = Raise e -> failed_call e evs)).

(** ** Sessions a cell has open *)

(** The name [sess] is bound to a session that is open. *)
Definition holds_open (s : state) : Prop :=
  exists σ, globals s !! "sess" = Some (VSession σ) /\ closed σ = false.

(** [base] sessions were open when the cell started; [mine] tells whether
    the cell now has one more, open and bound to [sess]. *)
Definition session_state (base : nat) (mine : bool) (s : state) : Prop :=
  open_sessions s = (if mine then S base else base)
  /\ (mine = true -> holds_open s).

(** What is known when an exception leaves a piece of a cell: the cell has
    no session open, it has one, or either. *)
Inductive on_raise : Type := NoneOpen | OneOpen | Either.

Definition raise_state (base : nat) (r : on_raise) (s : state) : Prop :=
  match r with
  | NoneOpen => session_state base false s
  | OneOpen => session_state base true s
  | Either => session_state base false s \/ session_state base true s
  end.

Definition join (r r' : on_raise) : on_raise :=
  match r, r' with
  | NoneOpen, NoneOpen => NoneOpen
  | OneOpen, OneOpen => OneOpen
  | _, _ => Either
  end.

Definition of_flag (mine : bool) : on_raise := if mine then OneOpen else NoneOpen.

(** [sessions before m after r]: started with (or without) a session of its
    own, [m] ends normally with (or without) one, and [r] tells what holds
    when it raises. *)
Definition sessions {A} (before : bool) (m : prog A) (after : bool) (r : on_raise) : Prop :=
  forall base s, session_state base before s ->
    match snd (m s) with
    | Ok _ => session_state base after (fst (m s))
    | Raise _ => raise_state base r (fst (m s))
    end.

(** ** Two runs of a cell *)

(** Two states agree on the names [X]. *)
Definition agree_on (X : list string) (s1 s2 : state) : Prop :=
  forall name, In name X -> globals s1 !! name = globals s2 !! name.

(** Two bindings of a name are similar when both are unbound or both are
    bound to values with the same [.shape]. *)
Definition similar (o1 o2 : option value) : Prop :=
  match o1, o2 with
  | Some v1, Some v2 => shape_v v1 = shape_v v2
  | None, None => True
  | _, _ => False
  end.

Definition related (exact : bool) (o1 o2 : option value) : Prop :=
  if exact then o1 = o2 else similar o1 o2.

(** A name is tagged [true] when two runs bind it to equal values, [false]
    when only the shapes of the values are known to be equal. *)
Definition agree_tagged (X : list (string * bool)) (s1 s2 : state) : Prop :=
  forall name exact, In (name, exact) X ->
    related exact (globals s1 !! name) (globals s2 !! name).

Definition exact (X : list string) : list (string * bool) :=
  map (fun name => (name, true)) X.

(** Two runs are alike so far: they agree on the names [X], have shown and
    logged the same, and (when [same_graph]) have the same default graph.
    The number of open sessions is not compared. *)
Definition alike (X : list (string * bool)) (same_graph : bool) (s1 s2 : state) : Prop :=
  agree_tagged X s1 s2
  /\ (same_graph = true -> default_graph s1 = default_graph s2)
  /\ out s1 = out s2
  /\ trace s1 = trace s2.

(** [two_runs X g m Y g']: from states alike on [X], two runs of [m] end the
    same way, with the same value or the same exception, alike on [Y]
    (on [X] when they raise). *)
Definition two_runs {A} (X : list (string * bool)) (g : bool) (m : prog A)
    (Y : list (string * bool)) (g' : bool) : Prop :=
  forall s1 s2, alike X g s1 s2 ->
    match snd (m s1), snd (m s2) with
    | Ok a1, Ok a2 => a1 = a2 /\ alike Y g' (fst (m s1)) (fst (m s2))
    | Raise e1, Raise e2 => e1 = e2 /\ alike X false (fst (m s1)) (fst (m s2))
    | _, _ => False
    end.

(** ** A concrete session *)

(** A world whose draws are small integers. *)
Definition example_world : world :=
  mk_world (fun _ => true)
           (fun k i => inject_Z (Z.of_nat ((k + i) mod 3)) - 1)
           (fun _ => 1)
           (fun _ _ => 1)
           (Ok ((mk_array [2; 2; 2]%nat [0; 51; 102; 153; 204; 255; 0; 255],
                 mk_array [2%nat] [3; 7]),
                (mk_array [1; 2; 2]%nat [255; 0; 0; 255], mk_array [1%nat] [1])))
           (fun _ => Ok tt)
           (fun _ _ => Ok tt)
           (fun _ _ x _ => Ok [Qsum (data x); 0])
           (fun name _ => Ok (VObject name)).

(** The session after the cells "import modules" and "Numpy way". *)
Definition after_numpy : state :=
  fst (run_cells [cell_imports example_world; cell_numpy example_world] fresh_kernel).

(** The user binds a global name between two cells. *)
Definition rebind (name : string) (v : value) (s : state) : state :=
  mk_state (<[name := v]> (globals s)) (default_graph s) (open_sessions s) (out s) (trace s).

Definition constant_array (m n : nat) (c : Q) : ndarray :=
  mk_array [m; n] (replicate (m * n) c).

(** Ten inputs instead of [batch_size] = 5, as when the exercise "Compare
    the two networks outputs" is tried on the TensorFlow cell. *)
Definition ten_inputs : state := rebind "x_np" (VArr (constant_array 10 10 1)) after_numpy.

(** Another [y_np], everything else as the NumPy cell left it. *)
Definition other_y_np : state := rebind "y_np" (VArr (constant_array 5 3 0)) after_numpy.

(** A session with a small dataset loaded, before the recurrent cell. *)
Definition small_dataset (x_test : ndarray) : state :=
  mk_state
    (<["x_train" := VArr (mk_array [2; 2; 2]%nat [0; 1; 0; 1; 1; 0; 1; 0])]>
       (<["y_train" := VArr (mk_array [2%nat] [3; 7])]>
          (<["x_test" := VArr x_test]>
             (<["y_test" := VArr (mk_array [1%nat] [1])]>
                (<["keras" := VModule "keras"]> ∅)))))
    empty_graph 0 [] [].

(** The globals after the forward pass of the TensorFlow cells. *)
Definition after_forward (b n_x n_h n_y : nat) (θ : gmap string ndarray) (y_val : ndarray)
    (G : gmap string value) : gmap string value :=
  <["sess" := VSession (mk_session true θ)]>
    (<["y_val" := VArr y_val]>
       (<["sess" := VSession (mk_session false θ)]>
          (<["sess" := VSession (mk_session false ∅)]>
             (<["y" := VTensor (mlp_graph 0 b n_x n_h n_y)]>
                (<["h" := VTensor (Relu (MatMul (Placeholder 0 [Some b; Some n_x])
                                                (Var "W_h" [n_x; n_h])))]>
                   (<["W_y" := VTensor (Var "W_y" [n_h; n_y])]>
                      (<["W_h" := VTensor (Var "W_h" [n_x; n_h])]>
                         (<["x" := VTensor (Placeholder 0 [Some b; Some n_x])]> G)))))))).

(** The variables of the graph with their initial values. *)
Definition initial_parameters (W_h W_y : ndarray) : gmap string ndarray :=
  <["W_y" := W_y]> (<["W_h" := W_h]> ∅).

(** [runs_to m s P]: from [s], [m] ends normally, with a value and in a
    state that satisfy [P]. *)
Definition runs_to {A} (m : prog A) (s : state) (P : A -> state -> Prop) : Prop :=
  exists s' a, m s = (s', Ok a) /\ P a s'.

(** What the names the training loop reads are bound to while it runs. *)
Definition loop_bindings (b n_x n_h n_y : nat) (x y_target : ndarray)
    (G : gmap string value) (θ : gmap string ndarray)
    (steps losses : list item) : Prop :=
  G !! "sess" = Some (VSession (mk_session false θ))
  /\ G !! "train_op" = Some (VTrainOp (1 # 100) (loss_graph b n_x n_h n_y))
  /\ G !! "loss" = Some (VTensor (loss_graph b n_x n_h n_y))
  /\ G !! "x" = Some (VTensor (Placeholder 0 [Some b; Some n_x]))
  /\ G !! "x_np" = Some (VArr x)
  /\ G !! "y_target" = Some (VTensor (Placeholder 1 [None; Some n_y]))
  /\ G !! "y_target_np" = Some (VArr y_target)
  /\ G !! "steps" = Some (VList steps)
  /\ G !! "losses" = Some (VList losses).

(** The array a name is bound to in a session (the empty array when the name
    is bound to no array). *)
Definition bound_array (name : string) (s : state) : ndarray :=
  match globals s !! name with
  | Some (VArr a) => a
  | _ => mk_array [0%nat] []
  end.

(** The session after "import modules" and "Numpy way", once [keras] has been
    imported (the Keras cell of the notebook does it). *)
Definition before_training : state :=
  rebind "keras" (VModule "keras") after_numpy.


(** ** What a cell writes *)


(** [preserves W m]: however [m] ends, it leaves the binding of every name
    outside [W] as it was. *)
Definition preserves {A} (W : list string) (m : prog A) : Prop :=
  forall s name, ~ In name W -> globals (fst (m s)) !! name = globals s !! name.

(** ** What the cell "Numpy way" binds *)

(** The [k]-th array the run draws, of shape ([m], [n]). *)
Definition drawn (w : world) (k m n : nat) : ndarray :=
  mk_array [m; n] (map (random w k) (seq 0 (m * n))).

(** [x_np = np.random.rand(batch_size, n_x)] *)
Definition numpy_x (w : world) : ndarray := drawn w 0 5 10.

(** [W_h_np = np.random.randn(n_x, n_h) * np.sqrt(2./(n_x + n_h))] *)
Definition numpy_W_h (w : world) : ndarray :=
  scale (np_sqrt w (2 / inject_Z (10 + 100))) (drawn w 1 10 100).

(** [W_y_np = np.random.randn(n_h, n_y) * np.sqrt(2./(n_h + n_y))] *)
Definition numpy_W_y (w : world) : ndarray :=
  scale (np_sqrt w (2 / inject_Z (100 + 3))) (drawn w 2 100 3).

(** [y_target_np = np.random.rand(batch_size, n_y)] *)
Definition numpy_y_target (w : world) : ndarray := drawn w 3 5 3.

(** The kernel Keras draws for layer [k], of shape ([rows], [units]). *)
Definition drawn_kernel (w : world) (k rows units : nat) : ndarray :=
  mk_array [rows; units] (map (keras_init w k) (seq 0 (rows * units))).

(** [raises_to m s e P]: from [s], [m] raises [e], in a state that satisfies
    [P]. *)
Definition raises_to {A} (m : prog A) (s : state) (e : exn) (P : state -> Prop) : Prop :=
  exists s', m s = (s', Raise e) /\ P s'.

(** What the cell "Load MNIST dataset" shows for the training image [img]. *)
Definition shown_image (img : ndarray) : list output := [Figure; Image img; Colorbar].

(** [x / 255.0] *)
Definition scaled_pixels (x : ndarray) : ndarray :=
  mk_array (shape x) (map (fun v => v / 255) (data x)).

(** Image [i] of a stack of [height]-by-[width] images. *)
Definition image_at (a : ndarray) (height width i : nat) : ndarray :=
  mk_array [height; width]
    (take (size_of [height; width]) (drop (i * size_of [height; width]) (data a))).

(** Every entry is zero. *)
Definition all_zero (l : list Q) : Prop := Forall (fun v => v == 0) l.

(** ** The order of the cells *)


(** ** The scatter plots by digit (cell "do SVD on a matrix")

    [for i in range(10): targets = y_test[0:600]==i;
     plt.plot(U[targets,0], U[targets,1], '.')], for the matrix [U] of the
    singular value decomposition and again for the matrix [R] of t-SNE. *)

(** [a[0:k]] on a vector. *)
Definition np_head (a : ndarray) (k : nat) : result ndarray :=
  match shape a with
  | [n] => Ok (mk_array [Nat.min k n] (take k (data a)))
  | _ => Raise NotModelled
  end.

(** [a == i] for an integer [i]: one boolean for each entry of a vector. *)
Definition np_equals (a : ndarray) (i : Z) : list bool :=
  map (fun v => Qeq_bool v (inject_Z i)) (data a).

(** [U[mask, c]]: column [c] of the rows of the matrix [U] that the boolean
    vector [mask] selects, in order.  The mask must have one entry for each
    row, except that NumPy lets a mask without entries through (it selects
    nothing); the column is checked only when a row is selected. *)
Definition np_select (U : ndarray) (mask : list bool) (c : nat) : result ndarray :=
  match shape U with
  | [m; n] =>
      if negb (length mask =? 0)%nat && negb (length mask =? m)%nat then Raise IndexError
      else
        let picked :=
          flat_map (fun p => if fst p : bool then [nth (snd p * n + c) (data U) 0] else [])
                   (combine mask (seq 0 m)) in
        if (length picked =? 0)%nat then Ok (mk_array [0%nat] [])
        else if negb (c <? n)%nat then Raise IndexError
        else Ok (mk_array [length picked] picked)
  | _ => Raise NotModelled
  end.

(** One turn of the loop: the coordinates handed to [plt.plot], which
    refuses coordinate vectors of different lengths. *)
Definition class_points (U y_test : ndarray) (i : nat) : result (ndarray * ndarray) :=
  labels ← np_head y_test 600;
  let targets := np_equals labels (Z.of_nat i) in
  xs ← np_select U targets 0;
  ys ← np_select U targets 1;
  if (length (data xs) =? length (data ys))%nat then Ok (xs, ys) else Raise ValueError.

Fixpoint plot_classes (U y_test : ndarray) (classes : list nat)
  : result (list (ndarray * ndarray)) :=
  match classes with
  | [] => Ok []
  | i :: rest =>
      p ← class_points U y_test i;
      ps ← plot_classes U y_test rest;
      Ok (p :: ps)
  end.

(** [for i in range(10): ...] *)
Definition scatter_by_digit (U y_test : ndarray) : result (list (ndarray * ndarray)) :=
  plot_classes U y_test (seq 0 10).

(** A label that is one of the digits 0 to 9. *)
Definition is_digit (v : Q) : Prop :=
  exists d : nat, (d < 10)%nat /\ v == inject_Z (Z.of_nat d).

(** How many of the labels equal [i]. *)
Definition count_label (labels : list Q) (i : nat) : nat :=
  length (filter (fun v => Qeq_bool v (inject_Z (Z.of_nat i)) = true) labels).

(** What the training loop prints: [print(step, loss_val)] for the steps
    from [i] on, with the losses [ls] fetched. *)
Definition step_lines (i : nat) (ls : list ndarray) : list output :=
  zip_with (fun j l => Printed [VInt (Z.of_nat j); VArr l]) (seq i (length ls)) ls.

(** ** More concrete sessions *)

(** A world like [example_world] whose loader returns three training
    images and one test image. *)
Definition three_images : world :=
  mk_world (importable example_world) (random example_world) (np_sqrt example_world)
    (keras_init example_world)
    (Ok ((mk_array [3; 2; 2]%nat [0; 51; 102; 153; 204; 255; 0; 255; 255; 0; 0; 255],
          mk_array [3%nat] [3; 7; 1]),
         (mk_array [1; 2; 2]%nat [255; 0; 0; 255], mk_array [1%nat] [1])))
    (opaque example_world) (rnn_fit example_world) (rnn_evaluate example_world)
    (library example_world).

(** The session after the cell "import modules". *)
Definition after_imports : state :=
  fst (run_cell (cell_imports example_world) fresh_kernel).

(** [W_h_np] rebound to a matrix of the transposed shape. *)
Definition transposed_weights : state :=
  rebind "W_h_np" (VArr (constant_array 100 10 1)) after_numpy.

(** A network with one input, one hidden unit and one output, all weights 1,
    fed the input 1. *)
Definition unit_matrix : ndarray := constant_array 1 1 1.

(** A matrix with 600 rows and 600 labels, all of them the digit 3. *)
Definition six_hundred_rows : ndarray := constant_array 600 2 0.
Definition six_hundred_threes : ndarray := mk_array [600%nat] (replicate 600 3).

(** ** The other code cells

    The cells that build, train and inspect Keras networks and decompose a
    layer's output.  The layers, models, tensors and functions of Keras and
    the decompositions of NumPy and scikit-learn are not looked into: an
    operation on them yields what the world's [library] says for the name
    of the operation and the values of its operands.  A method that changes
    its object yields the changed object. *)

(** [obj.attr] *)
Definition attribute (w : world) (obj : value) (attr : string) : prog value :=
  call ("." +:+ attr) (library w "getattr" [obj; VStr attr]).

(** [name(args)] *)
Definition library_call (w : world) (name : string) (args : list value) : prog value :=
  call name (library w name args).

Definition item_value (i : item) : value :=
  match i with IInt n => VInt n | IArr a => VArr a end.

(** [a.shape], a tuple. *)
Definition shape_of (w : world) (a : value) : result value :=
  match a with
  | VArr x => Ok (VList (map (fun d => IInt (Z.of_nat d)) (shape x)))
  | _ => library w "getattr" [a; VStr "shape"]
  end.

(** [obj[i]]: arrays, lists and score lists are indexed along their first
    axis by an integer that is not negative; the other subscripts are the
    library's. *)
Definition subscript (w : world) (obj i : value) : result value :=
  match obj, i with
  | VArr a, VInt n =>
      if (n <? 0)%Z then Raise NotModelled
      else y ← np_index a (Z.to_nat n); Ok (VArr y)
  | VList l, VInt n =>
      if (n <? 0)%Z then Raise NotModelled
      else match l !! Z.to_nat n with
           | Some x => Ok (item_value x)
           | None => Raise IndexError
           end
  | VFloats l, VInt n =>
      if (n <? 0)%Z then Raise NotModelled
      else match l !! Z.to_nat n with
           | Some q => Ok (VScalar (Num q))
           | None => Raise IndexError
           end
  | _, _ => library w "getitem" [obj; i]
  end.

(** [a, b = v] and [a, b, c = v]: the [n] items of a list, in order; another
    number of items is a ValueError, a number cannot be unpacked. *)
Definition unpack (n : nat) (v : value) : result (list value) :=
  match v with
  | VList l => if (length l =? n)%nat then Ok (map item_value l) else Raise ValueError
  | VFloats l =>
      if (length l =? n)%nat then Ok (map (fun q => VScalar (Num q)) l) else Raise ValueError
  | VNone | VInt _ | VScalar _ => Raise TypeError
  | _ => Raise NotModelled
  end.

(** [a[..., np.newaxis]]: one more axis, of length 1, at the end. *)
Definition new_axis (a : value) : result value :=
  x ← as_array a; Ok (VArr (mk_array (shape x ++ [1%nat]) (data x))).

(** [np.random.rand(d0, d1, d2)]: the [k]-th draw of the run. *)
Definition np_random_3 (w : world) (k d0 d1 d2 : nat) : result value :=
  Ok (VArr (mk_array [d0; d1; d2] (map (random w k) (seq 0 (d0 * d1 * d2))))).

(** [model.add(Layer(arguments))] for the layer class the name [cls] is
    bound to. *)
Definition add_layer (w : world) (cls module arguments : string) : prog unit :=
  model ← lookup_name "model"; attribute w model "add";;
  from_module cls module;;
  layer ← library_call w cls [VStr arguments];
  m ← library_call w "Sequential.add" [model; layer];
  mutate "model" m.

(** [model.compile(optimizer='adam', loss='sparse_categorical_crossentropy',
    metrics=['accuracy'])] and [model.summary()] *)
Definition compile_and_summarize (w : world) : prog unit :=
  model ← lookup_name "model"; attribute w model "compile";;
  m ← library_call w "Model.compile"
        [model; VStr "adam"; VStr "sparse_categorical_crossentropy"; VStr "accuracy"];
  mutate "model" m;;
  model ← lookup_name "model"; attribute w model "summary";;
  library_call w "Model.summary" [model];;
  emit (Summary model).

(** The cell "Create network and train on MNIST". *)
Definition cell_dense_network (w : world) : prog unit :=
  (* from keras.layers import Dense, Flatten, Conv2D, Dropout *)
  import_as (importable w) "keras.layers.Dense" "Dense";;
  import_as (importable w) "keras.layers.Flatten" "Flatten";;
  import_as (importable w) "keras.layers.Conv2D" "Conv2D";;
  import_as (importable w) "keras.layers.Dropout" "Dropout";;
  (* model = Sequential() *)
  from_module "Sequential" "keras.models.Sequential";;
  m ← call "Sequential" (Ok (VModel (mk_sequential 0 [])));
  assign "model" m;;
  (* model.add(Flatten(input_shape=(28,28))) *)
  add_layer w "Flatten" "keras.layers.Flatten" "input_shape=(28,28)";;
  (* model.add(Dense(500, activation='relu')) *)
  add_layer w "Dense" "keras.layers.Dense" "500, activation='relu'";;
  (* model.add(Dense(10, activation='softmax')) *)
  add_layer w "Dense" "keras.layers.Dense" "10, activation='softmax'";;
  compile_and_summarize w;;
  (* model.fit(x_train, y_train, epochs=5, batch_size = 32) *)
  model ← lookup_name "model"; attribute w model "fit";;
  x_train ← lookup_name "x_train"; y_train ← lookup_name "y_train";
  m ← library_call w "Model.fit" [model; x_train; y_train; VStr "epochs=5, batch_size=32"];
  mutate "model" m;;
  (* score = model.evaluate(x_test, y_test) *)
  model ← lookup_name "model"; attribute w model "evaluate";;
  x_test ← lookup_name "x_test"; y_test ← lookup_name "y_test";
  score ← library_call w "Model.evaluate" [model; x_test; y_test];
  assign "score" score;;
  (* print('Test loss:', score[0]) *)
  score ← lookup_name "score";
  l ← call "score[0]" (subscript w score (VInt 0));
  emit (Printed [VStr "Test loss:"; l]);;
  (* print('Test accuracy:', score[1]) *)
  score ← lookup_name "score";
  a ← call "score[1]" (subscript w score (VInt 1));
  emit (Printed [VStr "Test accuracy:"; a]).

(** The cell "get output of a layer 'layer_nb' for an input". *)
Definition cell_layer_output (w : world) : prog unit :=
  (* from keras import backend as K *)
  import_as (importable w) "keras.backend" "K";;
  (* layer_nb = 1 *)
  assign "layer_nb" (VInt 1);;
  (* inp = model.input *)
  model ← lookup_name "model"; inp ← attribute w model "input";
  assign "inp" inp;;
  (* out = model.layers[layer_nb].output *)
  model ← lookup_name "model"; layers ← attribute w model "layers";
  layer_nb ← lookup_name "layer_nb";
  layer ← call "layers[layer_nb]" (subscript w layers layer_nb);
  o ← attribute w layer "output";
  assign "out" o;;
  (* func = K.function([inp], [out]) *)
  from_module "K" "keras.backend";;
  inp ← lookup_name "inp"; o ← lookup_name "out";
  func ← library_call w "K.function" [inp; o];
  assign "func" func;;
  (* output = func([np.random.rand(600,28,28)])[0] *)
  func ← lookup_name "func";
  from_module "np" "numpy";;
  x ← call "np.random.rand" (np_random_3 w 4 600 28 28);
  r ← library_call w "__call__" [func; x];
  output ← call "func(...)[0]" (subscript w r (VInt 0));
  assign "output" output;;
  (* print('Output shape:', output.shape) *)
  output ← lookup_name "output";
  shp ← call "output.shape" (shape_of w output);
  emit (Printed [VStr "Output shape:"; shp]).

(** [y[0:600]==i] *)
Definition digit_mask (y i : value) : result value :=
  a ← as_array y;
  n ← match i with VInt n => Ok n | _ => Raise NotModelled end;
  labels ← np_head a 600;
  Ok (VMask (np_equals labels n)).

(** [U[targets, c]] *)
Definition select_v (U targets : value) (c : nat) : result value :=
  u ← as_array U;
  match targets with
  | VMask mask => r ← np_select u mask c; Ok (VArr r)
  | _ => Raise NotModelled
  end.

(** [plt.plot(xs, ys, '.')]: both must have the same number of entries. *)
Definition plot_points (xs ys : value) : result output :=
  a ← as_array xs; b ← as_array ys;
  if (length (data a) =? length (data b))%nat then Ok (Points a b) else Raise ValueError.

(** The body of [for i in range(10)] for the matrix bound to [matrix]. *)
Definition scatter_class (matrix : string) : prog unit :=
  (* targets = y_test[0:600]==i *)
  y_test ← lookup_name "y_test"; i ← lookup_name "i";
  targets ← call "y_test[0:600]==i" (digit_mask y_test i);
  assign "targets" targets;;
  (* plt.plot(U[targets,0], U[targets,1], '.') *)
  from_module "plt" "matplotlib.pyplot";;
  U ← lookup_name matrix; targets ← lookup_name "targets";
  xs ← call "U[targets,0]" (select_v U targets 0);
  U ← lookup_name matrix; targets ← lookup_name "targets";
  ys ← call "U[targets,1]" (select_v U targets 1);
  o ← call "plt.plot" (plot_points xs ys);
  emit o.

(** The cell "do SVD on a matrix". *)
Definition cell_decompositions (w : world) : prog unit :=
  (* U,S,V = np.linalg.svd(output) *)
  from_module "np" "numpy";;
  output ← lookup_name "output";
  r ← library_call w "np.linalg.svd" [output];
  usv ← call "U,S,V = ..." (unpack 3 r);
  assign "U" (nth 0 usv VNone);;
  assign "S" (nth 1 usv VNone);;
  assign "V" (nth 2 usv VNone);;
  (* print('U shape:', U.shape), and so for S and V *)
  U ← lookup_name "U"; shp ← call "U.shape" (shape_of w U);
  emit (Printed [VStr "U shape:"; shp]);;
  S ← lookup_name "S"; shp ← call "S.shape" (shape_of w S);
  emit (Printed [VStr "S shape:"; shp]);;
  V ← lookup_name "V"; shp ← call "V.shape" (shape_of w V);
  emit (Printed [VStr "V shape:"; shp]);;
  (* plt.figure(figsize = (5,5)) *)
  from_module "plt" "matplotlib.pyplot";;
  call "plt.figure" (opaque w "plt.figure");;
  emit Figure;;
  for_range "i" 10 (scatter_class "U");;
  (* from sklearn.manifold import TSNE *)
  import_as (importable w) "sklearn.manifold.TSNE" "TSNE";;
  (* tsne = TSNE(n_components=2, perplexity=30.0) *)
  from_module "TSNE" "sklearn.manifold.TSNE";;
  tsne ← library_call w "TSNE" [VStr "n_components=2, perplexity=30.0"];
  assign "tsne" tsne;;
  (* R = tsne.fit_transform(output): the fitted object keeps the embedding *)
  tsne ← lookup_name "tsne"; attribute w tsne "fit_transform";;
  output ← lookup_name "output";
  fitted ← library_call w "TSNE.fit" [tsne; output];
  mutate "tsne" fitted;;
  R ← attribute w fitted "embedding_";
  assign "R" R;;
  (* R.shape *)
  R ← lookup_name "R"; call "R.shape" (shape_of w R);;
  (* plt.figure(figsize = (5,5)) *)
  from_module "plt" "matplotlib.pyplot";;
  call "plt.figure" (opaque w "plt.figure");;
  emit Figure;;
  for_range "i" 10 (scatter_class "R").

(** The cell "get weights and biases of a layer 'layer_nb'". *)
Definition cell_weights (w : world) : prog unit :=
  (* W,b = model.layers[layer_nb].get_weights() *)
  model ← lookup_name "model"; layers ← attribute w model "layers";
  layer_nb ← lookup_name "layer_nb";
  layer ← call "layers[layer_nb]" (subscript w layers layer_nb);
  attribute w layer "get_weights";;
  ws ← library_call w "Layer.get_weights" [layer];
  wb ← call "W,b = ..." (unpack 2 ws);
  assign "W" (nth 0 wb VNone);;
  assign "b" (nth 1 wb VNone);;
  (* print('Weights shape:', W.shape, "biases shape", b.shape) *)
  W ← lookup_name "W"; sw ← call "W.shape" (shape_of w W);
  b ← lookup_name "b"; sb ← call "b.shape" (shape_of w b);
  emit (Printed [VStr "Weights shape:"; sw; VStr "biases shape"; sb]).

(** The cell [model.layers[1].output.shape]: the value of its only
    expression is shown. *)
Definition cell_output_shape (w : world) : prog unit :=
  model ← lookup_name "model"; layers ← attribute w model "layers";
  layer ← call "layers[1]" (subscript w layers (VInt 1));
  o ← attribute w layer "output";
  shp ← call "output.shape" (shape_of w o);
  emit (Printed [shp]).

(** The cell of the convolutional network. *)
Definition cell_conv_network (w : world) : prog unit :=
  (* from keras.layers import Dense, Flatten, Conv2D, Dropout, MaxPooling2D *)
  import_as (importable w) "keras.layers.Dense" "Dense";;
  import_as (importable w) "keras.layers.Flatten" "Flatten";;
  import_as (importable w) "keras.layers.Conv2D" "Conv2D";;
  import_as (importable w) "keras.layers.Dropout" "Dropout";;
  import_as (importable w) "keras.layers.MaxPooling2D" "MaxPooling2D";;
  (* model = Sequential() *)
  from_module "Sequential" "keras.models.Sequential";;
  m ← call "Sequential" (Ok (VModel (mk_sequential 0 [])));
  assign "model" m;;
  add_layer w "Conv2D" "keras.layers.Conv2D"
    "32, input_shape = (28,28,1), kernel_size=(3, 3), activation='relu'";;
  add_layer w "Conv2D" "keras.layers.Conv2D" "64, (3, 3), activation='relu'";;
  add_layer w "MaxPooling2D" "keras.layers.MaxPooling2D" "pool_size=(2, 2)";;
  add_layer w "Dropout" "keras.layers.Dropout" "0.25";;
  add_layer w "Flatten" "keras.layers.Flatten" "";;
  add_layer w "Dense" "keras.layers.Dense" "128, activation='relu'";;
  add_layer w "Dropout" "keras.layers.Dropout" "0.5";;
  add_layer w "Dense" "keras.layers.Dense" "10, activation='softmax'";;
  compile_and_summarize w;;
  (* model.fit(x_train[..., np.newaxis], y_train, epochs=5) *)
  model ← lookup_name "model"; attribute w model "fit";;
  x_train ← lookup_name "x_train";
  from_module "np" "numpy";;
  x ← call "x_train[..., np.newaxis]" (new_axis x_train);
  y_train ← lookup_name "y_train";
  m ← library_call w "Model.fit" [model; x; y_train; VStr "epochs=5"];
  mutate "model" m;;
  (* model.evaluate(x_test[..., np.newaxis], y_test): its value is shown *)
  model ← lookup_name "model"; attribute w model "evaluate";;
  x_test ← lookup_name "x_test";
  from_module "np" "numpy";;
  x ← call "x_test[..., np.newaxis]" (new_axis x_test);
  y_test ← lookup_name "y_test";
  score ← library_call w "Model.evaluate" [model; x; y_test];
  emit (Printed [score]).

(** The cell "the loss is here the output of a neuron". *)
Definition cell_input_gradient (w : world) : prog unit :=
  (* loss = model.layers[2].output[:,4] *)
  model ← lookup_name "model"; layers ← attribute w model "layers";
  layer ← call "layers[2]" (subscript w layers (VInt 2));
  o ← attribute w layer "output";
  loss ← call "output[:,4]" (subscript w o (VStr ":,4"));
  assign "loss" loss;;
  (* input_img = model.input *)
  model ← lookup_name "model"; inp ← attribute w model "input";
  assign "input_img" inp;;
  (* grads = K.gradients(loss, input_img)[0] *)
  from_module "K" "keras.backend";;
  loss ← lookup_name "loss"; input_img ← lookup_name "input_img";
  gs ← library_call w "K.gradients" [loss; input_img];
  g ← call "K.gradients(...)[0]" (subscript w gs (VInt 0));
  assign "grads" g;;
  (* iterate = K.function([input_img], [loss, grads]) *)
  from_module "K" "keras.backend";;
  input_img ← lookup_name "input_img";
  loss ← lookup_name "loss"; grads ← lookup_name "grads";
  f ← library_call w "K.function" [input_img; loss; grads];
  assign "iterate" f;;
  (* input_img_data = np.zeros((1,28,28)) *)
  from_module "np" "numpy";;
  z ← call "np.zeros" (Ok (VArr (mk_array [1; 28; 28]%nat (replicate (1 * 28 * 28) 0))));
  assign "input_img_data" z;;
  (* loss_value, grads_value = iterate([input_img_data]) *)
  iterate ← lookup_name "iterate"; input_img_data ← lookup_name "input_img_data";
  r ← library_call w "__call__" [iterate; input_img_data];
  lg ← call "loss_value, grads_value = ..." (unpack 2 r);
  assign "loss_value" (nth 0 lg VNone);;
  assign "grads_value" (nth 1 lg VNone);;
  (* plt.figure() *)
  from_module "plt" "matplotlib.pyplot";;
  call "plt.figure" (opaque w "plt.figure");;
  emit Figure;;
  (* plt.imshow(grads_value[0]) *)
  from_module "plt" "matplotlib.pyplot";;
  grads_value ← lookup_name "grads_value";
  img ← call "grads_value[0]" (subscript w grads_value (VInt 0));
  o ← call "plt.imshow" (imshow_v img);
  emit o.

(** ** The notebook: every code cell that holds a statement, in document
    order

    The cells without a statement (empty, or a comment only) do nothing. *)
Definition code_cells (w : world) : list (prog unit) :=
  [ cell_imports w; cell_numpy w; cell_tensorflow; cell_keras w; cell_mnist w;
    cell_dense_network w; cell_layer_output w; cell_decompositions w; cell_weights w;
    cell_output_shape w; cell_training; cell_conv_network w; cell_rnn w;
    cell_input_gradient w ].

(** The global names each cell of [code_cells] reads before it binds them. *)
Definition code_cell_reads : list (list string) :=
  [ [];
    ["np"];
    ["tf"; "plt"; "batch_size"; "n_x"; "n_h"; "n_y"; "W_h_np"; "W_y_np"; "x_np"; "y_np"];
    ["n_x"; "n_h"; "n_y"; "W_h_np"; "W_y_np"];
    ["plt"];
    ["Sequential"; "x_train"; "y_train"; "x_test"; "y_test"];
    ["model"; "np"];
    ["np"; "output"; "plt"; "y_test"];
    ["model"; "layer_nb"];
    ["model"];
    ["tf"; "plt"; "keras"; "batch_size"; "n_x"; "n_h"; "n_y"; "W_h_np"; "W_y_np";
     "x_np"; "y_np"; "y_target_np"; "loss_np"];
    ["Sequential"; "x_train"; "np"; "y_train"; "x_test"; "y_test"];
    ["x_train"; "x_test"; "y_train"; "y_test"; "keras"];
    ["model"; "K"; "np"; "plt"] ].

(** ** More worlds and sessions *)

(** A world like [example_world] whose generator yields zeros. *)
Definition other_draws : world :=
  mk_world (importable example_world) (fun _ _ => 0) (np_sqrt example_world)
    (keras_init example_world) (mnist_load_data example_world)
    (opaque example_world) (rnn_fit example_world) (rnn_evaluate example_world)
    (library example_world).

(** Targets with four columns instead of [n_y] = 3, everything else as the
    training cell expects it. *)
Definition four_targets : state :=
  rebind "y_target_np" (VArr (constant_array 5 4 0)) before_training.

(** ** Printed lines and figures

    What a cell prints appears where it is printed; with the inline backend
    of the import cell ([%matplotlib inline]) the figures a cell draws are
    shown when the cell ends, below the printed lines. *)
Definition shows_text (o : output) : bool :=
  match o with Printed _ | Summary _ => true | _ => false end.

Definition printed (os : list output) : list output := List.filter shows_text os.

Definition figures (os : list output) : list output :=
  List.filter (fun o => negb (shows_text o)) os.

(** The scalar product of two arrays of the same shape: the sum of the
    products of their entries. *)
Definition inner (a b : ndarray) : Q := Qsum (zip_with Qmult (data a) (data b)).

(** * Properties *)

(** ** Arithmetic helpers *)

Lemma relu_entry (v : Q) : v * bool_to_Q (gt0 v) == Qmax v 0.
Proof.
  unfold gt0. destruct (Qle_bool v 0) eqn:E; simpl.
  - apply Qle_bool_iff in E. rewrite (Q.max_r _ _ E). ring.
  - assert (H : 0 <= v).
    { apply Qnot_lt_le. intros H. apply Qlt_le_weak in H.
      apply Qle_bool_iff in H. congruence. }
    rewrite (Q.max_l _ _ H). ring.
Qed.

Lemma Forall2_map_same {A B} (R : B -> B -> Prop) (f g : A -> B) (l : list A) :
  (forall a, R (f a) (g a)) -> Forall2 R (map f l) (map g l).
Proof. intros H. induction l; simpl; constructor; auto. Qed.

(** C2: the hand-written [relu] keeps the shape, yields max(entry, 0) at
    every entry, and agrees entrywise with the library's [tf.nn.relu]. *)
Theorem relu_is_rectifier (x : ndarray) :
  shape (relu x) = shape x
  /\ Forall2 (fun out v => out == Qmax v 0) (data (relu x)) (data x)
  /\ array_eq (relu x) (tf_nn_relu x).
Proof.
  split; [reflexivity|]. split.
  - unfold relu; simpl. induction (data x); simpl; constructor; auto using relu_entry.
  - split; [reflexivity|]. simpl. apply Forall2_map_same. apply relu_entry.
Qed.

(** ** The mean squared error *)

Lemma Qsquare_nonneg (v : Q) : 0 <= v * v.
Proof. unfold Qle; simpl. rewrite Z.mul_1_r. apply Z.square_nonneg. Qed.

Lemma Qsum_squares_nonneg (l : list Q) : 0 <= Qsum (map (fun v => v * v) l).
Proof.
  induction l as [|v l IH]; simpl; [apply Qle_refl|].
  pose proof (Qsquare_nonneg v).
  replace 0 with (0 + 0) by reflexivity. apply Qplus_le_compat; assumption.
Qed.

Lemma Qsquare_zero (v : Q) : v * v == 0 -> v == 0.
Proof. intros H. apply Qmult_integral in H. tauto. Qed.

Lemma Qsum_squares_zero (l : list Q) :
  Qsum (map (fun v => v * v) l) == 0 <-> Forall (fun v => v == 0) l.
Proof.
  induction l as [|v l IH]; simpl.
  - split; [constructor | reflexivity].
  - pose proof (Qsum_squares_nonneg l) as Hl.
    pose proof (Qsquare_nonneg v) as Hv.
    split.
    + intros H.
      assert (Hv0 : v * v == 0).
      { apply Qle_antisym; [|exact Hv].
        rewrite <- H. rewrite <- (Qplus_0_r (v * v)) at 1.
        apply Qplus_le_compat; [apply Qle_refl | exact Hl]. }
      constructor; [apply Qsquare_zero; exact Hv0|].
      apply IH. rewrite Hv0 in H. rewrite Qplus_0_l in H. exact H.
    + intros H. inversion H as [|? ? H1 H2]; subst.
      apply IH in H2. rewrite H2, H1. ring.
Qed.

Lemma zip_minus_zero (a b : list Q) :
  length a = length b ->
  Forall (fun v => v == 0) (zip_with Qminus a b) <-> Forall2 Qeq a b.
Proof.
  revert b. induction a as [|x a IH]; intros [|y b] Hlen; simpl in *; try discriminate.
  - split; constructor.
  - injection Hlen as Hlen. rewrite Forall_cons, Forall2_cons, (IH b Hlen).
    assert (E : x - y == 0 <-> x == y); [|tauto].
    split; intros H.
    + assert (E : x == (x - y) + y) by ring. rewrite E, H. ring.
    + rewrite H. ring.
Qed.

Lemma Qdiv_pos_nonneg (s n : Q) : 0 <= s -> 0 < n -> 0 <= s / n.
Proof.
  intros Hs Hn. apply Qle_shift_div_l; [exact Hn|]. rewrite Qmult_0_l. exact Hs.
Qed.

Lemma Qdiv_pos_zero (s n : Q) : 0 < n -> (s / n == 0 <-> s == 0).
Proof.
  intros Hn. assert (Hn' : ~ n == 0) by (intros E; rewrite E in Hn; discriminate).
  split; intros H.
  - rewrite <- (Qmult_div_r s n Hn'). rewrite H. ring.
  - rewrite H. unfold Qdiv. ring.
Qed.

Lemma count_pos (n : nat) : (0 < n)%nat -> 0 < inject_Z (Z.of_nat n).
Proof.
  intros H. replace 0 with (inject_Z 0) by reflexivity.
  rewrite <- Zlt_Qlt. lia.
Qed.

Lemma length_squared_errors (y_target y : ndarray) :
  wf y_target -> wf y -> shape y_target = shape y ->
  length (squared_errors y_target y) = size_of (shape y).
Proof.
  unfold wf, squared_errors. intros Ht Hy Hs.
  rewrite length_map, length_zip_with. rewrite Ht, Hy, Hs. lia.
Qed.

Lemma numpy_loss_value (y_target y : ndarray) :
  wf y_target -> wf y -> shape y_target = shape y -> (0 < size_of (shape y))%nat ->
  numpy_loss y_target y
  = Ok (Num (Qsum (squared_errors y_target y)
             / inject_Z (Z.of_nat (length (squared_errors y_target y))))).
Proof.
  intros Ht Hy Hs Hpos.
  pose proof (length_squared_errors _ _ Ht Hy Hs) as Hlen.
  unfold numpy_loss, np_sub, shape_eqb.
  rewrite bool_decide_eq_true_2 by exact Hs. simpl.
  unfold np_mean; simpl. fold (squared_errors y_target y).
  destruct (squared_errors y_target y) eqn:E; [|reflexivity].
  simpl in Hlen. lia.
Qed.

(** C9, as the code has it: the mean squared error of a prediction and a
    target of one shape with at least one entry is a number, it is
    non-negative, and it is zero exactly when prediction and target agree at
    every entry. *)
Theorem loss_nonneg_zero_iff_equal (y_target y : ndarray) :
  wf y_target -> wf y -> shape y_target = shape y -> (0 < size_of (shape y))%nat ->
  exists loss : Q,
    numpy_loss y_target y = Ok (Num loss)
    /\ 0 <= loss
    /\ (loss == 0 <-> array_eq y y_target).
Proof.
  intros Ht Hy Hs Hpos.
  pose proof (length_squared_errors _ _ Ht Hy Hs) as Hlen.
  assert (Hn : 0 < inject_Z (Z.of_nat (length (squared_errors y_target y))))
    by (apply count_pos; lia).
  eexists. split; [apply numpy_loss_value; assumption|]. split.
  - apply Qdiv_pos_nonneg; [apply Qsum_squares_nonneg | exact Hn].
  - rewrite (Qdiv_pos_zero _ _ Hn). unfold squared_errors.
    rewrite Qsum_squares_zero.
    assert (Hl : length (data y_target) = length (data y))
      by (unfold wf in *; congruence).
    rewrite (zip_minus_zero _ _ Hl). unfold array_eq.
    split.
    + intros H. split; [congruence|]. apply Forall2_flip.
      eapply Forall2_impl; [exact H|]. intros; symmetry; assumption.
    + intros [_ H]. apply Forall2_flip.
      eapply Forall2_impl; [exact H|]. intros; symmetry; assumption.
Qed.

(** ** The normalisation of the images *)

Lemma pixel_scaled (v : Q) : raw_pixel v -> unit_interval (v / 255).
Proof.
  intros [H0 H1]. split.
  - apply Qdiv_pos_nonneg; [exact H0 | reflexivity].
  - apply Qle_shift_div_r; [reflexivity|]. rewrite Qmult_1_l. exact H1.
Qed.

Lemma div_255_range (a : ndarray) :
  Forall raw_pixel (data a) ->
  exists a', np_div_scalar a 255 = Ok a'
             /\ shape a' = shape a
             /\ Forall unit_interval (data a').
Proof.
  intros H. eexists. split; [reflexivity|]. split; [reflexivity|]. simpl.
  apply Forall_map. eapply Forall_impl; [exact H|]. apply pixel_scaled.
Qed.

(** C10: when every raw pixel of [x_train] and [x_test] lies in [0, 255],
    the normalisation succeeds, keeps both shapes and leaves every entry of
    both arrays in [0, 1]. *)
Theorem normalize_unit_interval (x_train x_test : ndarray) :
  Forall raw_pixel (data x_train) -> Forall raw_pixel (data x_test) ->
  exists x_train' x_test',
    normalize x_train x_test = Ok (x_train', x_test')
    /\ shape x_train' = shape x_train /\ shape x_test' = shape x_test
    /\ Forall unit_interval (data x_train')
    /\ Forall unit_interval (data x_test').
Proof.
  intros Htr Hte.
  destruct (div_255_range _ Htr) as (a & Ea & Sa & Fa).
  destruct (div_255_range _ Hte) as (b & Eb & Sb & Fb).
  exists a, b. unfold normalize, mbind, result_bind, rbind. rewrite Ea, Eb. auto.
Qed.

(** ** Running a cell step by step *)

Lemma pbind_ok {A B} (m : prog A) (k : A -> prog B) (s s1 : state) (a : A) :
  m s = (s1, Ok a) -> (m ≫= k) s = k a s1.
Proof. intros H. unfold mbind, prog_bind, pbind. rewrite H. reflexivity. Qed.

Lemma pbind_raise {A B} (m : prog A) (k : A -> prog B) (s s1 : state) (e : exn) :
  m s = (s1, Raise e) -> (m ≫= k) s = (s1, Raise e).
Proof. intros H. unfold mbind, prog_bind, pbind. rewrite H. reflexivity. Qed.

Lemma exec_lookup G g n o t (name : string) (v : value) :
  G !! name = Some v ->
  lookup_name name (mk_state G g n o t) = (mk_state G g n o t, Ok v).
Proof. intros H. unfold lookup_name; simpl. rewrite H. reflexivity. Qed.

Lemma exec_call {A} G g n o t (name : string) (r : result A) (a : A) :
  r = Ok a ->
  call name r (mk_state G g n o t) = (mk_state G g n o (t ++ [Call name None]), Ok a).
Proof. intros ->. reflexivity. Qed.

Lemma exec_call_graph {A} G g n o t (name : string) (f : graph -> result (graph * A)) g' a :
  f g = Ok (g', a) ->
  call_graph name f (mk_state G g n o t)
  = (mk_state G g' n o (t ++ [Call name None]), Ok a).
Proof. intros H. unfold call_graph; simpl. rewrite H. reflexivity. Qed.

Lemma exec_from_module G g n o t (alias name : string) :
  G !! alias = Some (VModule name) ->
  from_module alias name (mk_state G g n o t)
  = (mk_state G g n o (t ++ [Call alias None]), Ok tt).
Proof.
  intros H. unfold from_module.
  rewrite (pbind_ok _ _ _ _ _ (exec_lookup _ _ _ _ _ _ _ H)).
  apply exec_call. rewrite bool_decide_eq_true_2; reflexivity.
Qed.

Lemma lookup_hit (G : gmap string value) (name : string) (v : value) :
  <[name := v]> G !! name = Some v.
Proof. apply lookup_insert_eq. Qed.

Lemma lookup_skip (G : gmap string value) (name name' : string) (v : value) (r : option value) :
  name' <> name -> G !! name = r -> <[name' := v]> G !! name = r.
Proof. intros H <-. apply lookup_insert_ne. exact H. Qed.

Ltac find_binding :=
  first [ apply lookup_hit
        | apply lookup_skip; [discriminate | find_binding]
        | eassumption ].

Lemma exec_assign G g n o t (name : string) (v : value) :
  assign name v (mk_state G g n o t)
  = (mk_state (<[name := v]> G) g n o (t ++ [Assign name v]), Ok tt).
Proof. reflexivity. Qed.

Lemma exec_mutate G g n o t (name : string) (v : value) :
  mutate name v (mk_state G g n o t)
  = (mk_state (<[name := v]> G) g n o (t ++ [Mutate name v]), Ok tt).
Proof. reflexivity. Qed.

Lemma exec_emit G g n o t (x : output) :
  emit x (mk_state G g n o t) = (mk_state G g n (o ++ [x]) t, Ok tt).
Proof. reflexivity. Qed.

Lemma exec_session_open G g n o t :
  session_open (mk_state G g n o t)
  = (mk_state G g (S n) o (t ++ [Call "tf.Session" None]), Ok (mk_session false ∅)).
Proof. reflexivity. Qed.

Lemma exec_session_close G g n o t (name : string) (σ : session) :
  session_close name σ (mk_state G g n o t)
  = (mk_state G g (if closed σ then n else pred n) o (t ++ [Call name None]),
     Ok (mk_session true (vals σ))).
Proof. reflexivity. Qed.

Lemma exec_import_as G g n o t (ok : string -> bool) (name alias : string) :
  ok name = true ->
  import_as ok name alias (mk_state G g n o t)
  = (mk_state (<[alias := VModule name]> G) g n o
       ((t ++ [Call ("import " +:+ name) None]) ++ [Assign alias (VModule name)]),
     Ok tt).
Proof. intros H. unfold import_as, mbind, prog_bind, pbind, call. rewrite H. reflexivity. Qed.

(** [facts] rewrites with what is known about the results of calls. *)
Ltac exec_prim_with facts :=
  first [ apply exec_lookup; find_binding
        | apply exec_from_module; find_binding
        | apply exec_assign
        | apply exec_mutate
        | apply exec_emit
        | apply exec_session_open
        | apply exec_session_close
        | apply exec_import_as; solve [ facts; reflexivity ]
        | apply exec_call; first [ reflexivity | solve [ facts; reflexivity ] ]
        | apply exec_call_graph; first [ reflexivity | solve [ facts; reflexivity ] ] ].

Ltac exec_step_with facts :=
  erewrite pbind_ok; [| exec_prim_with facts ].

Ltac exec_prim := exec_prim_with idtac.
Ltac exec_step := exec_step_with idtac.

Lemma np_dot_shape (a b : ndarray) (m n p : nat) :
  shape a = [m; n] -> shape b = [n; p] ->
  np_dot a b = Ok (mk_array [m; p] (matmul_data (data a) (data b) m n p)).
Proof.
  intros Ha Hb. unfold np_dot, matmul_with. rewrite Ha, Hb, Nat.eqb_refl. reflexivity.
Qed.


(** ** Matrix products *)

Lemma length_matmul_data (da db : list Q) (m n p : nat) :
  length (matmul_data da db m n p) = (m * p)%nat.
Proof.
  unfold matmul_data. generalize 0%nat at 2 as start.
  induction m as [|m IH]; intros start; simpl; [reflexivity|].
  rewrite length_app, length_map, length_seq, IH. reflexivity.
Qed.

Lemma size_of_matrix (m n : nat) : size_of [m; n] = (m * n)%nat.
Proof. unfold size_of; simpl. lia. Qed.

Lemma matmul_with_shape (err : exn) (a b : ndarray) (m n p : nat) :
  shape a = [m; n] -> shape b = [n; p] ->
  matmul_with err a b = Ok (mk_array [m; p] (matmul_data (data a) (data b) m n p)).
Proof.
  intros Ha Hb. unfold matmul_with. rewrite Ha, Hb, Nat.eqb_refl. reflexivity.
Qed.

Lemma wf_matmul (da db : list Q) (m n p : nat) :
  wf (mk_array [m; p] (matmul_data da db m n p)).
Proof. unfold wf, size_of; simpl. rewrite length_matmul_data. lia. Qed.

Lemma nth_Qeq (l l' : list Q) (i : nat) :
  Forall2 Qeq l l' -> nth i l 0 == nth i l' 0.
Proof.
  intros H. revert i. induction H as [|x y l l' Hxy _ IH]; intros [|i]; simpl;
    try reflexivity; auto.
Qed.

Lemma Qsum_Qeq (l l' : list Q) : Forall2 Qeq l l' -> Qsum l == Qsum l'.
Proof.
  induction 1 as [|x y l l' Hxy _ IH]; simpl; [reflexivity|].
  rewrite Hxy, IH. reflexivity.
Qed.

Lemma dot_entry_Qeq (da da' db db' : list Q) (n p i j : nat) :
  Forall2 Qeq da da' -> Forall2 Qeq db db' ->
  dot_entry da db n p i j == dot_entry da' db' n p i j.
Proof.
  intros Ha Hb. unfold dot_entry. apply Qsum_Qeq.
  induction (seq 0 n) as [|k l IH]; simpl; constructor; [|exact IH].
  rewrite (nth_Qeq _ _ _ Ha), (nth_Qeq _ _ _ Hb). reflexivity.
Qed.

Lemma matmul_data_Qeq (da da' db db' : list Q) (m n p : nat) :
  Forall2 Qeq da da' -> Forall2 Qeq db db' ->
  Forall2 Qeq (matmul_data da db m n p) (matmul_data da' db' m n p).
Proof.
  intros Ha Hb. unfold matmul_data.
  generalize (seq 0 p) as cols. intros cols.
  induction (seq 0 m) as [|i l IH]; simpl; [constructor|].
  apply Forall2_app; [|exact IH]. clear IH.
  induction cols as [|j l' IH']; simpl; constructor; [|exact IH'].
  apply dot_entry_Qeq; assumption.
Qed.

Lemma Forall2_Qeq_refl (l : list Q) : Forall2 Qeq l l.
Proof. induction l; constructor; [reflexivity | assumption]. Qed.

Lemma array_eq_refl (a : ndarray) : array_eq a a.
Proof. split; [reflexivity | apply Forall2_Qeq_refl]. Qed.

Lemma array_eq_sym (a b : ndarray) : array_eq a b -> array_eq b a.
Proof.
  intros [Hs Hd]. split; [congruence|]. apply Forall2_flip.
  eapply Forall2_impl; [exact Hd|]. intros; symmetry; assumption.
Qed.

Lemma array_eq_trans (a b c : ndarray) : array_eq a b -> array_eq b c -> array_eq a c.
Proof.
  intros [Hs Hd] [Hs' Hd']. split; [congruence|].
  eapply Forall2_trans; [| exact Hd | exact Hd'].
  intros x y z Hxy Hyz. rewrite Hxy. exact Hyz.
Qed.

(** ** Shapes along the NumPy forward pass *)

Lemma wf_relu (a : ndarray) : wf a -> wf (relu a).
Proof. unfold wf, relu; simpl. rewrite length_map. auto. Qed.

Lemma numpy_hidden_shape (x W_h : ndarray) (b n_x n_h : nat) :
  shape x = [b; n_x] -> shape W_h = [n_x; n_h] ->
  numpy_hidden x W_h
  = Ok (relu (mk_array [b; n_h] (matmul_data (data x) (data W_h) b n_x n_h))).
Proof.
  intros Hx Hw. unfold numpy_hidden. rewrite (np_dot_shape _ _ _ _ _ Hx Hw). reflexivity.
Qed.

Lemma numpy_forward_shape (x W_h W_y : ndarray) (b n_x n_h n_y : nat) :
  shape x = [b; n_x] -> shape W_h = [n_x; n_h] -> shape W_y = [n_h; n_y] ->
  numpy_forward x W_h W_y
  = Ok (mk_array [b; n_y]
          (matmul_data
             (data (relu (mk_array [b; n_h] (matmul_data (data x) (data W_h) b n_x n_h))))
             (data W_y) b n_h n_y)).
Proof.
  intros Hx Hh Hy. unfold numpy_forward.
  rewrite (numpy_hidden_shape _ _ _ _ _ Hx Hh).
  apply np_dot_shape; [reflexivity | exact Hy].
Qed.

(** C4: for hyperparameters [batch_size], [n_x], [n_h], [n_y] (5, 10, 100
    and 3 in the notebook) and arrays of the shapes they dictate, both
    matrix products are well formed, the hidden activation has shape
    (batch_size, n_h), the output has shape (batch_size, n_y), and the loss
    is a single number. *)
Theorem forward_pass_shapes (batch_size n_x n_h n_y : nat)
    (x W_h W_y y_target : ndarray) :
  shape x = [batch_size; n_x] -> shape W_h = [n_x; n_h] -> shape W_y = [n_h; n_y] ->
  shape y_target = [batch_size; n_y] -> wf y_target -> (0 < batch_size * n_y)%nat ->
  exists (z h y : ndarray) (loss : Q),
    np_dot x W_h = Ok z
    /\ numpy_hidden x W_h = Ok h /\ shape h = [batch_size; n_h] /\ wf h
    /\ np_dot h W_y = Ok y
    /\ numpy_forward x W_h W_y = Ok y /\ shape y = [batch_size; n_y] /\ wf y
    /\ numpy_loss y_target y = Ok (Num loss).
Proof.
  intros Hx Hh Hy Ht Hwt Hpos.
  pose proof (numpy_hidden_shape _ _ _ _ _ Hx Hh) as Eh.
  pose proof (numpy_forward_shape _ _ _ _ _ _ _ Hx Hh Hy) as Ey.
  set (h := relu (mk_array [batch_size; n_h]
                    (matmul_data (data x) (data W_h) batch_size n_x n_h))) in *.
  set (y := mk_array [batch_size; n_y]
              (matmul_data (data h) (data W_y) batch_size n_h n_y)) in *.
  assert (Wy : wf y) by apply wf_matmul.
  assert (Hsz : (0 < size_of (shape y))%nat) by (unfold size_of; simpl; lia).
  pose proof (numpy_loss_value y_target y Hwt Wy Ht Hsz) as El.
  exists (mk_array [batch_size; n_h]
            (matmul_data (data x) (data W_h) batch_size n_x n_h)), h, y.
  eexists. repeat split; try eassumption.
  - apply np_dot_shape; assumption.
  - apply wf_relu, wf_matmul.
  - apply np_dot_shape; [reflexivity | exact Hy].
Qed.

(** ** The three implementations agree *)

Lemma constant_initializer_exact (a : ndarray) (shp : list nat) :
  wf a -> shape a = shp -> constant_initializer a shp = Ok a.
Proof.
  unfold wf, constant_initializer. destruct a as [s d]; simpl. intros Hw ->.
  rewrite Hw, Nat.ltb_irrefl, Nat.sub_diag. simpl.
  destruct (last d) eqn:E.
  - rewrite app_nil_r. reflexivity.
  - apply last_None in E. subst d. simpl in Hw. rewrite <- Hw. reflexivity.
Qed.

Lemma tf_get_variable_fresh (g : graph) (name : string) (shp : list nat) (a : ndarray) :
  g_vars g !! name = None -> wf a -> shape a = shp ->
  tf_get_variable g name shp a
  = Ok (mk_graph (<[name := a]> (g_vars g)) (g_next g), Var name shp).
Proof.
  intros Hn Hw Hs. unfold tf_get_variable. rewrite Hn.
  rewrite (constant_initializer_exact _ _ Hw Hs). reflexivity.
Qed.

Lemma feed_fits_matrix (a : ndarray) (m n : nat) :
  shape a = [m; n] -> feed_fits [Some m; Some n] a = true.
Proof. intros H. unfold feed_fits. rewrite H. simpl. rewrite !Nat.eqb_refl. reflexivity. Qed.

Lemma eval_mlp_graph (values : gmap string ndarray) (feed : gmap nat ndarray)
    (id b n_x n_h n_y : nat) (x W_h W_y : ndarray) :
  feed !! id = Some x -> values !! "W_h" = Some W_h -> values !! "W_y" = Some W_y ->
  shape x = [b; n_x] -> shape W_h = [n_x; n_h] -> shape W_y = [n_h; n_y] ->
  eval values feed (mlp_graph id b n_x n_h n_y)
  = Ok (mlp_value tf_nn_relu b n_x n_h n_y x W_h W_y).
Proof.
  intros Hf Hh Hy Sx Sh Sy. unfold mlp_graph. cbn [eval].
  rewrite Hf, Hh, Hy, (feed_fits_matrix _ _ _ Sx).
  cbn [mbind result_bind rbind].
  rewrite (matmul_with_shape _ _ _ _ _ _ Sx Sh).
  cbn [mbind result_bind rbind].
  apply matmul_with_shape; [reflexivity | exact Sy].
Qed.

Lemma mlp_value_activation (b n_x n_h n_y : nat) (x W_h W_y : ndarray) :
  array_eq (mlp_value tf_nn_relu b n_x n_h n_y x W_h W_y)
           (mlp_value relu b n_x n_h n_y x W_h W_y).
Proof.
  split; [reflexivity|]. simpl. apply matmul_data_Qeq; [|apply Forall2_Qeq_refl].
  apply Forall2_map_same. intros v. symmetry. apply relu_entry.
Qed.

Lemma tf_matmul_ok (a b : tensor) (m p : option nat) (n : nat) :
  static_shape a = [m; Some n] -> static_shape b = [Some n; p] ->
  tf_matmul a b = Ok (MatMul a b).
Proof.
  intros Ha Hb. unfold tf_matmul. rewrite Ha, Hb. simpl.
  rewrite Nat.eqb_refl. reflexivity.
Qed.

Lemma tensorflow_forward_value_eq (b n_x n_h n_y : nat) (x W_h W_y : ndarray) :
  wf W_h -> wf W_y ->
  shape x = [b; n_x] -> shape W_h = [n_x; n_h] -> shape W_y = [n_h; n_y] ->
  tensorflow_forward_value b n_x n_h n_y x W_h W_y
  = Ok (mlp_value tf_nn_relu b n_x n_h n_y x W_h W_y).
Proof.
  intros Wh Wy Sx Sh Sy. unfold tensorflow_forward_value, tf_placeholder.
  rewrite tf_get_variable_fresh by (try apply lookup_empty; assumption).
  cbn [mbind result_bind rbind g_vars g_next].
  rewrite tf_get_variable_fresh
    by (try (apply lookup_insert_None; split; [apply lookup_empty | discriminate]);
        assumption).
  cbn [mbind result_bind rbind g_vars g_next].
  rewrite (tf_matmul_ok _ _ (Some b) (Some n_h) n_x) by reflexivity.
  cbn [mbind result_bind rbind].
  rewrite (tf_matmul_ok _ _ (Some b) (Some n_y) n_h) by reflexivity.
  cbn [mbind result_bind rbind run_init closed].
  unfold feed_entry, as_tensor, as_array. cbn [mbind result_bind rbind].
  unfold run_fetch. cbn [closed vals].
  apply (eval_mlp_graph _ _ 0 b n_x n_h n_y x W_h W_y); try assumption.
  - apply lookup_singleton_eq.
  - rewrite lookup_insert_ne by discriminate. apply lookup_insert_eq.
  - apply lookup_insert_eq.
Qed.

Lemma shape_eqb_true (s t : list nat) : s = t -> shape_eqb s t = true.
Proof. intros ->. unfold shape_eqb. apply bool_decide_eq_true_2. reflexivity. Qed.

Lemma keras_model_eq (init : nat -> nat -> Q) (n_x n_h n_y : nat) (W_h W_y : ndarray) :
  shape W_h = [n_x; n_h] -> shape W_y = [n_h; n_y] ->
  keras_model init n_x n_h n_y W_h W_y
  = Ok (mk_sequential n_x [mk_dense W_h true; mk_dense W_y false]).
Proof.
  intros Sh Sy. unfold keras_model, model_add, set_weights, output_dim. simpl.
  rewrite (shape_eqb_true _ _ Sh). simpl.
  rewrite (shape_eqb_true _ _ Sy). reflexivity.
Qed.

Lemma model_predict_mlp (b n_x n_h n_y : nat) (x W_h W_y : ndarray) :
  shape x = [b; n_x] -> shape W_h = [n_x; n_h] -> shape W_y = [n_h; n_y] ->
  model_predict (mk_sequential n_x [mk_dense W_h true; mk_dense W_y false]) x
  = Ok (mlp_value tf_nn_relu b n_x n_h n_y x W_h W_y).
Proof.
  intros Sx Sh Sy. unfold model_predict. rewrite Sx. simpl. rewrite Nat.eqb_refl.
  unfold dense_call. simpl.
  rewrite (matmul_with_shape _ _ _ _ _ _ Sx Sh). simpl.
  rewrite (matmul_with_shape InvalidArgumentError _ W_y b n_h n_y) by (reflexivity || exact Sy).
  reflexivity.
Qed.

(** C1: for every batch [x] of shape (batch_size, n_x) and every pair of
    weight matrices of shapes (n_x, n_h) and (n_h, n_y), the NumPy, the
    TensorFlow and the Keras implementation each return relu(x . W_h) . W_y:
    all three succeed and their outputs are equal entry by entry. *)
Theorem three_implementations_agree (init : nat -> nat -> Q)
    (batch_size n_x n_h n_y : nat) (x W_h W_y : ndarray) :
  wf W_h -> wf W_y ->
  shape x = [batch_size; n_x] -> shape W_h = [n_x; n_h] -> shape W_y = [n_h; n_y] ->
  exists z y_np y_tf y_keras : ndarray,
    np_dot x W_h = Ok z /\ np_dot (relu z) W_y = Ok y_np
    /\ numpy_forward x W_h W_y = Ok y_np
    /\ tensorflow_forward_value batch_size n_x n_h n_y x W_h W_y = Ok y_tf
    /\ keras_forward_value init n_x n_h n_y x W_h W_y = Ok y_keras
    /\ array_eq y_tf y_np /\ array_eq y_keras y_np /\ array_eq y_tf y_keras.
Proof.
  intros Wh Wy Sx Sh Sy.
  exists (mk_array [batch_size; n_h] (matmul_data (data x) (data W_h) batch_size n_x n_h)),
         (mlp_value relu batch_size n_x n_h n_y x W_h W_y),
         (mlp_value tf_nn_relu batch_size n_x n_h n_y x W_h W_y),
         (mlp_value tf_nn_relu batch_size n_x n_h n_y x W_h W_y).
  split; [apply np_dot_shape; assumption|].
  split; [apply np_dot_shape; [reflexivity | assumption]|].
  split; [apply numpy_forward_shape; assumption|].
  split; [apply tensorflow_forward_value_eq; assumption|].
  split.
  - unfold keras_forward_value. rewrite (keras_model_eq _ _ _ _ _ _ Sh Sy).
    apply (model_predict_mlp batch_size); assumption.
  - split; [apply mlp_value_activation|].
    split; [apply mlp_value_activation | apply array_eq_refl].
Qed.

(** ** Exceptions propagate: the rules *)

Lemma replay_app (evs evs' : list event) (G : gmap string value) :
  replay (evs ++ evs') G = replay evs' (replay evs G).
Proof. unfold replay. apply foldl_app. Qed.

Lemma replay_bound (evs : list event) (G : gmap string value) (name : string) :
  is_Some (G !! name) -> is_Some (replay evs G !! name).
Proof.
  revert G. induction evs as [|ev evs IH]; intros G H; simpl; [exact H|].
  apply IH. destruct ev; try exact H;
    (destruct (decide (name0 = name)) as [->|Hne];
     [rewrite lookup_insert_eq; eauto | rewrite lookup_insert_ne by exact Hne; exact H]).
Qed.

Lemma faithful_run_bound {A} (X : list string) (s s' : state) (r : result A) evs :
  faithful_run s s' r evs -> names_bound X s -> names_bound X s'.
Proof.
  intros (_ & HG & _) HX name Hin. rewrite HG. apply replay_bound, HX, Hin.
Qed.

(** A step that reads no name: it logs [evs], and raises only if the last
    of them is a call that raised. *)
Lemma prop_step {A} (X Y : list string) (m : prog A) :
  (forall s, exists evs,
     trace (fst (m s)) = trace s ++ evs
     /\ globals (fst (m s)) = replay evs (globals s)
     /\ match snd (m s) with
        | Ok _ => Forall call_ok evs
        | Raise e => exists name, evs = [Call name (Some e)]
        end
     /\ (names_bound X s -> names_bound Y (fst (m s)))) ->
  propagates X m Y.
Proof.
  intros H s. destruct (H s) as (evs & Ht & Hg & Hr & Hb). exists evs.
  destruct (snd (m s)) as [a|e].
  - split; [repeat split; assumption|]. intros HX. split; [auto | discriminate].
  - destruct Hr as [name ->]. split.
    + split; [exact Ht|]. split; [exact Hg|].
      exists [], []. split; [constructor|]. split; [constructor|]. left. eauto.
    + intros HX. split; [discriminate|]. intros e' [= <-].
      exists [], name, []. repeat split; constructor.
Qed.

Lemma prop_ret {A} (X : list string) (a : A) : propagates X (mret a) X.
Proof.
  apply prop_step. intros s. exists []. simpl.
  split; [symmetry; apply app_nil_r|]. split; [reflexivity|]. split; [constructor | auto].
Qed.

Lemma prop_bind {A B} (X Y Z : list string) (m : prog A) (k : A -> prog B) :
  propagates X m Y -> (forall a, propagates Y (k a) Z) -> propagates X (m ≫= k) Z.
Proof.
  intros Hm Hk s. destruct (Hm s) as (evs1 & (Ht1 & Hg1 & Hr1) & Hc1).
  unfold mbind, prog_bind, pbind. destruct (m s) as [s1 [a|e]]; simpl in *.
  - destruct (Hk a s1) as (evs2 & (Ht2 & Hg2 & Hr2) & Hc2).
    exists (evs1 ++ evs2). split.
    + split; [rewrite Ht2, Ht1; symmetry; apply app_assoc|].
      split; [rewrite Hg2, Hg1; symmetry; apply replay_app|].
      destruct (snd (k a s1)) as [b|e].
      * apply Forall_app; split; assumption.
      * destruct Hr2 as (pre & post & Hpre & Hpost & Hbr).
        exists (evs1 ++ pre), post.
        split; [apply Forall_app; split; assumption|]. split; [exact Hpost|].
        destruct Hbr as [(name & ->)|(name & -> & -> & Hn)].
        -- left. exists name. apply app_assoc.
        -- right. exists name. split; [reflexivity|]. split; [apply app_assoc|].
           rewrite replay_app, <- Hg1. exact Hn.
    + intros HX. destruct (Hc1 HX) as [Hb1 _].
      destruct (Hc2 (Hb1 a eq_refl)) as [Hb2 Hf2]. split; [exact Hb2|].
      intros e He. destruct (Hf2 e He) as (pre & name & post & -> & Hpre & Hpost).
      exists (evs1 ++ pre), name, post. split; [apply app_assoc|].
      split; [apply Forall_app; split; assumption | exact Hpost].
  - exists evs1. split; [repeat split; assumption|].
    intros HX. split; [discriminate|]. intros e' [= <-].
    apply (proj2 (Hc1 HX)). reflexivity.
Qed.

Lemma names_bound_insert (X : list string) (name : string) (v : value) G g n o t t' :
  names_bound X (mk_state G g n o t) ->
  names_bound (name :: X) (mk_state (<[name := v]> G) g n o t').
Proof.
  intros HX x [<-|Hin]; simpl.
  - rewrite lookup_insert_eq. eauto.
  - destruct (decide (name = x)) as [->|Hne].
    + rewrite lookup_insert_eq. eauto.
    + rewrite lookup_insert_ne by exact Hne. apply (HX x Hin).
Qed.

Lemma names_bound_same (X : list string) G g n o t g' n' o' t' :
  names_bound X (mk_state G g n o t) -> names_bound X (mk_state G g' n' o' t').
Proof. intros HX x Hin. apply (HX x Hin). Qed.

Lemma names_bound_tail (X : list string) (name : string) (s : state) :
  names_bound (name :: X) s -> names_bound X s.
Proof. intros H x Hin. apply H. right. exact Hin. Qed.

Lemma prop_lookup (X : list string) (name : string) :
  In name X -> propagates X (lookup_name name) X.
Proof.
  intros Hin s. exists []. unfold lookup_name.
  destruct (globals s !! name) as [v|] eqn:E; simpl.
  - split; [|intros HX; split; [auto | discriminate]].
    split; [symmetry; apply app_nil_r|]. split; [reflexivity | constructor].
  - split.
    + split; [symmetry; apply app_nil_r|]. split; [reflexivity|].
      exists [], []. split; [constructor|]. split; [constructor|].
      right. exists name. auto.
    + intros HX. destruct (HX name Hin) as [v Hv]. congruence.
Qed.

Lemma prop_assign (X : list string) (name : string) (v : value) :
  propagates X (assign name v) (name :: X).
Proof.
  apply prop_step. intros [G g n o t]. exists [Assign name v]. simpl.
  split; [reflexivity|]. split; [reflexivity|]. split; [repeat constructor|].
  apply names_bound_insert.
Qed.

Lemma prop_mutate (X : list string) (name : string) (v : value) :
  propagates X (mutate name v) X.
Proof.
  apply prop_step. intros [G g n o t]. exists [Mutate name v]. simpl.
  split; [reflexivity|]. split; [reflexivity|]. split; [repeat constructor|].
  intros HX. eapply names_bound_tail, names_bound_insert; exact HX.
Qed.

Lemma prop_call {A} (X : list string) (name : string) (r : result A) :
  propagates X (call name r) X.
Proof.
  apply prop_step. intros [G g n o t]. exists [Call name (error_of r)]. simpl.
  split; [reflexivity|]. split; [reflexivity|].
  split; [destruct r as [a|e]; simpl; [repeat constructor | eauto]|].
  apply names_bound_same.
Qed.

Lemma prop_call_graph {A} (X : list string) (name : string)
    (f : graph -> result (graph * A)) :
  propagates X (call_graph name f) X.
Proof.
  apply prop_step. intros [G g n o t]. unfold call_graph; simpl.
  destruct (f g) as [[g' a]|e]; simpl.
  - exists [Call name None].
    split; [reflexivity|]. split; [reflexivity|]. split; [repeat constructor|].
    apply names_bound_same.
  - exists [Call name (Some e)].
    split; [reflexivity|]. split; [reflexivity|]. split; [eauto|].
    apply names_bound_same.
Qed.

Lemma prop_emit (X : list string) (x : output) : propagates X (emit x) X.
Proof.
  apply prop_step. intros [G g n o t]. exists []. simpl.
  split; [symmetry; apply app_nil_r|]. split; [reflexivity|]. split; [constructor|].
  apply names_bound_same.
Qed.

Lemma prop_session_open (X : list string) : propagates X session_open X.
Proof.
  apply prop_step. intros [G g n o t]. exists [Call "tf.Session" None]. simpl.
  split; [reflexivity|]. split; [reflexivity|]. split; [repeat constructor|].
  apply names_bound_same.
Qed.

Lemma prop_session_close (X : list string) (name : string) (σ : session) :
  propagates X (session_close name σ) X.
Proof.
  apply prop_step. intros [G g n o t]. exists [Call name None]. simpl.
  split; [reflexivity|]. split; [reflexivity|]. split; [repeat constructor|].
  apply names_bound_same.
Qed.

Lemma prop_from_module (X : list string) (alias name : string) :
  In alias X -> propagates X (from_module alias name) X.
Proof.
  intros Hin. unfold from_module.
  eapply prop_bind; [apply prop_lookup; exact Hin | intros v; apply prop_call].
Qed.

Lemma prop_import_as (X : list string) (ok : string -> bool) (name alias : string) :
  propagates X (import_as ok name alias) (alias :: X).
Proof.
  unfold import_as. eapply prop_bind; [apply prop_call | intros v; apply prop_assign].
Qed.

Lemma prop_post {A} (X Y Y' : list string) (m : prog A) :
  propagates X m Y -> incl Y' Y -> propagates X m Y'.
Proof.
  intros Hm Hi s. destruct (Hm s) as (evs & Hf & Hc).
  exists evs. split; [exact Hf|]. intros HX. destruct (Hc HX) as [Hb Hr].
  split; [|exact Hr]. intros a Ha x Hin. apply (Hb a Ha), Hi, Hin.
Qed.

Lemma prop_pre {A} (X X' Y : list string) (m : prog A) :
  propagates X m Y -> incl X X' -> propagates X' m Y.
Proof.
  intros Hm Hi s. destruct (Hm s) as (evs & Hf & Hc).
  exists evs. split; [exact Hf|]. intros HX. apply Hc. intros x Hin. apply HX, Hi, Hin.
Qed.

Lemma prop_frame {A} (X Y : list string) (m : prog A) :
  propagates X m Y -> propagates X m X.
Proof.
  intros Hm s. destruct (Hm s) as (evs & Hf & Hc).
  exists evs. split; [exact Hf|]. intros HX. destruct (Hc HX) as [_ Hr].
  split; [|exact Hr]. intros a _. eapply faithful_run_bound; eassumption.
Qed.

Lemma prop_with_exit {A} (X Y : list string) (name : string) (body : prog A) :
  propagates X body Y -> propagates X (with_exit name body) Y.
Proof.
  intros Hb s. destruct (Hb s) as (evs & (Ht & Hg & Hr) & Hc).
  unfold with_exit. destruct (body s) as [[G g n o t] r]; simpl in *.
  destruct (G !! name) as [v|] eqn:E;
    [destruct v|]; try (exists evs; split; [repeat split; assumption | exact Hc]).
  simpl.
  exists (evs ++ [Call "Session.__exit__" None;
                  Mutate name (VSession (mk_session true (vals s0)))]).
  split.
  - split; [rewrite Ht, <- !app_assoc; reflexivity|].
    split; [rewrite replay_app, <- Hg; reflexivity|].
    destruct r as [a|e].
    + apply Forall_app; split; [exact Hr | repeat constructor].
    + destruct Hr as (pre & post & Hpre & Hpost & Hbr).
      exists pre, (post ++ [Call "Session.__exit__" None;
                            Mutate name (VSession (mk_session true (vals s0)))]).
      split; [exact Hpre|]. split; [apply exits_with; [exact Hpost | reflexivity]|].
      destruct Hbr as [(nm & ->)|(nm & -> & -> & Hn)].
      * left. exists nm. rewrite <- app_assoc. reflexivity.
      * right. exists nm. split; [reflexivity|]. split; [|exact Hn].
        rewrite <- app_assoc. reflexivity.
  - intros HX. destruct (Hc HX) as [Hbound Hfail]. split.
    + intros a Ha x Hin. simpl.
      destruct (decide (name = x)) as [->|Hne].
      * rewrite lookup_insert_eq. eauto.
      * rewrite lookup_insert_ne by exact Hne. apply (Hbound a Ha x Hin).
    + intros e He. destruct (Hfail e He) as (pre & nm & post & -> & Hpre & Hpost).
      exists pre, nm, (post ++ [Call "Session.__exit__" None;
                                Mutate name (VSession (mk_session true (vals s0)))]).
      split; [rewrite <- app_assoc; reflexivity|]. split; [exact Hpre|].
      apply exits_with; [exact Hpost | reflexivity].
Qed.

Lemma prop_with_session {A} (X Y : list string) (name : string) (body : prog A) :
  propagates (name :: X) body Y -> propagates X (with_session name body) Y.
Proof.
  intros Hb. unfold with_session.
  eapply prop_bind; [apply prop_session_open | intros σ].
  eapply prop_bind; [apply prop_assign | intros _].
  apply prop_with_exit, Hb.
Qed.

Lemma prop_for_range_from {A} (X Y : list string) (var : string) (body : prog A) (i n : nat) :
  propagates (var :: X) body Y -> propagates X (for_range_from var i n body) X.
Proof.
  intros Hb. revert i. induction n as [|n IH]; intros i; simpl; [apply prop_ret|].
  eapply prop_bind; [apply prop_assign | intros _].
  eapply prop_bind; [eapply prop_frame, Hb | intros _].
  eapply prop_pre; [apply IH | apply incl_tl, incl_refl].
Qed.

Lemma prop_for_range {A} (X Y : list string) (var : string) (body : prog A) (n : nat) :
  propagates (var :: X) body Y -> propagates X (for_range var n body) X.
Proof. apply prop_for_range_from. Qed.

Ltac solve_in := repeat first [ eassumption | left; reflexivity | right ].

Ltac prop_prim :=
  first [ apply prop_lookup; solve_in
        | apply prop_from_module; solve_in
        | apply prop_import_as
        | apply prop_assign
        | apply prop_mutate
        | apply prop_call
        | apply prop_call_graph
        | apply prop_emit
        | apply prop_session_open
        | apply prop_session_close
        | apply prop_ret ].

Lemma prop_initialize_variables (X : list string) :
  In "sess" X -> In "tf" X -> propagates X initialize_variables X.
Proof.
  intros Hs Ht. unfold initialize_variables.
  repeat first [ eapply prop_bind; [ prop_prim | intros ? ] | prop_prim ].
Qed.

Ltac prop_steps_with known :=
  lazymatch goal with
  | |- propagates _ (if ?b then _ else _) _ => destruct b; prop_steps_with known
  | _ => first [ prop_prim
               | apply prop_initialize_variables; solve_in
               | known
               | apply prop_with_session; prop_steps_with known
               | eapply prop_for_range; prop_steps_with known
               | eapply prop_bind;
                   [ prop_steps_with known | intros ?; prop_steps_with known ] ]
  end.

Ltac prop_steps := prop_steps_with fail.

Lemma prop_cell_imports (w : world) (X : list string) :
  exists Y, propagates X (cell_imports w) Y.
Proof. eexists. unfold cell_imports. prop_steps. Qed.

Lemma prop_cell_numpy (w : world) (X : list string) :
  In "np" X -> exists Y, propagates X (cell_numpy w) Y.
Proof. intros Hnp. eexists. unfold cell_numpy. prop_steps. Qed.

Lemma prop_tensorflow_forward (X : list string) :
  In "tf" X -> In "plt" X -> In "batch_size" X -> In "n_x" X -> In "n_h" X ->
  In "n_y" X -> In "W_h_np" X -> In "W_y_np" X -> In "x_np" X -> In "y_np" X ->
  propagates X tensorflow_forward
    ("y_val" :: "sess" :: "y" :: "h" :: "W_y" :: "W_h" :: "x" :: X).
Proof. intros. unfold tensorflow_forward. prop_steps. Qed.

Lemma prop_cell_tensorflow (X : list string) :
  In "tf" X -> In "plt" X -> In "batch_size" X -> In "n_x" X -> In "n_h" X ->
  In "n_y" X -> In "W_h_np" X -> In "W_y_np" X -> In "x_np" X -> In "y_np" X ->
  propagates X cell_tensorflow X.
Proof.
  intros. eapply prop_frame. unfold cell_tensorflow.
  eapply prop_bind; [prop_steps | intros ?].
  eapply prop_bind; [prop_steps | intros ?].
  apply prop_tensorflow_forward; assumption.
Qed.

Lemma prop_cell_keras (w : world) (X : list string) :
  In "n_x" X -> In "n_h" X -> In "n_y" X -> In "W_h_np" X -> In "W_y_np" X ->
  propagates X (cell_keras w) X.
Proof. intros. eapply prop_frame. unfold cell_keras. prop_steps. Qed.

Lemma prop_cell_mnist (w : world) (X : list string) :
  In "plt" X -> propagates X (cell_mnist w) X.
Proof. intros. eapply prop_frame. unfold cell_mnist. prop_steps. Qed.

Lemma prop_training_step (X : list string) :
  In "sess" X -> In "train_op" X -> In "loss" X -> In "x" X -> In "x_np" X ->
  In "y_target" X -> In "y_target_np" X -> In "step" X -> In "steps" X ->
  In "losses" X ->
  propagates X training_step X.
Proof. intros. eapply prop_frame. unfold training_step. prop_steps. Qed.

Lemma prop_cell_training (X : list string) :
  In "tf" X -> In "plt" X -> In "keras" X -> In "batch_size" X -> In "n_x" X ->
  In "n_h" X -> In "n_y" X -> In "W_h_np" X -> In "W_y_np" X -> In "x_np" X ->
  In "y_np" X -> In "y_target_np" X -> In "loss_np" X ->
  propagates X cell_training X.
Proof.
  intros. eapply prop_frame. unfold cell_training.
  prop_steps_with
    ltac:(first [ apply prop_tensorflow_forward; solve_in
                | apply prop_training_step; solve_in ]).
Qed.

Lemma prop_cell_rnn (w : world) (X : list string) :
  In "x_train" X -> In "x_test" X -> In "y_train" X -> In "y_test" X ->
  In "keras" X ->
  propagates X (cell_rnn w) X.
Proof. intros. eapply prop_frame. unfold cell_rnn, opaque_call. prop_steps. Qed.

Lemma prop_add_layer (w : world) (X : list string) (cls module arguments : string) :
  In "model" X -> In cls X -> propagates X (add_layer w cls module arguments) X.
Proof.
  intros. eapply prop_frame. unfold add_layer, attribute, library_call. prop_steps.
Qed.

Lemma prop_compile_and_summarize (w : world) (X : list string) :
  In "model" X -> propagates X (compile_and_summarize w) X.
Proof.
  intros. eapply prop_frame. unfold compile_and_summarize, attribute, library_call.
  prop_steps.
Qed.

Ltac prop_keras :=
  first [ apply prop_add_layer; solve_in | apply prop_compile_and_summarize; solve_in ].

Lemma prop_cell_dense_network (w : world) (X : list string) :
  In "Sequential" X -> In "x_train" X -> In "y_train" X -> In "x_test" X ->
  In "y_test" X ->
  propagates X (cell_dense_network w) X.
Proof.
  intros. eapply prop_frame. unfold cell_dense_network, attribute, library_call.
  prop_steps_with ltac:(idtac; prop_keras).
Qed.

Lemma prop_cell_layer_output (w : world) (X : list string) :
  In "model" X -> In "np" X -> propagates X (cell_layer_output w) X.
Proof.
  intros. eapply prop_frame. unfold cell_layer_output, attribute, library_call.
  prop_steps.
Qed.

Lemma prop_scatter_class (X : list string) (matrix : string) :
  In "y_test" X -> In "i" X -> In "plt" X -> In matrix X ->
  propagates X (scatter_class matrix) X.
Proof. intros. eapply prop_frame. unfold scatter_class. prop_steps. Qed.

Lemma prop_cell_decompositions (w : world) (X : list string) :
  In "np" X -> In "output" X -> In "plt" X -> In "y_test" X ->
  propagates X (cell_decompositions w) X.
Proof.
  intros. eapply prop_frame. unfold cell_decompositions, attribute, library_call.
  prop_steps_with ltac:(apply prop_scatter_class; solve_in).
Qed.

Lemma prop_cell_weights (w : world) (X : list string) :
  In "model" X -> In "layer_nb" X -> propagates X (cell_weights w) X.
Proof.
  intros. eapply prop_frame. unfold cell_weights, attribute, library_call. prop_steps.
Qed.

Lemma prop_cell_output_shape (w : world) (X : list string) :
  In "model" X -> propagates X (cell_output_shape w) X.
Proof.
  intros. eapply prop_frame. unfold cell_output_shape, attribute, library_call. prop_steps.
Qed.

Lemma prop_cell_conv_network (w : world) (X : list string) :
  In "Sequential" X -> In "x_train" X -> In "np" X -> In "y_train" X ->
  In "x_test" X -> In "y_test" X ->
  propagates X (cell_conv_network w) X.
Proof.
  intros. eapply prop_frame. unfold cell_conv_network, attribute, library_call.
  prop_steps_with ltac:(idtac; prop_keras).
Qed.

Lemma prop_cell_input_gradient (w : world) (X : list string) :
  In "model" X -> In "K" X -> In "np" X -> In "plt" X ->
  propagates X (cell_input_gradient w) X.
Proof.
  intros. eapply prop_frame. unfold cell_input_gradient, attribute, library_call.
  prop_steps.
Qed.

Lemma names_bound_start (X : list string) (s : state) :
  names_bound X s ->
  names_bound X (mk_state (globals s) (default_graph s) (open_sessions s) [] []).
Proof. intros H x Hin. apply (H x Hin). Qed.

Lemma notebook_propagates (w : world) (i : nat) (cell : prog unit) (R : list string) :
  code_cells w !! i = Some cell -> code_cell_reads !! i = Some R ->
  exists Y, propagates R cell Y.
Proof.
  intros Hc HR.
  do 14 (destruct i as [|i];
         [simpl in Hc, HR; injection Hc as <-; injection HR as <-;
          first [ apply prop_cell_imports
                | apply prop_cell_numpy; solve_in
                | eexists;
                  first [ apply prop_cell_tensorflow | apply prop_cell_keras
                        | apply prop_cell_mnist | apply prop_cell_dense_network
                        | apply prop_cell_layer_output | apply prop_cell_decompositions
                        | apply prop_cell_weights | apply prop_cell_output_shape
                        | apply prop_cell_training | apply prop_cell_conv_network
                        | apply prop_cell_rnn | apply prop_cell_input_gradient ];
                  solve_in ]|]).
  discriminate.
Qed.

(** C6, as the code has it: no cell of the notebook handles an exception.
    Every change a cell makes to the globals is an assignment or object
    change of its trace.  A cell that ends normally has had no operation
    raise.  A cell that raises does so at its first failure, which is either
    an operation (a library call, an operator, a subscript, an attribute, an
    import) that raised this very exception, or the reading of a name that
    is not bound, a NameError that no library call raised; after the failure
    nothing happens but the exit of an enclosing [with] block, which closes
    its session.  When the names the cell reads are bound, the exception is
    always that of an operation that raised. *)
Theorem exceptions_propagate (w : world) (i : nat) (cell : prog unit)
    (R : list string) (s : state) :
  code_cells w !! i = Some cell -> code_cell_reads !! i = Some R ->
  globals (fst (run_cell cell s)) = replay (trace (fst (run_cell cell s))) (globals s)
  /\ match snd (run_cell cell s) with
     | Ok _ => Forall call_ok (trace (fst (run_cell cell s)))
     | Raise e =>
         failed (globals s) e (trace (fst (run_cell cell s)))
         /\ (names_bound R s -> failed_call e (trace (fst (run_cell cell s))))
     end.
Proof.
  intros Hc HR. destruct (notebook_propagates w i cell R Hc HR) as [Y HY].
  destruct (HY (mk_state (globals s) (default_graph s) (open_sessions s) [] []))
    as (evs & (Ht & Hg & Hr) & Hcond).
  unfold run_cell. simpl in Ht, Hg. rewrite Ht. split; [exact Hg|].
  destruct (snd (cell _)) as [u|e]; [exact Hr|].
  split; [exact Hr|]. intros Hb.
  apply (proj2 (Hcond (names_bound_start _ _ Hb))). reflexivity.
Qed.

(** ** Sessions are closed: the rules *)

Lemma raise_state_join_l (base : nat) (r r' : on_raise) (s : state) :
  raise_state base r s -> raise_state base (join r r') s.
Proof. destruct r, r'; simpl; tauto. Qed.

Lemma raise_state_join_r (base : nat) (r r' : on_raise) (s : state) :
  raise_state base r' s -> raise_state base (join r r') s.
Proof. destruct r, r'; simpl; tauto. Qed.

Lemma sess_bind {A B} (b b1 b2 : bool) (r1 r2 : on_raise) (m : prog A) (k : A -> prog B) :
  sessions b m b1 r1 -> (forall a, sessions b1 (k a) b2 r2) ->
  sessions b (m ≫= k) b2 (join r1 r2).
Proof.
  intros Hm Hk base s Hs. specialize (Hm base s Hs).
  unfold mbind, prog_bind, pbind. destruct (m s) as [s1 [a|e]]; simpl in *.
  - specialize (Hk a base s1 Hm). destruct (snd (k a s1)); [exact Hk|].
    apply raise_state_join_r, Hk.
  - apply raise_state_join_l, Hm.
Qed.

Lemma sess_ret {A} (b : bool) (a : A) : sessions b (mret a) b (of_flag b).
Proof. intros base s Hs. exact Hs. Qed.

Lemma session_state_same (base : nat) (b : bool) G g n o t g' o' t' :
  session_state base b (mk_state G g n o t) ->
  session_state base b (mk_state G g' n o' t').
Proof. intros H. exact H. Qed.

Lemma raise_of_flag (base : nat) (b : bool) (s : state) :
  session_state base b s -> raise_state base (of_flag b) s.
Proof. destruct b; simpl; auto. Qed.

Lemma sess_lookup (b : bool) (name : string) :
  sessions b (lookup_name name) b (of_flag b).
Proof.
  intros base s Hs. unfold lookup_name. destruct (globals s !! name); simpl;
    [exact Hs | apply raise_of_flag, Hs].
Qed.

Lemma sess_call {A} (b : bool) (name : string) (r : result A) :
  sessions b (call name r) b (of_flag b).
Proof.
  intros base [G g n o t] Hs. destruct r; simpl; [exact Hs | apply raise_of_flag, Hs].
Qed.

Lemma sess_call_graph {A} (b : bool) (name : string) (f : graph -> result (graph * A)) :
  sessions b (call_graph name f) b (of_flag b).
Proof.
  intros base [G g n o t] Hs. unfold call_graph; simpl.
  destruct (f g) as [[g' a]|e]; simpl; [exact Hs | apply raise_of_flag, Hs].
Qed.

Lemma sess_emit (b : bool) (x : output) : sessions b (emit x) b (of_flag b).
Proof. intros base [G g n o t] Hs. exact Hs. Qed.

Lemma holds_open_insert (name : string) (v : value) G g n o t t' :
  name <> "sess" -> holds_open (mk_state G g n o t) ->
  holds_open (mk_state (<[name := v]> G) g n o t').
Proof.
  intros Hne (σ & Hσ & Hc). exists σ. simpl in *.
  rewrite lookup_insert_ne by exact Hne. auto.
Qed.

Lemma sess_assign (b : bool) (name : string) (v : value) :
  name <> "sess" -> sessions b (assign name v) b (of_flag b).
Proof.
  intros Hne base [G g n o t] [Hn Ho]. split; [exact Hn|].
  intros Hb. eapply holds_open_insert; [exact Hne | apply Ho, Hb].
Qed.

Lemma sess_mutate (b : bool) (name : string) (v : value) :
  name <> "sess" -> sessions b (mutate name v) b (of_flag b).
Proof.
  intros Hne base [G g n o t] [Hn Ho]. split; [exact Hn|].
  intros Hb. eapply holds_open_insert; [exact Hne | apply Ho, Hb].
Qed.

Lemma sess_assign_free (name : string) (v : value) :
  sessions false (assign name v) false NoneOpen.
Proof. intros base [G g n o t] [Hn _]. split; [exact Hn | discriminate]. Qed.

Lemma sess_mutate_free (name : string) (v : value) :
  sessions false (mutate name v) false NoneOpen.
Proof. intros base [G g n o t] [Hn _]. split; [exact Hn | discriminate]. Qed.

(** A session known to be open is stored back under [sess]. *)
Lemma sess_mutate_open (σ : session) :
  closed σ = false -> sessions true (mutate "sess" (VSession σ)) true OneOpen.
Proof.
  intros Hc base [G g n o t] [Hn _]. split; [exact Hn|]. intros _.
  exists σ. simpl. rewrite lookup_insert_eq. auto.
Qed.

Lemma sess_from_module (b : bool) (alias name : string) :
  sessions b (from_module alias name) b (of_flag b).
Proof.
  unfold from_module.
  replace (of_flag b) with (join (of_flag b) (of_flag b)) by (destruct b; reflexivity).
  eapply sess_bind; [apply sess_lookup | intros v; apply sess_call].
Qed.

Lemma sess_import_as (ok : string -> bool) (name alias : string) :
  sessions false (import_as ok name alias) false NoneOpen.
Proof.
  unfold import_as. change NoneOpen with (join (of_flag false) NoneOpen).
  eapply sess_bind; [apply sess_call | intros v; apply sess_assign_free].
Qed.

Lemma sess_weaken {A} (b b' : bool) (r r' : on_raise) (m : prog A) :
  sessions b m b' r -> r' = Either \/ r = r' -> sessions b m b' r'.
Proof.
  intros Hm Hr base s Hs. specialize (Hm base s Hs).
  destruct (snd (m s)); [exact Hm|].
  destruct Hr as [->| <-]; [|exact Hm]. destruct r; simpl in *; tauto.
Qed.

Lemma sess_if {A} (b b' : bool) (r1 r2 : on_raise) (c : bool) (m1 m2 : prog A) :
  sessions b m1 b' r1 -> sessions b m2 b' r2 ->
  sessions b (if c then m1 else m2) b' (join r1 r2).
Proof.
  intros H1 H2 base s Hs. destruct c.
  - specialize (H1 base s Hs). destruct (snd (m1 s)); [exact H1|].
    apply raise_state_join_l, H1.
  - specialize (H2 base s Hs). destruct (snd (m2 s)); [exact H2|].
    apply raise_state_join_r, H2.
Qed.

(** The continuation of a call may use that the call returned. *)
Lemma sess_call_eq {A B} (b b' : bool) (r2 : on_raise) (name : string)
    (r : result A) (k : A -> prog B) :
  (forall a, r = Ok a -> sessions b (k a) b' r2) ->
  sessions b (call name r ≫= k) b' (join (of_flag b) r2).
Proof.
  intros Hk base [G g n o t] Hs. unfold mbind, prog_bind, pbind.
  destruct r as [a|e]; simpl.
  - specialize (Hk a eq_refl base (mk_state G g n o (t ++ [Call name None])) Hs).
    destruct (snd (k a _)); [exact Hk | apply raise_state_join_r, Hk].
  - apply raise_state_join_l, raise_of_flag, Hs.
Qed.

(** While the cell has its session, [sess] is bound to it. *)
Lemma sess_lookup_open {B} (b' : bool) (r2 : on_raise) (k : value -> prog B) :
  (forall σ, closed σ = false -> sessions true (k (VSession σ)) b' r2) ->
  sessions true (lookup_name "sess" ≫= k) b' r2.
Proof.
  intros Hk base s Hs. destruct Hs as [Hn Ho].
  destruct (Ho eq_refl) as (σ & Hσ & Hc).
  unfold mbind, prog_bind, pbind, lookup_name. rewrite Hσ.
  apply (Hk σ Hc base s). split; assumption.
Qed.

Lemma sess_open_assign {B} (b' : bool) (r2 : on_raise) (k : unit -> prog B) :
  (forall u, sessions true (k u) b' r2) ->
  sessions false (session_open ≫= fun σ => assign "sess" (VSession σ) ≫= k) b' r2.
Proof.
  intros Hk base [G g n o t] [Hn _]. unfold mbind, prog_bind, pbind. simpl.
  apply (Hk tt base). simpl in Hn. split; simpl; [congruence|].
  intros _. eexists. simpl. rewrite lookup_insert_eq. split; reflexivity.
Qed.

Lemma sess_close {B} (b' : bool) (r2 : on_raise) (name : string) (σ : session)
    (k : session -> prog B) :
  closed σ = false -> (forall σ', sessions false (k σ') b' r2) ->
  sessions true (session_close name σ ≫= k) b' r2.
Proof.
  intros Hc Hk base [G g n o t] [Hn _]. unfold mbind, prog_bind, pbind. simpl.
  apply (Hk _ base). split; simpl; [|discriminate].
  rewrite Hc. simpl in Hn. rewrite Hn. reflexivity.
Qed.

Lemma sess_with_exit {A} (body : prog A) :
  sessions true body true OneOpen ->
  sessions true (with_exit "sess" body) false NoneOpen.
Proof.
  intros Hb base s Hs. specialize (Hb base s Hs). unfold with_exit.
  destruct (body s) as [[G g n o t] r]; simpl in *.
  assert (H : session_state base true (mk_state G g n o t))
    by (destruct r; exact Hb).
  destruct H as [Hn Ho]. destruct (Ho eq_refl) as (σ & Hσ & Hc). simpl in *.
  rewrite Hσ. simpl.
  assert (session_state base false
            (mk_state (<["sess" := VSession (mk_session true (vals σ))]> G) g
               (if closed σ then n else pred n) o
               ((t ++ [Call "Session.__exit__" None])
                ++ [Mutate "sess" (VSession (mk_session true (vals σ)))]))).
  { split; simpl; [|discriminate]. rewrite Hc, Hn. reflexivity. }
  destruct r; assumption.
Qed.

Lemma sess_with_session {A} (body : prog A) :
  sessions true body true OneOpen ->
  sessions false (with_session "sess" body) false NoneOpen.
Proof.
  intros Hb. unfold with_session.
  apply (sess_open_assign false NoneOpen (fun _ => with_exit "sess" body)).
  intros _. apply sess_with_exit, Hb.
Qed.

Lemma sess_for_range {A} (b : bool) (r : on_raise) (var : string) (body : prog A) (n : nat) :
  var <> "sess" -> sessions b body b r ->
  sessions b (for_range var n body) b (join (of_flag b) r).
Proof.
  intros Hv Hb. unfold for_range. generalize 0%nat as i.
  induction n as [|n IH]; intros i base s Hs; simpl.
  - exact Hs.
  - unfold mbind, prog_bind, pbind.
    pose proof (sess_assign b var (VInt (Z.of_nat i)) Hv base s Hs) as H1.
    destruct (assign var (VInt (Z.of_nat i)) s) as [s1 [[]|e]] eqn:E; simpl in *;
      [|unfold assign in E; discriminate].
    specialize (Hb base s1 H1).
    destruct (body s1) as [s2 [a|e]]; simpl in *.
    + apply (IH (S i) base s2 Hb).
    + apply raise_state_join_r, Hb.
Qed.

Lemma run_init_open (init : gmap string ndarray) (σ σ' : session) :
  run_init init σ = Ok σ' -> closed σ' = false.
Proof. unfold run_init. destruct (closed σ); intros H; inversion H. reflexivity. Qed.

Lemma run_train_v_open (feed : result (gmap nat ndarray)) (σ : session)
    (train_op loss : value) (r : session * value) :
  (f ← feed; run_train_v σ train_op loss f) = Ok r -> closed (fst r) = false.
Proof.
  destruct feed as [f|e]; simpl; [|discriminate].
  unfold run_train_v. destruct train_op; simpl; try discriminate.
  destruct (as_tensor loss); simpl; try discriminate.
  unfold run_train. destruct (closed σ); simpl; try discriminate.
  destruct (eval _ _ _); simpl; try discriminate.
  destruct (backprop _ _ _ _); simpl; try discriminate.
  intros H. inversion H. reflexivity.
Qed.

Ltac solve_open :=
  first [ assumption
        | eapply run_init_open; eassumption
        | eapply run_train_v_open; eassumption
        | match goal with
          | H : as_session (VSession ?s) = Ok ?a |- closed ?a = false =>
              injection H as <-; assumption
          end ].

Ltac sess_prim :=
  first [ apply sess_lookup
        | apply sess_call
        | apply sess_call_graph
        | apply sess_emit
        | apply sess_from_module
        | apply sess_import_as
        | apply sess_ret
        | apply sess_mutate_open; solve_open
        | apply sess_assign; discriminate
        | apply sess_mutate; discriminate
        | apply sess_assign_free
        | apply sess_mutate_free ].

Ltac sess_steps_with known :=
  lazymatch goal with
  | |- sessions _ (if _ then _ else _) _ _ =>
      eapply sess_if; sess_steps_with known
  | |- sessions true (lookup_name "sess" ≫= _) _ _ =>
      eapply sess_lookup_open; intros ? ?; sess_steps_with known
  | |- sessions _ (call _ _ ≫= _) _ _ =>
      eapply sess_call_eq; intros ? ?; sess_steps_with known
  | |- sessions false (session_open ≫= _) _ _ =>
      eapply sess_open_assign; intros ?; sess_steps_with known
  | |- sessions true (session_close _ _ ≫= _) _ _ =>
      eapply sess_close; [ solve_open | intros ?; sess_steps_with known ]
  | |- sessions false (with_session "sess" _) _ _ =>
      apply sess_with_session;
      eapply sess_weaken; [ sess_steps_with known | right; reflexivity ]
  | |- sessions _ (for_range _ _ _) _ _ =>
      eapply sess_for_range; [ discriminate | sess_steps_with known ]
  | |- sessions _ (_ ≫= _) _ _ =>
      first [ eapply sess_bind; [ sess_prim | intros ?; sess_steps_with known ]
            | eapply sess_bind; [ known | intros ?; sess_steps_with known ]
            | eapply sess_bind;
                [ sess_steps_with known | intros ?; sess_steps_with known ] ]
  | _ => first [ sess_prim | known ]
  end.

Ltac sess_steps := sess_steps_with fail.

Lemma sess_initialize_variables :
  sessions true initialize_variables true OneOpen.
Proof.
  eapply sess_weaken; [unfold initialize_variables; sess_steps | right; reflexivity].
Qed.

Lemma sess_tensorflow_forward : sessions false tensorflow_forward false Either.
Proof.
  eapply sess_weaken;
    [ unfold tensorflow_forward; sess_steps_with ltac:(apply sess_initialize_variables)
    | left; reflexivity ].
  Unshelve. all: exact NoneOpen.
Qed.

Lemma sess_training_step : sessions true training_step true OneOpen.
Proof.
  eapply sess_weaken; [unfold training_step; sess_steps | right; reflexivity].
Qed.

Lemma sess_cell_imports (w : world) : sessions false (cell_imports w) false NoneOpen.
Proof.
  eapply sess_weaken; [unfold cell_imports; sess_steps | right; reflexivity].
Qed.

Lemma sess_cell_numpy (w : world) : sessions false (cell_numpy w) false NoneOpen.
Proof.
  eapply sess_weaken; [unfold cell_numpy; sess_steps | right; reflexivity].
Qed.

Lemma sess_cell_tensorflow : sessions false cell_tensorflow false Either.
Proof.
  eapply sess_weaken;
    [ unfold cell_tensorflow; sess_steps_with ltac:(apply sess_tensorflow_forward)
    | left; reflexivity ].
Qed.

Lemma sess_cell_keras (w : world) : sessions false (cell_keras w) false NoneOpen.
Proof.
  eapply sess_weaken; [unfold cell_keras; sess_steps | right; reflexivity].
Qed.

Lemma sess_cell_mnist (w : world) : sessions false (cell_mnist w) false NoneOpen.
Proof.
  eapply sess_weaken; [unfold cell_mnist; sess_steps | right; reflexivity].
Qed.

Lemma sess_cell_training : sessions false cell_training false Either.
Proof.
  eapply sess_weaken;
    [ unfold cell_training;
      sess_steps_with
        ltac:(first [ apply sess_tensorflow_forward
                    | apply sess_initialize_variables
                    | apply sess_training_step ])
    | left; reflexivity ].
Qed.

Lemma sess_cell_rnn (w : world) : sessions false (cell_rnn w) false NoneOpen.
Proof.
  eapply sess_weaken; [unfold cell_rnn, opaque_call; sess_steps | right; reflexivity].
Qed.

Lemma sess_add_layer (w : world) (cls module arguments : string) :
  sessions false (add_layer w cls module arguments) false NoneOpen.
Proof.
  eapply sess_weaken;
    [unfold add_layer, attribute, library_call; sess_steps | right; reflexivity].
Qed.

Lemma sess_compile_and_summarize (w : world) :
  sessions false (compile_and_summarize w) false NoneOpen.
Proof.
  eapply sess_weaken;
    [unfold compile_and_summarize, attribute, library_call; sess_steps | right; reflexivity].
Qed.

Ltac sess_keras := first [ apply sess_add_layer | apply sess_compile_and_summarize ].

Lemma sess_cell_dense_network (w : world) :
  sessions false (cell_dense_network w) false NoneOpen.
Proof.
  eapply sess_weaken;
    [ unfold cell_dense_network, attribute, library_call;
      sess_steps_with ltac:(idtac; sess_keras)
    | right; reflexivity ].
Qed.

Lemma sess_cell_layer_output (w : world) :
  sessions false (cell_layer_output w) false NoneOpen.
Proof.
  eapply sess_weaken;
    [unfold cell_layer_output, attribute, library_call; sess_steps | right; reflexivity].
Qed.

Lemma sess_scatter_class (matrix : string) :
  sessions false (scatter_class matrix) false NoneOpen.
Proof.
  eapply sess_weaken; [unfold scatter_class; sess_steps | right; reflexivity].
Qed.

Lemma sess_cell_decompositions (w : world) :
  sessions false (cell_decompositions w) false NoneOpen.
Proof.
  eapply sess_weaken;
    [ unfold cell_decompositions, attribute, library_call;
      sess_steps_with ltac:(apply sess_scatter_class)
    | right; reflexivity ].
Qed.

Lemma sess_cell_weights (w : world) : sessions false (cell_weights w) false NoneOpen.
Proof.
  eapply sess_weaken;
    [unfold cell_weights, attribute, library_call; sess_steps | right; reflexivity].
Qed.

Lemma sess_cell_output_shape (w : world) :
  sessions false (cell_output_shape w) false NoneOpen.
Proof.
  eapply sess_weaken;
    [unfold cell_output_shape, attribute, library_call; sess_steps | right; reflexivity].
Qed.

Lemma sess_cell_conv_network (w : world) :
  sessions false (cell_conv_network w) false NoneOpen.
Proof.
  eapply sess_weaken;
    [ unfold cell_conv_network, attribute, library_call;
      sess_steps_with ltac:(idtac; sess_keras)
    | right; reflexivity ].
Qed.

Lemma sess_cell_input_gradient (w : world) :
  sessions false (cell_input_gradient w) false NoneOpen.
Proof.
  eapply sess_weaken;
    [unfold cell_input_gradient, attribute, library_call; sess_steps | right; reflexivity].
Qed.

(** ** Cells depend on the names they read: the rules *)

Lemma alike_weaken (X Y : list (string * bool)) (g : bool) (s1 s2 : state) :
  alike Y g s1 s2 -> incl X Y -> alike X false s1 s2.
Proof.
  intros (Ha & _ & Ho & Ht) Hi. split; [|split; [discriminate | auto]].
  intros x e Hin. apply Ha, Hi, Hin.
Qed.

Lemma alike_names (X Y : list (string * bool)) (g : bool) (s1 s2 : state) :
  alike Y g s1 s2 -> incl X Y -> alike X g s1 s2.
Proof.
  intros (Ha & Hg & Ho & Ht) Hi. split; [|auto].
  intros x e Hin. apply Ha, Hi, Hin.
Qed.

Lemma two_bind {A B} (X Y Z : list (string * bool)) (g g1 g2 : bool) (m : prog A) (k : A -> prog B) :
  two_runs X g m Y g1 -> incl X Y -> (forall a, two_runs Y g1 (k a) Z g2) ->
  two_runs X g (m ≫= k) Z g2.
Proof.
  intros Hm Hi Hk s1 s2 Hs. specialize (Hm s1 s2 Hs).
  unfold mbind, prog_bind, pbind.
  destruct (m s1) as [s1' [a1|e1]], (m s2) as [s2' [a2|e2]]; simpl in *; try tauto.
  destruct Hm as [<- Hm]. specialize (Hk a1 s1' s2' Hm).
  destruct (snd (k a1 s1')), (snd (k a1 s2')); try tauto.
  destruct Hk as [He Hk]. split; [exact He|]. eapply alike_weaken; eassumption.
Qed.

Lemma two_ret {A} (X : list (string * bool)) (g : bool) (a : A) : two_runs X g (mret a) X g.
Proof. intros s1 s2 Hs. simpl. auto. Qed.

Lemma two_post {A} (X Y Y' : list (string * bool)) (g g' : bool) (m : prog A) :
  two_runs X g m Y g' -> incl Y' Y -> two_runs X g m Y' g'.
Proof.
  intros Hm Hi s1 s2 Hs. specialize (Hm s1 s2 Hs).
  destruct (snd (m s1)), (snd (m s2)); try tauto.
  destruct Hm as [He Hm]. split; [exact He|]. eapply alike_names; eassumption.
Qed.

Lemma two_lookup (X : list (string * bool)) (g : bool) (name : string) :
  In (name, true) X -> two_runs X g (lookup_name name) X g.
Proof.
  intros Hin s1 s2 Hs. unfold lookup_name.
  destruct Hs as (Ha & Hg & Ho & Ht). rewrite <- (Ha name true Hin).
  destruct (globals s1 !! name); simpl.
  - split; [reflexivity|]. repeat split; assumption.
  - split; [reflexivity|]. repeat split; try assumption. discriminate.
Qed.

Lemma related_refl (e : bool) (o : option value) : related e o o.
Proof. destruct e; simpl; [reflexivity|]. destruct o; simpl; auto. Qed.

Lemma agree_tagged_insert (X : list (string * bool)) (name : string) (v : value)
    (s1 s2 : state) g1 n1 o1 t1 g2 n2 o2 t2 :
  agree_tagged X s1 s2 ->
  agree_tagged ((name, true) :: X)
    (mk_state (<[name := v]> (globals s1)) g1 n1 o1 t1)
    (mk_state (<[name := v]> (globals s2)) g2 n2 o2 t2).
Proof.
  intros Ha x e Hin. simpl. destruct (decide (name = x)) as [->|Hne].
  - rewrite !lookup_insert_eq. apply related_refl.
  - rewrite !lookup_insert_ne by exact Hne. destruct Hin as [E|Hin]; [congruence|].
    apply Ha, Hin.
Qed.

Lemma two_assign (X : list (string * bool)) (g : bool) (name : string) (v : value) :
  two_runs X g (assign name v) ((name, true) :: X) g.
Proof.
  intros s1 s2 (Ha & Hg & Ho & Ht). simpl. split; [reflexivity|].
  split; [apply agree_tagged_insert, Ha|]. simpl. rewrite Ht. auto.
Qed.

Lemma two_mutate (X : list (string * bool)) (g : bool) (name : string) (v : value) :
  two_runs X g (mutate name v) ((name, true) :: X) g.
Proof.
  intros s1 s2 (Ha & Hg & Ho & Ht). simpl. split; [reflexivity|].
  split; [apply agree_tagged_insert, Ha|]. simpl. rewrite Ht. auto.
Qed.

Lemma two_call {A} (X : list (string * bool)) (g : bool) (name : string) (r : result A) :
  two_runs X g (call name r) X g.
Proof.
  intros s1 s2 (Ha & Hg & Ho & Ht). destruct r; simpl;
    (split; [reflexivity|]); (split; [exact Ha|]); simpl; rewrite Ht; auto.
  split; [discriminate | auto].
Qed.

(** A call that builds its graph from scratch makes the graphs equal. *)
Lemma two_call_graph_reset {A} (X : list (string * bool)) (g : bool) (name : string)
    (c : result (graph * A)) :
  two_runs X g (call_graph name (fun _ => c)) X true.
Proof.
  intros s1 s2 (Ha & Hg & Ho & Ht). unfold call_graph.
  destruct c as [[g' a]|e]; simpl.
  - split; [reflexivity|]. split; [exact Ha|]. simpl. rewrite Ht. auto.
  - split; [reflexivity|]. split; [exact Ha|]. simpl. rewrite Ht.
    split; [discriminate | auto].
Qed.

Lemma two_call_graph {A} (X : list (string * bool)) (name : string)
    (f : graph -> result (graph * A)) :
  two_runs X true (call_graph name f) X true.
Proof.
  intros s1 s2 (Ha & Hg & Ho & Ht). unfold call_graph. rewrite <- (Hg eq_refl).
  destruct (f (default_graph s1)) as [[g' a]|e]; simpl.
  - split; [reflexivity|]. split; [exact Ha|]. simpl. rewrite Ht. auto.
  - split; [reflexivity|]. split; [exact Ha|]. simpl. rewrite Ht.
    split; [discriminate | auto].
Qed.

Lemma two_emit (X : list (string * bool)) (g : bool) (x : output) : two_runs X g (emit x) X g.
Proof.
  intros s1 s2 (Ha & Hg & Ho & Ht). simpl. split; [reflexivity|].
  split; [exact Ha|]. simpl. rewrite Ho. auto.
Qed.

Lemma two_session_open (X : list (string * bool)) (g : bool) : two_runs X g session_open X g.
Proof.
  intros s1 s2 (Ha & Hg & Ho & Ht). simpl. split; [reflexivity|].
  split; [exact Ha|]. simpl. rewrite Ht. auto.
Qed.

Lemma two_session_close (X : list (string * bool)) (g : bool) (name : string) (σ : session) :
  two_runs X g (session_close name σ) X g.
Proof.
  intros s1 s2 (Ha & Hg & Ho & Ht). simpl. split; [reflexivity|].
  split; [exact Ha|]. simpl. rewrite Ht. auto.
Qed.

Lemma two_from_module (X : list (string * bool)) (g : bool) (alias name : string) :
  In (alias, true) X -> two_runs X g (from_module alias name) X g.
Proof.
  intros Hin. unfold from_module.
  eapply two_bind; [apply two_lookup, Hin | apply incl_refl | intros v; apply two_call].
Qed.

Lemma two_import_as (X : list (string * bool)) (g : bool) (ok : string -> bool) (name alias : string) :
  two_runs X g (import_as ok name alias) ((alias, true) :: X) g.
Proof.
  unfold import_as.
  eapply two_bind; [apply two_call | apply incl_refl | intros v; apply two_assign].
Qed.

Lemma two_if {A} (X Y : list (string * bool)) (g g' : bool) (c : bool) (m1 m2 : prog A) :
  two_runs X g m1 Y g' -> two_runs X g m2 Y g' ->
  two_runs X g (if c then m1 else m2) Y g'.
Proof. destruct c; auto. Qed.

Lemma alike_insert (X : list (string * bool)) (g : bool) (name : string) (v : value)
    (s1 s2 : state) n1 n2 (evs : list event) :
  alike X g s1 s2 ->
  alike X g
    (mk_state (<[name := v]> (globals s1)) (default_graph s1) n1 (out s1) (trace s1 ++ evs))
    (mk_state (<[name := v]> (globals s2)) (default_graph s2) n2 (out s2) (trace s2 ++ evs)).
Proof.
  intros (Ha & Hg & Ho & Ht). split.
  - intros x e Hin. simpl. destruct (decide (name = x)) as [->|Hne].
    + rewrite !lookup_insert_eq. apply related_refl.
    + rewrite !lookup_insert_ne by exact Hne. apply Ha, Hin.
  - simpl. rewrite Ht. auto.
Qed.

Lemma with_exit_alike (X : list (string * bool)) (g : bool) (name : string) (s1 s2 : state) :
  In (name, true) X -> alike X g s1 s2 ->
  alike X g
    (match globals s1 !! name with
     | Some (VSession σ) =>
         match session_close "Session.__exit__" σ s1 with
         | (s, Ok σ') => fst (mutate name (VSession σ') s)
         | (s, Raise _) => s
         end
     | _ => s1
     end)
    (match globals s2 !! name with
     | Some (VSession σ) =>
         match session_close "Session.__exit__" σ s2 with
         | (s, Ok σ') => fst (mutate name (VSession σ') s)
         | (s, Raise _) => s
         end
     | _ => s2
     end).
Proof.
  intros Hin Hs. pose proof Hs as (Ha & _). rewrite <- (Ha name true Hin).
  destruct (globals s1 !! name) as [[]|]; try exact Hs.
  simpl. rewrite <- !app_assoc. apply (alike_insert X g name _ s1 s2), Hs.
Qed.

Lemma two_with_exit {A} (X Y : list (string * bool)) (g g' : bool) (name : string) (body : prog A) :
  In (name, true) X -> incl X Y -> two_runs X g body Y g' ->
  two_runs X g (with_exit name body) Y g'.
Proof.
  intros Hin Hi Hb s1 s2 Hs. specialize (Hb s1 s2 Hs). unfold with_exit.
  destruct (body s1) as [s1' r1], (body s2) as [s2' r2]; simpl in *.
  destruct r1 as [a1|e1], r2 as [a2|e2]; try tauto; destruct Hb as [He Hb].
  - pose proof (with_exit_alike Y g' name s1' s2' (Hi _ Hin) Hb) as H.
    destruct (globals s1' !! name) as [[]|], (globals s2' !! name) as [[]|];
      simpl in *; auto.
  - pose proof (with_exit_alike X false name s1' s2' Hin Hb) as H.
    destruct (globals s1' !! name) as [[]|], (globals s2' !! name) as [[]|];
      simpl in *; auto.
Qed.

Lemma alike_tail (X : list (string * bool)) (name : string) (g : bool) (s1 s2 : state) :
  alike ((name, true) :: X) g s1 s2 -> alike X g s1 s2.
Proof. intros H. eapply alike_names; [exact H | apply incl_tl, incl_refl]. Qed.

Lemma two_with_session {A} (X Y : list (string * bool)) (g g' : bool) (name : string)
    (body : prog A) :
  incl ((name, true) :: X) Y -> two_runs ((name, true) :: X) g body Y g' ->
  two_runs X g (with_session name body) Y g'.
Proof.
  intros Hi Hb s1 s2 Hs. unfold with_session.
  pose proof (two_with_exit ((name, true) :: X) Y g g' name body
                (or_introl eq_refl) Hi Hb) as He.
  assert (H : two_runs X g
                (session_open ≫= fun σ => assign name (VSession σ) ≫= fun _ => mret tt)
                ((name, true) :: X) g).
  { eapply two_bind; [apply two_session_open | apply incl_refl | intros σ].
    eapply two_bind; [apply two_assign | apply incl_tl, incl_refl | intros _].
    apply two_ret. }
  specialize (H s1 s2 Hs). unfold mbind, prog_bind, pbind in *. simpl in *.
  destruct H as [_ H]. specialize (He _ _ H).
  destruct (snd (with_exit name body _)), (snd (with_exit name body _)); try tauto.
  destruct He as [E He]. split; [exact E|]. eapply alike_tail, He.
Qed.

Lemma two_for_range {A} (X Y : list (string * bool)) (g : bool) (var : string)
    (body : prog A) (n : nat) :
  incl ((var, true) :: X) Y -> two_runs ((var, true) :: X) g body Y g ->
  two_runs X g (for_range var n body) X g.
Proof.
  intros Hi Hb. unfold for_range. generalize 0%nat as i.
  induction n as [|n IH]; intros i s1 s2 Hs; simpl; [auto|].
  unfold mbind, prog_bind, pbind.
  pose proof (two_assign X g var (VInt (Z.of_nat i)) s1 s2 Hs) as H. simpl in H.
  destruct H as [_ H]. simpl. specialize (Hb _ _ H).
  destruct (body _) as [s1' [a1|e1]], (body _) as [s2' [a2|e2]]; simpl in *; try tauto.
  - destruct Hb as [_ Hb]. apply IH.
    eapply alike_names; [exact Hb|]. eapply incl_tran; [apply incl_tl, incl_refl | exact Hi].
  - destruct Hb as [E Hb]. split; [exact E|]. eapply alike_tail, Hb.
Qed.

Ltac solve_incl := repeat first [ apply incl_refl | apply incl_tl ].

Ltac two_prim :=
  first [ apply two_lookup; solve_in
        | apply two_from_module; solve_in
        | apply two_import_as
        | apply two_assign
        | apply two_mutate
        | apply two_call
        | apply two_call_graph
        | apply two_call_graph_reset
        | apply two_emit
        | apply two_session_open
        | apply two_session_close
        | apply two_ret ].

Ltac two_steps_with known :=
  lazymatch goal with
  | |- two_runs _ _ (if _ then _ else _) _ _ =>
      apply two_if; [ | two_steps_with known ];
      [ eapply two_post; [ two_steps_with known | solve_incl ] ]
  | _ => first [ two_prim
               | known
               | eapply two_with_session; [ | two_steps_with known ]; solve_incl
               | eapply two_for_range; [ | two_steps_with known ]; solve_incl
               | eapply two_bind;
                   [ two_steps_with known | solve_incl | intros ?; two_steps_with known ] ]
  end.

Ltac two_steps := two_steps_with fail.

Lemma two_cell_imports (w : world) (X : list (string * bool)) (g : bool) :
  exists g', two_runs X g (cell_imports w) X g'.
Proof. eexists. eapply two_post; [unfold cell_imports; two_steps | solve_incl]. Qed.

Lemma two_cell_numpy (w : world) (X : list (string * bool)) (g : bool) :
  In ("np", true) X -> exists g', two_runs X g (cell_numpy w) X g'.
Proof. intros. eexists. eapply two_post; [unfold cell_numpy; two_steps | solve_incl]. Qed.

Lemma two_initialize_variables (X : list (string * bool)) :
  In ("sess", true) X -> In ("tf", true) X -> two_runs X true initialize_variables X true.
Proof.
  intros. eapply two_post; [unfold initialize_variables; two_steps | solve_incl].
Qed.

Lemma two_tensorflow_forward (X : list (string * bool)) :
  In ("tf", true) X -> In ("plt", true) X -> In ("batch_size", true) X -> In ("n_x", true) X -> In ("n_h", true) X ->
  In ("n_y", true) X -> In ("W_h_np", true) X -> In ("W_y_np", true) X -> In ("x_np", true) X -> In ("y_np", true) X ->
  two_runs X true tensorflow_forward
    (exact ["y_val"; "sess"; "y"; "h"; "W_y"; "W_h"; "x"] ++ X) true.
Proof.
  intros. eapply two_post;
    [ unfold tensorflow_forward;
      two_steps_with ltac:(apply two_initialize_variables; solve_in)
    | solve_incl ].
Qed.

Lemma two_cell_tensorflow (X : list (string * bool)) (g : bool) :
  In ("tf", true) X -> In ("plt", true) X -> In ("batch_size", true) X -> In ("n_x", true) X -> In ("n_h", true) X ->
  In ("n_y", true) X -> In ("W_h_np", true) X -> In ("W_y_np", true) X -> In ("x_np", true) X -> In ("y_np", true) X ->
  exists g', two_runs X g cell_tensorflow X g'.
Proof.
  intros. eexists. eapply two_post;
    [ unfold cell_tensorflow;
      two_steps_with ltac:(apply two_tensorflow_forward; solve_in)
    | solve_incl ].
Qed.

Lemma two_cell_keras (w : world) (X : list (string * bool)) (g : bool) :
  In ("n_x", true) X -> In ("n_h", true) X -> In ("n_y", true) X -> In ("W_h_np", true) X -> In ("W_y_np", true) X ->
  exists g', two_runs X g (cell_keras w) X g'.
Proof. intros. eexists. eapply two_post; [unfold cell_keras; two_steps | solve_incl]. Qed.

Lemma two_cell_mnist (w : world) (X : list (string * bool)) (g : bool) :
  In ("plt", true) X -> exists g', two_runs X g (cell_mnist w) X g'.
Proof. intros. eexists. eapply two_post; [unfold cell_mnist; two_steps | solve_incl]. Qed.

Lemma two_training_step (X : list (string * bool)) :
  In ("sess", true) X -> In ("train_op", true) X -> In ("loss", true) X -> In ("x", true) X -> In ("x_np", true) X ->
  In ("y_target", true) X -> In ("y_target_np", true) X -> In ("step", true) X -> In ("steps", true) X ->
  In ("losses", true) X ->
  two_runs X true training_step X true.
Proof.
  intros. eapply two_post; [unfold training_step; two_steps | solve_incl].
Qed.

Lemma two_cell_training (X : list (string * bool)) (g : bool) :
  In ("tf", true) X -> In ("plt", true) X -> In ("keras", true) X -> In ("batch_size", true) X -> In ("n_x", true) X ->
  In ("n_h", true) X -> In ("n_y", true) X -> In ("W_h_np", true) X -> In ("W_y_np", true) X -> In ("x_np", true) X ->
  In ("y_np", true) X -> In ("y_target_np", true) X -> In ("loss_np", true) X ->
  exists g', two_runs X g cell_training X g'.
Proof.
  intros. eexists. eapply two_post;
    [ unfold cell_training;
      two_steps_with
        ltac:(first [ apply two_tensorflow_forward; solve_in
                    | apply two_initialize_variables; solve_in
                    | apply two_training_step; solve_in ])
    | solve_incl ].
Qed.

Lemma two_cell_rnn (w : world) (X : list (string * bool)) (g : bool) :
  In ("x_train", true) X -> In ("x_test", true) X -> In ("y_train", true) X -> In ("y_test", true) X ->
  In ("keras", true) X ->
  exists g', two_runs X g (cell_rnn w) X g'.
Proof.
  intros. eexists. eapply two_post; [unfold cell_rnn, opaque_call; two_steps | solve_incl].
Qed.

Lemma two_add_layer (w : world) (X : list (string * bool)) (g : bool)
    (cls module arguments : string) :
  In ("model", true) X -> In (cls, true) X ->
  two_runs X g (add_layer w cls module arguments) X g.
Proof.
  intros. eapply two_post;
    [unfold add_layer, attribute, library_call; two_steps | solve_incl].
Qed.

Lemma two_compile_and_summarize (w : world) (X : list (string * bool)) (g : bool) :
  In ("model", true) X -> two_runs X g (compile_and_summarize w) X g.
Proof.
  intros. eapply two_post;
    [unfold compile_and_summarize, attribute, library_call; two_steps | solve_incl].
Qed.

Ltac two_keras :=
  first [ apply two_add_layer; solve_in | apply two_compile_and_summarize; solve_in ].

Lemma two_cell_dense_network (w : world) (X : list (string * bool)) (g : bool) :
  In ("Sequential", true) X -> In ("x_train", true) X -> In ("y_train", true) X ->
  In ("x_test", true) X -> In ("y_test", true) X ->
  exists g', two_runs X g (cell_dense_network w) X g'.
Proof.
  intros. eexists. eapply two_post;
    [ unfold cell_dense_network, attribute, library_call;
      two_steps_with ltac:(idtac; two_keras)
    | solve_incl ].
Qed.

Lemma two_cell_layer_output (w : world) (X : list (string * bool)) (g : bool) :
  In ("model", true) X -> In ("np", true) X ->
  exists g', two_runs X g (cell_layer_output w) X g'.
Proof.
  intros. eexists. eapply two_post;
    [unfold cell_layer_output, attribute, library_call; two_steps | solve_incl].
Qed.

Lemma two_scatter_class (X : list (string * bool)) (g : bool) (matrix : string) :
  In ("y_test", true) X -> In ("i", true) X -> In ("plt", true) X ->
  In (matrix, true) X ->
  two_runs X g (scatter_class matrix) X g.
Proof.
  intros. eapply two_post; [unfold scatter_class; two_steps | solve_incl].
Qed.

Lemma two_cell_decompositions (w : world) (X : list (string * bool)) (g : bool) :
  In ("np", true) X -> In ("output", true) X -> In ("plt", true) X ->
  In ("y_test", true) X ->
  exists g', two_runs X g (cell_decompositions w) X g'.
Proof.
  intros. eexists. eapply two_post;
    [ unfold cell_decompositions, attribute, library_call;
      two_steps_with ltac:(apply two_scatter_class; solve_in)
    | solve_incl ].
Qed.

Lemma two_cell_weights (w : world) (X : list (string * bool)) (g : bool) :
  In ("model", true) X -> In ("layer_nb", true) X ->
  exists g', two_runs X g (cell_weights w) X g'.
Proof.
  intros. eexists. eapply two_post;
    [unfold cell_weights, attribute, library_call; two_steps | solve_incl].
Qed.

Lemma two_cell_output_shape (w : world) (X : list (string * bool)) (g : bool) :
  In ("model", true) X -> exists g', two_runs X g (cell_output_shape w) X g'.
Proof.
  intros. eexists. eapply two_post;
    [unfold cell_output_shape, attribute, library_call; two_steps | solve_incl].
Qed.

Lemma two_cell_conv_network (w : world) (X : list (string * bool)) (g : bool) :
  In ("Sequential", true) X -> In ("x_train", true) X -> In ("np", true) X ->
  In ("y_train", true) X -> In ("x_test", true) X -> In ("y_test", true) X ->
  exists g', two_runs X g (cell_conv_network w) X g'.
Proof.
  intros. eexists. eapply two_post;
    [ unfold cell_conv_network, attribute, library_call;
      two_steps_with ltac:(idtac; two_keras)
    | solve_incl ].
Qed.

Lemma two_cell_input_gradient (w : world) (X : list (string * bool)) (g : bool) :
  In ("model", true) X -> In ("K", true) X -> In ("np", true) X -> In ("plt", true) X ->
  exists g', two_runs X g (cell_input_gradient w) X g'.
Proof.
  intros. eexists. eapply two_post;
    [unfold cell_input_gradient, attribute, library_call; two_steps | solve_incl].
Qed.

(** A name whose value is used for its shape only may be bound to values
    that differ elsewhere. *)
Lemma two_lookup_shape {A B} (X Y : list (string * bool)) (g g' : bool)
    (name call_name : string) (f : value -> result A) (k : A -> prog B) :
  (exists e, In (name, e) X) ->
  (forall v1 v2, shape_v v1 = shape_v v2 -> f v1 = f v2) ->
  (forall a, two_runs X g (k a) Y g') ->
  two_runs X g (lookup_name name ≫= fun v => call call_name (f v) ≫= k) Y g'.
Proof.
  intros [e Hin] Hf Hk s1 s2 Hs. pose proof Hs as (Ha & Hg & Ho & Ht).
  assert (Hsim : similar (globals s1 !! name) (globals s2 !! name)).
  { specialize (Ha name e Hin). destruct e; simpl in Ha; [|exact Ha].
    rewrite Ha. destruct (globals s2 !! name); simpl; auto. }
  unfold mbind, prog_bind, pbind, lookup_name.
  destruct (globals s1 !! name) as [v1|], (globals s2 !! name) as [v2|];
    simpl in Hsim; try tauto.
  - rewrite <- (Hf v1 v2 Hsim).
    assert (Hs' : alike X g (log (Call call_name (error_of (f v1))) s1)
                            (log (Call call_name (error_of (f v1))) s2)).
    { split; [exact Ha|]. simpl. rewrite Ht. auto. }
    unfold call. destruct (f v1) as [a|err]; simpl.
    + apply (Hk a _ _ Hs').
    + split; [reflexivity|]. destruct Hs' as (? & ? & ? & ?).
      split; [assumption|]. split; [discriminate | auto].
  - simpl. split; [reflexivity|]. split; [exact Ha|]. split; [discriminate | auto].
Qed.

Lemma reshape_like_same (x v1 v2 : value) :
  shape_v v1 = shape_v v2 -> reshape_like_v x v1 = reshape_like_v x v2.
Proof. intros H. unfold reshape_like_v. rewrite H. reflexivity. Qed.

Ltac two_rnn :=
  eapply two_lookup_shape;
  [ eexists; solve_in
  | intros ? ? ?; apply reshape_like_same; assumption
  | intros ?; two_steps_with ltac:(idtac; two_rnn) ].

(** The cell "Recurrent network" uses [x_test] for its shape only. *)
Lemma two_cell_rnn_shape (w : world) (X : list (string * bool)) (g : bool) :
  In ("x_train", true) X -> In ("x_test", false) X -> In ("y_train", true) X ->
  In ("y_test", true) X -> In ("keras", true) X ->
  exists g', two_runs X g (cell_rnn w) X g'.
Proof.
  intros. eexists. eapply two_post;
    [ unfold cell_rnn, opaque_call; two_steps_with ltac:(idtac; two_rnn)
    | solve_incl ].
Qed.

Lemma two_cell_rnn_binds (w : world) (X : list (string * bool)) (g : bool) :
  In ("x_train", true) X -> In ("x_test", false) X -> In ("y_train", true) X ->
  In ("y_test", true) X -> In ("keras", true) X ->
  exists g', two_runs X g (cell_rnn w) (("x_test_rnn", true) :: X) g'.
Proof.
  intros. eexists. eapply two_post;
    [ unfold cell_rnn, opaque_call; two_steps_with ltac:(idtac; two_rnn)
    | apply incl_cons; [simpl; tauto | solve_incl] ].
Qed.

(** ** Sessions at the end of a cell *)

Lemma session_state_start (s : state) :
  session_state (open_sessions s) false
    (mk_state (globals s) (default_graph s) (open_sessions s) [] []).
Proof. split; [reflexivity | discriminate]. Qed.

Lemma notebook_sessions (w : world) (i : nat) (cell : prog unit) :
  code_cells w !! i = Some cell ->
  sessions false cell false (if bool_decide (i = 2%nat \/ i = 10%nat) then Either else NoneOpen).
Proof.
  intros Hc.
  do 14 (destruct i as [|i];
         [simpl in Hc; injection Hc as <-;
          first [ apply sess_cell_imports | apply sess_cell_numpy
                | apply sess_cell_tensorflow | apply sess_cell_keras
                | apply sess_cell_mnist | apply sess_cell_dense_network
                | apply sess_cell_layer_output | apply sess_cell_decompositions
                | apply sess_cell_weights | apply sess_cell_output_shape
                | apply sess_cell_training | apply sess_cell_conv_network
                | apply sess_cell_rnn | apply sess_cell_input_gradient ]|]).
  discriminate.
Qed.

(** C7, as the code has it: a code cell that runs to its end leaves open no
    session it opened; the cells that never call the constructor
    [tf.Session()] outside a [with] block (all but the two cells "Tensorflow
    way", the third and the eleventh code cell) leave none open when they
    raise either; and a session opened by [with tf.Session() as sess] is
    closed when the block is left, also by an exception of a body that keeps
    the session bound to [sess]. *)
Theorem sessions_closed_on_completion (w : world) (i : nat) (cell : prog unit)
    (s : state) :
  code_cells w !! i = Some cell ->
  (forall u, snd (run_cell cell s) = Ok u ->
             open_sessions (fst (run_cell cell s)) = open_sessions s)
  /\ (i <> 2%nat -> i <> 10%nat ->
      open_sessions (fst (run_cell cell s)) = open_sessions s)
  /\ (forall (A : Type) (body : prog A) (s0 : state),
        sessions true body true OneOpen ->
        open_sessions (fst (with_session "sess" body s0)) = open_sessions s0).
Proof.
  intros Hc. pose proof (notebook_sessions w i cell Hc _ _ (session_state_start s)) as H.
  unfold run_cell. split; [|split].
  - intros u Hu. rewrite Hu in H. apply H.
  - intros H2 H10. rewrite bool_decide_eq_false_2 in H by tauto.
    destruct (snd (cell _)); apply H.
  - intros A body s0 Hb.
    pose proof (sess_with_session body Hb (open_sessions s0) s0) as Hw.
    assert (Hs : session_state (open_sessions s0) false s0)
      by (split; [reflexivity | discriminate]).
    specialize (Hw Hs). destruct (snd (with_session "sess" body s0)); apply Hw.
Qed.

(** C7 fails as stated: with ten inputs bound to [x_np], [sess.run(y,
    feed_dict={x: x_np})] raises in the cell "Tensorflow way", [sess.close()]
    is not reached, and the session the cell opened is still open when the
    cell ends. *)
Lemma session_left_open :
  open_sessions ten_inputs = 0%nat
  /\ snd (run_cell cell_tensorflow ten_inputs) = Raise ValueError
  /\ open_sessions (fst (run_cell cell_tensorflow ten_inputs)) = 1%nat
  /\ exists σ, globals (fst (run_cell cell_tensorflow ten_inputs)) !! "sess"
               = Some (VSession σ) /\ closed σ = false.
Proof.
  split; [vm_compute; reflexivity|].
  split; [vm_compute; reflexivity|].
  split; [vm_compute; reflexivity|].
  eexists. split; [vm_compute; reflexivity | reflexivity].
Qed.

(** ** What a cell depends on *)

Lemma agree_exact (R : list string) (s1 s2 : state) :
  agree_on R s1 s2 <-> agree_tagged (exact R) s1 s2.
Proof.
  unfold agree_on, agree_tagged, exact. split.
  - intros H name e Hin. apply in_map_iff in Hin as (x & E & Hx).
    injection E as -> <-. apply (H _ Hx).
  - intros H name Hin. apply (H name true). apply in_map_iff. eauto.
Qed.

Lemma notebook_two_runs (w : world) (i : nat) (cell : prog unit) (R : list string) :
  code_cells w !! i = Some cell -> code_cell_reads !! i = Some R ->
  exists g', two_runs (exact R) false cell (exact R) g'.
Proof.
  intros Hc HR.
  do 14 (destruct i as [|i];
         [simpl in Hc, HR; injection Hc as <-; injection HR as <-; unfold exact; simpl;
          first [ apply two_cell_imports
                | first [ apply two_cell_numpy | apply two_cell_tensorflow
                        | apply two_cell_keras | apply two_cell_mnist
                        | apply two_cell_dense_network | apply two_cell_layer_output
                        | apply two_cell_decompositions | apply two_cell_weights
                        | apply two_cell_output_shape | apply two_cell_training
                        | apply two_cell_conv_network | apply two_cell_rnn
                        | apply two_cell_input_gradient ];
                  solve_in ]|]).
  discriminate.
Qed.

(** C5, as the code has it: a code cell depends on the session only through
    the global names it reads, listed in [code_cell_reads]; for the
    TensorFlow cell these are [tf] and [plt] from the import cell and
    [batch_size], [n_x], [n_h], [n_y], [W_h_np], [W_y_np], [x_np] and [y_np]
    from the NumPy cell.  Two runs of a cell in one world, that is, with the
    libraries in the same state and behaving the same way, from sessions that
    agree on these names, end the same way (normally, or with the same
    exception), show the same outputs, make the same calls and assignments
    with the same values, and still agree on the names, whatever the default
    graph and the open sessions of the two sessions are. *)
Theorem cells_depend_on_reads (w : world) (i : nat) (cell : prog unit)
    (R : list string) (s1 s2 : state) :
  code_cells w !! i = Some cell -> code_cell_reads !! i = Some R -> agree_on R s1 s2 ->
  snd (run_cell cell s1) = snd (run_cell cell s2)
  /\ out (fst (run_cell cell s1)) = out (fst (run_cell cell s2))
  /\ trace (fst (run_cell cell s1)) = trace (fst (run_cell cell s2))
  /\ agree_on R (fst (run_cell cell s1)) (fst (run_cell cell s2)).
Proof.
  intros Hc HR Ha. destruct (notebook_two_runs w i cell R Hc HR) as (g' & H).
  unfold run_cell.
  set (t1 := mk_state (globals s1) (default_graph s1) (open_sessions s1) [] []).
  set (t2 := mk_state (globals s2) (default_graph s2) (open_sessions s2) [] []).
  assert (Hs : alike (exact R) false t1 t2).
  { split; [apply agree_exact, Ha|]. split; [discriminate | split; reflexivity]. }
  specialize (H t1 t2 Hs).
  destruct (snd (cell t1)) as [[]|e1], (snd (cell t2)) as [[]|e2]; try tauto.
  - destruct H as (_ & Ha' & _ & Ho & Ht). apply agree_exact in Ha'. auto.
  - destruct H as (-> & Ha' & _ & Ho & Ht). apply agree_exact in Ha'. auto.
Qed.

(** C5 fails as stated: the cell "Tensorflow way" also reads [y_np], which
    the parenthesis of the claim leaves out.  Two sessions that agree on
    [batch_size], [n_x], [n_h], [n_y], [x_np], [W_h_np] and [W_y_np] (and on
    [tf] and [plt]) but not on [y_np] make the cell draw different scatter
    plots. *)
Lemma tensorflow_cell_reads_y_np :
  agree_on ["tf"; "plt"; "batch_size"; "n_x"; "n_h"; "n_y"; "x_np"; "W_h_np"; "W_y_np"]
    after_numpy other_y_np
  /\ snd (run_cell cell_tensorflow after_numpy) = Ok tt
  /\ snd (run_cell cell_tensorflow other_y_np) = Ok tt
  /\ out (fst (run_cell cell_tensorflow after_numpy))
     <> out (fst (run_cell cell_tensorflow other_y_np)).
Proof.
  split.
  { intros name Hin. unfold other_y_np, rebind. cbn [globals].
    rewrite lookup_insert_ne; [reflexivity|].
    simpl in Hin. intuition (subst; discriminate). }
  split; [vm_compute; reflexivity|].
  split; [vm_compute; reflexivity|].
  intros H.
  pose proof (f_equal (fun o => match last o with
                                | Some (Scatter _ b) => nth 0 (data b) 0
                                | _ => 0
                                end) H) as E.
  vm_compute in E. discriminate E.
Qed.

(** C5 also fails for what is no variable: the state of NumPy's random
    generator, which no cell seeds.  Run in the same session, in two worlds
    that differ only in what the generator yields, the cell "Numpy way" binds
    [x_np] to different arrays. *)
Lemma numpy_cell_draws_anew :
  snd (run_cell (cell_numpy example_world) after_imports) = Ok tt
  /\ snd (run_cell (cell_numpy other_draws) after_imports) = Ok tt
  /\ globals (fst (run_cell (cell_numpy example_world) after_imports)) !! "x_np"
     <> globals (fst (run_cell (cell_numpy other_draws) after_imports)) !! "x_np".
Proof.
  split; [vm_compute; reflexivity|].
  split; [vm_compute; reflexivity|].
  intros H.
  pose proof (f_equal (fun o => match o with
                                | Some (VArr a) => nth 0 (data a) 0
                                | _ => 0
                                end) H) as E.
  vm_compute in E. discriminate E.
Qed.

(** C6 fails as stated.  Run in a fresh kernel, the cell "Tensorflow way"
    raises NameError for [tf] although it has made no call at all: no
    library call raised.  And with targets of four columns the training cell
    fails in its first [with] block at [sess.run]; the block then still calls
    [__exit__] and leaves [sess] bound to the session, now closed: a change
    after the failure. *)
Lemma cell_fails_without_failing_call :
  snd (run_cell cell_tensorflow fresh_kernel) = Raise (NameError "tf")
  /\ trace (fst (run_cell cell_tensorflow fresh_kernel)) = []
  /\ snd (run_cell cell_training four_targets) = Raise ValueError
  /\ match rev (trace (fst (run_cell cell_training four_targets))) with
     | Mutate "sess" (VSession σ) :: Call "Session.__exit__" None
       :: Call "Session.run" (Some ValueError) :: _ => closed σ = true
     | _ => False
     end.
Proof.
  split; [vm_compute; reflexivity|].
  split; [vm_compute; reflexivity|].
  split; [vm_compute; reflexivity|].
  vm_compute. reflexivity.
Qed.

(** ** The theorems at concrete inputs *)

Lemma raw_pixel_example (v : Q) :
  In v [0; 51; 102; 153; 204; 255] -> raw_pixel v.
Proof.
  simpl. intros H. unfold raw_pixel.
  repeat (destruct H as [<-|H]; [split; discriminate|]). destruct H.
Qed.

Lemma loss_nonneg_zero_iff_equal_witness :
  wf (mk_array [1; 2]%nat [1; 2]) /\ wf (mk_array [1; 2]%nat [1; 3])
  /\ exists loss : Q,
       numpy_loss (mk_array [1; 2]%nat [1; 2]) (mk_array [1; 2]%nat [1; 3]) = Ok (Num loss)
       /\ 0 <= loss
       /\ (loss == 0 <-> array_eq (mk_array [1; 2]%nat [1; 3]) (mk_array [1; 2]%nat [1; 2])).
Proof.
  split; [reflexivity|]. split; [reflexivity|].
  apply (loss_nonneg_zero_iff_equal (mk_array [1; 2]%nat [1; 2]) (mk_array [1; 2]%nat [1; 3]));
    [reflexivity | reflexivity | reflexivity | simpl; lia].
Defined.

(** C9 fails as stated for arrays without entries: [np.mean] of no entries
    is nan, so the loss of two equal arrays of shape (0,) is no number, neither
    non-negative nor zero. *)
Lemma loss_of_empty_arrays_is_nan :
  wf (mk_array [0%nat] [])
  /\ array_eq (mk_array [0%nat] []) (mk_array [0%nat] [])
  /\ numpy_loss (mk_array [0%nat] []) (mk_array [0%nat] []) = Ok NaN
  /\ ~ (exists loss : Q,
          numpy_loss (mk_array [0%nat] []) (mk_array [0%nat] []) = Ok (Num loss)
          /\ 0 <= loss
          /\ (loss == 0 <-> array_eq (mk_array [0%nat] []) (mk_array [0%nat] []))).
Proof.
  split; [reflexivity|]. split; [split; [reflexivity | constructor]|].
  split; [reflexivity|]. intros (loss & E & _). discriminate E.
Qed.

Lemma normalize_unit_interval_witness :
  Forall raw_pixel [0; 51; 102; 153; 204; 255; 0; 255]
  /\ Forall raw_pixel [255; 0; 0; 255]
  /\ exists x_train' x_test',
       normalize (mk_array [2; 2; 2]%nat [0; 51; 102; 153; 204; 255; 0; 255])
                 (mk_array [1; 2; 2]%nat [255; 0; 0; 255]) = Ok (x_train', x_test')
       /\ shape x_train' = [2; 2; 2]%nat /\ shape x_test' = [1; 2; 2]%nat
       /\ Forall unit_interval (data x_train')
       /\ Forall unit_interval (data x_test').
Proof.
  assert (H1 : Forall raw_pixel [0; 51; 102; 153; 204; 255; 0; 255])
    by (apply Forall_forall; intros v Hv; apply raw_pixel_example;
        apply list_elem_of_In in Hv; simpl in *; tauto).
  assert (H2 : Forall raw_pixel [255; 0; 0; 255])
    by (apply Forall_forall; intros v Hv; apply raw_pixel_example;
        apply list_elem_of_In in Hv; simpl in *; tauto).
  split; [exact H1|]. split; [exact H2|].
  exact (normalize_unit_interval
           (mk_array [2; 2; 2]%nat [0; 51; 102; 153; 204; 255; 0; 255])
           (mk_array [1; 2; 2]%nat [255; 0; 0; 255]) H1 H2).
Defined.

Lemma forward_pass_shapes_witness :
  wf (constant_array 5 3 1)
  /\ exists (z h y : ndarray) (loss : Q),
       np_dot (constant_array 5 10 1) (constant_array 10 100 1) = Ok z
       /\ numpy_hidden (constant_array 5 10 1) (constant_array 10 100 1) = Ok h
       /\ shape h = [5; 100]%nat /\ wf h
       /\ np_dot h (constant_array 100 3 1) = Ok y
       /\ numpy_forward (constant_array 5 10 1) (constant_array 10 100 1)
            (constant_array 100 3 1) = Ok y
       /\ shape y = [5; 3]%nat /\ wf y
       /\ numpy_loss (constant_array 5 3 1) y = Ok (Num loss).
Proof.
  split; [reflexivity|].
  apply (forward_pass_shapes 5 10 100 3);
    [reflexivity | reflexivity | reflexivity | reflexivity | reflexivity | lia].
Defined.

Lemma three_implementations_agree_witness :
  wf (constant_array 10 100 1) /\ wf (constant_array 100 3 1)
  /\ exists z y_np y_tf y_keras : ndarray,
       np_dot (constant_array 5 10 1) (constant_array 10 100 1) = Ok z
       /\ np_dot (relu z) (constant_array 100 3 1) = Ok y_np
       /\ numpy_forward (constant_array 5 10 1) (constant_array 10 100 1)
            (constant_array 100 3 1) = Ok y_np
       /\ tensorflow_forward_value 5 10 100 3 (constant_array 5 10 1)
            (constant_array 10 100 1) (constant_array 100 3 1) = Ok y_tf
       /\ keras_forward_value (fun _ _ => 0) 10 100 3 (constant_array 5 10 1)
            (constant_array 10 100 1) (constant_array 100 3 1) = Ok y_keras
       /\ array_eq y_tf y_np /\ array_eq y_keras y_np /\ array_eq y_tf y_keras.
Proof.
  split; [reflexivity|]. split; [reflexivity|].
  apply (three_implementations_agree (fun _ _ => 0) 5 10 100 3);
    reflexivity.
Defined.

Lemma four_targets_bound :
  names_bound
    ["tf"; "plt"; "keras"; "batch_size"; "n_x"; "n_h"; "n_y"; "W_h_np"; "W_y_np";
     "x_np"; "y_np"; "y_target_np"; "loss_np"]
    four_targets.
Proof.
  intros name Hin. simpl in Hin.
  repeat (destruct Hin as [<-|Hin]; [eexists; vm_compute; reflexivity|]).
  destruct Hin.
Defined.

Lemma exceptions_propagate_witness :
  code_cells example_world !! 10%nat = Some cell_training
  /\ snd (run_cell cell_training four_targets) = Raise ValueError
  /\ globals (fst (run_cell cell_training four_targets))
     = replay (trace (fst (run_cell cell_training four_targets))) (globals four_targets)
  /\ failed (globals four_targets) ValueError
       (trace (fst (run_cell cell_training four_targets)))
  /\ failed_call ValueError (trace (fst (run_cell cell_training four_targets))).
Proof.
  assert (E : snd (run_cell cell_training four_targets) = Raise ValueError)
    by (vm_compute; reflexivity).
  pose proof (exceptions_propagate example_world 10 cell_training _ four_targets
                eq_refl eq_refl) as [Hg Hr].
  rewrite E in Hr. destruct Hr as [Hf Hc].
  split; [reflexivity|]. split; [exact E|]. split; [exact Hg|]. split; [exact Hf|].
  exact (Hc four_targets_bound).
Defined.

Lemma cells_depend_on_reads_witness :
  agree_on
    ["tf"; "plt"; "batch_size"; "n_x"; "n_h"; "n_y"; "W_h_np"; "W_y_np"; "x_np"; "y_np"]
    after_numpy (rebind "loss_np" VNone after_numpy)
  /\ snd (run_cell cell_tensorflow after_numpy)
     = snd (run_cell cell_tensorflow (rebind "loss_np" VNone after_numpy))
  /\ out (fst (run_cell cell_tensorflow after_numpy))
     = out (fst (run_cell cell_tensorflow (rebind "loss_np" VNone after_numpy)))
  /\ trace (fst (run_cell cell_tensorflow after_numpy))
     = trace (fst (run_cell cell_tensorflow (rebind "loss_np" VNone after_numpy)))
  /\ agree_on
       ["tf"; "plt"; "batch_size"; "n_x"; "n_h"; "n_y"; "W_h_np"; "W_y_np"; "x_np"; "y_np"]
       (fst (run_cell cell_tensorflow after_numpy))
       (fst (run_cell cell_tensorflow (rebind "loss_np" VNone after_numpy))).
Proof.
  assert (H : agree_on
                ["tf"; "plt"; "batch_size"; "n_x"; "n_h"; "n_y"; "W_h_np"; "W_y_np";
                 "x_np"; "y_np"]
                after_numpy (rebind "loss_np" VNone after_numpy)).
  { intros name Hin. unfold rebind. cbn [globals].
    rewrite lookup_insert_ne; [reflexivity|].
    simpl in Hin. intuition (subst; discriminate). }
  split; [exact H|].
  exact (cells_depend_on_reads example_world 2 cell_tensorflow _ after_numpy
           (rebind "loss_np" VNone after_numpy) eq_refl eq_refl H).
Defined.

(** ** The recurrent cell *)

Lemma reshape_infer_ok (a : ndarray) (d0 : nat) :
  d0 <> 0%nat -> (size_of (shape a) mod d0 = 0)%nat ->
  reshape_infer a d0 = Ok (reshaped a d0).
Proof.
  intros H0 Hm. unfold reshape_infer.
  destruct (Nat.eqb_spec d0 0); [contradiction|].
  rewrite Hm. reflexivity.
Qed.

Lemma reshape_like_ok (a b : ndarray) (d0 : nat) (rest : list nat) :
  shape b = d0 :: rest -> d0 <> 0%nat -> (size_of (shape a) mod d0 = 0)%nat ->
  reshape_like_v (VArr a) (VArr b) = Ok (VArr (reshaped a d0)).
Proof.
  intros Hs H0 Hm. unfold reshape_like_v. simpl. rewrite Hs. simpl.
  rewrite (reshape_infer_ok _ _ H0 Hm). reflexivity.
Qed.

Lemma size_of_cons_mod (d : nat) (rest : list nat) :
  d <> 0%nat -> (size_of (d :: rest) mod d = 0)%nat.
Proof.
  intros H. unfold size_of; simpl. fold (size_of rest).
  rewrite Nat.mul_comm. apply Nat.Div0.mod_mul.
Qed.

Lemma cell_rnn_runs (w : world) G g n o t (a b c d : ndarray)
    (da d0 : nat) (ra rb : list nat) (scores : list Q) :
  G !! "x_train" = Some (VArr a) -> G !! "x_test" = Some (VArr b) ->
  G !! "y_train" = Some (VArr c) -> G !! "y_test" = Some (VArr d) ->
  G !! "keras" = Some (VModule "keras") ->
  (forall name, importable w name = true) -> (forall name, opaque w name = Ok tt) ->
  shape a = da :: ra -> da <> 0%nat ->
  shape b = d0 :: rb -> d0 <> 0%nat -> (size_of (shape a) mod d0 = 0)%nat ->
  rnn_fit w (reshaped a da) c = Ok tt ->
  rnn_evaluate w (reshaped a da) c (reshaped a d0) d = Ok scores ->
  exists G' t',
    cell_rnn w (mk_state G g n o t)
    = (mk_state G' g n
         (((o ++ [Printed [VObject "Input"]]) ++ [Summary (VRnn None)])
          ++ [Printed [VFloats scores]])
         t', Ok tt)
    /\ G' !! "x_train_rnn" = Some (VArr (reshaped a da))
    /\ G' !! "x_test_rnn" = Some (VArr (reshaped a d0))
    /\ G' !! "x_test" = Some (VArr b).
Proof.
  intros Hxtr Hxte Hytr Hyte Hk Himp Hopq Sa Hda Sb Hd0 Hmod Hfit Hev.
  assert (Hma : (size_of (shape a) mod da = 0)%nat)
    by (rewrite Sa; apply size_of_cons_mod, Hda).
  pose proof (reshape_like_ok a a da ra Sa Hda Hma) as R1.
  pose proof (reshape_like_ok a b d0 rb Sb Hd0 Hmod) as R2.
  do 2 eexists. split.
  - unfold cell_rnn, opaque_call.
    repeat exec_step_with
      ltac:(rewrite ?Himp, ?Hopq, ?R1, ?R2; unfold rnn_fit_v, rnn_evaluate_v; simpl;
            rewrite ?Hfit, ?Hev).
    apply exec_emit.
  - split; [find_binding|]. split; find_binding.
Qed.

(** C8: [x_test_rnn] is [x_train] reshaped, with only the first dimension
    taken from [x_test].  Two runs of the cell whose sessions agree on
    [x_train], [y_train], [y_test] and [keras] and bind [x_test] to arrays of
    one shape end the same way, show the same outputs and make the same
    calls and assignments with the same values, and when they end normally
    [x_test_rnn] is bound to the same array in both: the pixels of [x_test]
    play no part.  When the
    library calls succeed, [x_test_rnn] is bound to the entries of [x_train]
    and the scores shown are those of these entries against [y_test]. *)
Theorem rnn_scores_training_pixels (w : world) (s1 s2 : state) :
  agree_on ["x_train"; "y_train"; "y_test"; "keras"] s1 s2 ->
  similar (globals s1 !! "x_test") (globals s2 !! "x_test") ->
  (snd (run_cell (cell_rnn w) s1) = snd (run_cell (cell_rnn w) s2)
   /\ out (fst (run_cell (cell_rnn w) s1)) = out (fst (run_cell (cell_rnn w) s2))
   /\ trace (fst (run_cell (cell_rnn w) s1)) = trace (fst (run_cell (cell_rnn w) s2))
   /\ (snd (run_cell (cell_rnn w) s1) = Ok tt ->
       globals (fst (run_cell (cell_rnn w) s1)) !! "x_test_rnn"
       = globals (fst (run_cell (cell_rnn w) s2)) !! "x_test_rnn"))
  /\ forall (a b c d : ndarray) (da d0 : nat) (ra rb : list nat) (scores : list Q),
       globals s1 !! "x_train" = Some (VArr a) -> globals s1 !! "x_test" = Some (VArr b) ->
       globals s1 !! "y_train" = Some (VArr c) -> globals s1 !! "y_test" = Some (VArr d) ->
       globals s1 !! "keras" = Some (VModule "keras") ->
       (forall name, importable w name = true) -> (forall name, opaque w name = Ok tt) ->
       shape a = da :: ra -> da <> 0%nat ->
       shape b = d0 :: rb -> d0 <> 0%nat -> (size_of (shape a) mod d0 = 0)%nat ->
       rnn_fit w (reshaped a da) c = Ok tt ->
       rnn_evaluate w (reshaped a da) c (reshaped a d0) d = Ok scores ->
       snd (run_cell (cell_rnn w) s1) = Ok tt
       /\ globals (fst (run_cell (cell_rnn w) s1)) !! "x_test_rnn"
          = Some (VArr (reshaped a d0))
       /\ data (reshaped a d0) = data a
       /\ last (out (fst (run_cell (cell_rnn w) s1))) = Some (Printed [VFloats scores]).
Proof.
  intros Ha Hsim. split.
  - destruct (two_cell_rnn_binds w
                [("x_train", true); ("x_test", false); ("y_train", true);
                 ("y_test", true); ("keras", true)] false) as (g' & H);
      [solve_in .. |].
    unfold run_cell.
    set (t1 := mk_state (globals s1) (default_graph s1) (open_sessions s1) [] []).
    set (t2 := mk_state (globals s2) (default_graph s2) (open_sessions s2) [] []).
    assert (Hs : alike [("x_train", true); ("x_test", false); ("y_train", true);
                        ("y_test", true); ("keras", true)] false t1 t2).
    { split; [|split; [discriminate | split; reflexivity]].
      intros name e Hin. simpl in Hin.
      destruct Hin as [E|[E|[E|[E|[E|[]]]]]]; injection E as <- <-; simpl;
        try exact Hsim; apply Ha; simpl; tauto. }
    specialize (H t1 t2 Hs).
    destruct (snd (cell_rnn w t1)) as [[]|e1], (snd (cell_rnn w t2)) as [[]|e2];
      try tauto.
    + destruct H as (_ & Hg & _ & Ho & Ht).
      repeat split; auto. intros _. exact (Hg "x_test_rnn" true (or_introl eq_refl)).
    + destruct H as (-> & _ & _ & Ho & Ht). repeat split; auto. discriminate.
  - intros a b c d da d0 ra rb scores Hxtr Hxte Hytr Hyte Hk Himp Hopq
           Sa Hda Sb Hd0 Hmod Hfit Hev.
    destruct (cell_rnn_runs w (globals s1) (default_graph s1) (open_sessions s1) [] []
                a b c d da d0 ra rb scores) as (G' & t' & E & _ & Hrnn & _);
      try assumption.
    unfold run_cell. rewrite E. simpl.
    split; [reflexivity|]. split; [exact Hrnn|]. split; reflexivity.
Qed.

(** ** Gradient descent on the network *)

Lemma shape_transpose (a : ndarray) (m n : nat) :
  shape a = [m; n] -> shape (transpose a) = [n; m].
Proof. intros H. unfold transpose. rewrite H. reflexivity. Qed.

Lemma feed_fits_rows (a : ndarray) (m n : nat) :
  shape a = [m; n] -> feed_fits [None; Some n] a = true.
Proof. intros H. unfold feed_fits. rewrite H. simpl. rewrite Nat.eqb_refl. reflexivity. Qed.

Lemma np_mean_nonempty (a : ndarray) :
  (0 < length (data a))%nat ->
  np_mean a = Num (Qsum (data a) / inject_Z (Z.of_nat (length (data a)))).
Proof. unfold np_mean. destruct (data a); simpl; [lia | reflexivity]. Qed.

Lemma eval_square (θ : gmap string ndarray) (feed : gmap nat ndarray) (a : tensor) :
  eval θ feed (Square a) = (va ← eval θ feed a; Ok (np_square va)).
Proof. reflexivity. Qed.

Lemma eval_reduce_mean (θ : gmap string ndarray) (feed : gmap nat ndarray) (a : tensor) :
  eval θ feed (ReduceMean a)
  = (va ← eval θ feed a;
     match np_mean va with Num q => Ok (mk_array [] [q]) | NaN => Raise NotModelled end).
Proof. reflexivity. Qed.

Lemma backprop_reduce_mean θ feed (a : tensor) (up : ndarray) :
  backprop θ feed (ReduceMean a) up
  = (va ← eval θ feed a;
     backprop θ feed a
       (mk_array (shape va)
          (map (fun _ => nth 0 (data up) 0 / inject_Z (Z.of_nat (length (data va))))
               (data va)))).
Proof. reflexivity. Qed.

Lemma backprop_square θ feed (a : tensor) (up : ndarray) :
  backprop θ feed (Square a) up
  = (va ← eval θ feed a; backprop θ feed a (hadamard (scale 2 va) up)).
Proof. reflexivity. Qed.

Lemma backprop_sub θ feed (a c : tensor) (up : ndarray) :
  backprop θ feed (Sub a c) up
  = (da ← backprop θ feed a up; dc ← backprop θ feed c (scale (-1) up);
     Ok (merge_grads da dc)).
Proof. reflexivity. Qed.

Lemma backprop_matmul θ feed (a c : tensor) (up : ndarray) :
  backprop θ feed (MatMul a c) up
  = (va ← eval θ feed a; vc ← eval θ feed c;
     ga ← matmul_with InvalidArgumentError up (transpose vc);
     gc ← matmul_with InvalidArgumentError (transpose va) up;
     da ← backprop θ feed a ga;
     dc ← backprop θ feed c gc;
     Ok (merge_grads da dc)).
Proof. reflexivity. Qed.

Lemma backprop_relu θ feed (a : tensor) (up : ndarray) :
  backprop θ feed (Relu a) up
  = (va ← eval θ feed a;
     backprop θ feed a
       (mk_array (shape up)
          (zip_with (fun u v => u * bool_to_Q (gt0 v)) (data up) (data va)))).
Proof. reflexivity. Qed.

Lemma eval_relu θ feed (a : tensor) :
  eval θ feed (Relu a) = (va ← eval θ feed a; Ok (tf_nn_relu va)).
Proof. reflexivity. Qed.

Section Network.
Variables (b n_x n_h n_y : nat) (x y_target : ndarray).
Variables (θ : gmap string ndarray) (feed : gmap nat ndarray) (W_h W_y : ndarray).
Hypothesis feed_x : feed !! 0%nat = Some x.
Hypothesis feed_y : feed !! 1%nat = Some y_target.
Hypothesis θ_h : θ !! "W_h" = Some W_h.
Hypothesis θ_y : θ !! "W_y" = Some W_y.
Hypothesis shape_x : shape x = [b; n_x].
Hypothesis shape_t : shape y_target = [b; n_y].
Hypothesis shape_h : shape W_h = [n_x; n_h].
Hypothesis shape_y : shape W_y = [n_h; n_y].
Hypothesis wf_t : wf y_target.
Hypothesis nonempty : (0 < b * n_y)%nat.

Let z : ndarray := mk_array [b; n_h] (matmul_data (data x) (data W_h) b n_x n_h).
Let y : ndarray := mlp_value tf_nn_relu b n_x n_h n_y x W_h W_y.
Let d : ndarray := mk_array (shape y_target) (zip_with Qminus (data y_target) (data y)).

Lemma eval_hidden_node :
  eval θ feed (MatMul (Placeholder 0 [Some b; Some n_x]) (Var "W_h" [n_x; n_h])) = Ok z.
Proof.
  cbn [eval]. rewrite feed_x, θ_h, (feed_fits_matrix _ _ _ shape_x).
  cbn [mbind result_bind rbind]. apply matmul_with_shape; assumption.
Qed.

Lemma eval_difference_node :
  eval θ feed (Sub (Placeholder 1 [None; Some n_y]) (mlp_graph 0 b n_x n_h n_y)) = Ok d.
Proof.
  cbn [eval]. rewrite feed_y, (feed_fits_rows _ _ _ shape_t).
  cbn [mbind result_bind rbind].
  rewrite (eval_mlp_graph θ feed 0 b n_x n_h n_y x W_h W_y) by assumption.
  cbn [mbind result_bind rbind].
  rewrite (shape_eqb_true (shape y_target) (shape (mlp_value tf_nn_relu b n_x n_h n_y x W_h W_y)))
    by (rewrite shape_t; reflexivity).
  reflexivity.
Qed.

Lemma length_difference : length (data d) = (b * n_y)%nat.
Proof.
  unfold d, y, mlp_value. cbn [data]. rewrite length_zip_with, length_matmul_data.
  unfold wf in wf_t. rewrite wf_t, shape_t. unfold size_of; simpl. lia.
Qed.

Lemma eval_loss_graph :
  eval θ feed (loss_graph b n_x n_h n_y)
  = Ok (mk_array [] [Qsum (squared_errors y_target y)
                     / inject_Z (Z.of_nat (length (squared_errors y_target y)))]).
Proof.
  unfold loss_graph. rewrite eval_reduce_mean, eval_square, eval_difference_node.
  cbn [mbind result_bind rbind].
  rewrite np_mean_nonempty.
  - reflexivity.
  - unfold np_square. cbn [data]. rewrite length_map, length_difference. exact nonempty.
Qed.

Let δ : ndarray := output_gradient y_target y.

Lemma shape_output_gradient : shape δ = [b; n_y].
Proof. unfold δ, output_gradient. cbn [shape scale hadamard]. exact shape_t. Qed.

Lemma backprop_mlp_graph (up : ndarray) :
  shape up = [b; n_y] ->
  backprop θ feed (mlp_graph 0 b n_x n_h n_y) up
  = Ok (merge_grads
          (merge_grads ∅ {[ "W_h" := gradient_W_h b n_x n_h n_y x z W_y up ]})
          {[ "W_y" := gradient_W_y b n_h n_y (tf_nn_relu z) up ]}).
Proof.
  intros Hup. unfold mlp_graph.
  rewrite backprop_matmul, eval_relu, eval_hidden_node.
  cbn [mbind result_bind rbind eval]. rewrite θ_y. cbn [mbind result_bind rbind].
  rewrite (matmul_with_shape _ up (transpose W_y) b n_y n_h)
    by (try apply shape_transpose; assumption).
  cbn [mbind result_bind rbind].
  rewrite (matmul_with_shape _ (transpose (tf_nn_relu z)) up n_h b n_y)
    by (try apply shape_transpose; try assumption; reflexivity).
  cbn [mbind result_bind rbind].
  rewrite backprop_relu, eval_hidden_node. cbn [mbind result_bind rbind].
  rewrite backprop_matmul. cbn [eval]. rewrite feed_x, θ_h, (feed_fits_matrix _ _ _ shape_x).
  cbn [mbind result_bind rbind shape].
  rewrite (matmul_with_shape _ _ (transpose W_h) b n_h n_x)
    by (try apply shape_transpose; try assumption; reflexivity).
  cbn [mbind result_bind rbind].
  rewrite (matmul_with_shape _ (transpose x) _ n_x b n_h)
    by (try apply shape_transpose; try assumption; reflexivity).
  cbn [mbind result_bind rbind backprop]. reflexivity.
Qed.

Lemma backprop_loss_graph :
  backprop θ feed (loss_graph b n_x n_h n_y) (mk_array [] [1])
  = Ok (merge_grads ∅
          (merge_grads
             (merge_grads ∅ {[ "W_h" := gradient_W_h b n_x n_h n_y x z W_y δ ]})
             {[ "W_y" := gradient_W_y b n_h n_y (tf_nn_relu z) δ ]})).
Proof.
  unfold loss_graph.
  rewrite backprop_reduce_mean, eval_square, eval_difference_node.
  cbn [mbind result_bind rbind].
  rewrite backprop_square, eval_difference_node. cbn [mbind result_bind rbind].
  rewrite backprop_sub. cbn [backprop mbind result_bind rbind].
  change (scale (-1) (hadamard (scale 2 d) _)) with δ.
  rewrite (backprop_mlp_graph δ shape_output_gradient). reflexivity.
Qed.
End Network.

Lemma apply_gradients_lookup (lr : Q) (grads θ : gmap string ndarray)
    (name : string) (v : ndarray) :
  θ !! name = Some v ->
  apply_gradients lr grads θ !! name
  = Some (match grads !! name with
          | Some g => add_arrays v (scale (- lr) g)
          | None => v
          end).
Proof.
  intros H. unfold apply_gradients. rewrite map_lookup_imap, H. simpl.
  destruct (grads !! name); reflexivity.
Qed.

Lemma merged_gradient_W_h (gh gy : ndarray) :
  merge_grads ∅ (merge_grads (merge_grads ∅ {[ "W_h" := gh ]}) {[ "W_y" := gy ]}) !! "W_h"
  = Some gh.
Proof. unfold merge_grads. rewrite !lookup_union_with. reflexivity. Qed.

Lemma merged_gradient_W_y (gh gy : ndarray) :
  merge_grads ∅ (merge_grads (merge_grads ∅ {[ "W_h" := gh ]}) {[ "W_y" := gy ]}) !! "W_y"
  = Some gy.
Proof. unfold merge_grads. rewrite !lookup_union_with. reflexivity. Qed.

Lemma wf_add_scaled (v g : ndarray) (lr : Q) :
  wf v -> length (data g) = length (data v) -> wf (add_arrays v (scale lr g)).
Proof.
  unfold wf, add_arrays, scale. cbn [shape data]. intros Hv Hg.
  rewrite length_zip_with, length_map, Hg. lia.
Qed.

Lemma gradient_descent_step (b n_x n_h n_y : nat) (x y_target : ndarray)
    (θ : gmap string ndarray) (feed : gmap nat ndarray) (lr : Q) :
  feed !! 0%nat = Some x -> feed !! 1%nat = Some y_target ->
  shape x = [b; n_x] -> shape y_target = [b; n_y] -> wf y_target ->
  (0 < b * n_y)%nat ->
  network_parameters n_x n_h n_y θ ->
  exists (l : Q) (grads : gmap string ndarray),
    eval θ feed (loss_graph b n_x n_h n_y) = Ok (mk_array [] [l])
    /\ backprop θ feed (loss_graph b n_x n_h n_y) (mk_array [] [1]) = Ok grads
    /\ network_parameters n_x n_h n_y (apply_gradients lr grads θ).
Proof.
  intros Fx Fy Sx St Wt Hpos (A & B & HA & HB & SA & WA & SB & WB).
  eexists. eexists. split; [|split].
  - eapply (eval_loss_graph b n_x n_h n_y x y_target θ feed A B); eassumption.
  - eapply (backprop_loss_graph b n_x n_h n_y x y_target θ feed A B); eassumption.
  - eexists. eexists.
    rewrite (apply_gradients_lookup _ _ _ _ _ HA), (apply_gradients_lookup _ _ _ _ _ HB).
    rewrite merged_gradient_W_h, merged_gradient_W_y.
    split; [reflexivity|]. split; [reflexivity|].
    split; [exact SA|].
    split; [apply wf_add_scaled; [exact WA|]|].
    { unfold gradient_W_h. cbn [data]. rewrite length_matmul_data.
      unfold wf in WA. rewrite WA, SA. unfold size_of; simpl. lia. }
    split; [exact SB|].
    apply wf_add_scaled; [exact WB|].
    unfold gradient_W_y. cbn [data]. rewrite length_matmul_data.
    unfold wf in WB. rewrite WB, SB. unfold size_of; simpl. lia.
Qed.

Lemma training_run_defined (b n_x n_h n_y : nat) (x y_target : ndarray)
    (feed : gmap nat ndarray) (lr : Q) (steps : nat) (θ : gmap string ndarray) :
  feed !! 0%nat = Some x -> feed !! 1%nat = Some y_target ->
  shape x = [b; n_x] -> shape y_target = [b; n_y] -> wf y_target ->
  (0 < b * n_y)%nat ->
  network_parameters n_x n_h n_y θ ->
  exists ls θ',
    training_run lr (loss_graph b n_x n_h n_y) feed steps θ = Ok (ls, θ')
    /\ length ls = steps
    /\ Forall (fun l => shape l = []) ls
    /\ network_parameters n_x n_h n_y θ'.
Proof.
  intros Fx Fy Sx St Wt Hpos. revert θ.
  induction steps as [|k IH]; intros θ Hθ; cbn [training_run].
  - exists [], θ. repeat split; auto.
  - destruct (gradient_descent_step b n_x n_h n_y x y_target θ feed lr
                Fx Fy Sx St Wt Hpos Hθ) as (l & grads & El & Eg & Hθ').
    rewrite El, Eg. cbn [mbind result_bind rbind].
    destruct (IH _ Hθ') as (ls & θ' & E & Hlen & Hsh & Hp).
    rewrite E. cbn [mbind result_bind rbind].
    exists (mk_array [] [l] :: ls), θ'. repeat split; simpl; auto.
Qed.

(** ** Running the TensorFlow cells *)

Lemma as_dim_nat (n : nat) : as_dim (VInt (Z.of_nat n)) = Ok n.
Proof.
  unfold as_dim. destruct (Z.ltb_spec (Z.of_nat n) 0); [lia|].
  rewrite Nat2Z.id. reflexivity.
Qed.

Lemma exec_with_exit {A} G g n o t (name : string) (body : prog A)
    G1 g1 n1 o1 t1 (r : result A) (σ : session) :
  body (mk_state G g n o t) = (mk_state G1 g1 n1 o1 t1, r) ->
  G1 !! name = Some (VSession σ) ->
  with_exit name body (mk_state G g n o t)
  = (mk_state (<[name := VSession (mk_session true (vals σ))]> G1) g1
       (if closed σ then n1 else pred n1) o1
       ((t1 ++ [Call "Session.__exit__" None])
        ++ [Mutate name (VSession (mk_session true (vals σ)))]), r).
Proof. intros Hb Hn. unfold with_exit. rewrite Hb. simpl. rewrite Hn. reflexivity. Qed.

Lemma exec_with_session {A} G g n o t (name : string) (body : prog A)
    G1 g1 n1 o1 t1 (r : result A) (σ : session) :
  body (mk_state (<[name := VSession (mk_session false ∅)]> G) g (S n) o
          ((t ++ [Call "tf.Session" None]) ++ [Assign name (VSession (mk_session false ∅))]))
  = (mk_state G1 g1 n1 o1 t1, r) ->
  G1 !! name = Some (VSession σ) ->
  with_session name body (mk_state G g n o t)
  = (mk_state (<[name := VSession (mk_session true (vals σ))]> G1) g1
       (if closed σ then n1 else pred n1) o1
       ((t1 ++ [Call "Session.__exit__" None])
        ++ [Mutate name (VSession (mk_session true (vals σ)))]), r).
Proof.
  intros Hb Hn. unfold with_session.
  erewrite pbind_ok by apply exec_session_open.
  erewrite pbind_ok by apply exec_assign.
  eapply exec_with_exit; eassumption.
Qed.

Ltac exec_all facts :=
  repeat (erewrite pbind_ok; [ cbv beta | exec_prim_with facts ]);
  exec_prim_with facts.

Lemma initialize_variables_runs G g n o t (σ : session) :
  G !! "sess" = Some (VSession σ) -> closed σ = false ->
  G !! "tf" = Some (VModule "tensorflow") ->
  exists t',
    initialize_variables (mk_state G g n o t)
    = (mk_state (<["sess" := VSession (mk_session false (g_vars g))]> G) g n o t', Ok tt).
Proof.
  intros Hs Hc Htf. eexists. unfold initialize_variables.
  exec_all ltac:(unfold run_init; rewrite ?Hc).
Qed.

Lemma initial_parameters_network (n_x n_h n_y : nat) (W_h W_y : ndarray) :
  shape W_h = [n_x; n_h] -> wf W_h -> shape W_y = [n_h; n_y] -> wf W_y ->
  network_parameters n_x n_h n_y (initial_parameters W_h W_y).
Proof.
  intros. exists W_h, W_y. unfold initial_parameters.
  rewrite lookup_insert_ne by discriminate. rewrite !lookup_insert_eq.
  repeat split; assumption.
Qed.

Lemma length_mlp_value (f : ndarray -> ndarray) (b n_x n_h n_y : nat) (x W_h W_y : ndarray) :
  length (data (mlp_value f b n_x n_h n_y x W_h W_y)) = (b * n_y)%nat.
Proof. unfold mlp_value. cbn [data]. apply length_matmul_data. Qed.

Section Forward.
Variables (G : gmap string value) (b n_x n_h n_y : nat) (x W_h W_y y_np : ndarray).
Hypothesis G_tf : G !! "tf" = Some (VModule "tensorflow").
Hypothesis G_plt : G !! "plt" = Some (VModule "matplotlib.pyplot").
Hypothesis G_b : G !! "batch_size" = Some (VInt (Z.of_nat b)).
Hypothesis G_nx : G !! "n_x" = Some (VInt (Z.of_nat n_x)).
Hypothesis G_nh : G !! "n_h" = Some (VInt (Z.of_nat n_h)).
Hypothesis G_ny : G !! "n_y" = Some (VInt (Z.of_nat n_y)).
Hypothesis G_Wh : G !! "W_h_np" = Some (VArr W_h).
Hypothesis G_Wy : G !! "W_y_np" = Some (VArr W_y).
Hypothesis G_x : G !! "x_np" = Some (VArr x).
Hypothesis G_y : G !! "y_np" = Some (VArr y_np).
Hypothesis shape_x : shape x = [b; n_x].
Hypothesis shape_h : shape W_h = [n_x; n_h].
Hypothesis shape_y : shape W_y = [n_h; n_y].
Hypothesis wf_h : wf W_h.
Hypothesis wf_y : wf W_y.
Hypothesis length_y_np : length (data y_np) = (b * n_y)%nat.

Let y_val : ndarray := mlp_value tf_nn_relu b n_x n_h n_y x W_h W_y.
Let θ0 : gmap string ndarray := initial_parameters W_h W_y.

Ltac forward_facts :=
  unfold placeholder_v, get_variable_v, tf_matmul_v, tf_nn_relu_v,
    run_init, feed_entry, run_fetch_v, run_fetch, scatter_v,
    global_variables_initializer, empty_graph, as_tensor, as_session, as_array;
  rewrite ?as_dim_nat; cbn [mbind result_bind rbind g_vars g_next closed vals tf_placeholder];
  try (rewrite tf_get_variable_fresh
         by first [ apply lookup_empty
                  | apply lookup_insert_None; split; [apply lookup_empty | discriminate]
                  | assumption ]);
  try (erewrite tf_matmul_ok by reflexivity);
  try (rewrite (eval_mlp_graph _ _ 0 b n_x n_h n_y x W_h W_y)
         by first [ apply lookup_singleton_eq
                  | apply lookup_insert_eq
                  | (rewrite lookup_insert_ne by discriminate; apply lookup_insert_eq)
                  | assumption ]);
  cbn [mbind result_bind rbind g_vars g_next closed vals data];
  rewrite ?length_mlp_value, ?length_y_np, ?Nat.eqb_refl.

Lemma tensorflow_forward_runs n o t :
  exists t',
    tensorflow_forward (mk_state G empty_graph n o t)
    = (mk_state (after_forward b n_x n_h n_y θ0 y_val G) (mk_graph θ0 1) n
         (((o ++ [Printed [VTensor (mlp_graph 0 b n_x n_h n_y)]])
           ++ [Printed [VArr y_val]]) ++ [Scatter y_val y_np])
         t', Ok tt).
Proof.
  eexists. unfold tensorflow_forward.
  repeat (erewrite pbind_ok; [ cbv beta | exec_prim_with ltac:(idtac; forward_facts) ]).
  erewrite pbind_ok;
    [ cbv beta
    | unfold initialize_variables; exec_all ltac:(idtac; forward_facts) ].
  repeat (erewrite pbind_ok; [ cbv beta | exec_prim_with ltac:(idtac; forward_facts) ]).
  apply exec_emit.
Qed.

Lemma cell_tensorflow_runs g n o t :
  exists t',
    cell_tensorflow (mk_state G g n o t)
    = (mk_state (after_forward b n_x n_h n_y θ0 y_val G) (mk_graph θ0 1) n
         (((o ++ [Printed [VTensor (mlp_graph 0 b n_x n_h n_y)]])
           ++ [Printed [VArr y_val]]) ++ [Scatter y_val y_np])
         t', Ok tt).
Proof.
  unfold cell_tensorflow.
  erewrite pbind_ok by (apply exec_from_module; exact G_tf).
  erewrite pbind_ok by (apply exec_call_graph; reflexivity).
  apply tensorflow_forward_runs.
Qed.
End Forward.

(** ** The training loop *)

Lemma tf_sub_ok (a c : tensor) (m : option nat) (n : nat) :
  static_shape a = [None; Some n] -> static_shape c = [m; Some n] ->
  tf_sub a c = Ok (Sub a c).
Proof.
  intros Ha Hc. unfold tf_sub. rewrite Ha, Hc. simpl. rewrite Nat.eqb_refl. reflexivity.
Qed.

Section Training.
Variables (b n_x n_h n_y : nat) (x y_target : ndarray).
Hypothesis shape_x : shape x = [b; n_x].
Hypothesis shape_t : shape y_target = [b; n_y].
Hypothesis wf_t : wf y_target.
Hypothesis nonempty : (0 < b * n_y)%nat.

Let loss : tensor := loss_graph b n_x n_h n_y.
Let feed : gmap nat ndarray := training_feed x y_target.
Let lr : Q := 1 # 100.

Lemma feed_lookup_x : feed !! 0%nat = Some x.
Proof. reflexivity. Qed.

Lemma feed_lookup_t : feed !! 1%nat = Some y_target.
Proof. reflexivity. Qed.

Lemma training_step_runs G g n o t θ sl ll (i : Z) :
  loop_bindings b n_x n_h n_y x y_target G θ sl ll -> network_parameters n_x n_h n_y θ ->
  G !! "step" = Some (VInt i) ->
  exists (l : ndarray) (grads : gmap string ndarray) (t' : list event),
    eval θ feed loss = Ok l
    /\ backprop θ feed loss (mk_array [] [1]) = Ok grads
    /\ training_step (mk_state G g n o t)
       = (mk_state
            (<["losses" := VList (ll ++ [IArr l])]>
               (<["steps" := VList (sl ++ [IInt i])]>
                  (<["loss_val" := VArr l]>
                     (<["_" := VNone]>
                        (<["sess" := VSession
                                       (mk_session false (apply_gradients lr grads θ))]>
                           G)))))
            g n (o ++ [Printed [VInt i; VArr l]]) t', Ok tt).
Proof.
  intros (Hs & Hop & Hl & Hx & Hxn & Hy & Hyn & Hst & Hls) Hθ Hi.
  destruct (gradient_descent_step b n_x n_h n_y x y_target θ feed lr
              feed_lookup_x feed_lookup_t shape_x shape_t wf_t nonempty Hθ)
    as (l & grads & El & Eg & _).
  exists (mk_array [] [l]), grads. eexists. split; [exact El|]. split; [exact Eg|].
  unfold training_step.
  repeat (erewrite pbind_ok;
          [ cbv beta iota; cbn [fst snd]
          | exec_prim_with
              ltac:(idtac; unfold feed_two, feed_entry, run_train_v, run_train,
                           append_v, as_tensor, as_array, as_session;
                    cbn [mbind result_bind rbind closed vals];
                    try change ({[1%nat := y_target]} ∪ {[0%nat := x]}) with feed;
                    unfold loss;
                    rewrite ?El; cbn [mbind result_bind rbind];
                    rewrite ?Eg;
                    cbn [mbind result_bind rbind fst snd]) ]).
  unfold mod_one_is_zero. rewrite Z.mod_1_r. change (0 =? 0)%Z with true. cbv iota.
  repeat (erewrite pbind_ok; [ cbv beta iota | exec_prim ]).
  apply exec_mutate.
Qed.

Lemma loop_bindings_step G θ sl ll (v : value) :
  loop_bindings b n_x n_h n_y x y_target G θ sl ll ->
  loop_bindings b n_x n_h n_y x y_target (<["step" := v]> G) θ sl ll.
Proof.
  intros (? & ? & ? & ? & ? & ? & ? & ? & ?).
  repeat split; (rewrite lookup_insert_ne by discriminate); assumption.
Qed.

Lemma training_loop_runs (k : nat) :
  forall (i : nat) G g n o t θ sl ll,
    loop_bindings b n_x n_h n_y x y_target G θ sl ll -> network_parameters n_x n_h n_y θ ->
    exists G' o' t' ls θ',
      for_range_from "step" i k training_step (mk_state G g n o t)
      = (mk_state G' g n o' t', Ok tt)
      /\ training_run lr loss feed k θ = Ok (ls, θ')
      /\ length ls = k
      /\ loop_bindings b n_x n_h n_y x y_target G' θ'
           (sl ++ map (fun j => IInt (Z.of_nat j)) (seq i k)) (ll ++ map IArr ls)
      /\ (forall name, ~ In name ["step"; "sess"; "_"; "loss_val"; "steps"; "losses"] ->
          G' !! name = G !! name).
Proof.
  induction k as [|k IH]; intros i G g n o t θ sl ll HG Hθ.
  - exists G, o, t, [], θ. simpl. rewrite !app_nil_r. auto.
  - cbn [for_range_from].
    erewrite pbind_ok by apply exec_assign.
    pose proof (loop_bindings_step G θ sl ll (VInt (Z.of_nat i)) HG) as HG1.
    destruct (training_step_runs (<["step" := VInt (Z.of_nat i)]> G) g n o
                (t ++ [Assign "step" (VInt (Z.of_nat i))]) θ sl ll (Z.of_nat i)
                HG1 Hθ (lookup_insert_eq _ _ _))
      as (l & grads & t1 & El & Eg & Estep).
    erewrite pbind_ok by exact Estep.
    assert (Hθ' : network_parameters n_x n_h n_y (apply_gradients lr grads θ)).
    { destruct (gradient_descent_step b n_x n_h n_y x y_target θ feed lr
                  feed_lookup_x feed_lookup_t shape_x shape_t wf_t nonempty Hθ)
        as (l' & grads' & El' & Eg' & H).
      pose proof (eq_trans (eq_sym Eg) Eg') as E. injection E as <-. exact H. }
    match goal with
    | |- context [for_range_from _ _ _ _ (mk_state ?G2 _ _ ?o2 ?t2)] =>
        destruct (IH (S i) G2 g n o2 t2 (apply_gradients lr grads θ)
                    (sl ++ [IInt (Z.of_nat i)]) (ll ++ [IArr l]))
          as (G' & o' & t' & ls & θ' & Eloop & Erun & Hlen & HG' & Hframe);
        [ | exact Hθ' | ]
    end.
    { destruct HG as (? & ? & ? & ? & ? & ? & ? & ? & ?).
      repeat split; find_binding. }
    exists G', o', t', (l :: ls), θ'.
    split; [exact Eloop|]. split.
    { cbn [training_run]. unfold loss, feed in *. rewrite El.
      cbn [mbind result_bind rbind]. rewrite Eg. cbn [mbind result_bind rbind].
      unfold lr in *. rewrite Erun. reflexivity. }
    split; [simpl; congruence|]. split.
    { cbn [seq map]. rewrite <- !app_assoc in HG'. exact HG'. }
    intros name Hn. rewrite (Hframe name Hn).
    simpl in Hn.
    repeat (rewrite lookup_insert_ne by (intros E; apply Hn; subst; tauto)).
    reflexivity.
Qed.
End Training.

Lemma runs_step {A B} (m : prog A) (k : A -> prog B) (s s1 : state) (a : A)
    (P : B -> state -> Prop) :
  m s = (s1, Ok a) -> runs_to (k a) s1 P -> runs_to (m ≫= k) s P.
Proof.
  intros Hm (s' & c & Hk & HP). exists s', c. split; [|exact HP].
  rewrite (pbind_ok _ _ _ _ _ Hm). exact Hk.
Qed.

Lemma runs_last {A} (m : prog A) (s s1 : state) (a : A) (P : A -> state -> Prop) :
  m s = (s1, Ok a) -> P a s1 -> runs_to m s P.
Proof. intros Hm HP. exists s1, a. auto. Qed.

Lemma runs_bind {A B} (m : prog A) (k : A -> prog B) (s : state) (P : B -> state -> Prop) :
  runs_to m s (fun a s1 => runs_to (k a) s1 P) -> runs_to (m ≫= k) s P.
Proof.
  intros (s1 & a & Hm & Hk). eapply runs_step; eassumption.
Qed.

Lemma runs_with_session {A} G g n o t (name : string) (body : prog A)
    (P : A -> state -> Prop) :
  runs_to body
    (mk_state (<[name := VSession (mk_session false ∅)]> G) g (S n) o
       ((t ++ [Call "tf.Session" None]) ++ [Assign name (VSession (mk_session false ∅))]))
    (fun a s1 =>
       exists σ, globals s1 !! name = Some (VSession σ)
                 /\ P a (mk_state (<[name := VSession (mk_session true (vals σ))]> (globals s1))
                           (default_graph s1)
                           (if closed σ then open_sessions s1 else pred (open_sessions s1))
                           (out s1)
                           ((trace s1 ++ [Call "Session.__exit__" None])
                            ++ [Mutate name (VSession (mk_session true (vals σ)))]))) ->
  runs_to (with_session name body) (mk_state G g n o t) P.
Proof.
  intros ([G1 g1 n1 o1 t1] & a & Hb & σ & Hσ & HP). simpl in *.
  eexists. exists a. split; [|exact HP].
  apply (exec_with_session _ _ _ _ _ _ _ _ _ _ _ _ _ σ Hb Hσ).
Qed.

Ltac run_step facts :=
  eapply runs_step; [ exec_prim_with facts | cbv beta iota; cbn [fst snd] ].

Lemma runs_initialize_variables G g n o t (σ : session) (P : unit -> state -> Prop) :
  G !! "sess" = Some (VSession σ) -> closed σ = false ->
  G !! "tf" = Some (VModule "tensorflow") ->
  (forall t', P tt (mk_state (<["sess" := VSession (mk_session false (g_vars g))]> G)
                      g n o t')) ->
  runs_to initialize_variables (mk_state G g n o t) P.
Proof.
  intros Hs Hc Htf HP.
  destruct (initialize_variables_runs G g n o t σ Hs Hc Htf) as (t' & E).
  eapply runs_last; [exact E | apply HP].
Qed.

Section TrainingCell.
Variables (G : gmap string value) (b n_x n_h n_y : nat).
Variables (x W_h W_y y_np y_target : ndarray) (loss_np : value).
Hypothesis G_tf : G !! "tf" = Some (VModule "tensorflow").
Hypothesis G_plt : G !! "plt" = Some (VModule "matplotlib.pyplot").
Hypothesis G_keras : G !! "keras" = Some (VModule "keras").
Hypothesis G_b : G !! "batch_size" = Some (VInt (Z.of_nat b)).
Hypothesis G_nx : G !! "n_x" = Some (VInt (Z.of_nat n_x)).
Hypothesis G_nh : G !! "n_h" = Some (VInt (Z.of_nat n_h)).
Hypothesis G_ny : G !! "n_y" = Some (VInt (Z.of_nat n_y)).
Hypothesis G_Wh : G !! "W_h_np" = Some (VArr W_h).
Hypothesis G_Wy : G !! "W_y_np" = Some (VArr W_y).
Hypothesis G_x : G !! "x_np" = Some (VArr x).
Hypothesis G_y : G !! "y_np" = Some (VArr y_np).
Hypothesis G_t : G !! "y_target_np" = Some (VArr y_target).
Hypothesis G_loss : G !! "loss_np" = Some loss_np.
Hypothesis shape_x : shape x = [b; n_x].
Hypothesis shape_h : shape W_h = [n_x; n_h].
Hypothesis shape_y : shape W_y = [n_h; n_y].
Hypothesis shape_t : shape y_target = [b; n_y].
Hypothesis wf_h : wf W_h.
Hypothesis wf_y : wf W_y.
Hypothesis wf_t : wf y_target.
Hypothesis length_y_np : length (data y_np) = (b * n_y)%nat.
Hypothesis nonempty : (0 < b * n_y)%nat.

Let θ0 : gmap string ndarray := initial_parameters W_h W_y.
Let loss : tensor := loss_graph b n_x n_h n_y.
Let feed : gmap nat ndarray := training_feed x y_target.

Lemma cell_training_runs g n o t :
  runs_to cell_training (mk_state G g n o t)
    (fun _ s' =>
       exists ls θ',
         training_run (1 # 100) loss feed 10 θ0 = Ok (ls, θ')
         /\ length ls = 10%nat
         /\ globals s' !! "steps"
            = Some (VList (map (fun j => IInt (Z.of_nat j)) (seq 0 10)))
         /\ globals s' !! "losses" = Some (VList (map IArr ls))
         /\ globals s' !! "train_op" = Some (VTrainOp (1 # 100) loss)
         /\ open_sessions s' = n).
Proof.
  pose proof (initial_parameters_network n_x n_h n_y W_h W_y
                shape_h wf_h shape_y wf_y) as Hθ0.
  destruct (gradient_descent_step b n_x n_h n_y x y_target θ0 feed (1 # 100)
              eq_refl eq_refl shape_x shape_t wf_t nonempty Hθ0)
    as (l0 & grads0 & El0 & _ & _).
  unfold cell_training.
  do 4 run_step idtac.
  match goal with
  | |- runs_to (tensorflow_forward ≫= _) (mk_state _ _ ?n1 ?o1 ?t1) _ =>
      destruct (tensorflow_forward_runs G b n_x n_h n_y x W_h W_y y_np
                  G_tf G_plt G_b G_nx G_nh G_ny G_Wh G_Wy G_x G_y
                  shape_x shape_h shape_y wf_h wf_y length_y_np n1 o1 t1) as (tf1 & Ef)
  end.
  eapply runs_step; [exact Ef | cbv beta]. unfold after_forward.
  fold θ0.
  repeat run_step
    ltac:(idtac; unfold placeholder_none_v, tf_sub_v, tf_square_v, tf_reduce_mean_v,
                   as_tensor;
          rewrite ?as_dim_nat; cbn [mbind result_bind rbind tf_placeholder g_next g_vars];
          try (erewrite tf_sub_ok by reflexivity);
          cbn [mbind result_bind rbind]).
  fold (loss_graph b n_x n_h n_y). fold loss.
  (* the first with block *)
  eapply runs_bind. apply runs_with_session.
  eapply runs_bind.
  eapply runs_initialize_variables; [find_binding | reflexivity | find_binding | intros ti].
  cbn [g_vars]. fold θ0.
  repeat run_step
    ltac:(idtac; unfold feed_two, feed_entry, run_fetch_v, run_fetch, as_tensor, as_array,
                   as_session;
          cbn [mbind result_bind rbind closed vals];
          try change ({[1%nat := y_target]} ∪ {[0%nat := x]}) with feed;
          unfold loss; rewrite ?El0; cbn [mbind result_bind rbind]).
  eapply runs_last; [apply exec_assign|].
  cbn [globals default_graph open_sessions out trace].
  eexists. split; [find_binding|]. cbn [closed vals Nat.pred].
  (* the optimizer *)
  repeat run_step ltac:(idtac; unfold minimize_v, as_tensor; cbn [mbind result_bind rbind]).
  (* the second with block *)
  eapply runs_bind. apply runs_with_session.
  eapply runs_bind.
  eapply runs_initialize_variables; [find_binding | reflexivity | find_binding | intros ti'].
  cbn [g_vars]. fold θ0.
  match goal with
  | |- runs_to (for_range _ _ _) (mk_state ?Gk ?gk ?nk ?ok ?tk) _ =>
      destruct (training_loop_runs b n_x n_h n_y x y_target shape_x shape_t wf_t nonempty
                  10 0 Gk gk nk ok tk θ0 [] [])
        as (G' & o' & t' & ls & θ' & Eloop & Erun & Hlen & HG' & Hframe);
        [ repeat split; find_binding | exact Hθ0 | ]
  end.
  eapply runs_last; [exact Eloop|].
  cbn [globals default_graph open_sessions out trace].
  destruct HG' as (Hs' & Hop' & _ & _ & _ & _ & _ & Hst' & Hls').
  eexists. split; [exact Hs'|]. cbn [closed vals Nat.pred].
  assert (Hplt : G' !! "plt" = Some (VModule "matplotlib.pyplot")).
  { rewrite Hframe; [find_binding|]. simpl. intuition discriminate. }
  repeat run_step
    ltac:(idtac; unfold plot_v; cbn [app];
          rewrite !length_map, length_seq, Hlen; cbn [Nat.eqb]).
  eapply runs_last; [apply exec_emit|].
  exists ls, θ'. cbn [globals open_sessions].
  split; [exact Erun|]. split; [exact Hlen|].
  split; [find_binding|]. split; [find_binding|]. split; [find_binding | reflexivity].
Qed.
End TrainingCell.

(** ** One step of gradient descent, entry by entry *)

Lemma nth_flat_rows {A} (g : nat -> nat -> A) (d : A) (rows cols s i j : nat) :
  (i < rows)%nat -> (j < cols)%nat ->
  nth (i * cols + j) (flat_map (fun r => map (g r) (seq 0 cols)) (seq s rows)) d
  = g (s + i)%nat j.
Proof.
  revert s i. induction rows as [|rows IH]; intros s i Hi Hj; [lia|].
  cbn [seq flat_map]. destruct i as [|i].
  - rewrite app_nth1 by (rewrite length_map, length_seq; simpl; lia).
    simpl. rewrite (nth_indep _ d (g s 0%nat)) by (rewrite length_map, length_seq; lia).
    rewrite (map_nth (g s) (seq 0 cols) 0%nat j), seq_nth by lia.
    rewrite Nat.add_0_r. reflexivity.
  - rewrite app_nth2 by (rewrite length_map, length_seq; simpl; lia).
    rewrite length_map, length_seq.
    replace (S i * cols + j - cols)%nat with (i * cols + j)%nat by (simpl; lia).
    rewrite IH by lia. f_equal. lia.
Qed.

Lemma nth_matmul_data (da db : list Q) (m n p i j : nat) :
  (i < m)%nat -> (j < p)%nat ->
  nth (i * p + j) (matmul_data da db m n p) 0 = dot_entry da db n p i j.
Proof.
  intros Hi Hj. unfold matmul_data.
  apply (nth_flat_rows (fun i j => dot_entry da db n p i j) 0 m p 0 i j Hi Hj).
Qed.

Lemma nth_transpose (a : ndarray) (m n i j : nat) :
  shape a = [m; n] -> (i < m)%nat -> (j < n)%nat ->
  nth (j * m + i) (data (transpose a)) 0 = nth (i * n + j) (data a) 0.
Proof.
  intros Ha Hi Hj. unfold transpose. rewrite Ha. cbn [data].
  apply (nth_flat_rows (fun j i => nth (i * n + j) (data a) 0) 0 n m 0 j i Hj Hi).
Qed.

Lemma nth_zip_with {A B C} (f : A -> B -> C) (la : list A) (lb : list B) (i : nat) da db dc :
  (i < length la)%nat -> (i < length lb)%nat ->
  nth i (zip_with f la lb) dc = f (nth i la da) (nth i lb db).
Proof.
  revert lb i. induction la as [|a la IH]; intros [|b lb] i Ha Hb; simpl in *; try lia.
  destruct i as [|i]; [reflexivity|]. apply IH; lia.
Qed.

Lemma nth_map_in {A B} (f : A -> B) (l : list A) (i : nat) da db :
  (i < length l)%nat -> nth i (map f l) db = f (nth i l da).
Proof.
  intros H. rewrite (nth_indep _ db (f da)) by (rewrite length_map; exact H).
  apply map_nth.
Qed.

Lemma output_gradient_data (targets outputs : list Q) (n : Q) :
  Forall2 Qeq
    (map (fun v => (-1) * v)
       (zip_with Qmult (map (fun v => 2 * v) (zip_with Qminus targets outputs))
          (map (fun _ => nth 0 [1] 0 / n)
             (map (fun v => v * v) (zip_with Qminus targets outputs)))))
    (zip_with (fun t y => 2 * (y - t) / n) targets outputs).
Proof.
  revert outputs. induction targets as [|t targets IH]; intros [|y outputs]; simpl;
    try constructor; [|apply IH].
  unfold Qdiv. ring.
Qed.

Lemma output_gradient_is_derivative_data (y_target y : ndarray) :
  length (data y_target) = length (data y) ->
  shape (output_gradient y_target y) = shape y_target
  /\ Forall2 Qeq (data (output_gradient y_target y))
       (zip_with (fun t v => 2 * (v - t) / inject_Z (Z.of_nat (length (data y))))
          (data y_target) (data y)).
Proof.
  intros Hlen. split; [reflexivity|].
  unfold output_gradient, scale, hadamard, np_square. cbn [data shape].
  rewrite length_map, length_zip_with, Hlen, Nat.min_id.
  apply output_gradient_data.
Qed.

Lemma descent_entry (v g : ndarray) (lr : Q) (p : nat) :
  (p < length (data v))%nat -> (p < length (data g))%nat ->
  entry (add_arrays v (scale (- lr) g)) p == entry v p - lr * entry g p.
Proof.
  intros Hv Hg. unfold entry, add_arrays, scale. cbn [data].
  rewrite (nth_zip_with Qplus _ _ p 0 0 0) by (rewrite ?length_map; assumption).
  rewrite (nth_map_in _ _ p 0 0) by assumption. ring.
Qed.

Lemma output_gradient_entry (y_target y : ndarray) (p : nat) :
  length (data y_target) = length (data y) -> (p < length (data y))%nat ->
  entry (output_gradient y_target y) p
  == 2 * (entry y p - entry y_target p) / inject_Z (Z.of_nat (length (data y))).
Proof.
  intros Hlen Hp. destruct (output_gradient_is_derivative_data y_target y Hlen) as [_ H].
  unfold entry. rewrite (nth_Qeq _ _ p H).
  rewrite (nth_zip_with _ _ _ p 0 0 0) by lia. reflexivity.
Qed.

Lemma gradient_W_y_entry (b n_h n_y : nat) (h δ : ndarray) (j k : nat) :
  shape h = [b; n_h] -> (j < n_h)%nat -> (k < n_y)%nat ->
  entry (gradient_W_y b n_h n_y h δ) (j * n_y + k)
  = Qsum (map (fun i => entry h (i * n_h + j) * entry δ (i * n_y + k)) (seq 0 b)).
Proof.
  intros Hh Hj Hk. unfold entry, gradient_W_y. cbn [data].
  rewrite nth_matmul_data by assumption. unfold dot_entry.
  f_equal. apply map_ext_in. intros i Hi. apply in_seq in Hi.
  rewrite (nth_transpose h b n_h i j Hh) by lia. reflexivity.
Qed.

Lemma gradient_W_h_entry (b n_x n_h n_y : nat) (x z W_y δ : ndarray) (a j : nat) :
  shape x = [b; n_x] -> shape W_y = [n_h; n_y] -> length (data z) = (b * n_h)%nat ->
  (a < n_x)%nat -> (j < n_h)%nat ->
  entry (gradient_W_h b n_x n_h n_y x z W_y δ) (a * n_h + j)
  = Qsum (map (fun i =>
                 entry x (i * n_x + a)
                 * (Qsum (map (fun k => entry δ (i * n_y + k) * entry W_y (j * n_y + k))
                            (seq 0 n_y))
                    * bool_to_Q (gt0 (entry z (i * n_h + j)))))
            (seq 0 b)).
Proof.
  intros Hx Hy Hz Ha Hj. unfold entry, gradient_W_h. cbn [data shape].
  rewrite nth_matmul_data by assumption. unfold dot_entry at 1.
  f_equal. apply map_ext_in. intros i Hi. apply in_seq in Hi.
  rewrite (nth_transpose x b n_x i a Hx) by lia. f_equal.
  rewrite (nth_zip_with _ _ _ _ 0 0 0)
    by (rewrite ?length_matmul_data, ?Hz; nia).
  rewrite nth_matmul_data by lia. unfold dot_entry. f_equal. f_equal.
  apply map_ext_in. intros k Hk. apply in_seq in Hk.
  rewrite (nth_transpose W_y n_h n_y j k Hy) by lia. reflexivity.
Qed.

Lemma hidden_entry (b n_x n_h : nat) (x A : ndarray) (i j : nat) :
  (i < b)%nat -> (j < n_h)%nat ->
  entry (mk_array [b; n_h] (matmul_data (data x) (data A) b n_x n_h)) (i * n_h + j)
  = Qsum (map (fun a => entry x (i * n_x + a) * entry A (a * n_h + j)) (seq 0 n_x)).
Proof. intros Hi Hj. unfold entry. cbn [data]. apply nth_matmul_data; assumption. Qed.

Lemma relu_entry_at (z : ndarray) (p : nat) :
  (p < length (data z))%nat -> entry (tf_nn_relu z) p = Qmax (entry z p) 0.
Proof.
  intros Hp. unfold entry, tf_nn_relu. cbn [data].
  exact (nth_map_in (fun v => Qmax v 0) (data z) p 0 0 Hp).
Qed.

Lemma output_entry (b n_x n_h n_y : nat) (x A B : ndarray) (i k : nat) :
  (i < b)%nat -> (k < n_y)%nat ->
  entry (mlp_value tf_nn_relu b n_x n_h n_y x A B) (i * n_y + k)
  = Qsum (map (fun j =>
                 entry (tf_nn_relu (mk_array [b; n_h]
                                      (matmul_data (data x) (data A) b n_x n_h)))
                       (i * n_h + j)
                 * entry B (j * n_y + k))
            (seq 0 n_h)).
Proof.
  intros Hi Hk. unfold entry, mlp_value. cbn [data]. apply nth_matmul_data; assumption.
Qed.

(** ** Sums over indices *)

Lemma Qsum_app (l l' : list Q) : Qsum (l ++ l') == Qsum l + Qsum l'.
Proof.
  induction l as [|v l IH].
  - change (Qsum l' == 0 + Qsum l'). ring.
  - change (v + Qsum (l ++ l') == v + Qsum l + Qsum l'). rewrite IH. ring.
Qed.

Lemma Qsum_ext (f g : nat -> Q) (s n : nat) :
  (forall i, (s <= i < s + n)%nat -> f i == g i) ->
  Qsum (map f (seq s n)) == Qsum (map g (seq s n)).
Proof.
  revert s. induction n as [|n IH]; intros s H; [reflexivity|].
  change (f s + Qsum (map f (seq (S s) n)) == g s + Qsum (map g (seq (S s) n))).
  rewrite (H s) by lia. rewrite IH; [reflexivity|]. intros i Hi. apply H. lia.
Qed.

Lemma map_seq_shift {A} (f : nat -> A) (s n : nat) :
  map f (seq s n) = map (fun i => f (s + i)%nat) (seq 0 n).
Proof.
  rewrite <- (Nat.add_0_r s) at 1. rewrite <- (fmap_add_seq s 0 n).
  apply map_map.
Qed.

Lemma Qsum_snoc (f : nat -> Q) (n : nat) :
  Qsum (map f (seq 0 (S n))) == Qsum (map f (seq 0 n)) + f n.
Proof.
  rewrite (seq_S n 0), map_app, Qsum_app.
  change (Qsum (map f (seq 0 n)) + (f n + 0) == Qsum (map f (seq 0 n)) + f n). ring.
Qed.

Lemma Qsum_rows (f : nat -> Q) (m p : nat) :
  Qsum (map f (seq 0 (m * p)))
  == Qsum (map (fun i => Qsum (map (fun k => f (i * p + k)%nat) (seq 0 p))) (seq 0 m)).
Proof.
  induction m as [|m IH]; [reflexivity|].
  replace (S m * p)%nat with (m * p + p)%nat by lia.
  rewrite seq_app, map_app, Qsum_app, IH. rewrite Qsum_snoc.
  cbn [Nat.add]. rewrite (map_seq_shift f (m * p) p). reflexivity.
Qed.

Lemma Qsum_plus (f g : nat -> Q) (n : nat) :
  Qsum (map (fun i => f i + g i) (seq 0 n))
  == Qsum (map f (seq 0 n)) + Qsum (map g (seq 0 n)).
Proof.
  induction n as [|n IH]; [change (0 == 0 + 0); ring|].
  rewrite !Qsum_snoc, IH. ring.
Qed.

Lemma Qsum_scale (c : Q) (f : nat -> Q) (n : nat) :
  Qsum (map (fun i => c * f i) (seq 0 n)) == c * Qsum (map f (seq 0 n)).
Proof.
  induction n as [|n IH]; [change (0 == c * 0); ring|].
  rewrite !Qsum_snoc, IH. ring.
Qed.

Lemma Qsum_zero_map (l : list nat) : Qsum (map (fun _ => 0) l) == 0.
Proof.
  induction l as [|j l IH]; [reflexivity|].
  change (0 + Qsum (map (fun _ : nat => 0) l) == 0). rewrite IH. ring.
Qed.

Lemma Qsum_swap (f : nat -> nat -> Q) (m n : nat) :
  Qsum (map (fun i => Qsum (map (fun j => f i j) (seq 0 n))) (seq 0 m))
  == Qsum (map (fun j => Qsum (map (fun i => f i j) (seq 0 m))) (seq 0 n)).
Proof.
  induction m as [|m IH].
  - change (0 == Qsum (map (fun _ : nat => 0) (seq 0 n))). symmetry. apply Qsum_zero_map.
  - rewrite Qsum_snoc, IH, <- Qsum_plus. apply Qsum_ext. intros j _.
    rewrite Qsum_snoc. reflexivity.
Qed.

Lemma Qsum_nth (l : list Q) :
  Qsum l == Qsum (map (fun i => nth i l 0) (seq 0 (length l))).
Proof.
  induction l as [|v l IH]; [reflexivity|].
  change (v + Qsum l
          == v + Qsum (map (fun i => nth i (v :: l) 0) (seq 1 (length l)))).
  rewrite IH at 1. apply Qplus_comp; [reflexivity|].
  rewrite (map_seq_shift _ 1 (length l)). reflexivity.
Qed.

Lemma Qsum_scale_r (c : Q) (f : nat -> Q) (n : nat) :
  Qsum (map (fun i => f i * c) (seq 0 n)) == Qsum (map f (seq 0 n)) * c.
Proof.
  rewrite (Qsum_ext _ (fun i => c * f i)) by (intros; ring).
  rewrite Qsum_scale. ring.
Qed.

Lemma Qsum_ext2 (f g : nat -> nat -> Q) (m n : nat) :
  (forall i j, (i < m)%nat -> (j < n)%nat -> f i j == g i j) ->
  Qsum (map (fun i => Qsum (map (fun j => f i j) (seq 0 n))) (seq 0 m))
  == Qsum (map (fun i => Qsum (map (fun j => g i j) (seq 0 n))) (seq 0 m)).
Proof.
  intros H. apply Qsum_ext. intros i Hi. apply Qsum_ext. intros j Hj. apply H; lia.
Qed.

(** A sum over the entries of a flat matrix, row by row. *)
Lemma Qsum_map_rows (f : Q -> Q) (u : list Q) (m p : nat) :
  length u = (m * p)%nat ->
  Qsum (map f u)
  == Qsum (map (fun i => Qsum (map (fun k => f (nth (i * p + k) u 0)) (seq 0 p)))
             (seq 0 m)).
Proof.
  intros Hu. rewrite Qsum_nth, length_map, Hu.
  rewrite (Qsum_ext _ (fun q => f (nth q u 0))).
  - apply (Qsum_rows (fun q => f (nth q u 0))).
  - intros q Hq. rewrite (nth_map_in f u q 0 0) by lia. reflexivity.
Qed.

(** The scalar product of two flat matrices, row by row. *)
Lemma Qsum_zip_rows (u v : list Q) (m p : nat) :
  length u = (m * p)%nat -> length v = (m * p)%nat ->
  Qsum (zip_with Qmult u v)
  == Qsum (map (fun i => Qsum (map (fun k => nth (i * p + k) u 0 * nth (i * p + k) v 0)
                                  (seq 0 p))) (seq 0 m)).
Proof.
  intros Hu Hv. rewrite Qsum_nth, length_zip_with, Hu, Hv, Nat.min_id.
  rewrite (Qsum_ext _ (fun q => nth q u 0 * nth q v 0)).
  - apply (Qsum_rows (fun q => nth q u 0 * nth q v 0)).
  - intros q Hq. rewrite (nth_zip_with Qmult u v q 0 0 0) by lia. reflexivity.
Qed.

(** A matrix product is additive in its right factor. *)
Lemma matmul_moves (h W D : list Q) (c : Q) (m n p i k : nat) :
  length W = (n * p)%nat -> length D = (n * p)%nat -> (i < m)%nat -> (k < p)%nat ->
  nth (i * p + k) (matmul_data h (zip_with Qplus W (map (fun v => c * v) D)) m n p) 0
  == nth (i * p + k) (matmul_data h W m n p) 0
     + c * nth (i * p + k) (matmul_data h D m n p) 0.
Proof.
  intros LW LD Hi Hk. rewrite !nth_matmul_data by assumption.
  unfold dot_entry. rewrite <- Qsum_scale, <- Qsum_plus.
  apply Qsum_ext. intros j Hj.
  rewrite (nth_zip_with Qplus W _ _ 0 0 0) by (rewrite ?length_map; nia).
  rewrite (nth_map_in (fun v => c * v) D _ 0 0) by nia. ring.
Qed.

(** The squared errors of outputs that move by [c] times [e]. *)
Lemma squared_errors_expand (t y y' e : list Q) (c : Q) (m p : nat) :
  length t = (m * p)%nat -> length y = (m * p)%nat -> length y' = (m * p)%nat ->
  length e = (m * p)%nat ->
  (forall i k, (i < m)%nat -> (k < p)%nat ->
               nth (i * p + k) y' 0 == nth (i * p + k) y 0 + c * nth (i * p + k) e 0) ->
  Qsum (map (fun u => u * u) (zip_with Qminus t y'))
  == Qsum (map (fun u => u * u) (zip_with Qminus t y))
     + c * Qsum (map (fun i =>
                        Qsum (map (fun k => 2 * (nth (i * p + k) y 0 - nth (i * p + k) t 0)
                                            * nth (i * p + k) e 0)
                                (seq 0 p))) (seq 0 m))
     + c * c * Qsum (map (fun u => u * u) e).
Proof.
  intros Lt Ly Ly' Le Hmove.
  assert (Hsq : forall v, length v = (m * p)%nat ->
            Qsum (map (fun u => u * u) (zip_with Qminus t v))
            == Qsum (map (fun i =>
                  Qsum (map (fun k => (nth (i * p + k) t 0 - nth (i * p + k) v 0)
                                      * (nth (i * p + k) t 0 - nth (i * p + k) v 0))
                          (seq 0 p))) (seq 0 m))).
  { intros v Hv.
    rewrite (Qsum_map_rows (fun u => u * u) (zip_with Qminus t v) m p)
      by (rewrite length_zip_with, Lt, Hv; lia).
    apply Qsum_ext2. intros i k Hi Hk.
    rewrite (nth_zip_with Qminus t v _ 0 0 0) by nia. reflexivity. }
  rewrite (Hsq y' Ly'), (Hsq y Ly), (Qsum_map_rows (fun u => u * u) e m p Le).
  rewrite <- !Qsum_scale, <- !Qsum_plus.
  apply Qsum_ext. intros i Hi. rewrite <- !Qsum_scale, <- !Qsum_plus.
  apply Qsum_ext. intros k Hk. rewrite Hmove by lia. ring.
Qed.

(** The scalar product of [h]^T . δ with [D] is that of δ with [h . D]. *)
Lemma transpose_adjoint (h hT δ D : list Q) (b n_h n_y : nat) :
  (forall i j, (i < b)%nat -> (j < n_h)%nat ->
               nth (j * b + i) hT 0 = nth (i * n_h + j) h 0) ->
  length D = (n_h * n_y)%nat ->
  Qsum (zip_with Qmult (matmul_data hT δ n_h b n_y) D)
  == Qsum (map (fun i =>
                  Qsum (map (fun k => nth (i * n_y + k) δ 0
                                      * nth (i * n_y + k) (matmul_data h D b n_h n_y) 0)
                          (seq 0 n_y))) (seq 0 b)).
Proof.
  intros HT LD.
  rewrite (Qsum_zip_rows _ D n_h n_y) by (rewrite ?length_matmul_data; auto).
  rewrite (Qsum_ext2 _ (fun j k =>
             Qsum (map (fun i => nth (i * n_h + j) h 0 * nth (i * n_y + k) δ 0
                                 * nth (j * n_y + k) D 0) (seq 0 b)))).
  2:{ intros j k Hj Hk. rewrite nth_matmul_data by assumption. unfold dot_entry.
      rewrite <- Qsum_scale_r. apply Qsum_ext. intros i Hi.
      rewrite HT by lia. reflexivity. }
  rewrite (Qsum_ext2 (fun i k => nth (i * n_y + k) δ 0
                                 * nth (i * n_y + k) (matmul_data h D b n_h n_y) 0)
             (fun i k =>
                Qsum (map (fun j => nth (i * n_h + j) h 0 * nth (i * n_y + k) δ 0
                                    * nth (j * n_y + k) D 0) (seq 0 n_h)))).
  2:{ intros i k Hi Hk. rewrite nth_matmul_data by assumption. unfold dot_entry.
      rewrite <- Qsum_scale. apply Qsum_ext. intros j Hj. ring. }
  rewrite (Qsum_ext _ (fun j => Qsum (map (fun i =>
             Qsum (map (fun k => nth (i * n_h + j) h 0 * nth (i * n_y + k) δ 0
                                 * nth (j * n_y + k) D 0) (seq 0 n_y))) (seq 0 b))))
    by (intros j Hj;
        apply (Qsum_swap (fun k i => nth (i * n_h + j) h 0 * nth (i * n_y + k) δ 0
                                     * nth (j * n_y + k) D 0))).
  rewrite (Qsum_swap (fun j i =>
             Qsum (map (fun k => nth (i * n_h + j) h 0 * nth (i * n_y + k) δ 0
                                 * nth (j * n_y + k) D 0) (seq 0 n_y)))).
  apply Qsum_ext. intros i Hi.
  apply (Qsum_swap (fun j k => nth (i * n_h + j) h 0 * nth (i * n_y + k) δ 0
                               * nth (j * n_y + k) D 0)).
Qed.

(** The scalar product of δ . [W]^T with [m] is that of δ with [m . W]. *)
Lemma transpose_adjoint_r (δ W WT m : list Q) (b n_h n_y : nat) :
  (forall j k, (j < n_h)%nat -> (k < n_y)%nat ->
               nth (k * n_h + j) WT 0 = nth (j * n_y + k) W 0) ->
  Qsum (map (fun i =>
               Qsum (map (fun j => nth (i * n_h + j) (matmul_data δ WT b n_y n_h) 0
                                   * nth (i * n_h + j) m 0)
                       (seq 0 n_h))) (seq 0 b))
  == Qsum (map (fun i =>
                  Qsum (map (fun k => nth (i * n_y + k) δ 0
                                      * nth (i * n_y + k) (matmul_data m W b n_h n_y) 0)
                          (seq 0 n_y))) (seq 0 b)).
Proof.
  intros HT. apply Qsum_ext. intros i Hi.
  rewrite (Qsum_ext _ (fun j =>
             Qsum (map (fun k => nth (i * n_y + k) δ 0 * nth (j * n_y + k) W 0
                                 * nth (i * n_h + j) m 0) (seq 0 n_y)))).
  2:{ intros j Hj. rewrite nth_matmul_data by lia. unfold dot_entry.
      rewrite <- Qsum_scale_r. apply Qsum_ext. intros k Hk. rewrite HT by lia.
      reflexivity. }
  rewrite (Qsum_ext (fun k => nth (i * n_y + k) δ 0
                              * nth (i * n_y + k) (matmul_data m W b n_h n_y) 0)
             (fun k =>
                Qsum (map (fun j => nth (i * n_y + k) δ 0 * nth (j * n_y + k) W 0
                                    * nth (i * n_h + j) m 0) (seq 0 n_h)))).
  2:{ intros k Hk. rewrite nth_matmul_data by lia. unfold dot_entry.
      rewrite <- Qsum_scale. apply Qsum_ext. intros j Hj. ring. }
  apply (Qsum_swap (fun j k => nth (i * n_y + k) δ 0 * nth (j * n_y + k) W 0
                               * nth (i * n_h + j) m 0)).
Qed.

(** ** The gradient is the derivative of the loss *)

Lemma Qsum_scale_r2 (c : Q) (f : nat -> nat -> Q) (m p : nat) :
  Qsum (map (fun i => Qsum (map (fun k => f i k * c) (seq 0 p))) (seq 0 m))
  == Qsum (map (fun i => Qsum (map (fun k => f i k) (seq 0 p))) (seq 0 m)) * c.
Proof.
  rewrite <- (Qsum_scale_r c (fun i => Qsum (map (fun k => f i k) (seq 0 p)))).
  apply Qsum_ext. intros i Hi. apply (Qsum_scale_r c (fun k => f i k)).
Qed.

Lemma inject_nat_nonzero (n : nat) : (0 < n)%nat -> ~ inject_Z (Z.of_nat n) == 0.
Proof.
  intros Hpos H. unfold Qeq in H. cbn [Qnum Qden inject_Z] in H. lia.
Qed.

Lemma mean_of_squares_nonneg (l : list Q) (n : nat) :
  (0 < n)%nat -> 0 <= Qsum (map (fun u => u * u) l) / inject_Z (Z.of_nat n).
Proof.
  intros Hn. apply Qle_shift_div_l.
  - unfold Qlt. cbn [Qnum Qden inject_Z]. lia.
  - rewrite Qmult_0_l. apply Qsum_squares_nonneg.
Qed.

(** The mean of the squared errors, to first order in a move of the
    outputs by [c] times [e]: the linear term pairs [e] with the gradient
    of the loss with respect to the outputs. *)
Lemma mean_squared_error_moves (t y : ndarray) (y' e : list Q) (c : Q) (m p : nat) :
  length (data t) = (m * p)%nat -> length (data y) = (m * p)%nat ->
  length y' = (m * p)%nat -> length e = (m * p)%nat -> (0 < m * p)%nat ->
  (forall i k, (i < m)%nat -> (k < p)%nat ->
               nth (i * p + k) y' 0 == nth (i * p + k) (data y) 0 + c * nth (i * p + k) e 0) ->
  Qsum (map (fun u => u * u) (zip_with Qminus (data t) y')) / inject_Z (Z.of_nat (m * p))
  == Qsum (squared_errors t y) / inject_Z (Z.of_nat (m * p))
     + c * Qsum (map (fun i =>
                        Qsum (map (fun k => entry (output_gradient t y) (i * p + k)
                                            * nth (i * p + k) e 0) (seq 0 p))) (seq 0 m))
     + c * c * (Qsum (map (fun u => u * u) e) / inject_Z (Z.of_nat (m * p))).
Proof.
  intros Lt Ly Ly' Le Hpos Hmove.
  pose proof (inject_nat_nonzero (m * p) Hpos) as HN.
  rewrite (squared_errors_expand (data t) (data y) y' e c m p Lt Ly Ly' Le Hmove).
  assert (Hlin :
    Qsum (map (fun i =>
                 Qsum (map (fun k => entry (output_gradient t y) (i * p + k)
                                     * nth (i * p + k) e 0) (seq 0 p))) (seq 0 m))
    == Qsum (map (fun i =>
                    Qsum (map (fun k => 2 * (nth (i * p + k) (data y) 0
                                             - nth (i * p + k) (data t) 0)
                                        * nth (i * p + k) e 0) (seq 0 p))) (seq 0 m))
       * / inject_Z (Z.of_nat (m * p))).
  { rewrite <- (Qsum_scale_r2 (/ inject_Z (Z.of_nat (m * p)))
                  (fun i k => 2 * (nth (i * p + k) (data y) 0 - nth (i * p + k) (data t) 0)
                              * nth (i * p + k) e 0)).
    apply Qsum_ext2. intros i k Hi Hk.
    rewrite (output_gradient_entry t y (i * p + k)) by (rewrite ?Lt, ?Ly; nia).
    rewrite Ly. unfold entry, Qdiv. ring. }
  rewrite Hlin. unfold squared_errors. field. exact HN.
Qed.

Section Derivative.
Variables (b n_x n_h n_y : nat) (x y_target : ndarray).
Variables (θ : gmap string ndarray) (W_h W_y D : ndarray).
Hypothesis θ_h : θ !! "W_h" = Some W_h.
Hypothesis θ_y : θ !! "W_y" = Some W_y.
Hypothesis shape_x : shape x = [b; n_x].
Hypothesis shape_t : shape y_target = [b; n_y].
Hypothesis shape_h : shape W_h = [n_x; n_h].
Hypothesis shape_y : shape W_y = [n_h; n_y].
Hypothesis wf_t : wf y_target.
Hypothesis wf_h : wf W_h.
Hypothesis wf_y : wf W_y.
Hypothesis wf_D : wf D.
Hypothesis nonempty : (0 < b * n_y)%nat.

Let feed : gmap nat ndarray := training_feed x y_target.
Let z : ndarray := mk_array [b; n_h] (matmul_data (data x) (data W_h) b n_x n_h).
Let y : ndarray := mlp_value tf_nn_relu b n_x n_h n_y x W_h W_y.
Let δ : ndarray := output_gradient y_target y.
Let N : Q := inject_Z (Z.of_nat (b * n_y)).

Lemma loss_at (θ' : gmap string ndarray) (A B : ndarray) :
  θ' !! "W_h" = Some A -> θ' !! "W_y" = Some B ->
  shape A = [n_x; n_h] -> shape B = [n_h; n_y] ->
  eval θ' feed (loss_graph b n_x n_h n_y)
  = Ok (mk_array [] [Qsum (squared_errors y_target (mlp_value tf_nn_relu b n_x n_h n_y x A B))
                     / N]).
Proof.
  intros HA HB SA SB.
  rewrite (eval_loss_graph b n_x n_h n_y x y_target θ' feed A B)
    by (try assumption; reflexivity).
  unfold squared_errors. rewrite length_map, length_zip_with, length_mlp_value.
  unfold wf in wf_t. rewrite wf_t, shape_t, size_of_matrix, Nat.min_id. reflexivity.
Qed.

Lemma length_targets : length (data y_target) = (b * n_y)%nat.
Proof. unfold wf in wf_t. rewrite wf_t, shape_t. apply size_of_matrix. Qed.

(** Along a direction [D] of the output weights the loss is a parabola
    whose slope at the current weights is the scalar product of the gradient
    [backprop] gives for [W_y] with [D]. *)
Lemma loss_along_W_y (c : Q) :
  shape D = [n_h; n_y] ->
  eval (<["W_y" := add_arrays W_y (scale c D)]> θ) feed (loss_graph b n_x n_h n_y)
  = Ok (mk_array []
          [Qsum (squared_errors y_target
                   (mlp_value tf_nn_relu b n_x n_h n_y x W_h (add_arrays W_y (scale c D))))
           / N])
  /\ Qsum (squared_errors y_target
             (mlp_value tf_nn_relu b n_x n_h n_y x W_h (add_arrays W_y (scale c D)))) / N
     == Qsum (squared_errors y_target y) / N
        + c * inner (gradient_W_y b n_h n_y (tf_nn_relu z) δ) D
        + c * c * (Qsum (map (fun u => u * u)
                           (matmul_data (data (tf_nn_relu z)) (data D) b n_h n_y)) / N).
Proof.
  intros SD.
  assert (LD : length (data D) = (n_h * n_y)%nat)
    by (unfold wf in wf_D; rewrite wf_D, SD; apply size_of_matrix).
  assert (LW : length (data W_y) = (n_h * n_y)%nat)
    by (unfold wf in wf_y; rewrite wf_y, shape_y; apply size_of_matrix).
  split.
  { apply loss_at; [rewrite lookup_insert_ne by discriminate; exact θ_h
                   | apply lookup_insert_eq | exact shape_h | exact shape_y]. }
  unfold inner, gradient_W_y. cbn [data].
  rewrite (transpose_adjoint (data (tf_nn_relu z)) (data (transpose (tf_nn_relu z)))
             (data δ) (data D) b n_h n_y)
    by (try exact LD; intros i j Hi Hj;
        apply (nth_transpose (tf_nn_relu z) b n_h i j eq_refl Hi Hj)).
  apply (mean_squared_error_moves y_target y _ _ c b n_y).
  - apply length_targets.
  - apply length_mlp_value.
  - apply length_matmul_data.
  - apply length_matmul_data.
  - exact nonempty.
  - intros i k Hi Hk. unfold y, mlp_value, add_arrays, scale. cbn [data].
    apply matmul_moves; assumption.
Qed.

(** The part of the move of the hidden pre-activations that passes the
    rectifier, propagated to the outputs. *)
Let passed : list Q :=
  zip_with (fun u v => u * bool_to_Q (gt0 v))
    (matmul_data (data x) (data D) b n_x n_h) (data z).

(** Along a direction [D] of the hidden weights, as long as no hidden
    pre-activation changes sign, the loss is a parabola whose slope at the
    current weights is the scalar product of the gradient [backprop] gives
    for [W_h] with [D]. *)
Lemma loss_along_W_h (c : Q) :
  shape D = [n_x; n_h] ->
  (forall p, (p < b * n_h)%nat ->
     gt0 (entry (mk_array [b; n_h]
                   (matmul_data (data x) (data (add_arrays W_h (scale c D))) b n_x n_h)) p)
     = gt0 (entry z p)) ->
  eval (<["W_h" := add_arrays W_h (scale c D)]> θ) feed (loss_graph b n_x n_h n_y)
  = Ok (mk_array []
          [Qsum (squared_errors y_target
                   (mlp_value tf_nn_relu b n_x n_h n_y x (add_arrays W_h (scale c D)) W_y))
           / N])
  /\ Qsum (squared_errors y_target
             (mlp_value tf_nn_relu b n_x n_h n_y x (add_arrays W_h (scale c D)) W_y)) / N
     == Qsum (squared_errors y_target y) / N
        + c * inner (gradient_W_h b n_x n_h n_y x z W_y δ) D
        + c * c * (Qsum (map (fun u => u * u)
                           (matmul_data passed (data W_y) b n_h n_y)) / N).
Proof.
  intros SD Hsign.
  assert (LD : length (data D) = (n_x * n_h)%nat)
    by (unfold wf in wf_D; rewrite wf_D, SD; apply size_of_matrix).
  assert (LW : length (data W_h) = (n_x * n_h)%nat)
    by (unfold wf in wf_h; rewrite wf_h, shape_h; apply size_of_matrix).
  assert (Lz : length (data z) = (b * n_h)%nat) by apply length_matmul_data.
  assert (Lp : length passed = (b * n_h)%nat)
    by (unfold passed; rewrite length_zip_with, length_matmul_data, Lz; lia).
  split.
  { apply loss_at; [apply lookup_insert_eq
                   | rewrite lookup_insert_ne by discriminate; exact θ_y
                   | exact shape_h | exact shape_y]. }
  unfold inner, gradient_W_h. cbn [data shape].
  rewrite (transpose_adjoint (data x) (data (transpose x)) _ (data D) b n_x n_h)
    by (try exact LD; intros i j Hi Hj; apply (nth_transpose x b n_x i j shape_x Hi Hj)).
  rewrite (Qsum_ext2 _ (fun i j =>
             nth (i * n_h + j) (matmul_data (data δ) (data (transpose W_y)) b n_y n_h) 0
             * nth (i * n_h + j) passed 0)).
  2:{ intros i j Hi Hj. unfold passed.
      rewrite !(nth_zip_with (fun u v => u * bool_to_Q (gt0 v)) _ _ _ 0 0 0)
        by (rewrite ?length_matmul_data, ?Lz; nia).
      ring. }
  rewrite (transpose_adjoint_r (data δ) (data W_y) (data (transpose W_y)) passed b n_h n_y)
    by (intros j k Hj Hk; apply (nth_transpose W_y n_h n_y j k shape_y Hj Hk)).
  apply (mean_squared_error_moves y_target y _ _ c b n_y).
  - apply length_targets.
  - apply length_mlp_value.
  - apply length_matmul_data.
  - apply length_matmul_data.
  - exact nonempty.
  - intros i k Hi Hk. unfold y, mlp_value. cbn [data].
    rewrite !nth_matmul_data by assumption. unfold dot_entry.
    rewrite <- Qsum_scale, <- Qsum_plus. apply Qsum_ext. intros j Hj.
    unfold tf_nn_relu. cbn [data].
    rewrite (nth_map_in (fun v => Qmax v 0) _ (i * n_h + j) 0 0)
      by (rewrite length_matmul_data; nia).
    rewrite (nth_map_in (fun v => Qmax v 0) _ (i * n_h + j) 0 0)
      by (rewrite length_matmul_data; nia).
    rewrite <- !relu_entry.
    pose proof (Hsign (i * n_h + j)%nat ltac:(nia)) as Hs.
    unfold entry in Hs. cbn [data] in Hs. rewrite Hs.
    unfold passed.
    rewrite (nth_zip_with (fun u v => u * bool_to_Q (gt0 v)) _ _ _ 0 0 0)
      by (rewrite ?length_matmul_data, ?Lz; nia).
    unfold add_arrays, scale. cbn [data].
    rewrite (matmul_moves (data x) (data W_h) (data D) c b n_x n_h i j LW LD) by lia.
    unfold z. cbn [data]. ring.
Qed.
End Derivative.

(** C3: run in a session that binds the names it reads as the NumPy cell
    leaves them, the training cell ends normally after exactly ten steps:
    [steps] is [0, 1, ..., 9] and [losses] holds the ten losses fetched, in
    step order.  They are the losses of ten gradient-descent steps from the
    initial weights, [training_run]: each step fetches the loss at the current
    parameters and replaces the parameters by [apply_gradients (1/100)] of the
    gradients [backprop] computes there.  For parameters of the network's
    shapes the loss is the mean of the squared differences between
    [y_target] and the output, the gradients are those of this mean with
    respect to [W_h] and [W_y], and the step moves each variable to
    theta - 1/100 * gradient.

    The last part spells one step out entry by entry, over exact rationals:
    with z = x . W_h and y = max(z, 0) . W_y the forward pass, the gradient
    of the loss with respect to the output is δ = 2 (y - y_target) / N, with
    respect to [W_y] it is max(z, 0)^T . δ, with respect to [W_h] it is
    x^T . ((δ . W_y^T) where z is positive), and every entry of a variable
    becomes the old entry minus 1/100 times the entry of its gradient.

    These gradients are the derivatives of the loss, again over exact
    rationals: moving [W_y] by c times any direction D changes the loss l
    to exactly l + c <g_y, D> + c^2 r with r >= 0 the same for every c,
    where <g_y, D> is the scalar product of the gradient [backprop] returns
    for [W_y] with D; the same holds for [W_h] and its gradient for every c
    that leaves the sign of each entry of x . W_h unchanged, the rectifier
    having no derivative where an entry is zero. *)
Theorem ten_gradient_descent_steps (s : state) (b n_x n_h n_y : nat)
    (x W_h W_y y_np y_target : ndarray) (loss_np : value) :
  globals s !! "tf" = Some (VModule "tensorflow") ->
  globals s !! "plt" = Some (VModule "matplotlib.pyplot") ->
  globals s !! "keras" = Some (VModule "keras") ->
  globals s !! "batch_size" = Some (VInt (Z.of_nat b)) ->
  globals s !! "n_x" = Some (VInt (Z.of_nat n_x)) ->
  globals s !! "n_h" = Some (VInt (Z.of_nat n_h)) ->
  globals s !! "n_y" = Some (VInt (Z.of_nat n_y)) ->
  globals s !! "W_h_np" = Some (VArr W_h) ->
  globals s !! "W_y_np" = Some (VArr W_y) ->
  globals s !! "x_np" = Some (VArr x) ->
  globals s !! "y_np" = Some (VArr y_np) ->
  globals s !! "y_target_np" = Some (VArr y_target) ->
  globals s !! "loss_np" = Some loss_np ->
  shape x = [b; n_x] -> shape W_h = [n_x; n_h] -> shape W_y = [n_h; n_y] ->
  shape y_target = [b; n_y] -> wf W_h -> wf W_y -> wf y_target ->
  length (data y_np) = (b * n_y)%nat -> (0 < b * n_y)%nat ->
  (exists ls θ',
     snd (run_cell cell_training s) = Ok tt
     /\ training_run (1 # 100) (loss_graph b n_x n_h n_y) (training_feed x y_target) 10
          (initial_parameters W_h W_y) = Ok (ls, θ')
     /\ length ls = 10%nat
     /\ globals (fst (run_cell cell_training s)) !! "steps"
        = Some (VList [IInt 0; IInt 1; IInt 2; IInt 3; IInt 4;
                       IInt 5; IInt 6; IInt 7; IInt 8; IInt 9])
     /\ globals (fst (run_cell cell_training s)) !! "losses" = Some (VList (map IArr ls))
     /\ globals (fst (run_cell cell_training s)) !! "train_op"
        = Some (VTrainOp (1 # 100) (loss_graph b n_x n_h n_y)))
  /\ (forall (θ : gmap string ndarray) (A B : ndarray),
       θ !! "W_h" = Some A -> θ !! "W_y" = Some B ->
       shape A = [n_x; n_h] -> shape B = [n_h; n_y] ->
       exists grads,
         eval θ (training_feed x y_target) (loss_graph b n_x n_h n_y)
         = Ok (mk_array []
                 [Qsum (squared_errors y_target (mlp_value tf_nn_relu b n_x n_h n_y x A B))
                  / inject_Z (Z.of_nat (length
                       (squared_errors y_target
                          (mlp_value tf_nn_relu b n_x n_h n_y x A B))))])
         /\ backprop θ (training_feed x y_target) (loss_graph b n_x n_h n_y)
              (mk_array [] [1]) = Ok grads
         /\ grads !! "W_h"
            = Some (gradient_W_h b n_x n_h n_y x
                      (mk_array [b; n_h] (matmul_data (data x) (data A) b n_x n_h)) B
                      (output_gradient y_target (mlp_value tf_nn_relu b n_x n_h n_y x A B)))
         /\ grads !! "W_y"
            = Some (gradient_W_y b n_h n_y
                      (tf_nn_relu (mk_array [b; n_h] (matmul_data (data x) (data A) b n_x n_h)))
                      (output_gradient y_target (mlp_value tf_nn_relu b n_x n_h n_y x A B)))
         /\ forall name v g,
              θ !! name = Some v -> grads !! name = Some g ->
              apply_gradients (1 # 100) grads θ !! name
              = Some (add_arrays v (scale (- (1 # 100)) g)))
  /\ (forall (θ : gmap string ndarray) (A B : ndarray),
       θ !! "W_h" = Some A -> θ !! "W_y" = Some B ->
       shape A = [n_x; n_h] -> shape B = [n_h; n_y] -> wf A -> wf B ->
       let z := mk_array [b; n_h] (matmul_data (data x) (data A) b n_x n_h) in
       let y := mlp_value tf_nn_relu b n_x n_h n_y x A B in
       exists (grads : gmap string ndarray) (δ g_h g_y A' B' : ndarray),
         backprop θ (training_feed x y_target) (loss_graph b n_x n_h n_y)
           (mk_array [] [1]) = Ok grads
         /\ grads !! "W_h" = Some g_h /\ grads !! "W_y" = Some g_y
         /\ apply_gradients (1 # 100) grads θ !! "W_h" = Some A'
         /\ apply_gradients (1 # 100) grads θ !! "W_y" = Some B'
         /\ shape A' = [n_x; n_h] /\ wf A' /\ shape B' = [n_h; n_y] /\ wf B'
         /\ (forall p, (p < n_x * n_h)%nat ->
               entry A' p == entry A p - (1 # 100) * entry g_h p)
         /\ (forall p, (p < n_h * n_y)%nat ->
               entry B' p == entry B p - (1 # 100) * entry g_y p)
         /\ (forall i j, (i < b)%nat -> (j < n_h)%nat ->
               entry z (i * n_h + j)
               = Qsum (map (fun a => entry x (i * n_x + a) * entry A (a * n_h + j))
                         (seq 0 n_x)))
         /\ (forall i k, (i < b)%nat -> (k < n_y)%nat ->
               entry y (i * n_y + k)
               = Qsum (map (fun j => Qmax (entry z (i * n_h + j)) 0 * entry B (j * n_y + k))
                         (seq 0 n_h)))
         /\ (forall i k, (i < b)%nat -> (k < n_y)%nat ->
               entry δ (i * n_y + k)
               == 2 * (entry y (i * n_y + k) - entry y_target (i * n_y + k))
                  / inject_Z (Z.of_nat (b * n_y)))
         /\ (forall j k, (j < n_h)%nat -> (k < n_y)%nat ->
               entry g_y (j * n_y + k)
               = Qsum (map (fun i => Qmax (entry z (i * n_h + j)) 0 * entry δ (i * n_y + k))
                         (seq 0 b)))
         /\ (forall a j, (a < n_x)%nat -> (j < n_h)%nat ->
               entry g_h (a * n_h + j)
               = Qsum (map (fun i =>
                              entry x (i * n_x + a)
                              * (Qsum (map (fun k => entry δ (i * n_y + k)
                                                     * entry B (j * n_y + k))
                                         (seq 0 n_y))
                                 * bool_to_Q (gt0 (entry z (i * n_h + j)))))
                         (seq 0 b))))
  /\ forall (θ : gmap string ndarray) (A B : ndarray),
       θ !! "W_h" = Some A -> θ !! "W_y" = Some B ->
       shape A = [n_x; n_h] -> shape B = [n_h; n_y] -> wf A -> wf B ->
       exists (l : Q) (grads : gmap string ndarray) (g_h g_y : ndarray),
         eval θ (training_feed x y_target) (loss_graph b n_x n_h n_y)
         = Ok (mk_array [] [l])
         /\ backprop θ (training_feed x y_target) (loss_graph b n_x n_h n_y)
              (mk_array [] [1]) = Ok grads
         /\ grads !! "W_h" = Some g_h /\ grads !! "W_y" = Some g_y
         /\ (forall D : ndarray, shape D = [n_h; n_y] -> wf D ->
               exists r : Q,
                 0 <= r
                 /\ forall c : Q, exists l' : Q,
                      eval (<["W_y" := add_arrays B (scale c D)]> θ)
                        (training_feed x y_target) (loss_graph b n_x n_h n_y)
                      = Ok (mk_array [] [l'])
                      /\ l' == l + c * inner g_y D + c * c * r)
         /\ (forall D : ndarray, shape D = [n_x; n_h] -> wf D ->
               exists r : Q,
                 0 <= r
                 /\ forall c : Q,
                      (forall p, (p < b * n_h)%nat ->
                         gt0 (entry (mk_array [b; n_h]
                                       (matmul_data (data x)
                                          (data (add_arrays A (scale c D))) b n_x n_h)) p)
                         = gt0 (entry (mk_array [b; n_h]
                                         (matmul_data (data x) (data A) b n_x n_h)) p)) ->
                      exists l' : Q,
                        eval (<["W_h" := add_arrays A (scale c D)]> θ)
                          (training_feed x y_target) (loss_graph b n_x n_h n_y)
                        = Ok (mk_array [] [l'])
                        /\ l' == l + c * inner g_h D + c * c * r).
Proof.
  intros G_tf G_plt G_keras G_b G_nx G_nh G_ny G_Wh G_Wy G_x G_y G_t G_loss
         Sx Sh Sy St Wh Wy Wt Hlen Hpos.
  split; [|split; [|split]].
  - destruct (cell_training_runs (globals s) b n_x n_h n_y x W_h W_y y_np y_target loss_np
                G_tf G_plt G_keras G_b G_nx G_nh G_ny G_Wh G_Wy G_x G_y G_t G_loss
                Sx Sh Sy St Wh Wy Wt Hlen Hpos
                (default_graph s) (open_sessions s) [] [])
      as (s' & [] & E & ls & θ' & Hrun & Hl & Hsteps & Hlosses & Hop & _).
    exists ls, θ'. unfold run_cell. rewrite E. cbn [fst snd].
    cbn [map seq Z.of_nat Pos.of_succ_nat Pos.succ] in Hsteps. auto 10.
  - intros θ A B HA HB SA SB. eexists.
    split; [eapply (eval_loss_graph b n_x n_h n_y x y_target θ _ A B);
            try eassumption; reflexivity|].
    split; [eapply (backprop_loss_graph b n_x n_h n_y x y_target θ _ A B);
            try eassumption; reflexivity|].
    split; [apply merged_gradient_W_h|]. split; [apply merged_gradient_W_y|].
    intros name v g Hv Hg. rewrite (apply_gradients_lookup _ _ _ _ _ Hv), Hg. reflexivity.
  - intros θ A B HA HB SA SB WA WB z y.
    set (δ := output_gradient y_target y).
    set (g_h := gradient_W_h b n_x n_h n_y x z B δ).
    set (g_y := gradient_W_y b n_h n_y (tf_nn_relu z) δ).
    assert (LA : length (data A) = (n_x * n_h)%nat)
      by (unfold wf in WA; rewrite WA, SA; apply size_of_matrix).
    assert (LB : length (data B) = (n_h * n_y)%nat)
      by (unfold wf in WB; rewrite WB, SB; apply size_of_matrix).
    assert (Lgh : length (data g_h) = (n_x * n_h)%nat) by apply length_matmul_data.
    assert (Lgy : length (data g_y) = (n_h * n_y)%nat) by apply length_matmul_data.
    assert (Lz : length (data z) = (b * n_h)%nat) by apply length_matmul_data.
    assert (Ly : length (data y) = (b * n_y)%nat) by apply length_mlp_value.
    assert (Lt : length (data y_target) = length (data y))
      by (rewrite Ly; unfold wf in Wt; rewrite Wt, St; apply size_of_matrix).
    assert (Hrelu : forall i j, (i < b)%nat -> (j < n_h)%nat ->
                      entry (tf_nn_relu z) (i * n_h + j) = Qmax (entry z (i * n_h + j)) 0)
      by (intros i j Hi Hj; apply relu_entry_at; rewrite Lz; nia).
    exists (merge_grads ∅
              (merge_grads (merge_grads ∅ {[ "W_h" := g_h ]}) {[ "W_y" := g_y ]})),
           δ, g_h, g_y,
           (add_arrays A (scale (- (1 # 100)) g_h)),
           (add_arrays B (scale (- (1 # 100)) g_y)).
    split; [eapply (backprop_loss_graph b n_x n_h n_y x y_target θ _ A B);
            try eassumption; reflexivity|].
    split; [apply merged_gradient_W_h|]. split; [apply merged_gradient_W_y|].
    split; [rewrite (apply_gradients_lookup _ _ _ _ _ HA), merged_gradient_W_h;
            reflexivity|].
    split; [rewrite (apply_gradients_lookup _ _ _ _ _ HB), merged_gradient_W_y;
            reflexivity|].
    split; [exact SA|]. split; [apply wf_add_scaled; [exact WA | congruence]|].
    split; [exact SB|]. split; [apply wf_add_scaled; [exact WB | congruence]|].
    split; [intros p Hp; apply descent_entry; lia|].
    split; [intros p Hp; apply descent_entry; lia|].
    split; [intros i j Hi Hj; apply hidden_entry; assumption|].
    split.
    { intros i k Hi Hk. unfold y. rewrite output_entry by assumption.
      f_equal. apply map_ext_in. intros j Hj. apply in_seq in Hj.
      fold z. rewrite Hrelu by lia. reflexivity. }
    split.
    { intros i k Hi Hk. unfold δ. rewrite output_gradient_entry by (rewrite ?Ly; nia).
      rewrite Ly. reflexivity. }
    split.
    { intros j k Hj Hk. unfold g_y.
      rewrite (gradient_W_y_entry b n_h n_y (tf_nn_relu z) δ j k eq_refl Hj Hk).
      f_equal. apply map_ext_in. intros i Hi. apply in_seq in Hi.
      rewrite Hrelu by lia. reflexivity. }
    intros a j Ha Hj. unfold g_h.
    apply (gradient_W_h_entry b n_x n_h n_y x z B δ a j Sx SB Lz Ha Hj).
  - intros θ A B HA HB SA SB WA WB.
    set (z := mk_array [b; n_h] (matmul_data (data x) (data A) b n_x n_h)).
    set (y := mlp_value tf_nn_relu b n_x n_h n_y x A B).
    set (δ := output_gradient y_target y).
    set (g_h := gradient_W_h b n_x n_h n_y x z B δ).
    set (g_y := gradient_W_y b n_h n_y (tf_nn_relu z) δ).
    exists (Qsum (squared_errors y_target y) / inject_Z (Z.of_nat (b * n_y))),
           (merge_grads ∅
              (merge_grads (merge_grads ∅ {[ "W_h" := g_h ]}) {[ "W_y" := g_y ]})),
           g_h, g_y.
    split; [exact (loss_at b n_x n_h n_y x y_target Sx St Wt Hpos θ A B HA HB SA SB)|].
    split; [eapply (backprop_loss_graph b n_x n_h n_y x y_target θ _ A B);
            try eassumption; reflexivity|].
    split; [apply merged_gradient_W_h|]. split; [apply merged_gradient_W_y|].
    split.
    + intros D SD WD.
      exists (Qsum (map (fun u => u * u)
                      (matmul_data (data (tf_nn_relu z)) (data D) b n_h n_y))
              / inject_Z (Z.of_nat (b * n_y))).
      split; [apply mean_of_squares_nonneg; exact Hpos|].
      intros c.
      destruct (loss_along_W_y b n_x n_h n_y x y_target θ A B D
                  HA Sx St SA SB Wt WB WD Hpos c SD) as [E1 E2].
      eexists. split; [exact E1 | exact E2].
    + intros D SD WD.
      exists (Qsum (map (fun u => u * u)
                      (matmul_data
                         (zip_with (fun u v => u * bool_to_Q (gt0 v))
                            (matmul_data (data x) (data D) b n_x n_h) (data z))
                         (data B) b n_h n_y))
              / inject_Z (Z.of_nat (b * n_y))).
      split; [apply mean_of_squares_nonneg; exact Hpos|].
      intros c Hsign.
      destruct (loss_along_W_h b n_x n_h n_y x y_target θ A B D
                  HB Sx St SA SB Wt WA WD Hpos c SD Hsign) as [E1 E2].
      eexists. split; [exact E1 | exact E2].
Qed.

Lemma rnn_scores_training_pixels_witness :
  agree_on ["x_train"; "y_train"; "y_test"; "keras"]
    (small_dataset (mk_array [1; 2; 2]%nat [1; 0; 0; 1]))
    (small_dataset (mk_array [1; 2; 2]%nat [0; 0; 0; 0]))
  /\ similar (globals (small_dataset (mk_array [1; 2; 2]%nat [1; 0; 0; 1])) !! "x_test")
             (globals (small_dataset (mk_array [1; 2; 2]%nat [0; 0; 0; 0])) !! "x_test")
  /\ snd (run_cell (cell_rnn example_world)
            (small_dataset (mk_array [1; 2; 2]%nat [1; 0; 0; 1])))
     = snd (run_cell (cell_rnn example_world)
              (small_dataset (mk_array [1; 2; 2]%nat [0; 0; 0; 0])))
  /\ trace (fst (run_cell (cell_rnn example_world)
                   (small_dataset (mk_array [1; 2; 2]%nat [1; 0; 0; 1]))))
     = trace (fst (run_cell (cell_rnn example_world)
                     (small_dataset (mk_array [1; 2; 2]%nat [0; 0; 0; 0]))))
  /\ globals (fst (run_cell (cell_rnn example_world)
                     (small_dataset (mk_array [1; 2; 2]%nat [1; 0; 0; 1])))) !! "x_test_rnn"
     = Some (VArr (mk_array [1; 8; 1]%nat [0; 1; 0; 1; 1; 0; 1; 0]))
  /\ last (out (fst (run_cell (cell_rnn example_world)
                       (small_dataset (mk_array [1; 2; 2]%nat [1; 0; 0; 1])))))
     = Some (Printed [VFloats [Qsum [0; 1; 0; 1; 1; 0; 1; 0]; 0]]).
Proof.
  assert (Ha : agree_on ["x_train"; "y_train"; "y_test"; "keras"]
                 (small_dataset (mk_array [1; 2; 2]%nat [1; 0; 0; 1]))
                 (small_dataset (mk_array [1; 2; 2]%nat [0; 0; 0; 0]))).
  { intros name Hin. simpl in Hin.
    repeat (destruct Hin as [<-|Hin]; [vm_compute; reflexivity|]). destruct Hin. }
  assert (Hs : similar
                 (globals (small_dataset (mk_array [1; 2; 2]%nat [1; 0; 0; 1])) !! "x_test")
                 (globals (small_dataset (mk_array [1; 2; 2]%nat [0; 0; 0; 0])) !! "x_test"))
    by (vm_compute; reflexivity).
  destruct (rnn_scores_training_pixels example_world _ _ Ha Hs) as ((E1 & _ & E3 & _) & F).
  destruct (F (mk_array [2; 2; 2]%nat [0; 1; 0; 1; 1; 0; 1; 0])
              (mk_array [1; 2; 2]%nat [1; 0; 0; 1])
              (mk_array [2%nat] [3; 7]) (mk_array [1%nat] [1])
              2%nat 1%nat [2; 2]%nat [2; 2]%nat
              [Qsum [0; 1; 0; 1; 1; 0; 1; 0]; 0])
    as (_ & F2 & _ & F4);
    [vm_compute; reflexivity | vm_compute; reflexivity | vm_compute; reflexivity
    | vm_compute; reflexivity | vm_compute; reflexivity
    | reflexivity | reflexivity | reflexivity | discriminate | reflexivity | discriminate
    | vm_compute; reflexivity | vm_compute; reflexivity | vm_compute; reflexivity |].
  split; [exact Ha|]. split; [exact Hs|]. split; [exact E1|]. split; [exact E3|].
  split; [exact F2 | exact F4].
Defined.

Lemma training_completes : snd (run_cell cell_training before_training) = Ok tt.
Proof.
  assert (H : runs_to cell_training
                (mk_state (globals before_training) (default_graph before_training)
                   (open_sessions before_training) [] [])
                (fun _ _ => True)).
  { destruct (cell_training_runs (globals before_training) 5 10 100 3
                (bound_array "x_np" before_training)
                (bound_array "W_h_np" before_training)
                (bound_array "W_y_np" before_training)
                (bound_array "y_np" before_training)
                (bound_array "y_target_np" before_training)
                (VScalar (Num (488842 # 15)))
                ltac:(vm_compute; reflexivity) ltac:(vm_compute; reflexivity)
                ltac:(vm_compute; reflexivity) ltac:(vm_compute; reflexivity)
                ltac:(vm_compute; reflexivity) ltac:(vm_compute; reflexivity)
                ltac:(vm_compute; reflexivity) ltac:(vm_compute; reflexivity)
                ltac:(vm_compute; reflexivity) ltac:(vm_compute; reflexivity)
                ltac:(vm_compute; reflexivity) ltac:(vm_compute; reflexivity)
                ltac:(vm_compute; reflexivity) ltac:(vm_compute; reflexivity)
                ltac:(vm_compute; reflexivity) ltac:(vm_compute; reflexivity)
                ltac:(vm_compute; reflexivity) ltac:(vm_compute; reflexivity)
                ltac:(vm_compute; reflexivity) ltac:(vm_compute; reflexivity)
                ltac:(vm_compute; reflexivity) ltac:(vm_compute; lia)
                (default_graph before_training) (open_sessions before_training) [] [])
      as (s' & u & E & _).
    exists s', u. split; [exact E | exact I]. }
  destruct H as (s' & [] & E & _). unfold run_cell. rewrite E. reflexivity.
Qed.

Lemma sessions_closed_on_completion_witness :
  code_cells example_world !! 10%nat = Some cell_training
  /\ snd (run_cell cell_training before_training) = Ok tt
  /\ open_sessions (fst (run_cell cell_training before_training))
     = open_sessions before_training.
Proof.
  split; [reflexivity|]. split; [exact training_completes|].
  exact (proj1 (sessions_closed_on_completion example_world 10 cell_training
                  before_training eq_refl) tt training_completes).
Defined.

Lemma ten_gradient_descent_steps_witness :
  (exists ls θ',
     snd (run_cell cell_training before_training) = Ok tt
     /\ training_run (1 # 100) (loss_graph 5 10 100 3)
          (training_feed (bound_array "x_np" before_training)
                         (bound_array "y_target_np" before_training)) 10
          (initial_parameters (bound_array "W_h_np" before_training)
                              (bound_array "W_y_np" before_training)) = Ok (ls, θ')
     /\ length ls = 10%nat
     /\ globals (fst (run_cell cell_training before_training)) !! "steps"
        = Some (VList [IInt 0; IInt 1; IInt 2; IInt 3; IInt 4;
                       IInt 5; IInt 6; IInt 7; IInt 8; IInt 9])
     /\ globals (fst (run_cell cell_training before_training)) !! "losses"
        = Some (VList (map IArr ls))
     /\ globals (fst (run_cell cell_training before_training)) !! "train_op"
        = Some (VTrainOp (1 # 100) (loss_graph 5 10 100 3)))
  /\ exists (grads : gmap string ndarray) (g_h W_h' : ndarray),
       backprop (initial_parameters (bound_array "W_h_np" before_training)
                                    (bound_array "W_y_np" before_training))
         (training_feed (bound_array "x_np" before_training)
                        (bound_array "y_target_np" before_training))
         (loss_graph 5 10 100 3) (mk_array [] [1]) = Ok grads
       /\ grads !! "W_h" = Some g_h
       /\ apply_gradients (1 # 100) grads
            (initial_parameters (bound_array "W_h_np" before_training)
                                (bound_array "W_y_np" before_training)) !! "W_h"
          = Some W_h'
       /\ (forall p, (p < 10 * 100)%nat ->
             entry W_h' p
             == entry (bound_array "W_h_np" before_training) p - (1 # 100) * entry g_h p)
       /\ exists (l : Q) (g_y : ndarray) (r : Q),
            eval (initial_parameters (bound_array "W_h_np" before_training)
                                     (bound_array "W_y_np" before_training))
              (training_feed (bound_array "x_np" before_training)
                             (bound_array "y_target_np" before_training))
              (loss_graph 5 10 100 3) = Ok (mk_array [] [l])
            /\ grads !! "W_y" = Some g_y
            /\ 0 <= r
            /\ forall c : Q, exists l' : Q,
                 eval (<["W_y" := add_arrays (bound_array "W_y_np" before_training)
                                   (scale c (bound_array "W_y_np" before_training))]>
                         (initial_parameters (bound_array "W_h_np" before_training)
                                             (bound_array "W_y_np" before_training)))
                   (training_feed (bound_array "x_np" before_training)
                                  (bound_array "y_target_np" before_training))
                   (loss_graph 5 10 100 3) = Ok (mk_array [] [l'])
                 /\ l' == l + c * inner g_y (bound_array "W_y_np" before_training)
                         + c * c * r.
Proof.
  destruct (ten_gradient_descent_steps before_training 5 10 100 3
              (bound_array "x_np" before_training)
              (bound_array "W_h_np" before_training)
              (bound_array "W_y_np" before_training)
              (bound_array "y_np" before_training)
              (bound_array "y_target_np" before_training)
              (VScalar (Num (488842 # 15)))
              ltac:(vm_compute; reflexivity) ltac:(vm_compute; reflexivity)
              ltac:(vm_compute; reflexivity) ltac:(vm_compute; reflexivity)
              ltac:(vm_compute; reflexivity) ltac:(vm_compute; reflexivity)
              ltac:(vm_compute; reflexivity) ltac:(vm_compute; reflexivity)
              ltac:(vm_compute; reflexivity) ltac:(vm_compute; reflexivity)
              ltac:(vm_compute; reflexivity) ltac:(vm_compute; reflexivity)
              ltac:(vm_compute; reflexivity) ltac:(vm_compute; reflexivity)
              ltac:(vm_compute; reflexivity) ltac:(vm_compute; reflexivity)
              ltac:(vm_compute; reflexivity) ltac:(vm_compute; reflexivity)
              ltac:(vm_compute; reflexivity) ltac:(vm_compute; reflexivity)
              ltac:(vm_compute; reflexivity) ltac:(vm_compute; lia))
    as (H1 & _ & H3 & H4).
  split; [exact H1|].
  destruct (H3 (initial_parameters (bound_array "W_h_np" before_training)
                                   (bound_array "W_y_np" before_training))
               (bound_array "W_h_np" before_training)
               (bound_array "W_y_np" before_training)
               ltac:(vm_compute; reflexivity) ltac:(vm_compute; reflexivity)
               ltac:(vm_compute; reflexivity) ltac:(vm_compute; reflexivity)
               ltac:(vm_compute; reflexivity) ltac:(vm_compute; reflexivity))
    as (grads & δ & g_h & g_y & A' & B' & Hb & Hgh & _ & HA' & _ & _ & _ & _ & _ & Hstep & _).
  destruct (H4 (initial_parameters (bound_array "W_h_np" before_training)
                                   (bound_array "W_y_np" before_training))
               (bound_array "W_h_np" before_training)
               (bound_array "W_y_np" before_training)
               ltac:(vm_compute; reflexivity) ltac:(vm_compute; reflexivity)
               ltac:(vm_compute; reflexivity) ltac:(vm_compute; reflexivity)
               ltac:(vm_compute; reflexivity) ltac:(vm_compute; reflexivity))
    as (l & grads' & g_h' & g_y' & Hl & Hb' & _ & Hgy' & Hy & _).
  destruct (Hy (bound_array "W_y_np" before_training)
               ltac:(vm_compute; reflexivity) ltac:(vm_compute; reflexivity))
    as (r & Hr & Hc).
  exists grads, g_h, A'.
  split; [exact Hb|]. split; [exact Hgh|]. split; [exact HA'|]. split; [exact Hstep|].
  exists l, g_y', r.
  split; [exact Hl|].
  split; [rewrite Hb in Hb'; injection Hb' as <-; exact Hgy'|].
  split; [exact Hr | exact Hc].
Defined.

(** ** The names a cell leaves alone *)

Lemma pres_ret {A} (W : list string) (a : A) : preserves W (mret a).
Proof. intros s name _. reflexivity. Qed.

Lemma pres_bind {A B} (W : list string) (m : prog A) (k : A -> prog B) :
  preserves W m -> (forall a, preserves W (k a)) -> preserves W (m ≫= k).
Proof.
  intros Hm Hk s name Hn. specialize (Hm s name Hn).
  unfold mbind, prog_bind, pbind. destruct (m s) as [s1 [a|e]]; simpl in *.
  - rewrite (Hk a s1 name Hn). exact Hm.
  - exact Hm.
Qed.

Lemma pres_lookup (W : list string) (name : string) : preserves W (lookup_name name).
Proof. intros s x _. unfold lookup_name. destruct (globals s !! name); reflexivity. Qed.

Lemma pres_assign (W : list string) (name : string) (v : value) :
  In name W -> preserves W (assign name v).
Proof.
  intros Hin s x Hx. simpl. apply lookup_insert_ne. intros ->. exact (Hx Hin).
Qed.

Lemma pres_mutate (W : list string) (name : string) (v : value) :
  In name W -> preserves W (mutate name v).
Proof.
  intros Hin s x Hx. simpl. apply lookup_insert_ne. intros ->. exact (Hx Hin).
Qed.

Lemma pres_call {A} (W : list string) (name : string) (r : result A) :
  preserves W (call name r).
Proof. intros s x _. reflexivity. Qed.

Lemma pres_call_graph {A} (W : list string) (name : string)
    (f : graph -> result (graph * A)) :
  preserves W (call_graph name f).
Proof.
  intros s x _. unfold call_graph. destruct (f (default_graph s)) as [[g a]|e]; reflexivity.
Qed.

Lemma pres_emit (W : list string) (o : output) : preserves W (emit o).
Proof. intros s x _. reflexivity. Qed.

Lemma pres_session_open (W : list string) : preserves W session_open.
Proof. intros s x _. reflexivity. Qed.

Lemma pres_session_close (W : list string) (name : string) (σ : session) :
  preserves W (session_close name σ).
Proof. intros s x _. reflexivity. Qed.

Lemma pres_from_module (W : list string) (alias name : string) :
  preserves W (from_module alias name).
Proof.
  unfold from_module. apply pres_bind; [apply pres_lookup | intros v; apply pres_call].
Qed.

Lemma pres_import_as (W : list string) (ok : string -> bool) (name alias : string) :
  In alias W -> preserves W (import_as ok name alias).
Proof.
  intros Hin. unfold import_as.
  apply pres_bind; [apply pres_call | intros v; apply pres_assign, Hin].
Qed.

Lemma pres_with_exit {A} (W : list string) (name : string) (body : prog A) :
  In name W -> preserves W body -> preserves W (with_exit name body).
Proof.
  intros Hin Hb s x Hx. specialize (Hb s x Hx). unfold with_exit.
  destruct (body s) as [s1 r]; simpl in *.
  destruct (globals s1 !! name) as [[]|]; simpl; try exact Hb.
  rewrite lookup_insert_ne by (intros ->; exact (Hx Hin)). exact Hb.
Qed.

Lemma pres_with_session {A} (W : list string) (name : string) (body : prog A) :
  In name W -> preserves W body -> preserves W (with_session name body).
Proof.
  intros Hin Hb. unfold with_session.
  apply pres_bind; [apply pres_session_open | intros σ].
  apply pres_bind; [apply pres_assign, Hin | intros _].
  apply pres_with_exit; assumption.
Qed.

Lemma pres_for_range {A} (W : list string) (var : string) (n : nat) (body : prog A) :
  In var W -> preserves W body -> preserves W (for_range var n body).
Proof.
  intros Hin Hb. unfold for_range. generalize 0%nat.
  induction n as [|n IH]; intros i; simpl; [apply pres_ret|].
  apply pres_bind; [apply pres_assign, Hin | intros _].
  apply pres_bind; [exact Hb | intros _; apply IH].
Qed.

Ltac solve_member := simpl; tauto.

Ltac pres_steps :=
  lazymatch goal with
  | |- preserves _ (if ?b then _ else _) => destruct b; pres_steps
  | |- preserves _ (_ ≫= _) => apply pres_bind; [ pres_steps | intros ?; pres_steps ]
  | |- preserves _ (with_session _ _) => apply pres_with_session; [ solve_member | pres_steps ]
  | |- preserves _ (for_range _ _ _) => apply pres_for_range; [ solve_member | pres_steps ]
  | |- preserves _ (lookup_name _) => apply pres_lookup
  | |- preserves _ (from_module _ _) => apply pres_from_module
  | |- preserves _ (import_as _ _ _) => apply pres_import_as; solve_member
  | |- preserves _ (assign _ _) => apply pres_assign; solve_member
  | |- preserves _ (mutate _ _) => apply pres_mutate; solve_member
  | |- preserves _ (call _ _) => apply pres_call
  | |- preserves _ (call_graph _ _) => apply pres_call_graph
  | |- preserves _ (emit _) => apply pres_emit
  | |- preserves _ session_open => apply pres_session_open
  | |- preserves _ (session_close _ _) => apply pres_session_close
  | |- preserves _ (mret _) => apply pres_ret
  end.


Lemma pres_cell_numpy (w : world) :
  preserves ["batch_size"; "n_x"; "n_h"; "n_y"; "x_np"; "relu"; "W_h_np"; "W_y_np"; "h_np";
             "y_np"; "y_target_np"; "loss_np"] (cell_numpy w).
Proof. unfold cell_numpy. pres_steps. Qed.

Lemma pres_cell_tensorflow :
  preserves ["x"; "W_h"; "W_y"; "h"; "y"; "sess"; "y_val"] cell_tensorflow.
Proof. unfold cell_tensorflow, tensorflow_forward, initialize_variables. pres_steps. Qed.


Lemma pres_cell_mnist (w : world) :
  preserves ["mnist"; "x_train"; "y_train"; "x_test"; "y_test"; "i"] (cell_mnist w).
Proof. unfold cell_mnist. pres_steps. Qed.

Lemma pres_cell_training :
  preserves ["x"; "W_h"; "W_y"; "h"; "y"; "sess"; "y_val"; "y_target"; "loss"; "loss_val";
             "opt"; "train_op"; "steps"; "losses"; "step"; "_"] cell_training.
Proof.
  unfold cell_training, tensorflow_forward, training_step, initialize_variables.
  pres_steps.
Qed.

Lemma pres_cell_rnn (w : world) :
  preserves ["Dense"; "Flatten"; "Conv2D"; "Dropout"; "MaxPooling2D"; "GRU"; "Input";
             "x_train_rnn"; "x_test_rnn"; "x"; "layer"; "y"; "model"] (cell_rnn w).
Proof. unfold cell_rnn, opaque_call. pres_steps. Qed.


(** ** Running the cell "Numpy way" *)

Lemma wf_drawn (w : world) (k m n : nat) : wf (drawn w k m n).
Proof.
  unfold wf, drawn. cbn [data shape]. rewrite length_map, length_seq, size_of_matrix.
  reflexivity.
Qed.

Lemma wf_scale (c : Q) (a : ndarray) : wf a -> wf (scale c a).
Proof. unfold wf, scale; simpl. rewrite length_map. auto. Qed.

Lemma cell_numpy_runs (w : world) G g n o t :
  G !! "np" = Some (VModule "numpy") ->
  exists G' t' h y l,
    cell_numpy w (mk_state G g n o t) = (mk_state G' g n o t', Ok tt)
    /\ numpy_hidden (numpy_x w) (numpy_W_h w) = Ok h
    /\ numpy_forward (numpy_x w) (numpy_W_h w) (numpy_W_y w) = Ok y
    /\ numpy_loss (numpy_y_target w) y = Ok (Num l) /\ 0 <= l
    /\ G' !! "batch_size" = Some (VInt 5) /\ G' !! "n_x" = Some (VInt 10)
    /\ G' !! "n_h" = Some (VInt 100) /\ G' !! "n_y" = Some (VInt 3)
    /\ G' !! "x_np" = Some (VArr (numpy_x w))
    /\ G' !! "relu" = Some VRelu
    /\ G' !! "W_h_np" = Some (VArr (numpy_W_h w))
    /\ G' !! "W_y_np" = Some (VArr (numpy_W_y w))
    /\ G' !! "h_np" = Some (VArr h)
    /\ G' !! "y_np" = Some (VArr y)
    /\ G' !! "y_target_np" = Some (VArr (numpy_y_target w))
    /\ G' !! "loss_np" = Some (VScalar (Num l)).
Proof.
  intros Hnp.
  pose proof (numpy_hidden_shape (numpy_x w) (numpy_W_h w) 5 10 100 eq_refl eq_refl) as Eh.
  pose proof (numpy_forward_shape (numpy_x w) (numpy_W_h w) (numpy_W_y w) 5 10 100 3
                eq_refl eq_refl eq_refl) as Ey.
  match type of Ey with _ = Ok ?y0 =>
    pose proof (numpy_loss_value (numpy_y_target w) y0 (wf_drawn w 3 5 3)
                  (wf_matmul _ _ 5 100 3) eq_refl ltac:(simpl; lia)) as El
  end.
  do 5 eexists.
  split; [|split; [exact Eh | split; [exact Ey | split; [exact El | split]]]].
  - unfold cell_numpy.
    repeat (erewrite pbind_ok; [ cbv beta | exec_prim ]).
    apply exec_assign.
  - apply Qdiv_pos_nonneg; [apply Qsum_squares_nonneg|].
    apply count_pos. rewrite length_squared_errors;
      [ simpl; lia | apply wf_drawn | apply wf_matmul | reflexivity ].
  - repeat split; find_binding.
Qed.

(** X2: Once [np] is imported the cell "Numpy way" cannot fail, whatever numbers
    are drawn: it shows nothing, binds the hyperparameters 5, 10, 100 and 3,
    the drawn input, weights (scaled by sqrt(2/(fan-in + fan-out))) and
    target, the hidden activation relu(x . W_h), the output relu(x . W_h) .
    W_y and their mean squared error, a non-negative number. *)
Theorem numpy_cell_succeeds (w : world) (s : state) :
  globals s !! "np" = Some (VModule "numpy") ->
  exists (h y : ndarray) (l : Q),
    snd (run_cell (cell_numpy w) s) = Ok tt
    /\ out (fst (run_cell (cell_numpy w) s)) = []
    /\ numpy_hidden (numpy_x w) (numpy_W_h w) = Ok h
    /\ numpy_forward (numpy_x w) (numpy_W_h w) (numpy_W_y w) = Ok y
    /\ numpy_loss (numpy_y_target w) y = Ok (Num l) /\ 0 <= l
    /\ map (fun name => globals (fst (run_cell (cell_numpy w) s)) !! name)
          ["batch_size"; "n_x"; "n_h"; "n_y"; "x_np"; "W_h_np"; "W_y_np"; "h_np"; "y_np";
           "y_target_np"; "loss_np"]
       = [Some (VInt 5); Some (VInt 10); Some (VInt 100); Some (VInt 3);
          Some (VArr (numpy_x w)); Some (VArr (numpy_W_h w)); Some (VArr (numpy_W_y w));
          Some (VArr h); Some (VArr y); Some (VArr (numpy_y_target w));
          Some (VScalar (Num l))].
Proof.
  intros Hnp.
  destruct (cell_numpy_runs w (globals s) (default_graph s) (open_sessions s) [] [] Hnp)
    as (G' & t' & h & y & l & E & Eh & Ey & El & Hl & Hb & Hnx & Hnh & Hny & Hx & _ & HWh
        & HWy & Hh & Hy & Ht & Hloss).
  exists h, y, l. unfold run_cell. rewrite E. cbn [fst snd out globals map].
  rewrite Hb, Hnx, Hnh, Hny, Hx, HWh, HWy, Hh, Hy, Ht, Hloss. auto 10.
Qed.

(** ** The cell "Tensorflow way" after the cell "Numpy way" *)

(** X3: Run where the names it reads are bound as the NumPy cell binds them, with
    [y_np] the output the NumPy cell computed, the cell "Tensorflow way" ends
    normally, prints the node [y] and the fetched [y_val], and draws the
    scatter plot of [y_val] against [y_np]: [y_val] has the shape
    (batch_size, n_y) its comment announces and, over exact arithmetic, equals
    [y_np] entry by entry (the program fetches float32 values, which agree
    with NumPy's float64 values up to rounding only).  The session it opened
    is closed again. *)
Theorem tensorflow_cell_reproduces_numpy (s : state) (b n_x n_h n_y : nat)
    (x W_h W_y y_np : ndarray) :
  globals s !! "tf" = Some (VModule "tensorflow") ->
  globals s !! "plt" = Some (VModule "matplotlib.pyplot") ->
  globals s !! "batch_size" = Some (VInt (Z.of_nat b)) ->
  globals s !! "n_x" = Some (VInt (Z.of_nat n_x)) ->
  globals s !! "n_h" = Some (VInt (Z.of_nat n_h)) ->
  globals s !! "n_y" = Some (VInt (Z.of_nat n_y)) ->
  globals s !! "W_h_np" = Some (VArr W_h) ->
  globals s !! "W_y_np" = Some (VArr W_y) ->
  globals s !! "x_np" = Some (VArr x) ->
  globals s !! "y_np" = Some (VArr y_np) ->
  shape x = [b; n_x] -> shape W_h = [n_x; n_h] -> shape W_y = [n_h; n_y] ->
  wf W_h -> wf W_y ->
  numpy_forward x W_h W_y = Ok y_np ->
  exists (y_val : ndarray) (σ : session),
    snd (run_cell cell_tensorflow s) = Ok tt
    /\ out (fst (run_cell cell_tensorflow s))
       = [Printed [VTensor (mlp_graph 0 b n_x n_h n_y)]; Printed [VArr y_val];
          Scatter y_val y_np]
    /\ array_eq y_val y_np
    /\ shape y_val = [b; n_y]
    /\ globals (fst (run_cell cell_tensorflow s)) !! "y_val" = Some (VArr y_val)
    /\ globals (fst (run_cell cell_tensorflow s)) !! "sess" = Some (VSession σ)
    /\ closed σ = true
    /\ open_sessions (fst (run_cell cell_tensorflow s)) = open_sessions s.
Proof.
  intros G_tf G_plt G_b G_nx G_nh G_ny G_Wh G_Wy G_x G_y Sx Sh Sy Wh Wy Enp.
  rewrite (numpy_forward_shape _ _ _ _ _ _ _ Sx Sh Sy) in Enp.
  injection Enp as Enp.
  assert (Hlen : length (data y_np) = (b * n_y)%nat).
  { rewrite <- Enp. cbn [data]. apply length_matmul_data. }
  destruct (cell_tensorflow_runs (globals s) b n_x n_h n_y x W_h W_y y_np
              G_tf G_plt G_b G_nx G_nh G_ny G_Wh G_Wy G_x G_y Sx Sh Sy Wh Wy Hlen
              (default_graph s) (open_sessions s) [] []) as (t' & E).
  exists (mlp_value tf_nn_relu b n_x n_h n_y x W_h W_y),
         (mk_session true (initial_parameters W_h W_y)).
  unfold run_cell. rewrite E. cbn [fst snd out globals open_sessions app].
  split; [reflexivity|]. split; [reflexivity|].
  split; [rewrite <- Enp; apply mlp_value_activation|].
  split; [reflexivity|]. unfold after_forward.
  split; [find_binding|]. split; [find_binding|]. split; reflexivity.
Qed.

(** ** Running the cell "Keras way" *)

Section KerasCell.
Variables (w : world) (G : gmap string value) (n_x n_h n_y : nat) (W_h W_y : ndarray).
Hypothesis keras_ok : importable w "keras" = true.
Hypothesis dense_ok : importable w "keras.layers.Dense" = true.
Hypothesis sequential_ok : importable w "keras.models.Sequential" = true.
Hypothesis G_nx : G !! "n_x" = Some (VInt (Z.of_nat n_x)).
Hypothesis G_nh : G !! "n_h" = Some (VInt (Z.of_nat n_h)).
Hypothesis G_ny : G !! "n_y" = Some (VInt (Z.of_nat n_y)).
Hypothesis G_Wh : G !! "W_h_np" = Some (VArr W_h).
Hypothesis G_Wy : G !! "W_y_np" = Some (VArr W_y).
Hypothesis shape_h : shape W_h = [n_x; n_h].
Hypothesis shape_y : shape W_y = [n_h; n_y].

Let m : sequential := mk_sequential n_x [mk_dense W_h true; mk_dense W_y false].

Ltac keras_facts :=
  rewrite ?keras_ok, ?dense_ok, ?sequential_ok;
  unfold model_add_v, set_weights_v, set_weights, model_add, output_dim, as_model;
  rewrite ?as_dim_nat;
  cbn [mbind result_bind rbind layers input_dim kernel act_relu shape app last
       lookup list_lookup insert list_insert];
  rewrite ?(shape_eqb_true _ _ shape_h), ?(shape_eqb_true _ _ shape_y);
  cbn [mbind result_bind rbind layers input_dim kernel act_relu shape app last
       lookup list_lookup insert list_insert].

Lemma cell_keras_runs g n o t :
  exists t',
    cell_keras w (mk_state G g n o t)
    = (mk_state (<["model" := VModel m]>
                   (<["model" := VModel
                        (mk_sequential n_x
                           [mk_dense W_h true;
                            mk_dense (mk_array [n_h; n_y]
                                        (map (keras_init w 1) (seq 0 (n_h * n_y)))) false])]>
                   (<["model" := VModel
                        (mk_sequential n_x
                           [mk_dense (mk_array [n_x; n_h]
                                        (map (keras_init w 0) (seq 0 (n_x * n_h)))) true;
                            mk_dense (mk_array [n_h; n_y]
                                        (map (keras_init w 1) (seq 0 (n_h * n_y)))) false])]>
                   (<["model" := VModel
                        (mk_sequential n_x
                           [mk_dense (mk_array [n_x; n_h]
                                        (map (keras_init w 0) (seq 0 (n_x * n_h)))) true])]>
                   (<["model" := VModel (mk_sequential 0 [])]>
                   (<["Sequential" := VModule "keras.models.Sequential"]>
                   (<["Dense" := VModule "keras.layers.Dense"]>
                   (<["keras" := VModule "keras"]> G))))))))
         empty_graph n (o ++ [Summary (VModel m)]) t', Ok tt).
Proof.
  eexists. unfold cell_keras.
  repeat (erewrite pbind_ok; [ cbv beta | exec_prim_with ltac:(idtac; keras_facts) ]).
  apply exec_emit.
Qed.
End KerasCell.

(** X4: Run after the NumPy cell's bindings, with Keras installed, the cell
    "Keras way" ends normally whatever kernels Keras first draws: [model] is
    the two-layer network without biases whose kernels were set to [W_h_np]
    and [W_y_np], its summary is the only output, and on any number of inputs
    of width [n_x] its prediction equals the NumPy network's output entry by
    entry, over exact arithmetic (Keras stores and computes in float32, NumPy
    in float64: the program's numbers agree up to rounding only). *)
Theorem keras_cell_builds_the_network (w : world) (s : state) (n_x n_h n_y : nat)
    (W_h W_y : ndarray) :
  importable w "keras" = true -> importable w "keras.layers.Dense" = true ->
  importable w "keras.models.Sequential" = true ->
  globals s !! "n_x" = Some (VInt (Z.of_nat n_x)) ->
  globals s !! "n_h" = Some (VInt (Z.of_nat n_h)) ->
  globals s !! "n_y" = Some (VInt (Z.of_nat n_y)) ->
  globals s !! "W_h_np" = Some (VArr W_h) ->
  globals s !! "W_y_np" = Some (VArr W_y) ->
  shape W_h = [n_x; n_h] -> shape W_y = [n_h; n_y] ->
  exists m : sequential,
    snd (run_cell (cell_keras w) s) = Ok tt
    /\ keras_model (keras_init w) n_x n_h n_y W_h W_y = Ok m
    /\ map kernel (layers m) = [W_h; W_y]
    /\ globals (fst (run_cell (cell_keras w) s)) !! "model" = Some (VModel m)
    /\ out (fst (run_cell (cell_keras w) s)) = [Summary (VModel m)]
    /\ forall (k : nat) (x : ndarray), shape x = [k; n_x] ->
         exists y_keras y_np,
           model_predict m x = Ok y_keras
           /\ numpy_forward x W_h W_y = Ok y_np
           /\ array_eq y_keras y_np.
Proof.
  intros Hk Hd Hs G_nx G_nh G_ny G_Wh G_Wy Sh Sy.
  destruct (cell_keras_runs w (globals s) n_x n_h n_y W_h W_y Hk Hd Hs
              G_nx G_nh G_ny G_Wh G_Wy Sh Sy
              (default_graph s) (open_sessions s) [] []) as (t' & E).
  exists (mk_sequential n_x [mk_dense W_h true; mk_dense W_y false]).
  unfold run_cell. rewrite E. cbn [fst snd out globals app].
  split; [reflexivity|]. split; [apply keras_model_eq; assumption|].
  split; [reflexivity|]. split; [apply lookup_hit|]. split; [reflexivity|].
  intros k x Sx.
  exists (mlp_value tf_nn_relu k n_x n_h n_y x W_h W_y),
         (mlp_value relu k n_x n_h n_y x W_h W_y).
  split; [apply model_predict_mlp; assumption|].
  split; [apply numpy_forward_shape; assumption | apply mlp_value_activation].
Qed.

Lemma exec_call_raise {A} G g n o t (name : string) (r : result A) (e : exn) :
  r = Raise e ->
  call name r (mk_state G g n o t) = (mk_state G g n o (t ++ [Call name (Some e)]), Raise e).
Proof. intros ->. reflexivity. Qed.

Lemma shape_eqb_false (s t : list nat) : s <> t -> shape_eqb s t = false.
Proof. intros H. unfold shape_eqb. apply bool_decide_eq_false_2. exact H. Qed.

(** X5: [set_weights] refuses a kernel of another shape: when [W_h_np] is not of
    shape (n_x, n_h) the cell "Keras way" raises ValueError at
    [model.layers[0].set_weights([W_h_np])], shows nothing, and leaves [model]
    with the kernels Keras drew. *)
Theorem keras_cell_rejects_other_shapes (w : world) (s : state) (n_x n_h n_y : nat)
    (W_h : ndarray) :
  importable w "keras" = true -> importable w "keras.layers.Dense" = true ->
  importable w "keras.models.Sequential" = true ->
  globals s !! "n_x" = Some (VInt (Z.of_nat n_x)) ->
  globals s !! "n_h" = Some (VInt (Z.of_nat n_h)) ->
  globals s !! "n_y" = Some (VInt (Z.of_nat n_y)) ->
  globals s !! "W_h_np" = Some (VArr W_h) ->
  shape W_h <> [n_x; n_h] ->
  snd (run_cell (cell_keras w) s) = Raise ValueError
  /\ out (fst (run_cell (cell_keras w) s)) = []
  /\ globals (fst (run_cell (cell_keras w) s)) !! "model"
     = Some (VModel (mk_sequential n_x
                       [mk_dense (drawn_kernel w 0 n_x n_h) true;
                        mk_dense (drawn_kernel w 1 n_h n_y) false])).
Proof.
  intros Hk Hd Hs G_nx G_nh G_ny G_Wh Sh.
  assert (E : exists G' t',
             cell_keras w (mk_state (globals s) (default_graph s) (open_sessions s) [] [])
             = (mk_state G' empty_graph (open_sessions s) [] t', Raise ValueError)
             /\ G' !! "model"
                = Some (VModel (mk_sequential n_x
                                  [mk_dense (drawn_kernel w 0 n_x n_h) true;
                                   mk_dense (drawn_kernel w 1 n_h n_y) false]))).
  { do 2 eexists. split.
    - unfold cell_keras.
      repeat (erewrite pbind_ok;
              [ cbv beta
              | exec_prim_with
                  ltac:(idtac; rewrite ?Hk, ?Hd, ?Hs;
                        unfold model_add_v, model_add, output_dim, as_model;
                        rewrite ?as_dim_nat;
                        cbn [mbind result_bind rbind layers input_dim kernel act_relu
                             shape app last]) ]).
      erewrite pbind_raise; [reflexivity|].
      apply exec_call_raise.
      unfold set_weights_v, set_weights, as_model.
      cbn [mbind result_bind rbind layers input_dim kernel act_relu shape app last
           lookup list_lookup].
      rewrite (shape_eqb_false _ _ Sh). reflexivity.
    - find_binding. }
  destruct E as (G' & t' & E & Hm).
  unfold run_cell. rewrite E. cbn [fst snd out globals]. auto.
Qed.

(** ** Running the cell "Load MNIST dataset" *)

Lemma raises_step {A B} (m : prog A) (k : A -> prog B) (s s1 : state) (a : A) (e : exn)
    (P : state -> Prop) :
  m s = (s1, Ok a) -> raises_to (k a) s1 e P -> raises_to (m ≫= k) s e P.
Proof.
  intros Hm (s' & Hk & HP). exists s'. split; [|exact HP].
  rewrite (pbind_ok _ _ _ _ _ Hm). exact Hk.
Qed.

Lemma raises_here {A B} (m : prog A) (k : A -> prog B) (s s1 : state) (e : exn)
    (P : state -> Prop) :
  m s = (s1, Raise e) -> P s1 -> raises_to (m ≫= k) s e P.
Proof. intros Hm HP. exists s1. split; [apply pbind_raise, Hm | exact HP]. Qed.

Lemma raises_last {A} (m : prog A) (s s1 : state) (e : exn) (P : state -> Prop) :
  m s = (s1, Raise e) -> P s1 -> raises_to m s e P.
Proof. intros Hm HP. exists s1. auto. Qed.

Lemma raises_first {A B} (m : prog A) (k : A -> prog B) (s : state) (e : exn)
    (P : state -> Prop) :
  raises_to m s e P -> raises_to (m ≫= k) s e P.
Proof. intros (s1 & Hm & HP). eapply raises_here; eassumption. Qed.

Lemma raises_after {A B} (m : prog A) (k : A -> prog B) (s : state) (e : exn)
    (P : state -> Prop) :
  runs_to m s (fun a s1 => raises_to (k a) s1 e P) -> raises_to (m ≫= k) s e P.
Proof. intros (s1 & a & Hm & Hk). eapply raises_step; eassumption. Qed.

(** Running on: a primitive that succeeds, the last primitive of a block, or
    a block entered. *)
Ltac run_on facts :=
  repeat first
    [ eapply runs_step; [ exec_prim_with facts | cbv beta iota; cbn [fst snd] ]
    | eapply raises_step; [ exec_prim_with facts | cbv beta iota; cbn [fst snd] ]
    | eapply runs_last; [ exec_prim_with facts | cbv beta iota; cbn [fst snd] ]
    | eapply runs_bind ].

Section MnistCell.
Variables (w : world) (G : gmap string value).
Variables (x_train y_train x_test y_test : ndarray) (count height width : nat).
Hypothesis mnist_ok : importable w "keras.datasets.mnist" = true.
Hypothesis loaded : mnist_load_data w = Ok ((x_train, y_train), (x_test, y_test)).
Hypothesis shape_train : shape x_train = [count; height; width].
Hypothesis G_plt : G !! "plt" = Some (VModule "matplotlib.pyplot").
Hypothesis figure_ok : opaque w "plt.figure" = Ok tt.
Hypothesis colorbar_ok : opaque w "plt.colorbar" = Ok tt.

Let a : ndarray := scaled_pixels x_train.
Let b : ndarray := scaled_pixels x_test.
Let image (i : nat) : ndarray := image_at a height width i.

Lemma normalize_value : normalize x_train x_test = Ok (a, b).
Proof. reflexivity. Qed.

Lemma index_image (i : nat) : (i < count)%nat -> np_index a i = Ok (image i).
Proof.
  intros Hi. unfold np_index, a, scaled_pixels. cbn [shape]. rewrite shape_train.
  apply Nat.ltb_lt in Hi. rewrite Hi. reflexivity.
Qed.

Lemma index_beyond (i : nat) : (count <= i)%nat -> np_index a i = Raise IndexError.
Proof.
  intros Hi. unfold np_index, a, scaled_pixels. cbn [shape]. rewrite shape_train.
  apply Nat.ltb_ge in Hi. rewrite Hi. reflexivity.
Qed.

Ltac mnist_facts :=
  rewrite ?mnist_ok, ?loaded, ?figure_ok, ?colorbar_ok;
  unfold np_div_v, np_index_v, imshow_v, shape_v, as_array;
  rewrite ?as_dim_nat; cbn [mbind result_bind rbind];
  fold (scaled_pixels x_train); fold (scaled_pixels x_test); fold a; fold b;
  rewrite ?index_image by lia;
  cbn [mbind result_bind rbind shape].

Lemma cell_mnist_runs g n o t :
  (3 <= count)%nat ->
  runs_to (cell_mnist w) (mk_state G g n o t)
    (fun _ s' =>
       globals s' !! "x_train" = Some (VArr a) /\ globals s' !! "x_test" = Some (VArr b)
       /\ globals s' !! "y_train" = Some (VArr y_train)
       /\ globals s' !! "y_test" = Some (VArr y_test)
       /\ globals s' !! "i" = Some (VInt 2)
       /\ default_graph s' = g /\ open_sessions s' = n
       /\ out s' = o ++ Printed [VList [IInt (Z.of_nat count); IInt (Z.of_nat height);
                                        IInt (Z.of_nat width)]]
                        :: shown_image (image 0) ++ shown_image (image 1)
                        ++ shown_image (image 2)).
Proof.
  intros Hc. unfold cell_mnist, for_range, for_range_from.
  run_on ltac:(idtac; mnist_facts).
  cbn [globals default_graph open_sessions out].
  repeat split; try find_binding.
  rewrite shape_train. cbn [map shown_image app]. rewrite <- !app_assoc. reflexivity.
Qed.

Ltac beyond_facts :=
  unfold np_index_v; rewrite ?as_dim_nat; cbn [mbind result_bind rbind];
  fold (scaled_pixels x_train); fold a;
  rewrite index_beyond by lia; cbn [mbind result_bind rbind].

Lemma cell_mnist_raises g n o t :
  (count < 3)%nat ->
  raises_to (cell_mnist w) (mk_state G g n o t) IndexError
    (fun s' =>
       globals s' !! "x_train" = Some (VArr a) /\ globals s' !! "x_test" = Some (VArr b)
       /\ globals s' !! "i" = Some (VInt (Z.of_nat count))
       /\ out s' = (o ++ Printed [VList [IInt (Z.of_nat count); IInt (Z.of_nat height);
                                         IInt (Z.of_nat width)]]
                         :: concat (map (fun i => shown_image (image i)) (seq 0 count)))
                   ++ [Figure]).
Proof.
  intros Hc. unfold cell_mnist, for_range, for_range_from.
  assert (E : count = 0%nat \/ count = 1%nat \/ count = 2%nat) by lia.
  run_on ltac:(idtac; mnist_facts).
  destruct E as [E|[E|E]].
  - eapply raises_first. run_on ltac:(idtac; mnist_facts).
    eapply raises_here; [apply exec_call_raise; beyond_facts; reflexivity|].
    cbn [globals out]. repeat split; try find_binding; try (rewrite E; find_binding).
    rewrite shape_train, E.
    cbn [map seq concat app]. rewrite <- ?app_assoc. reflexivity.
  - eapply raises_after. run_on ltac:(idtac; mnist_facts).
    eapply raises_first. run_on ltac:(idtac; mnist_facts).
    eapply raises_here; [apply exec_call_raise; beyond_facts; reflexivity|].
    cbn [globals out]. repeat split; try find_binding; try (rewrite E; find_binding).
    rewrite shape_train, E.
    cbn [map seq concat app shown_image]. rewrite <- ?app_assoc. reflexivity.
  - eapply raises_after. run_on ltac:(idtac; mnist_facts).
    eapply raises_after. run_on ltac:(idtac; mnist_facts).
    eapply raises_first. run_on ltac:(idtac; mnist_facts).
    eapply raises_here; [apply exec_call_raise; beyond_facts; reflexivity|].
    cbn [globals out]. repeat split; try find_binding; try (rewrite E; find_binding).
    rewrite shape_train, E.
    cbn [map seq concat app shown_image]. rewrite <- ?app_assoc. reflexivity.
Qed.
End MnistCell.

Lemma np_index_image (a : ndarray) (count height width i : nat) :
  shape a = [count; height; width] -> (i < count)%nat ->
  np_index a i = Ok (image_at a height width i).
Proof.
  intros Hs Hi. unfold np_index. rewrite Hs.
  apply Nat.ltb_lt in Hi. rewrite Hi. reflexivity.
Qed.

(** X6: When the loader returns at least three training images, each a matrix,
    and the plotting calls succeed, the cell "Load MNIST dataset" ends
    normally: all four arrays are bound, [x_train] and [x_test] divided by
    255, and the cell prints the shape of [x_train] and then shows, for the
    first three normalised training images in order, a figure, the image and
    a colour bar. *)
Theorem mnist_cell_shows_three_images (w : world) (s : state)
    (x_train y_train x_test y_test : ndarray) (count height width : nat) :
  importable w "keras.datasets.mnist" = true ->
  mnist_load_data w = Ok ((x_train, y_train), (x_test, y_test)) ->
  shape x_train = [count; height; width] -> (3 <= count)%nat ->
  globals s !! "plt" = Some (VModule "matplotlib.pyplot") ->
  opaque w "plt.figure" = Ok tt -> opaque w "plt.colorbar" = Ok tt ->
  exists a b img0 img1 img2 : ndarray,
    normalize x_train x_test = Ok (a, b)
    /\ np_index a 0 = Ok img0 /\ np_index a 1 = Ok img1 /\ np_index a 2 = Ok img2
    /\ snd (run_cell (cell_mnist w) s) = Ok tt
    /\ map (fun name => globals (fst (run_cell (cell_mnist w) s)) !! name)
         ["x_train"; "y_train"; "x_test"; "y_test"]
       = [Some (VArr a); Some (VArr y_train); Some (VArr b); Some (VArr y_test)]
    /\ out (fst (run_cell (cell_mnist w) s))
       = Printed [VList [IInt (Z.of_nat count); IInt (Z.of_nat height);
                         IInt (Z.of_nat width)]]
         :: shown_image img0 ++ shown_image img1 ++ shown_image img2.
Proof.
  intros Hm Hl Hs Hc Hplt Hf Hcb.
  destruct (cell_mnist_runs w (globals s) x_train y_train x_test y_test count height width
              Hm Hl Hs Hplt Hf Hcb (default_graph s) (open_sessions s) [] [] Hc)
    as (s' & [] & E & Ha & Hb & Hyt & Hye & _ & _ & _ & Ho).
  exists (scaled_pixels x_train), (scaled_pixels x_test),
         (image_at (scaled_pixels x_train) height width 0),
         (image_at (scaled_pixels x_train) height width 1),
         (image_at (scaled_pixels x_train) height width 2).
  split; [reflexivity|].
  split; [apply (np_index_image _ count); [exact Hs | lia]|].
  split; [apply (np_index_image _ count); [exact Hs | lia]|].
  split; [apply (np_index_image _ count); [exact Hs | lia]|].
  unfold run_cell. rewrite E. cbn [fst snd map].
  rewrite Ha, Hb, Hyt, Hye, Ho. auto.
Qed.

(** X7: The loop [for i in range(3)] indexes [x_train[i]] without looking at
    how many images there are: with fewer than three training images the cell
    raises IndexError at the first missing one, after normalising both
    arrays, printing the shape, showing the images there are and opening the
    figure for the missing one. *)
Theorem mnist_cell_needs_three_images (w : world) (s : state)
    (x_train y_train x_test y_test : ndarray) (count height width : nat) :
  importable w "keras.datasets.mnist" = true ->
  mnist_load_data w = Ok ((x_train, y_train), (x_test, y_test)) ->
  shape x_train = [count; height; width] -> (count < 3)%nat ->
  globals s !! "plt" = Some (VModule "matplotlib.pyplot") ->
  opaque w "plt.figure" = Ok tt -> opaque w "plt.colorbar" = Ok tt ->
  exists a b : ndarray,
    normalize x_train x_test = Ok (a, b)
    /\ np_index a count = Raise IndexError
    /\ snd (run_cell (cell_mnist w) s) = Raise IndexError
    /\ globals (fst (run_cell (cell_mnist w) s)) !! "x_train" = Some (VArr a)
    /\ globals (fst (run_cell (cell_mnist w) s)) !! "x_test" = Some (VArr b)
    /\ globals (fst (run_cell (cell_mnist w) s)) !! "i" = Some (VInt (Z.of_nat count))
    /\ out (fst (run_cell (cell_mnist w) s))
       = (Printed [VList [IInt (Z.of_nat count); IInt (Z.of_nat height);
                          IInt (Z.of_nat width)]]
          :: concat (map (fun i => shown_image (image_at a height width i)) (seq 0 count)))
         ++ [Figure].
Proof.
  intros Hm Hl Hs Hc Hplt Hf Hcb.
  destruct (cell_mnist_raises w (globals s) x_train y_train x_test y_test count height width
              Hm Hl Hs Hplt Hf Hcb (default_graph s) (open_sessions s) [] [] Hc)
    as (s' & E & Ha & Hb & Hi & Ho).
  exists (scaled_pixels x_train), (scaled_pixels x_test).
  split; [reflexivity|].
  split; [apply (index_beyond x_train count height width Hs); lia|].
  unfold run_cell. rewrite E. cbn [fst snd]. auto 10.
Qed.

(** ** The cells one after the other *)

Lemma frame_of {A} (W : list string) (m : prog A) (s s' : state) (r : result A)
    (name : string) :
  preserves W m -> m s = (s', r) -> ~ In name W -> globals s' !! name = globals s !! name.
Proof. intros Hp E Hn. rewrite <- (Hp s name Hn), E. reflexivity. Qed.

Lemma run_cells_next (c : prog unit) (rest : list (prog unit)) G g n o t (s' : state) :
  c (mk_state G g n [] []) = (s', Ok tt) ->
  run_cells (c :: rest) (mk_state G g n o t) = run_cells rest s'.
Proof. intros E. cbn [run_cells]. unfold run_cell. cbn [globals default_graph open_sessions]. rewrite E. reflexivity. Qed.

Ltac outside := simpl; intuition discriminate.

Lemma numpy_forward_length (x W_h W_y : ndarray) (b n_x n_h n_y : nat) (y : ndarray) :
  shape x = [b; n_x] -> shape W_h = [n_x; n_h] -> shape W_y = [n_h; n_y] ->
  numpy_forward x W_h W_y = Ok y -> length (data y) = (b * n_y)%nat.
Proof.
  intros Sx Sh Sy E. rewrite (numpy_forward_shape _ _ _ _ _ _ _ Sx Sh Sy) in E.
  injection E as <-. cbn [data]. apply length_matmul_data.
Qed.

(** X8: From a fresh kernel, in a world where every import and every plotting or
    Keras call succeeds, the loader returns at least three training images,
    each a matrix, the number of test images divides the number of training
    pixels, and fitting and scoring the recurrent model succeed, the seven
    cells run in document order without an exception, whatever numbers are
    drawn.  No session is left open, the last cell shows the input tensor,
    the summary and the scores, and the names of the NumPy cell still hold
    what that cell computed. *)
Theorem notebook_runs_top_to_bottom (w : world)
    (x_train y_train x_test y_test : ndarray) (count height width d0 : nat)
    (rest : list nat) (scores : list Q) :
  (forall name, importable w name = true) -> (forall name, opaque w name = Ok tt) ->
  mnist_load_data w = Ok ((x_train, y_train), (x_test, y_test)) ->
  shape x_train = [count; height; width] -> (3 <= count)%nat ->
  shape x_test = d0 :: rest -> d0 <> 0%nat ->
  (size_of (shape x_train) mod d0 = 0)%nat ->
  rnn_fit w (reshaped (scaled_pixels x_train) count) y_train = Ok tt ->
  rnn_evaluate w (reshaped (scaled_pixels x_train) count) y_train
    (reshaped (scaled_pixels x_train) d0) y_test = Ok scores ->
  exists y_np : ndarray,
    snd (run_cells (notebook w) fresh_kernel) = Ok tt
    /\ open_sessions (fst (run_cells (notebook w) fresh_kernel)) = 0%nat
    /\ out (fst (run_cells (notebook w) fresh_kernel))
       = [Printed [VObject "Input"]; Summary (VRnn None); Printed [VFloats scores]]
    /\ numpy_forward (numpy_x w) (numpy_W_h w) (numpy_W_y w) = Ok y_np
    /\ globals (fst (run_cells (notebook w) fresh_kernel)) !! "y_np" = Some (VArr y_np)
    /\ globals (fst (run_cells (notebook w) fresh_kernel)) !! "x_test_rnn"
       = Some (VArr (reshaped (scaled_pixels x_train) d0)).
Proof.
  intros Himp Hopq Hload Str Hcount Ste Hd0 Hmod Hfit Hev.
  unfold notebook, fresh_kernel.
  (* import modules *)
  assert (E0 : exists t0,
             cell_imports w (mk_state ∅ empty_graph 0 [] [])
             = (mk_state (<["plt" := VModule "matplotlib.pyplot"]>
                            (<["tf" := VModule "tensorflow"]>
                               (<["np" := VModule "numpy"]> ∅)))
                  empty_graph 0 [] t0, Ok tt)).
  { eexists. unfold cell_imports.
    repeat (erewrite pbind_ok; [ cbv beta | exec_prim_with ltac:(rewrite ?Himp) ]).
    apply exec_import_as, Himp. }
  destruct E0 as (t0 & E0).
  rewrite (run_cells_next _ _ _ _ _ _ _ _ E0). clear E0.
  (* Numpy way *)
  match goal with
  | |- context [run_cells _ (mk_state ?G0 _ _ _ _)] =>
      destruct (cell_numpy_runs w G0 empty_graph 0 [] [] ltac:(find_binding))
        as (G1 & t1 & h & y & l & E1 & Eh & Ey & El & Hl & Hb & Hnx & Hnh & Hny & Hx
            & _ & HWh & HWy & Hh & Hy & Ht & Hloss);
      pose proof (frame_of _ _ _ _ _ "tf" (pres_cell_numpy w) E1 ltac:(outside)) as Htf;
      pose proof (frame_of _ _ _ _ _ "plt" (pres_cell_numpy w) E1 ltac:(outside)) as Hplt
  end.
  cbn [globals] in Htf, Hplt.
  rewrite lookup_insert_ne, lookup_insert_eq in Htf by discriminate.
  rewrite lookup_insert_eq in Hplt.
  rewrite (run_cells_next _ _ _ _ _ _ _ _ E1). clear E1.
  exists y.
  (* Tensorflow way *)
  pose proof (numpy_forward_length (numpy_x w) (numpy_W_h w) (numpy_W_y w) 5 10 100 3 y
                eq_refl eq_refl eq_refl Ey) as Hlen.
  assert (WWh : wf (numpy_W_h w)) by apply wf_scale, wf_drawn.
  assert (WWy : wf (numpy_W_y w)) by apply wf_scale, wf_drawn.
  destruct (cell_tensorflow_runs G1 5 10 100 3 (numpy_x w) (numpy_W_h w) (numpy_W_y w) y
              Htf Hplt Hb Hnx Hnh Hny HWh HWy Hx Hy eq_refl eq_refl eq_refl WWh WWy Hlen
              empty_graph 0 [] []) as (t2 & E2).
  rewrite (run_cells_next _ _ _ _ _ _ _ _ E2). clear E2.
  unfold after_forward.
  (* Keras way *)
  match goal with
  | |- context [run_cells _ (mk_state ?G2 _ _ _ _)] =>
      destruct (cell_keras_runs w G2 10 100 3 (numpy_W_h w) (numpy_W_y w)
                  (Himp _) (Himp _) (Himp _)
                  ltac:(find_binding) ltac:(find_binding) ltac:(find_binding)
                  ltac:(find_binding) ltac:(find_binding) eq_refl eq_refl
                  (mk_graph (initial_parameters (numpy_W_h w) (numpy_W_y w)) 1) 0
                  [] []) as (t3 & E3)
  end.
  rewrite (run_cells_next _ _ _ _ _ _ _ _ E3). clear E3.
  (* Load MNIST dataset *)
  match goal with
  | |- context [run_cells _ (mk_state ?G3 _ _ _ _)] =>
      destruct (cell_mnist_runs w G3 x_train y_train x_test y_test count height width
                  (Himp _) Hload Str ltac:(find_binding) (Hopq _) (Hopq _)
                  empty_graph 0 [] [] Hcount)
        as ([G4 g4 n4 o4 t4] & [] & E4 & Hxtr & Hxte & Hytr & Hyte & _ & _ & Hn4 & _);
      pose proof (fun name Hn => frame_of _ _ _ _ _ name (pres_cell_mnist w) E4 Hn) as F4
  end.
  cbn [globals open_sessions] in Hxtr, Hxte, Hytr, Hyte, Hn4, F4. subst n4.
  rewrite (run_cells_next _ _ _ _ _ _ _ _ E4). clear E4.
  cbn [globals default_graph open_sessions].
  (* Training the network with Tensorflow *)
  destruct (cell_training_runs G4 5 10 100 3 (numpy_x w) (numpy_W_h w) (numpy_W_y w) y
              (numpy_y_target w) (VScalar (Num l))
              ltac:(rewrite F4 by outside; find_binding)
              ltac:(rewrite F4 by outside; find_binding)
              ltac:(rewrite F4 by outside; find_binding)
              ltac:(rewrite F4 by outside; find_binding)
              ltac:(rewrite F4 by outside; find_binding)
              ltac:(rewrite F4 by outside; find_binding)
              ltac:(rewrite F4 by outside; find_binding)
              ltac:(rewrite F4 by outside; find_binding)
              ltac:(rewrite F4 by outside; find_binding)
              ltac:(rewrite F4 by outside; find_binding)
              ltac:(rewrite F4 by outside; find_binding)
              ltac:(rewrite F4 by outside; find_binding)
              ltac:(rewrite F4 by outside; find_binding)
              eq_refl eq_refl eq_refl eq_refl WWh WWy (wf_drawn w 3 5 3) Hlen
              ltac:(simpl; lia) g4 0 [] [])
    as ([G5 g5 n5 o5 t5] & [] & E5 & _ & _ & _ & _ & _ & _ & _ & Hn5).
  pose proof (fun name Hn => frame_of _ _ _ _ _ name pres_cell_training E5 Hn) as F5.
  cbn [globals open_sessions] in Hn5, F5. subst n5.
  rewrite (run_cells_next _ _ _ _ _ _ _ _ E5). clear E5.
  cbn [globals default_graph open_sessions].
  (* Recurrent network *)
  destruct (cell_rnn_runs w G5 g5 0 [] []
              (scaled_pixels x_train) (scaled_pixels x_test) y_train y_test
              count d0 [height; width] rest scores
              ltac:(rewrite F5 by outside; exact Hxtr)
              ltac:(rewrite F5 by outside; exact Hxte)
              ltac:(rewrite F5 by outside; exact Hytr)
              ltac:(rewrite F5 by outside; exact Hyte)
              ltac:(rewrite F5, F4 by outside; find_binding)
              Himp Hopq Str ltac:(lia) Ste Hd0 Hmod Hfit Hev)
    as (G6 & t6 & E6 & _ & Hrnn & _).
  pose proof (frame_of _ _ _ _ _ "y_np" (pres_cell_rnn w) E6 ltac:(outside)) as Hy6.
  cbn [globals] in Hy6.
  rewrite (run_cells_next _ _ _ _ _ _ _ _ E6). clear E6.
  cbn [run_cells fst snd open_sessions out globals app].
  split; [reflexivity|]. split; [reflexivity|]. split; [reflexivity|].
  split; [exact Ey|]. split; [|exact Hrnn].
  rewrite Hy6, F5, F4 by outside. find_binding.
Qed.

(** ** The loss before training *)

Lemma squared_errors_Qeq (t y y' : ndarray) :
  Forall2 Qeq (data y) (data y') ->
  Forall2 Qeq (squared_errors t y) (squared_errors t y').
Proof.
  unfold squared_errors. generalize (data t) as targets. intros targets H. revert targets.
  induction H as [|v v' l l' Hv _ IH]; intros [|u targets]; simpl; try constructor.
  - rewrite Hv. reflexivity.
  - apply IH.
Qed.

Lemma first_loss_recorded (lr : Q) (loss : tensor) (feed : gmap nat ndarray) (k : nat)
    (θ θ' : gmap string ndarray) (l : ndarray) (ls : list ndarray) :
  eval θ feed loss = Ok l -> training_run lr loss feed (S k) θ = Ok (ls, θ') ->
  head ls = Some l.
Proof.
  intros Ev Hrun. cbn [training_run] in Hrun. rewrite Ev in Hrun.
  cbn [mbind result_bind rbind] in Hrun.
  destruct (backprop _ _ _ _) as [grads|e]; cbn [mbind result_bind rbind] in Hrun;
    [|discriminate].
  destruct (training_run _ _ _ _ _) as [[ls' θ'']|e]; cbn [mbind result_bind rbind] in Hrun;
    [|discriminate].
  injection Hrun as <- _. reflexivity.
Qed.

(** X9: Over exact arithmetic the TensorFlow loss is the NumPy loss: fetched
    from the graph at the initial weights, [tf.reduce_mean((y_target -
    y)**2)] equals the mean squared error [np.mean((y_target_np - y_np)**2)]
    of the same input, weights and target (in the program the first is a
    float32 and the second a float64, so the two numbers the training cell
    prints agree up to rounding only).  The fetched loss is also the first
    loss a training run records, for any learning rate and any number of
    steps. *)
Theorem tensorflow_loss_matches_numpy (b n_x n_h n_y : nat)
    (x W_h W_y y_target y_np : ndarray) (loss_np : Q) :
  shape x = [b; n_x] -> shape W_h = [n_x; n_h] -> shape W_y = [n_h; n_y] ->
  shape y_target = [b; n_y] -> wf y_target -> (0 < b * n_y)%nat ->
  numpy_forward x W_h W_y = Ok y_np ->
  numpy_loss y_target y_np = Ok (Num loss_np) ->
  exists loss_val : Q,
    run_fetch (mk_session false (initial_parameters W_h W_y)) (loss_graph b n_x n_h n_y)
      (training_feed x y_target) = Ok (mk_array [] [loss_val])
    /\ loss_val == loss_np
    /\ forall (lr : Q) (steps : nat) ls θ',
         training_run lr (loss_graph b n_x n_h n_y) (training_feed x y_target) (S steps)
           (initial_parameters W_h W_y) = Ok (ls, θ') ->
         head ls = Some (mk_array [] [loss_val]).
Proof.
  intros Sx Sh Sy St Wt Hpos Ey El.
  pose proof (eval_loss_graph b n_x n_h n_y x y_target (initial_parameters W_h W_y)
                (training_feed x y_target) W_h W_y eq_refl eq_refl eq_refl eq_refl
                Sx St Sh Sy Wt Hpos) as Ev.
  rewrite (numpy_forward_shape _ _ _ _ _ _ _ Sx Sh Sy) in Ey. injection Ey as Ey.
  fold (mlp_value relu b n_x n_h n_y x W_h W_y) in Ey. subst y_np.
  rewrite numpy_loss_value in El;
    [ | exact Wt | apply wf_matmul | rewrite St; reflexivity
    | unfold mlp_value; cbn [shape]; rewrite size_of_matrix; exact Hpos ].
  injection El as El.
  pose proof (squared_errors_Qeq y_target _ _
                (proj2 (mlp_value_activation b n_x n_h n_y x W_h W_y))) as Hsq.
  eexists. split; [exact Ev|]. split.
  - rewrite <- El. rewrite (Qsum_Qeq _ _ Hsq).
    rewrite (Forall2_length _ _ _ Hsq). reflexivity.
  - intros lr steps ls θ' Hrun. exact (first_loss_recorded _ _ _ _ _ _ _ _ Ev Hrun).
Qed.

(** ** Reshaping for the recurrent network *)

Lemma reshape_like_refused (a b : ndarray) (d0 : nat) (rest : list nat) :
  shape b = d0 :: rest -> d0 = 0%nat \/ (size_of (shape a) mod d0 <> 0)%nat ->
  reshape_like_v (VArr a) (VArr b) = Raise ValueError.
Proof.
  intros Hs H. unfold reshape_like_v. simpl. rewrite Hs. simpl. unfold reshape_infer.
  destruct (Nat.eqb_spec d0 0) as [|H0]; [reflexivity|].
  destruct (Nat.eqb_spec (size_of (shape a) mod d0) 0) as [Hm|]; [|reflexivity].
  destruct H; contradiction.
Qed.

Lemma wf_reshaped (a : ndarray) (d0 : nat) :
  wf a -> d0 <> 0%nat -> (size_of (shape a) mod d0 = 0)%nat -> wf (reshaped a d0).
Proof.
  unfold wf, reshaped. cbn [data shape]. intros Hw H0 Hm. rewrite Hw.
  unfold size_of at 2. cbn [foldr]. rewrite !Nat.mul_1_r.
  apply Nat.Div0.div_exact in Hm. exact Hm.
Qed.

(** X10: [x_train.reshape((x_test.shape[0], -1, 1))] asks NumPy to cut the training
    pixels into as many sequences as there are test images.  When that number
    is zero or does not divide the number of training pixels, the recurrent
    cell raises ValueError at this line: nothing is shown, [x_train_rnn] is
    bound and well formed, and [x_test_rnn] is left as it was. *)
Theorem rnn_cell_rejects_indivisible_test_count (w : world) (s : state)
    (a b : ndarray) (da d0 : nat) (ra rb : list nat) :
  (forall name, importable w name = true) ->
  globals s !! "x_train" = Some (VArr a) -> globals s !! "x_test" = Some (VArr b) ->
  wf a -> shape a = da :: ra -> da <> 0%nat -> shape b = d0 :: rb ->
  d0 = 0%nat \/ (size_of (shape a) mod d0 <> 0)%nat ->
  snd (run_cell (cell_rnn w) s) = Raise ValueError
  /\ out (fst (run_cell (cell_rnn w) s)) = []
  /\ globals (fst (run_cell (cell_rnn w) s)) !! "x_train_rnn" = Some (VArr (reshaped a da))
  /\ wf (reshaped a da) /\ data (reshaped a da) = data a
  /\ globals (fst (run_cell (cell_rnn w) s)) !! "x_test_rnn" = globals s !! "x_test_rnn".
Proof.
  intros Himp Hxtr Hxte Wa Sa Hda Sb Hbad.
  assert (Hma : (size_of (shape a) mod da = 0)%nat)
    by (rewrite Sa; apply size_of_cons_mod, Hda).
  pose proof (reshape_like_ok a a da ra Sa Hda Hma) as R1.
  pose proof (reshape_like_refused a b d0 rb Sb Hbad) as R2.
  assert (E : raises_to (cell_rnn w)
                (mk_state (globals s) (default_graph s) (open_sessions s) [] []) ValueError
                (fun s' => out s' = []
                           /\ globals s' !! "x_train_rnn" = Some (VArr (reshaped a da))
                           /\ globals s' !! "x_test_rnn" = globals s !! "x_test_rnn")).
  { unfold cell_rnn.
    run_on ltac:(idtac; rewrite ?Himp, ?R1).
    eapply raises_here; [apply exec_call_raise; exact R2|].
    cbn [out globals]. split; [reflexivity|]. split; [find_binding|].
    rewrite !lookup_insert_ne by discriminate. reflexivity. }
  destruct E as (s' & E & Ho & Hr & Ht).
  unfold run_cell. rewrite E. cbn [fst snd].
  split; [reflexivity|]. split; [exact Ho|]. split; [exact Hr|].
  split; [apply wf_reshaped; assumption|]. split; [reflexivity | exact Ht].
Qed.

Lemma size_of_cons (d : nat) (rest : list nat) :
  size_of (d :: rest) = (d * size_of rest)%nat.
Proof. reflexivity. Qed.

(** X11: When the recurrent cell runs to its end, [x_train_rnn] holds one
    sequence for each training image, as long as the image has pixels, while
    [x_test_rnn] cuts the same training pixels into as many sequences as
    there are test images: the sequences scored by [model.evaluate] have the
    length of those the model was fitted on only if there are as many test
    images as training images. *)
Theorem rnn_test_sequences_have_another_length (w : world) (s : state)
    (a b c d : ndarray) (da d0 : nat) (ra rb : list nat) (scores : list Q) :
  globals s !! "x_train" = Some (VArr a) -> globals s !! "x_test" = Some (VArr b) ->
  globals s !! "y_train" = Some (VArr c) -> globals s !! "y_test" = Some (VArr d) ->
  globals s !! "keras" = Some (VModule "keras") ->
  (forall name, importable w name = true) -> (forall name, opaque w name = Ok tt) ->
  shape a = da :: ra -> da <> 0%nat -> size_of ra <> 0%nat ->
  shape b = d0 :: rb -> d0 <> 0%nat -> (size_of (shape a) mod d0 = 0)%nat ->
  rnn_fit w (reshaped a da) c = Ok tt ->
  rnn_evaluate w (reshaped a da) c (reshaped a d0) d = Ok scores ->
  exists train_rnn test_rnn : ndarray,
    globals (fst (run_cell (cell_rnn w) s)) !! "x_train_rnn" = Some (VArr train_rnn)
    /\ globals (fst (run_cell (cell_rnn w) s)) !! "x_test_rnn" = Some (VArr test_rnn)
    /\ shape train_rnn = [da; size_of ra; 1%nat]
    /\ shape test_rnn = [d0; (da * size_of ra / d0)%nat; 1%nat]
    /\ ((da * size_of ra / d0)%nat = size_of ra <-> d0 = da).
Proof.
  intros Hxtr Hxte Hytr Hyte Hk Himp Hopq Sa Hda Hra Sb Hd0 Hmod Hfit Hev.
  destruct (cell_rnn_runs w (globals s) (default_graph s) (open_sessions s) [] []
              a b c d da d0 ra rb scores) as (G' & t' & E & Htrain & Htest & _);
    try assumption.
  exists (reshaped a da), (reshaped a d0).
  unfold run_cell. rewrite E. cbn [fst globals].
  split; [exact Htrain|]. split; [exact Htest|].
  unfold reshaped. cbn [shape]. rewrite Sa, size_of_cons.
  rewrite Sa, size_of_cons in Hmod.
  split; [|split; [reflexivity|]].
  - rewrite (Nat.mul_comm da), Nat.div_mul by exact Hda. reflexivity.
  - apply Nat.Div0.div_exact in Hmod. split.
    + intros Heq. rewrite Heq in Hmod. nia.
    + intros ->. rewrite (Nat.mul_comm da), Nat.div_mul by exact Hda. reflexivity.
Qed.

(** ** The placeholder of the TensorFlow cells takes batch_size inputs *)

Lemma feed_fits_matrix_iff (a : ndarray) (m n : nat) :
  feed_fits [Some m; Some n] a = true <-> shape a = [m; n].
Proof.
  split; [|apply feed_fits_matrix].
  unfold feed_fits. destruct (shape a) as [|d [|e [|f rest]]]; simpl; try discriminate.
  rewrite !andb_true_r. intros H. apply andb_prop in H as [H1 H2].
  apply Nat.eqb_eq in H1, H2. congruence.
Qed.

Lemma eval_mlp_graph_unfit (θ : gmap string ndarray) (x : ndarray) (b n_x n_h n_y : nat) :
  shape x <> [b; n_x] ->
  eval θ {[ 0%nat := x ]} (mlp_graph 0 b n_x n_h n_y) = Raise ValueError.
Proof.
  intros H. unfold mlp_graph. cbn [eval]. rewrite lookup_singleton_eq.
  destruct (feed_fits [Some b; Some n_x] x) eqn:E; [|reflexivity].
  apply feed_fits_matrix_iff in E. contradiction.
Qed.

Section OtherBatch.
Variables (G : gmap string value) (b n_x n_h n_y : nat) (x W_h W_y : ndarray).
Hypothesis G_tf : G !! "tf" = Some (VModule "tensorflow").
Hypothesis G_b : G !! "batch_size" = Some (VInt (Z.of_nat b)).
Hypothesis G_nx : G !! "n_x" = Some (VInt (Z.of_nat n_x)).
Hypothesis G_nh : G !! "n_h" = Some (VInt (Z.of_nat n_h)).
Hypothesis G_ny : G !! "n_y" = Some (VInt (Z.of_nat n_y)).
Hypothesis G_Wh : G !! "W_h_np" = Some (VArr W_h).
Hypothesis G_Wy : G !! "W_y_np" = Some (VArr W_y).
Hypothesis G_x : G !! "x_np" = Some (VArr x).
Hypothesis shape_h : shape W_h = [n_x; n_h].
Hypothesis shape_y : shape W_y = [n_h; n_y].
Hypothesis wf_h : wf W_h.
Hypothesis wf_y : wf W_y.
Hypothesis other_shape : shape x <> [b; n_x].

Ltac graph_facts :=
  unfold placeholder_v, get_variable_v, tf_matmul_v, tf_nn_relu_v,
    run_init, feed_entry, run_fetch_v, run_fetch,
    global_variables_initializer, empty_graph, as_tensor, as_session, as_array;
  rewrite ?as_dim_nat; cbn [mbind result_bind rbind g_vars g_next closed vals tf_placeholder];
  try (rewrite tf_get_variable_fresh
         by first [ apply lookup_empty
                  | apply lookup_insert_None; split; [apply lookup_empty | discriminate]
                  | assumption ]);
  try (erewrite tf_matmul_ok by reflexivity);
  cbn [mbind result_bind rbind g_vars g_next closed vals data].

Lemma tensorflow_forward_raises n o t :
  raises_to tensorflow_forward (mk_state G empty_graph n o t) ValueError
    (fun s' =>
       out s' = o ++ [Printed [VTensor (mlp_graph 0 b n_x n_h n_y)]]
       /\ open_sessions s' = S n
       /\ globals s' !! "sess"
          = Some (VSession (mk_session false (initial_parameters W_h W_y)))
       /\ globals s' !! "y_val" = G !! "y_val").
Proof.
  unfold tensorflow_forward.
  run_on ltac:(idtac; graph_facts).
  eapply raises_after.
  eapply runs_initialize_variables; [find_binding | reflexivity | find_binding | intros ti].
  run_on ltac:(idtac; graph_facts).
  eapply raises_here.
  - apply exec_call_raise. graph_facts.
    fold (mlp_graph 0 b n_x n_h n_y).
    rewrite (eval_mlp_graph_unfit _ _ _ _ _ _ other_shape). reflexivity.
  - cbn [out open_sessions globals g_vars].
    split; [reflexivity|]. split; [reflexivity|]. split; [find_binding|].
    rewrite !lookup_insert_ne by discriminate. reflexivity.
Qed.
End OtherBatch.

(** X12: The placeholder [x] has the static shape (batch_size, n_x): when [x_np]
    is an array of any other shape, for instance ten inputs instead of five,
    [sess.run(y, feed_dict={x: x_np})] raises ValueError in the cell
    "Tensorflow way".  The node [y] has been printed, [y_val] is not bound
    anew, and the session stays open with its variables initialised, because
    [sess.close()] is not reached. *)
Theorem tensorflow_cell_rejects_other_batches (s : state) (b n_x n_h n_y : nat)
    (x W_h W_y : ndarray) :
  globals s !! "tf" = Some (VModule "tensorflow") ->
  globals s !! "batch_size" = Some (VInt (Z.of_nat b)) ->
  globals s !! "n_x" = Some (VInt (Z.of_nat n_x)) ->
  globals s !! "n_h" = Some (VInt (Z.of_nat n_h)) ->
  globals s !! "n_y" = Some (VInt (Z.of_nat n_y)) ->
  globals s !! "W_h_np" = Some (VArr W_h) ->
  globals s !! "W_y_np" = Some (VArr W_y) ->
  globals s !! "x_np" = Some (VArr x) ->
  shape W_h = [n_x; n_h] -> shape W_y = [n_h; n_y] -> wf W_h -> wf W_y ->
  shape x <> [b; n_x] ->
  snd (run_cell cell_tensorflow s) = Raise ValueError
  /\ out (fst (run_cell cell_tensorflow s)) = [Printed [VTensor (mlp_graph 0 b n_x n_h n_y)]]
  /\ open_sessions (fst (run_cell cell_tensorflow s)) = S (open_sessions s)
  /\ globals (fst (run_cell cell_tensorflow s)) !! "sess"
     = Some (VSession (mk_session false (initial_parameters W_h W_y)))
  /\ globals (fst (run_cell cell_tensorflow s)) !! "y_val" = globals s !! "y_val".
Proof.
  intros G_tf G_b G_nx G_nh G_ny G_Wh G_Wy G_x Sh Sy Wh Wy Hx.
  unfold run_cell, cell_tensorflow.
  erewrite pbind_ok by (apply exec_from_module; exact G_tf).
  erewrite pbind_ok by (apply exec_call_graph; reflexivity).
  match goal with
  | |- context [tensorflow_forward (mk_state _ _ ?n ?o ?t)] =>
      destruct (tensorflow_forward_raises (globals s) b n_x n_h n_y x W_h W_y
                  G_tf G_b G_nx G_nh G_ny G_Wh G_Wy G_x Sh Sy Wh Wy Hx n o t)
        as (s' & E & Ho & Hn & Hs & Hy)
  end.
  rewrite E. cbn [fst snd]. auto.
Qed.

(** ** Running a TensorFlow cell again *)

Lemma rerun_same {A} (R W : list string) (cell : prog A) (g' : bool) (s : state) :
  two_runs (exact R) false cell (exact R) g' -> preserves W cell ->
  (forall name, In name R -> ~ In name W) ->
  snd (run_cell cell (fst (run_cell cell s))) = snd (run_cell cell s)
  /\ out (fst (run_cell cell (fst (run_cell cell s)))) = out (fst (run_cell cell s))
  /\ trace (fst (run_cell cell (fst (run_cell cell s)))) = trace (fst (run_cell cell s)).
Proof.
  intros Htwo Hpres Hdisj. unfold run_cell at 1 3 5.
  set (s1 := mk_state (globals s) (default_graph s) (open_sessions s) [] []).
  set (s' := fst (run_cell cell s)).
  set (s2 := mk_state (globals s') (default_graph s') (open_sessions s') [] []).
  assert (Ha : alike (exact R) false s1 s2).
  { split; [|split; [discriminate | split; reflexivity]].
    apply agree_exact. intros name Hin. unfold s2, s', run_cell. cbn [globals].
    fold s1. rewrite (Hpres s1 name (Hdisj name Hin)). reflexivity. }
  specialize (Htwo s1 s2 Ha). unfold run_cell. fold s1.
  destruct (snd (cell s1)) as [a1|e1], (snd (cell s2)) as [a2|e2]; try contradiction.
  - destruct Htwo as (-> & _ & _ & Ho & Ht). auto.
  - destruct Htwo as (-> & _ & _ & Ho & Ht). auto.
Qed.

(** X13: Both cells "Tensorflow way" start with [tf.reset_default_graph()] and
    rebind none of the names they read.  So either of them can be run again
    right after itself, however the first run ended: the second run ends the
    same way (normally, or with the same exception), shows the same outputs
    and makes the same calls and assignments; [tf.get_variable] never finds
    the variables of the first run. *)
Theorem tensorflow_cells_can_be_rerun (cell : prog unit) (s : state) :
  cell = cell_tensorflow \/ cell = cell_training ->
  snd (run_cell cell (fst (run_cell cell s))) = snd (run_cell cell s)
  /\ out (fst (run_cell cell (fst (run_cell cell s)))) = out (fst (run_cell cell s))
  /\ trace (fst (run_cell cell (fst (run_cell cell s)))) = trace (fst (run_cell cell s)).
Proof.
  intros [->| ->].
  - destruct (two_cell_tensorflow
                (exact ["tf"; "plt"; "batch_size"; "n_x"; "n_h"; "n_y"; "W_h_np"; "W_y_np";
                        "x_np"; "y_np"]) false) as (g' & Htwo);
      try (unfold exact; simpl; tauto).
    apply (rerun_same _ _ _ _ _ Htwo pres_cell_tensorflow).
    intros name Hin. simpl in Hin. simpl. intuition (subst; discriminate).
  - destruct (two_cell_training
                (exact ["tf"; "plt"; "keras"; "batch_size"; "n_x"; "n_h"; "n_y"; "W_h_np";
                        "W_y_np"; "x_np"; "y_np"; "y_target_np"; "loss_np"]) false)
      as (g' & Htwo); try (unfold exact; simpl; tauto).
    apply (rerun_same _ _ _ _ _ Htwo pres_cell_training).
    intros name Hin. simpl in Hin. simpl. intuition (subst; discriminate).
Qed.

(** ** The gradient of the mean squared error *)

Lemma nth_zero (l : list Q) (i : nat) : all_zero l -> nth i l 0 == 0.
Proof.
  intros H. revert i. induction H as [|v l Hv _ IH]; intros [|i]; simpl;
    try reflexivity; auto.
Qed.

Lemma Qsum_zero (l : list Q) : all_zero l -> Qsum l == 0.
Proof. induction 1 as [|v l Hv _ IH]; simpl; [reflexivity|]. rewrite Hv, IH. ring. Qed.

Lemma matmul_zero_r (da db : list Q) (m n p : nat) :
  all_zero db -> all_zero (matmul_data da db m n p).
Proof.
  intros H. unfold matmul_data, all_zero. apply Forall_flat_map, Forall_forall.
  intros i _. apply Forall_map, Forall_forall. intros j _.
  unfold dot_entry. apply Qsum_zero, Forall_map, Forall_forall. intros k _.
  rewrite (nth_zero db _ H). ring.
Qed.

Lemma matmul_zero_l (da db : list Q) (m n p : nat) :
  all_zero da -> all_zero (matmul_data da db m n p).
Proof.
  intros H. unfold matmul_data, all_zero. apply Forall_flat_map, Forall_forall.
  intros i _. apply Forall_map, Forall_forall. intros j _.
  unfold dot_entry. apply Qsum_zero, Forall_map, Forall_forall. intros k _.
  rewrite (nth_zero da _ H). ring.
Qed.

Lemma masked_zero (back z : list Q) :
  all_zero back -> all_zero (zip_with (fun u v => u * bool_to_Q (gt0 v)) back z).
Proof.
  intros H. revert z. induction H as [|u back Hu _ IH]; intros [|v z]; simpl;
    try constructor; [|apply IH].
  rewrite Hu. ring.
Qed.

Lemma step_without_gradient (v g : ndarray) (lr : Q) :
  all_zero (data g) -> length (data g) = length (data v) ->
  array_eq (add_arrays v (scale (- lr) g)) v.
Proof.
  intros Hz Hlen. split; [reflexivity|]. unfold add_arrays, scale. cbn [data].
  revert Hz Hlen. generalize (data g) as dg, (data v) as dv.
  intros dg dv Hz. revert dv.
  induction Hz as [|u dg Hu _ IH]; intros [|x dv] Hlen; simpl in *; try discriminate;
    constructor.
  - rewrite Hu. ring.
  - apply IH. lia.
Qed.

Lemma all_zero_Qeq (l l' : list Q) : Forall2 Qeq l l' -> all_zero l' -> all_zero l.
Proof.
  induction 1 as [|v v' l l' Hv _ IH]; intros Hz; [constructor|].
  inversion Hz as [|? ? Hv' Hl']; subst.
  constructor; [rewrite Hv; exact Hv' | apply IH; exact Hl'].
Qed.

Lemma derivative_zero (outputs targets : list Q) (n : Q) :
  Forall2 Qeq outputs targets ->
  all_zero (zip_with (fun t v => 2 * (v - t) / n) targets outputs).
Proof.
  induction 1 as [|v t l l' Hv _ IH]; simpl; constructor; [|exact IH].
  rewrite Hv. unfold Qdiv. ring.
Qed.

Lemma output_gradient_zero (y_target y : ndarray) :
  Forall2 Qeq (data y) (data y_target) -> all_zero (data (output_gradient y_target y)).
Proof.
  intros H.
  destruct (output_gradient_is_derivative_data y_target y (eq_sym (Forall2_length _ _ _ H)))
    as [_ Hd].
  apply (all_zero_Qeq _ _ Hd), derivative_zero, H.
Qed.

(** X14: A perfect fit is a fixed point of training: when the output of the
    network equals the target entry by entry, [sess.run([train_op, loss])]
    fetches the loss 0, every gradient is zero, and the step leaves [W_h] and
    [W_y] as they were, entry by entry, whatever the learning rate. *)
Theorem perfect_fit_is_stationary (b n_x n_h n_y : nat) (x y_target W_h W_y : ndarray)
    (θ : gmap string ndarray) (lr : Q) :
  θ !! "W_h" = Some W_h -> θ !! "W_y" = Some W_y ->
  shape x = [b; n_x] -> shape y_target = [b; n_y] ->
  shape W_h = [n_x; n_h] -> shape W_y = [n_h; n_y] ->
  wf W_h -> wf W_y -> wf y_target -> (0 < b * n_y)%nat ->
  array_eq (mlp_value tf_nn_relu b n_x n_h n_y x W_h W_y) y_target ->
  exists (l : Q) (θ' : gmap string ndarray) (A B : ndarray),
    run_train (mk_session false θ) lr (loss_graph b n_x n_h n_y) (loss_graph b n_x n_h n_y)
      (training_feed x y_target) = Ok (mk_session false θ', mk_array [] [l])
    /\ l == 0
    /\ θ' !! "W_h" = Some A /\ array_eq A W_h
    /\ θ' !! "W_y" = Some B /\ array_eq B W_y.
Proof.
  intros HA HB Sx St Sh Sy Wh Wy Wt Hpos [_ Hfit].
  pose proof (eval_loss_graph b n_x n_h n_y x y_target θ (training_feed x y_target) W_h W_y
                eq_refl eq_refl HA HB Sx St Sh Sy Wt Hpos) as Ev.
  pose proof (backprop_loss_graph b n_x n_h n_y x y_target θ (training_feed x y_target)
                W_h W_y eq_refl eq_refl HA HB Sx St Sh Sy) as Eb.
  pose proof (output_gradient_zero y_target _ Hfit) as Hz.
  do 4 eexists. split; [|split; [|split; [|split; [|split]]]].
  - unfold run_train. cbn [closed vals]. rewrite Ev, Eb. reflexivity.
  - assert (Hlen : length (data y_target)
                   = length (data (mlp_value tf_nn_relu b n_x n_h n_y x W_h W_y)))
      by (symmetry; apply (Forall2_length _ _ _ Hfit)).
    assert (Hsq : Qsum (squared_errors y_target
                          (mlp_value tf_nn_relu b n_x n_h n_y x W_h W_y)) == 0).
    { unfold squared_errors. apply Qsum_squares_zero. apply zip_minus_zero; [exact Hlen|].
      apply Forall2_flip. eapply Forall2_impl; [exact Hfit|]. intros; symmetry; assumption. }
    rewrite Hsq. unfold Qdiv. ring.
  - rewrite (apply_gradients_lookup _ _ _ _ _ HA), merged_gradient_W_h. reflexivity.
  - apply step_without_gradient.
    + unfold gradient_W_h. cbn [data shape]. apply matmul_zero_r, masked_zero, matmul_zero_l.
      exact Hz.
    + unfold gradient_W_h. cbn [data]. rewrite length_matmul_data.
      unfold wf in Wh. rewrite Wh, Sh, size_of_matrix. reflexivity.
  - rewrite (apply_gradients_lookup _ _ _ _ _ HB), merged_gradient_W_y. reflexivity.
  - apply step_without_gradient.
    + unfold gradient_W_y. cbn [data]. apply matmul_zero_r. exact Hz.
    + unfold gradient_W_y. cbn [data]. rewrite length_matmul_data.
      unfold wf in Wy. rewrite Wy, Sy, size_of_matrix. reflexivity.
Qed.

(** X15: Differentiating the loss [tf.reduce_mean((y_target - y)**2)] hands the
    network's output node the gradient 2 (y - y_target) / N, entry by entry,
    with N = batch_size * n_y the number of outputs: [tf.gradients] of the
    loss is [tf.gradients] of the network seeded with this array. *)
Theorem loss_gradient_at_the_output (b n_x n_h n_y : nat) (x y_target W_h W_y : ndarray)
    (θ : gmap string ndarray) :
  θ !! "W_h" = Some W_h -> θ !! "W_y" = Some W_y ->
  shape x = [b; n_x] -> shape y_target = [b; n_y] ->
  shape W_h = [n_x; n_h] -> shape W_y = [n_h; n_y] -> wf y_target ->
  exists (δ : ndarray) (grads : gmap string ndarray),
    shape δ = [b; n_y]
    /\ Forall2 Qeq (data δ)
         (zip_with (fun t v => 2 * (v - t) / inject_Z (Z.of_nat (b * n_y)))
            (data y_target) (data (mlp_value tf_nn_relu b n_x n_h n_y x W_h W_y)))
    /\ backprop θ (training_feed x y_target) (loss_graph b n_x n_h n_y) (mk_array [] [1])
       = Ok grads
    /\ backprop θ (training_feed x y_target) (mlp_graph 0 b n_x n_h n_y) δ = Ok grads.
Proof.
  intros HA HB Sx St Sh Sy Wt.
  pose proof (backprop_loss_graph b n_x n_h n_y x y_target θ (training_feed x y_target)
                W_h W_y eq_refl eq_refl HA HB Sx St Sh Sy) as Eb.
  assert (Hlen : length (data y_target)
                 = length (data (mlp_value tf_nn_relu b n_x n_h n_y x W_h W_y))).
  { rewrite length_mlp_value. unfold wf in Wt. rewrite Wt, St. apply size_of_matrix. }
  destruct (output_gradient_is_derivative_data y_target _ Hlen) as [Hs Hd].
  rewrite length_mlp_value in Hd.
  exists (output_gradient y_target (mlp_value tf_nn_relu b n_x n_h n_y x W_h W_y)).
  eexists. split; [rewrite Hs; exact St|]. split; [exact Hd|]. split; [exact Eb|].
  rewrite (backprop_mlp_graph b n_x n_h n_y x θ (training_feed x y_target) W_h W_y
             eq_refl HA HB Sx Sh Sy _ (eq_trans Hs St)).
  reflexivity.
Qed.

(** ** Training for any number of steps *)

(** X16: Gradient descent on this network cannot fail and keeps the shapes: from
    variables [W_h] and [W_y] of the shapes the hyperparameters dictate, any
    number of steps with any learning rate runs without error, records one
    loss per step, each an array of shape () with a single entry, and leaves
    variables of the same shapes.  Nothing is said of the values, which can
    overflow in the float32 arithmetic of the library. *)
Theorem training_never_fails (b n_x n_h n_y : nat) (x y_target : ndarray) (lr : Q)
    (steps : nat) (θ : gmap string ndarray) :
  shape x = [b; n_x] -> shape y_target = [b; n_y] -> wf y_target ->
  (0 < b * n_y)%nat ->
  network_parameters n_x n_h n_y θ ->
  exists ls θ',
    training_run lr (loss_graph b n_x n_h n_y) (training_feed x y_target) steps θ
    = Ok (ls, θ')
    /\ length ls = steps
    /\ Forall (fun l => shape l = [] /\ length (data l) = 1%nat) ls
    /\ network_parameters n_x n_h n_y θ'.
Proof.
  intros Sx St Wt Hpos. revert θ.
  induction steps as [|k IH]; intros θ Hθ; cbn [training_run].
  - exists [], θ. repeat split; auto.
  - destruct (gradient_descent_step b n_x n_h n_y x y_target θ (training_feed x y_target) lr
                eq_refl eq_refl Sx St Wt Hpos Hθ) as (l & grads & El & Eg & Hθ').
    destruct Hθ as (A & B & HA & HB & SA & WA & SB & WB).
    pose proof (eval_loss_graph b n_x n_h n_y x y_target θ (training_feed x y_target) A B
                  eq_refl eq_refl HA HB Sx St SA SB Wt Hpos) as Ev.
    rewrite Ev in El. injection El as El.
    rewrite Ev, Eg. cbn [mbind result_bind rbind].
    destruct (IH _ Hθ') as (ls & θ' & E & Hlen & Hls & Hp).
    rewrite E. cbn [mbind result_bind rbind].
    eexists. exists θ'. split; [reflexivity|].
    split; [simpl; congruence|]. split; [|exact Hp].
    constructor; [|exact Hls]. split; reflexivity.
Qed.

(** ** A cell run before the cells it relies on *)










(** ** The scatter plots by digit *)

Lemma picked_length (mask : list bool) (n c start : nat) (d : list Q) :
  length (flat_map (fun p => if fst p : bool then [nth (snd p * n + c) d 0] else [])
            (combine mask (seq start (length mask))))
  = length (filter (fun b => b = true) mask).
Proof.
  revert start. induction mask as [|b mask IH]; intros start; [reflexivity|].
  rewrite filter_cons. cbn [length seq combine flat_map fst snd].
  rewrite length_app, IH.
  destruct b; [rewrite decide_True by reflexivity | rewrite decide_False by discriminate];
    reflexivity.
Qed.

Lemma np_select_length (U : ndarray) (mask : list bool) (m n c : nat) :
  shape U = [m; n] -> length mask = m -> (c < n)%nat ->
  exists r, np_select U mask c = Ok r
            /\ length (data r) = length (filter (fun b => b = true) mask).
Proof.
  intros HU Hm Hc. unfold np_select. rewrite HU.
  apply Nat.eqb_eq in Hm as Hm'. rewrite Hm'. apply Nat.ltb_lt in Hc. rewrite Hc.
  cbn [negb]. rewrite andb_false_r.
  pose proof (picked_length mask n c 0 (data U)) as Hp. rewrite Hm in Hp.
  match goal with
  | |- context [(length ?p =? 0)%nat] => destruct (Nat.eqb_spec (length p) 0) as [E|E]
  end.
  - eexists. split; [reflexivity|]. cbn [data length]. rewrite <- Hp, E. reflexivity.
  - eexists. split; [reflexivity|]. cbn [data]. exact Hp.
Qed.

Lemma count_mask (labels : list Q) (i : nat) :
  length (filter (fun b => b = true)
            (map (fun v => Qeq_bool v (inject_Z (Z.of_nat i))) labels))
  = count_label labels i.
Proof.
  unfold count_label. induction labels as [|v labels IH]; [reflexivity|].
  cbn [map]. rewrite !filter_cons.
  destruct (Qeq_bool v (inject_Z (Z.of_nat i))) eqn:E.
  - rewrite !decide_True by reflexivity. cbn [length]. rewrite IH. reflexivity.
  - rewrite !decide_False by discriminate. exact IH.
Qed.

Section Scatter.
Variables (U y_test : ndarray) (n k : nat).
Hypothesis shape_U : shape U = [600%nat; n].
Hypothesis two_columns : (2 <= n)%nat.
Hypothesis shape_y : shape y_test = [k].
Hypothesis wf_y : wf y_test.

Lemma length_head : length (take 600 (data y_test)) = Nat.min 600 k.
Proof.
  rewrite length_take. unfold wf in wf_y. rewrite wf_y, shape_y.
  unfold size_of. cbn [foldr]. rewrite Nat.mul_1_r. reflexivity.
Qed.

Lemma class_points_ok (i : nat) :
  (600 <= k)%nat ->
  exists xs ys,
    class_points U y_test i = Ok (xs, ys)
    /\ length (data xs) = count_label (take 600 (data y_test)) i
    /\ length (data ys) = count_label (take 600 (data y_test)) i.
Proof.
  intros Hk. unfold class_points, np_head. rewrite shape_y.
  cbn [mbind result_bind rbind]. unfold np_equals. cbn [data].
  assert (Hlen : length (map (fun v => Qeq_bool v (inject_Z (Z.of_nat i)))
                           (take 600 (data y_test))) = 600%nat)
    by (rewrite length_map, length_head; lia).
  destruct (np_select_length U _ 600 n 0 shape_U Hlen ltac:(lia)) as (xs & Ex & Lx).
  destruct (np_select_length U _ 600 n 1 shape_U Hlen ltac:(lia)) as (ys & Ey & Ly).
  rewrite Ex, Ey. cbn [mbind result_bind rbind].
  rewrite count_mask in Lx, Ly. rewrite Lx, Ly, Nat.eqb_refl.
  exists xs, ys. auto.
Qed.

Lemma plot_classes_ok (classes : list nat) :
  (600 <= k)%nat ->
  exists plots,
    plot_classes U y_test classes = Ok plots
    /\ Forall2 (fun i p => length (data (fst p)) = count_label (take 600 (data y_test)) i
                           /\ length (data (snd p)) = length (data (fst p)))
         classes plots.
Proof.
  intros Hk. induction classes as [|i rest IH]; cbn [plot_classes].
  - exists []. split; [reflexivity | constructor].
  - destruct (class_points_ok i Hk) as (xs & ys & E & Lx & Ly).
    destruct IH as (plots & Ep & Hp).
    rewrite E, Ep. cbn [mbind result_bind rbind].
    exists ((xs, ys) :: plots). split; [reflexivity|].
    constructor; [|exact Hp]. cbn [fst snd]. split; congruence.
Qed.



End Scatter.

Lemma Qeq_bool_Qeq (v v' x : Q) : v == v' -> Qeq_bool v x = Qeq_bool v' x.
Proof.
  intros H. destruct (Qeq_bool v' x) eqn:E.
  - apply Qeq_bool_iff in E. apply Qeq_bool_iff. rewrite H. exact E.
  - destruct (Qeq_bool v x) eqn:E'; [|reflexivity].
    apply Qeq_bool_iff in E'. rewrite H in E'. apply Qeq_bool_iff in E'. congruence.
Qed.

Lemma digit_in_one_class (v : Q) :
  is_digit v -> sum_list_with (fun i => count_label [v] i) (seq 0 10) = 1%nat.
Proof.
  intros (d & Hd & Hv). unfold count_label.
  assert (E : forall i, Qeq_bool v (inject_Z (Z.of_nat i))
                        = Qeq_bool (inject_Z (Z.of_nat d)) (inject_Z (Z.of_nat i)))
    by (intros i; apply Qeq_bool_Qeq, Hv).
  cbn [seq sum_list_with]. rewrite !filter_cons, !filter_nil, !E.
  do 10 (destruct d as [|d]; [vm_compute; reflexivity|]). lia.
Qed.

Lemma count_label_cons (v : Q) (labels : list Q) (i : nat) :
  count_label (v :: labels) i = (count_label [v] i + count_label labels i)%nat.
Proof.
  unfold count_label. rewrite !filter_cons, filter_nil.
  destruct (decide (Qeq_bool v (inject_Z (Z.of_nat i)) = true)); reflexivity.
Qed.

Lemma sum_counts_cons (v : Q) (labels : list Q) (classes : list nat) :
  sum_list_with (fun i => count_label (v :: labels) i) classes
  = (sum_list_with (fun i => count_label [v] i) classes
     + sum_list_with (fun i => count_label labels i) classes)%nat.
Proof.
  induction classes as [|i classes IH]; cbn [sum_list_with]; [reflexivity|].
  rewrite IH, count_label_cons. lia.
Qed.

Lemma digits_counted_once (labels : list Q) :
  Forall is_digit labels ->
  sum_list_with (fun i => count_label labels i) (seq 0 10) = length labels.
Proof.
  induction 1 as [|v labels Hv _ IH]; [reflexivity|].
  rewrite sum_counts_cons, IH, (digit_in_one_class v Hv). reflexivity.
Qed.

Lemma sum_of_plots (labels : list Q) (classes : list nat) (plots : list (ndarray * ndarray)) :
  Forall2 (fun i p => length (data (fst p)) = count_label labels i
                      /\ length (data (snd p)) = length (data (fst p))) classes plots ->
  sum_list_with (fun p => length (data (fst p))) plots
  = sum_list_with (fun i => count_label labels i) classes.
Proof.
  induction 1 as [|i p classes plots [Hp _] _ IH]; cbn [sum_list_with]; [reflexivity|].
  rewrite Hp, IH. reflexivity.
Qed.

(** X18: The loop [for i in range(10)] colours the 600 rows of [U] (or [R]) by
    the first 600 test labels.  With at least 600 labels it never fails: for
    every digit the two coordinate vectors handed to [plt.plot] have the same
    length, the number of the first 600 labels equal to that digit.  When
    all these labels are digits, the ten plots together draw exactly 600
    points, each row once. *)
Theorem digits_partition_the_points (U y_test : ndarray) (n k : nat) :
  shape U = [600%nat; n] -> (2 <= n)%nat -> shape y_test = [k] -> wf y_test ->
  (600 <= k)%nat ->
  exists plots : list (ndarray * ndarray),
    scatter_by_digit U y_test = Ok plots
    /\ Forall2 (fun i p =>
                  length (data (fst p)) = count_label (take 600 (data y_test)) i
                  /\ length (data (snd p)) = length (data (fst p)))
         (seq 0 10) plots
    /\ (Forall is_digit (take 600 (data y_test)) ->
        sum_list_with (fun p => length (data (fst p))) plots = 600%nat).
Proof.
  intros HU Hn Hy Wy Hk.
  destruct (plot_classes_ok U y_test n k HU Hn Hy Wy (seq 0 10) Hk) as (plots & E & Hp).
  exists plots. split; [exact E|]. split; [exact Hp|].
  intros Hd. rewrite (sum_of_plots _ _ _ Hp), (digits_counted_once _ Hd).
  rewrite (length_head y_test k Hy Wy). lia.
Qed.


(** ** What the training cell shows *)

Section TrainingShown.
Variables (b n_x n_h n_y : nat) (x y_target : ndarray).
Hypothesis shape_x : shape x = [b; n_x].
Hypothesis shape_t : shape y_target = [b; n_y].
Hypothesis wf_t : wf y_target.
Hypothesis nonempty : (0 < b * n_y)%nat.

Let loss : tensor := loss_graph b n_x n_h n_y.
Let feed : gmap nat ndarray := training_feed x y_target.
Let lr : Q := 1 # 100.

Lemma training_loop_shown (k : nat) :
  forall (i : nat) G g n o t θ sl ll,
    loop_bindings b n_x n_h n_y x y_target G θ sl ll -> network_parameters n_x n_h n_y θ ->
    exists G' t' ls θ',
      for_range_from "step" i k training_step (mk_state G g n o t)
      = (mk_state G' g n (o ++ step_lines i ls) t', Ok tt)
      /\ training_run lr loss feed k θ = Ok (ls, θ')
      /\ length ls = k
      /\ loop_bindings b n_x n_h n_y x y_target G' θ'
           (sl ++ map (fun j => IInt (Z.of_nat j)) (seq i k)) (ll ++ map IArr ls)
      /\ (forall name, ~ In name ["step"; "sess"; "_"; "loss_val"; "steps"; "losses"] ->
          G' !! name = G !! name).
Proof.
  induction k as [|k IH]; intros i G g n o t θ sl ll HG Hθ.
  - exists G, t, [], θ. simpl. rewrite !app_nil_r. auto.
  - cbn [for_range_from].
    erewrite pbind_ok by apply exec_assign.
    pose proof (loop_bindings_step b n_x n_h n_y x y_target G θ sl ll
                  (VInt (Z.of_nat i)) HG) as HG1.
    destruct (training_step_runs b n_x n_h n_y x y_target shape_x shape_t wf_t nonempty
                (<["step" := VInt (Z.of_nat i)]> G) g n o
                (t ++ [Assign "step" (VInt (Z.of_nat i))]) θ sl ll (Z.of_nat i)
                HG1 Hθ (lookup_insert_eq _ _ _))
      as (l & grads & t1 & El & Eg & Estep).
    erewrite pbind_ok by exact Estep.
    assert (Hθ' : network_parameters n_x n_h n_y (apply_gradients lr grads θ)).
    { destruct (gradient_descent_step b n_x n_h n_y x y_target θ feed lr
                  eq_refl eq_refl shape_x shape_t wf_t nonempty Hθ)
        as (l' & grads' & El' & Eg' & H).
      pose proof (eq_trans (eq_sym Eg) Eg') as E. injection E as <-. exact H. }
    match goal with
    | |- context [for_range_from _ _ _ _ (mk_state ?G2 _ _ ?o2 ?t2)] =>
        destruct (IH (S i) G2 g n o2 t2 (apply_gradients lr grads θ)
                    (sl ++ [IInt (Z.of_nat i)]) (ll ++ [IArr l]))
          as (G' & t' & ls & θ' & Eloop & Erun & Hlen & HG' & Hframe);
        [ | exact Hθ' | ]
    end.
    { destruct HG as (? & ? & ? & ? & ? & ? & ? & ? & ?).
      repeat split; find_binding. }
    exists G', t', (l :: ls), θ'.
    split.
    { rewrite Eloop. unfold step_lines. cbn [length seq zip_with].
      rewrite <- app_assoc. reflexivity. }
    split.
    { cbn [training_run]. unfold loss, feed in *. rewrite El.
      cbn [mbind result_bind rbind]. rewrite Eg. cbn [mbind result_bind rbind].
      unfold lr in *. rewrite Erun. reflexivity. }
    split; [simpl; congruence|]. split.
    { cbn [seq map]. rewrite <- !app_assoc in HG'. exact HG'. }
    intros name Hn. rewrite (Hframe name Hn).
    simpl in Hn.
    repeat (rewrite lookup_insert_ne by (intros E; apply Hn; subst; tauto)).
    reflexivity.
Qed.
End TrainingShown.

Section TrainingCellShown.
Variables (G : gmap string value) (b n_x n_h n_y : nat).
Variables (x W_h W_y y_np y_target : ndarray) (loss_np : value).
Hypothesis G_tf : G !! "tf" = Some (VModule "tensorflow").
Hypothesis G_plt : G !! "plt" = Some (VModule "matplotlib.pyplot").
Hypothesis G_keras : G !! "keras" = Some (VModule "keras").
Hypothesis G_b : G !! "batch_size" = Some (VInt (Z.of_nat b)).
Hypothesis G_nx : G !! "n_x" = Some (VInt (Z.of_nat n_x)).
Hypothesis G_nh : G !! "n_h" = Some (VInt (Z.of_nat n_h)).
Hypothesis G_ny : G !! "n_y" = Some (VInt (Z.of_nat n_y)).
Hypothesis G_Wh : G !! "W_h_np" = Some (VArr W_h).
Hypothesis G_Wy : G !! "W_y_np" = Some (VArr W_y).
Hypothesis G_x : G !! "x_np" = Some (VArr x).
Hypothesis G_y : G !! "y_np" = Some (VArr y_np).
Hypothesis G_t : G !! "y_target_np" = Some (VArr y_target).
Hypothesis G_loss : G !! "loss_np" = Some loss_np.
Hypothesis shape_x : shape x = [b; n_x].
Hypothesis shape_h : shape W_h = [n_x; n_h].
Hypothesis shape_y : shape W_y = [n_h; n_y].
Hypothesis shape_t : shape y_target = [b; n_y].
Hypothesis wf_h : wf W_h.
Hypothesis wf_y : wf W_y.
Hypothesis wf_t : wf y_target.
Hypothesis length_y_np : length (data y_np) = (b * n_y)%nat.
Hypothesis nonempty : (0 < b * n_y)%nat.

Let θ0 : gmap string ndarray := initial_parameters W_h W_y.
Let loss : tensor := loss_graph b n_x n_h n_y.
Let feed : gmap nat ndarray := training_feed x y_target.
Let y_val : ndarray := mlp_value tf_nn_relu b n_x n_h n_y x W_h W_y.

Lemma cell_training_shown g n t :
  runs_to cell_training (mk_state G g n [] t)
    (fun _ s' =>
       exists (l0 : Q) ls θ',
         eval θ0 feed loss = Ok (mk_array [] [l0])
         /\ training_run (1 # 100) loss feed 10 θ0 = Ok (ls, θ')
         /\ length ls = 10%nat
         /\ out s'
            = [Printed [VTensor (mlp_graph 0 b n_x n_h n_y)]; Printed [VArr y_val];
               Scatter y_val y_np; Printed [loss_np]; Printed [VArr (mk_array [] [l0])]]
              ++ step_lines 0 ls
              ++ [Figure;
                  Plotted (map (fun j => IInt (Z.of_nat j)) (seq 0 10)) (map IArr ls)]
         /\ globals s' !! "y" = Some (VTensor (mlp_graph 0 b n_x n_h n_y))
         /\ globals s' !! "y_val" = Some (VArr y_val)
         /\ globals s' !! "steps"
            = Some (VList (map (fun j => IInt (Z.of_nat j)) (seq 0 10)))
         /\ globals s' !! "losses" = Some (VList (map IArr ls))).
Proof.
  pose proof (initial_parameters_network n_x n_h n_y W_h W_y
                shape_h wf_h shape_y wf_y) as Hθ0.
  destruct (gradient_descent_step b n_x n_h n_y x y_target θ0 feed (1 # 100)
              eq_refl eq_refl shape_x shape_t wf_t nonempty Hθ0)
    as (l0 & grads0 & El0 & _ & _).
  unfold cell_training.
  do 4 run_step idtac.
  match goal with
  | |- runs_to (tensorflow_forward ≫= _) (mk_state _ _ ?n1 ?o1 ?t1) _ =>
      destruct (tensorflow_forward_runs G b n_x n_h n_y x W_h W_y y_np
                  G_tf G_plt G_b G_nx G_nh G_ny G_Wh G_Wy G_x G_y
                  shape_x shape_h shape_y wf_h wf_y length_y_np n1 o1 t1) as (tf1 & Ef)
  end.
  eapply runs_step; [exact Ef | cbv beta]. unfold after_forward.
  fold θ0. fold y_val.
  repeat run_step
    ltac:(idtac; unfold placeholder_none_v, tf_sub_v, tf_square_v, tf_reduce_mean_v,
                   as_tensor;
          rewrite ?as_dim_nat; cbn [mbind result_bind rbind tf_placeholder g_next g_vars];
          try (erewrite tf_sub_ok by reflexivity);
          cbn [mbind result_bind rbind]).
  fold (loss_graph b n_x n_h n_y). fold loss.
  (* the first with block *)
  eapply runs_bind. apply runs_with_session.
  eapply runs_bind.
  eapply runs_initialize_variables; [find_binding | reflexivity | find_binding | intros ti].
  cbn [g_vars]. fold θ0.
  repeat run_step
    ltac:(idtac; unfold feed_two, feed_entry, run_fetch_v, run_fetch, as_tensor, as_array,
                   as_session;
          cbn [mbind result_bind rbind closed vals];
          try change ({[1%nat := y_target]} ∪ {[0%nat := x]}) with feed;
          unfold loss; rewrite ?El0; cbn [mbind result_bind rbind]).
  eapply runs_last; [apply exec_assign|].
  cbn [globals default_graph open_sessions out trace].
  eexists. split; [find_binding|]. cbn [closed vals Nat.pred].
  (* the optimizer *)
  repeat run_step ltac:(idtac; unfold minimize_v, as_tensor; cbn [mbind result_bind rbind]).
  (* the second with block *)
  eapply runs_bind. apply runs_with_session.
  eapply runs_bind.
  eapply runs_initialize_variables; [find_binding | reflexivity | find_binding | intros ti'].
  cbn [g_vars]. fold θ0.
  match goal with
  | |- runs_to (for_range _ _ _) (mk_state ?Gk ?gk ?nk ?ok ?tk) _ =>
      destruct (training_loop_shown b n_x n_h n_y x y_target shape_x shape_t wf_t nonempty
                  10 0 Gk gk nk ok tk θ0 [] [])
        as (G' & t' & ls & θ' & Eloop & Erun & Hlen & HG' & Hframe);
        [ repeat split; find_binding | exact Hθ0 | ]
  end.
  eapply runs_last; [exact Eloop|].
  cbn [globals default_graph open_sessions out trace].
  destruct HG' as (Hs' & Hop' & _ & _ & _ & _ & _ & Hst' & Hls').
  eexists. split; [exact Hs'|]. cbn [closed vals Nat.pred].
  assert (Hplt : G' !! "plt" = Some (VModule "matplotlib.pyplot")).
  { rewrite Hframe; [find_binding|]. simpl. intuition discriminate. }
  repeat run_step
    ltac:(idtac; unfold plot_v; cbn [app];
          rewrite !length_map, length_seq, Hlen; cbn [Nat.eqb]).
  assert (Hy : G' !! "y" = Some (VTensor (mlp_graph 0 b n_x n_h n_y))).
  { rewrite Hframe; [find_binding|]. simpl. intuition discriminate. }
  assert (Hyv : G' !! "y_val" = Some (VArr y_val)).
  { rewrite Hframe; [find_binding|]. simpl. intuition discriminate. }
  eapply runs_last; [apply exec_emit|].
  exists l0, ls, θ'. cbn [out globals].
  split; [exact El0|]. split; [exact Erun|]. split; [exact Hlen|].
  split; [rewrite <- ?app_assoc; reflexivity|].
  split; [find_binding|]. split; [find_binding|]. split; find_binding.
Qed.
End TrainingCellShown.

Lemma step_lines_printed (i : nat) (ls : list ndarray) :
  printed (step_lines i ls) = step_lines i ls /\ figures (step_lines i ls) = [].
Proof.
  unfold step_lines, printed, figures. revert i.
  induction ls as [|l ls IH]; intros i; [split; reflexivity|].
  cbn [length seq zip_with List.filter shows_text negb].
  destruct (IH (S i)) as [-> ->]. split; reflexivity.
Qed.

Lemma step_lines_zip (ls : list ndarray) (n : nat) :
  length ls = n ->
  step_lines 0 ls
  = zip_with (fun a b => Printed [item_value a; item_value b])
      (map (fun j => IInt (Z.of_nat j)) (seq 0 n)) (map IArr ls).
Proof.
  intros <-. unfold step_lines. generalize 0%nat as i.
  induction ls as [|l ls IH]; intros i; [reflexivity|].
  cbn [length seq map zip_with item_value]. rewrite IH. reflexivity.
Qed.

(** X20: What the training cell leaves in its output area, told by the
    values it leaves bound.  It prints, in this order, the node [y], the
    fetched [y_val], [loss_np], the loss fetched before training, which is
    the first of the ten losses recorded, and one line (step, loss) for each
    of the steps 0 to 9, pairing [steps] and [losses] entry by entry.  It
    draws, in this order, the scatter plot of [y_val] against [y_np] and a
    new figure with [losses] plotted against [steps]. *)
Theorem training_cell_shows (s : state) (b n_x n_h n_y : nat)
    (x W_h W_y y_np y_target : ndarray) (loss_np : value) :
  globals s !! "tf" = Some (VModule "tensorflow") ->
  globals s !! "plt" = Some (VModule "matplotlib.pyplot") ->
  globals s !! "keras" = Some (VModule "keras") ->
  globals s !! "batch_size" = Some (VInt (Z.of_nat b)) ->
  globals s !! "n_x" = Some (VInt (Z.of_nat n_x)) ->
  globals s !! "n_h" = Some (VInt (Z.of_nat n_h)) ->
  globals s !! "n_y" = Some (VInt (Z.of_nat n_y)) ->
  globals s !! "W_h_np" = Some (VArr W_h) ->
  globals s !! "W_y_np" = Some (VArr W_y) ->
  globals s !! "x_np" = Some (VArr x) ->
  globals s !! "y_np" = Some (VArr y_np) ->
  globals s !! "y_target_np" = Some (VArr y_target) ->
  globals s !! "loss_np" = Some loss_np ->
  shape x = [b; n_x] -> shape W_h = [n_x; n_h] -> shape W_y = [n_h; n_y] ->
  shape y_target = [b; n_y] -> wf W_h -> wf W_y -> wf y_target ->
  length (data y_np) = (b * n_y)%nat -> (0 < b * n_y)%nat ->
  exists (y : value) (y_val : ndarray) (steps losses : list item) (first : item),
    globals (fst (run_cell cell_training s)) !! "y" = Some y
    /\ globals (fst (run_cell cell_training s)) !! "y_val" = Some (VArr y_val)
    /\ globals (fst (run_cell cell_training s)) !! "steps" = Some (VList steps)
    /\ globals (fst (run_cell cell_training s)) !! "losses" = Some (VList losses)
    /\ steps = [IInt 0; IInt 1; IInt 2; IInt 3; IInt 4; IInt 5; IInt 6; IInt 7; IInt 8;
                IInt 9]
    /\ length losses = 10%nat
    /\ head losses = Some first
    /\ printed (out (fst (run_cell cell_training s)))
       = [Printed [y]; Printed [VArr y_val]; Printed [loss_np];
          Printed [item_value first]]
         ++ zip_with (fun a l => Printed [item_value a; item_value l]) steps losses
    /\ figures (out (fst (run_cell cell_training s)))
       = [Scatter y_val y_np; Figure; Plotted steps losses].
Proof.
  intros G_tf G_plt G_keras G_b G_nx G_nh G_ny G_Wh G_Wy G_x G_y G_t G_loss
         Sx Sh Sy St Wh Wy Wt Hlen Hpos.
  destruct (cell_training_shown (globals s) b n_x n_h n_y x W_h W_y y_np y_target loss_np
              G_tf G_plt G_keras G_b G_nx G_nh G_ny G_Wh G_Wy G_x G_y G_t G_loss
              Sx Sh Sy St Wh Wy Wt Hlen Hpos (default_graph s) (open_sessions s) [])
    as (s' & [] & E & l0 & ls & θ' & Ev & Erun & Hl & Ho & Hy & Hyv & Hsteps & Hlosses).
  pose proof (first_loss_recorded _ _ _ 9 _ _ _ _ Ev Erun) as Hfirst.
  exists (VTensor (mlp_graph 0 b n_x n_h n_y)),
         (mlp_value tf_nn_relu b n_x n_h n_y x W_h W_y),
         (map (fun j => IInt (Z.of_nat j)) (seq 0 10)), (map IArr ls),
         (IArr (mk_array [] [l0])).
  unfold run_cell. rewrite E. cbn [fst].
  split; [exact Hy|]. split; [exact Hyv|]. split; [exact Hsteps|].
  split; [exact Hlosses|]. split; [reflexivity|].
  split; [rewrite length_map; exact Hl|].
  split; [destruct ls; [discriminate Hfirst | injection Hfirst as ->; reflexivity]|].
  rewrite Ho. unfold printed, figures. rewrite !List.filter_app.
  fold (printed (step_lines 0 ls)). fold (figures (step_lines 0 ls)).
  destruct (step_lines_printed 0 ls) as [-> ->].
  rewrite (step_lines_zip ls 10 Hl).
  cbn [List.filter shows_text negb app item_value]. rewrite app_nil_r.
  split; reflexivity.
Qed.

(** ** The statements above at concrete sessions *)


Lemma numpy_cell_succeeds_witness :
  globals after_imports !! "np" = Some (VModule "numpy")
  /\ snd (run_cell (cell_numpy example_world) after_imports) = Ok tt.
Proof.
  assert (H : globals after_imports !! "np" = Some (VModule "numpy"))
    by (vm_compute; reflexivity).
  split; [exact H|].
  destruct (numpy_cell_succeeds example_world after_imports H) as (h & y & l & E & _).
  exact E.
Defined.

Lemma tensorflow_cell_reproduces_numpy_witness :
  numpy_forward (numpy_x example_world) (numpy_W_h example_world) (numpy_W_y example_world)
  = Ok (bound_array "y_np" after_numpy)
  /\ exists y_val,
       snd (run_cell cell_tensorflow after_numpy) = Ok tt
       /\ array_eq y_val (bound_array "y_np" after_numpy)
       /\ globals (fst (run_cell cell_tensorflow after_numpy)) !! "y_val" = Some (VArr y_val).
Proof.
  assert (H : numpy_forward (numpy_x example_world) (numpy_W_h example_world)
                (numpy_W_y example_world) = Ok (bound_array "y_np" after_numpy))
    by (vm_compute; reflexivity).
  split; [exact H|].
  destruct (tensorflow_cell_reproduces_numpy after_numpy 5 10 100 3
              (numpy_x example_world) (numpy_W_h example_world) (numpy_W_y example_world)
              (bound_array "y_np" after_numpy))
    as (y_val & σ & E & _ & Heq & _ & Hy & _);
    [ vm_compute; reflexivity | vm_compute; reflexivity | vm_compute; reflexivity
    | vm_compute; reflexivity | vm_compute; reflexivity | vm_compute; reflexivity
    | vm_compute; reflexivity | vm_compute; reflexivity | vm_compute; reflexivity
    | vm_compute; reflexivity | reflexivity | reflexivity | reflexivity
    | vm_compute; reflexivity | vm_compute; reflexivity | exact H | ].
  exists y_val. auto.
Defined.

Lemma keras_cell_builds_the_network_witness :
  exists m : sequential,
    snd (run_cell (cell_keras example_world) after_numpy) = Ok tt
    /\ map kernel (layers m) = [numpy_W_h example_world; numpy_W_y example_world]
    /\ globals (fst (run_cell (cell_keras example_world) after_numpy)) !! "model"
       = Some (VModel m).
Proof.
  destruct (keras_cell_builds_the_network example_world after_numpy 10 100 3
              (numpy_W_h example_world) (numpy_W_y example_world))
    as (m & E & _ & Hk & Hm & _);
    [ reflexivity | reflexivity | reflexivity
    | vm_compute; reflexivity | vm_compute; reflexivity | vm_compute; reflexivity
    | vm_compute; reflexivity | vm_compute; reflexivity | reflexivity | reflexivity | ].
  exists m. auto.
Defined.

Lemma keras_cell_rejects_other_shapes_witness :
  shape (constant_array 100 10 1) <> [10; 100]%nat
  /\ snd (run_cell (cell_keras example_world) transposed_weights) = Raise ValueError.
Proof.
  assert (H : shape (constant_array 100 10 1) <> [10; 100]%nat) by discriminate.
  split; [exact H|].
  apply (keras_cell_rejects_other_shapes example_world transposed_weights 10 100 3
           (constant_array 100 10 1));
    [ reflexivity | reflexivity | reflexivity
    | vm_compute; reflexivity | vm_compute; reflexivity | vm_compute; reflexivity
    | vm_compute; reflexivity | exact H ].
Defined.

Lemma mnist_cell_shows_three_images_witness :
  snd (run_cell (cell_mnist three_images) after_numpy) = Ok tt
  /\ length (out (fst (run_cell (cell_mnist three_images) after_numpy))) = 10%nat.
Proof.
  destruct (mnist_cell_shows_three_images three_images after_numpy
              (mk_array [3; 2; 2]%nat [0; 51; 102; 153; 204; 255; 0; 255; 255; 0; 0; 255])
              (mk_array [3%nat] [3; 7; 1])
              (mk_array [1; 2; 2]%nat [255; 0; 0; 255]) (mk_array [1%nat] [1]) 3 2 2)
    as (a & b & i0 & i1 & i2 & _ & _ & _ & _ & E & _ & Ho);
    [ reflexivity | reflexivity | reflexivity | lia | vm_compute; reflexivity
    | reflexivity | reflexivity | ].
  split; [exact E|]. rewrite Ho. reflexivity.
Defined.

Lemma mnist_cell_needs_three_images_witness :
  snd (run_cell (cell_mnist example_world) after_numpy) = Raise IndexError
  /\ globals (fst (run_cell (cell_mnist example_world) after_numpy)) !! "i"
     = Some (VInt 2).
Proof.
  destruct (mnist_cell_needs_three_images example_world after_numpy
              (mk_array [2; 2; 2]%nat [0; 51; 102; 153; 204; 255; 0; 255])
              (mk_array [2%nat] [3; 7])
              (mk_array [1; 2; 2]%nat [255; 0; 0; 255]) (mk_array [1%nat] [1]) 2 2 2)
    as (a & b & _ & _ & E & _ & _ & Hi & _);
    [ reflexivity | reflexivity | reflexivity | lia | vm_compute; reflexivity
    | reflexivity | reflexivity | ].
  split; [exact E | exact Hi].
Defined.

Lemma notebook_runs_top_to_bottom_witness :
  snd (run_cells (notebook three_images) fresh_kernel) = Ok tt
  /\ open_sessions (fst (run_cells (notebook three_images) fresh_kernel)) = 0%nat.
Proof.
  destruct (notebook_runs_top_to_bottom three_images
              (mk_array [3; 2; 2]%nat [0; 51; 102; 153; 204; 255; 0; 255; 255; 0; 0; 255])
              (mk_array [3%nat] [3; 7; 1])
              (mk_array [1; 2; 2]%nat [255; 0; 0; 255]) (mk_array [1%nat] [1]) 3 2 2 1
              [2; 2]%nat
              [Qsum (data (scaled_pixels
                             (mk_array [3; 2; 2]%nat
                                [0; 51; 102; 153; 204; 255; 0; 255; 255; 0; 0; 255]))); 0])
    as (y & E & Hn & _);
    [ intros; reflexivity | intros; reflexivity | reflexivity | reflexivity | lia
    | reflexivity | discriminate | reflexivity | reflexivity | reflexivity | ].
  split; [exact E | exact Hn].
Defined.

Lemma tensorflow_loss_matches_numpy_witness :
  numpy_forward unit_matrix unit_matrix unit_matrix = Ok unit_matrix
  /\ numpy_loss (constant_array 1 1 0) unit_matrix = Ok (Num (1 / 1))
  /\ exists loss_val : Q,
       run_fetch (mk_session false (initial_parameters unit_matrix unit_matrix))
         (loss_graph 1 1 1 1) (training_feed unit_matrix (constant_array 1 1 0))
       = Ok (mk_array [] [loss_val])
       /\ loss_val == 1 / 1.
Proof.
  assert (H1 : numpy_forward unit_matrix unit_matrix unit_matrix = Ok unit_matrix)
    by (vm_compute; reflexivity).
  assert (H2 : numpy_loss (constant_array 1 1 0) unit_matrix = Ok (Num (1 / 1)))
    by (vm_compute; reflexivity).
  split; [exact H1|]. split; [exact H2|].
  destruct (tensorflow_loss_matches_numpy 1 1 1 1 unit_matrix unit_matrix unit_matrix
              (constant_array 1 1 0) unit_matrix (1 / 1)
              eq_refl eq_refl eq_refl eq_refl eq_refl ltac:(lia) H1 H2)
    as (l & E & Hl & _).
  exists l. auto.
Defined.

Lemma rnn_cell_rejects_indivisible_test_count_witness :
  (size_of [2; 2; 2] mod 3 <> 0)%nat
  /\ snd (run_cell (cell_rnn example_world) (small_dataset (mk_array [3; 1; 1]%nat [1; 2; 3])))
     = Raise ValueError.
Proof.
  assert (H : (size_of [2; 2; 2] mod 3 <> 0)%nat) by (vm_compute; discriminate).
  split; [exact H|].
  apply (rnn_cell_rejects_indivisible_test_count example_world
           (small_dataset (mk_array [3; 1; 1]%nat [1; 2; 3]))
           (mk_array [2; 2; 2]%nat [0; 1; 0; 1; 1; 0; 1; 0]) (mk_array [3; 1; 1]%nat [1; 2; 3])
           2 3 [2; 2]%nat [1; 1]%nat);
    [ intros; reflexivity | vm_compute; reflexivity | vm_compute; reflexivity
    | reflexivity | reflexivity | discriminate | reflexivity | right; exact H ].
Defined.

Lemma tensorflow_cell_rejects_other_batches_witness :
  shape (constant_array 10 10 1) <> [5; 10]%nat
  /\ snd (run_cell cell_tensorflow ten_inputs) = Raise ValueError
  /\ open_sessions (fst (run_cell cell_tensorflow ten_inputs)) = S (open_sessions ten_inputs).
Proof.
  assert (H : shape (constant_array 10 10 1) <> [5; 10]%nat) by discriminate.
  split; [exact H|].
  destruct (tensorflow_cell_rejects_other_batches ten_inputs 5 10 100 3
              (constant_array 10 10 1) (numpy_W_h example_world) (numpy_W_y example_world))
    as (E & _ & Hn & _);
    [ vm_compute; reflexivity | vm_compute; reflexivity | vm_compute; reflexivity
    | vm_compute; reflexivity | vm_compute; reflexivity | vm_compute; reflexivity
    | vm_compute; reflexivity | vm_compute; reflexivity | reflexivity | reflexivity
    | vm_compute; reflexivity | vm_compute; reflexivity | exact H | ].
  split; [exact E | exact Hn].
Defined.

Lemma tensorflow_cells_can_be_rerun_witness :
  snd (run_cell cell_tensorflow (fst (run_cell cell_tensorflow after_numpy)))
  = snd (run_cell cell_tensorflow after_numpy).
Proof.
  exact (proj1 (tensorflow_cells_can_be_rerun cell_tensorflow after_numpy
                  (or_introl eq_refl))).
Defined.

Lemma perfect_fit_is_stationary_witness :
  array_eq (mlp_value tf_nn_relu 1 1 1 1 unit_matrix unit_matrix unit_matrix) unit_matrix
  /\ exists (l : Q) (θ' : gmap string ndarray) (A : ndarray),
       run_train (mk_session false (initial_parameters unit_matrix unit_matrix)) (1 # 100)
         (loss_graph 1 1 1 1) (loss_graph 1 1 1 1) (training_feed unit_matrix unit_matrix)
       = Ok (mk_session false θ', mk_array [] [l])
       /\ l == 0 /\ θ' !! "W_h" = Some A /\ array_eq A unit_matrix.
Proof.
  assert (H : array_eq (mlp_value tf_nn_relu 1 1 1 1 unit_matrix unit_matrix unit_matrix)
                unit_matrix).
  { split; [reflexivity|]. vm_compute. constructor; [reflexivity | constructor]. }
  split; [exact H|].
  destruct (perfect_fit_is_stationary 1 1 1 1 unit_matrix unit_matrix unit_matrix unit_matrix
              (initial_parameters unit_matrix unit_matrix) (1 # 100)
              eq_refl eq_refl eq_refl eq_refl eq_refl eq_refl eq_refl eq_refl eq_refl
              ltac:(lia) H)
    as (l & θ' & A & B & E & Hl & HA & HAeq & _).
  exists l, θ', A. auto.
Defined.

Lemma loss_gradient_at_the_output_witness :
  exists (δ : ndarray) (grads : gmap string ndarray),
    shape δ = [1; 1]%nat
    /\ backprop (initial_parameters unit_matrix unit_matrix)
         (training_feed unit_matrix (constant_array 1 1 0)) (loss_graph 1 1 1 1)
         (mk_array [] [1]) = Ok grads
    /\ backprop (initial_parameters unit_matrix unit_matrix)
         (training_feed unit_matrix (constant_array 1 1 0)) (mlp_graph 0 1 1 1 1) δ
       = Ok grads.
Proof.
  destruct (loss_gradient_at_the_output 1 1 1 1 unit_matrix (constant_array 1 1 0)
              unit_matrix unit_matrix (initial_parameters unit_matrix unit_matrix)
              eq_refl eq_refl eq_refl eq_refl eq_refl eq_refl eq_refl)
    as (δ & grads & Hs & _ & E1 & E2).
  exists δ, grads. auto.
Defined.

Lemma training_never_fails_witness :
  network_parameters 1 1 1 (initial_parameters unit_matrix unit_matrix)
  /\ exists ls θ',
       training_run (1 # 100) (loss_graph 1 1 1 1)
         (training_feed unit_matrix (constant_array 1 1 0)) 3
         (initial_parameters unit_matrix unit_matrix) = Ok (ls, θ')
       /\ length ls = 3%nat
       /\ Forall (fun l => shape l = [] /\ length (data l) = 1%nat) ls.
Proof.
  assert (H : network_parameters 1 1 1 (initial_parameters unit_matrix unit_matrix)).
  { exists unit_matrix, unit_matrix. repeat split; reflexivity. }
  split; [exact H|].
  destruct (training_never_fails 1 1 1 1 unit_matrix (constant_array 1 1 0) (1 # 100) 3
              (initial_parameters unit_matrix unit_matrix)
              eq_refl eq_refl eq_refl ltac:(lia) H)
    as (ls & θ' & E & Hlen & Hls & _).
  exists ls, θ'. auto.
Defined.


Lemma digits_partition_the_points_witness :
  wf six_hundred_threes
  /\ exists plots : list (ndarray * ndarray),
       scatter_by_digit six_hundred_rows six_hundred_threes = Ok plots
       /\ Forall2 (fun i p =>
                     length (data (fst p))
                     = count_label (take 600 (data six_hundred_threes)) i
                     /\ length (data (snd p)) = length (data (fst p)))
            (seq 0 10) plots.
Proof.
  assert (H : wf six_hundred_threes) by (vm_compute; reflexivity).
  split; [exact H|].
  destruct (digits_partition_the_points six_hundred_rows six_hundred_threes 2 600
              eq_refl ltac:(lia) eq_refl H ltac:(lia)) as (plots & E & Hp & _).
  exists plots. auto.
Defined.


Lemma training_cell_shows_witness :
  exists (losses : list item),
    globals (fst (run_cell cell_training before_training)) !! "losses"
    = Some (VList losses)
    /\ length (printed (out (fst (run_cell cell_training before_training)))) = 14%nat
    /\ length (figures (out (fst (run_cell cell_training before_training)))) = 3%nat.
Proof.
  destruct (training_cell_shows before_training 5 10 100 3
              (bound_array "x_np" before_training)
              (bound_array "W_h_np" before_training)
              (bound_array "W_y_np" before_training)
              (bound_array "y_np" before_training)
              (bound_array "y_target_np" before_training)
              (VScalar (Num (488842 # 15))))
    as (y & y_val & steps & losses & first & _ & _ & _ & Hlosses & Hsteps & Hlen & _
        & Hp & Hf);
    [ vm_compute; reflexivity | vm_compute; reflexivity | vm_compute; reflexivity
    | vm_compute; reflexivity | vm_compute; reflexivity | vm_compute; reflexivity
    | vm_compute; reflexivity | vm_compute; reflexivity | vm_compute; reflexivity
    | vm_compute; reflexivity | vm_compute; reflexivity | vm_compute; reflexivity
    | vm_compute; reflexivity | vm_compute; reflexivity | vm_compute; reflexivity
    | vm_compute; reflexivity | vm_compute; reflexivity | vm_compute; reflexivity
    | vm_compute; reflexivity | vm_compute; reflexivity | vm_compute; reflexivity
    | vm_compute; lia | ].
  exists losses. split; [exact Hlosses|]. rewrite Hp, Hf.
  rewrite length_app, length_zip_with, Hlen, Hsteps. split; reflexivity.
Defined.

Lemma rnn_test_sequences_have_another_length_witness :
  exists train_rnn test_rnn : ndarray,
    globals (fst (run_cell (cell_rnn example_world)
                    (small_dataset (mk_array [1; 2; 2]%nat [1; 0; 0; 1])))) !! "x_test_rnn"
    = Some (VArr test_rnn)
    /\ shape train_rnn = [2; 4; 1]%nat
    /\ shape test_rnn = [1; (2 * 4 / 1); 1]%nat.
Proof.
  destruct (rnn_test_sequences_have_another_length example_world
              (small_dataset (mk_array [1; 2; 2]%nat [1; 0; 0; 1]))
              (mk_array [2; 2; 2]%nat [0; 1; 0; 1; 1; 0; 1; 0])
              (mk_array [1; 2; 2]%nat [1; 0; 0; 1])
              (mk_array [2%nat] [3; 7]) (mk_array [1%nat] [1])
              2%nat 1%nat [2; 2]%nat [2; 2]%nat
              [Qsum [0; 1; 0; 1; 1; 0; 1; 0]; 0])
    as (tr & te & _ & Hte & Str & Ste & _);
    [ vm_compute; reflexivity | vm_compute; reflexivity | vm_compute; reflexivity
    | vm_compute; reflexivity | vm_compute; reflexivity
    | reflexivity | reflexivity | reflexivity | discriminate | discriminate
    | reflexivity | discriminate
    | vm_compute; reflexivity | vm_compute; reflexivity | vm_compute; reflexivity | ].
  exists tr, te. auto.
Defined.
